(** * Hyperliquid copy trader: executor, websocket dispatch and Telegram
      command authorisation, embedded from the Python sources.

    The Python modules are embedded shallowly.  Every [async def] is a
    computation in a small state-and-exception monad over an explicit
    world (clock, network, log); dictionaries whose iteration order matters
    are association lists; values that come back from [json.loads] are a
    tree of Python values. *)

From Stdlib Require Import String Ascii List ZArith QArith Qabs Lia Bool.
From Stdlib Require Import DecimalString DecimalZ Decimal Floats.
Set Warnings "-register-all".
Import ListNotations.
Local Open Scope string_scope.
Local Open Scope Z_scope.

(* ===================================================================== *)
(** * Python built-ins used by the sources                                *)
(* ===================================================================== *)
Module Py.

(** [str(n)] for an [int]. *)
Definition str_of_int (z : Z) : string := NilZero.string_of_int (Z.to_int z).

(** ** Python [float]: IEEE 754 binary64.  A finite float is a rational
    number, and is held as that number; an operation on floats gives the
    float nearest to the exact result, a tie going to the even significand. *)

(** [int(x)] for a float [x]: truncation towards zero. *)
Definition int_of_real (q : Q) : Z := Z.quot (Qnum q) (Zpos (Qden q)).

(** The integer nearest to [n / d], for [d > 0]; a tie goes to the even
    one. *)
Definition round_half_even (n d : Z) : Z :=
  let f := n / d in
  let r := n mod d in
  if (2 * r) <? d then f
  else if d <? (2 * r) then f + 1
  else if Z.even f then f else f + 1.

(** The float nearest to [n / d] (both positive), counted in units of
    [2^-1074], the spacing of the smallest floats.  With [L] the binary
    logarithm of the number in these units, rounded down, the floats around
    it are [2^(L - 52)] units apart (53 significant bits), or one unit
    apart below [2^53] units, where the exponent has reached its minimum. *)
Definition binary64_units (n d : Z) : Z :=
  let N := n * 2 ^ 1074 in
  let s := Z.max 0 (Z.log2 (N / d) - 52) in
  round_half_even N (d * 2 ^ s) * 2 ^ s.

(** The float nearest to a real number below the overflow threshold. *)
Definition binary64 (x : Q) : Q :=
  match Qnum x with
  | Z0 => 0%Q
  | Zpos n => Qred (binary64_units (Zpos n) (Zpos (Qden x)) # 2 ^ 1074)
  | Zneg n => Qred (- binary64_units (Zpos n) (Zpos (Qden x)) # 2 ^ 1074)
  end.

(** [a * b] for two floats whose product does not overflow. *)
Definition float_mul (a b : Q) : Q := binary64 (a * b).

(** ** Python [str]: a sequence of code points, held as its UTF-8 bytes.
    A byte [10xxxxxx] continues the code point begun before it. *)
Definition is_continuation (c : ascii) : bool :=
  let n := nat_of_ascii c in (Nat.leb 128 n && Nat.ltb n 192)%bool.

(** [s[:n]]: the first [n] code points. *)
Fixpoint take_code_points (n : nat) (s : string) : string :=
  match s with
  | EmptyString => EmptyString
  | String c s' =>
      if is_continuation c then String c (take_code_points n s')
      else match n with
           | O => EmptyString
           | S n' => String c (take_code_points n' s')
           end
  end.

Fixpoint skip_continuation (s : string) : string :=
  match s with
  | EmptyString => EmptyString
  | String c s' => if is_continuation c then skip_continuation s' else s
  end.

(** [s[n:]] *)
Fixpoint drop_code_points (n : nat) (s : string) : string :=
  match n with
  | O => s
  | S n' =>
      match s with
      | EmptyString => EmptyString
      | String _ s' => drop_code_points n' (skip_continuation s')
      end
  end.

(** [len(s)] *)
Fixpoint count_code_points (s : string) : nat :=
  match s with
  | EmptyString => O
  | String c s' =>
      if is_continuation c then count_code_points s' else S (count_code_points s')
  end.

(** [s[-n:]]: the last [n] code points, all of [s] when it has fewer. *)
Definition last_code_points (n : nat) (s : string) : string :=
  drop_code_points (count_code_points s - n) s.

(** The code points of [s], each as a text of its own; the first component
    holds the continuation bytes [s] starts with. *)
Fixpoint split_code_points (s : string) : string * list string :=
  match s with
  | EmptyString => (EmptyString, [])
  | String c s' =>
      let (pending, rest) := split_code_points s' in
      if is_continuation c then (String c pending, rest)
      else (EmptyString, String c pending :: rest)
  end.

Definition code_points (s : string) : list string :=
  let (pending, rest) := split_code_points s in
  match pending with
  | EmptyString => rest
  | _ => pending :: rest
  end.

(** [s.lower()] on ASCII text. *)
Definition lower_ascii (c : ascii) : ascii :=
  let n := nat_of_ascii c in
  if (Nat.leb 65 n && Nat.leb n 90)%bool then ascii_of_nat (n + 32) else c.

Fixpoint lower (s : string) : string :=
  match s with
  | EmptyString => EmptyString
  | String c s' => String (lower_ascii c) (lower s')
  end.

(** Truth value of an [Optional[str]]: [None] and the empty text are falsy. *)
Definition truthy_str (o : option string) : bool :=
  match o with
  | Some s => negb (s =? EmptyString)%string
  | None => false
  end.

(** [a in b] for two [str]: [a] occurs in [b] as a contiguous block. *)
Fixpoint str_in (a b : string) : bool :=
  if String.prefix a b then true
  else match b with
       | EmptyString => false
       | String _ b' => str_in a b'
       end.

(** [s.split(":")[0]]: the text before the first colon. *)
Fixpoint before_colon (s : string) : string :=
  match s with
  | EmptyString => EmptyString
  | String c s' => if Ascii.eqb c ":" then EmptyString else String c (before_colon s')
  end.

(** [n.to_bytes(32, "big").hex()]: 64 hexadecimal digits, or an
    [OverflowError] when [n] does not fit. *)
Definition hex_digit (n : Z) : ascii :=
  if n <? 10 then ascii_of_nat (48 + Z.to_nat n) else ascii_of_nat (87 + Z.to_nat n).

Fixpoint hex_fixed (digits : nat) (z : Z) : string :=
  match digits with
  | O => EmptyString
  | S d => hex_fixed d (z / 16) ++ String (hex_digit (z mod 16)) EmptyString
  end.

(** [repr(s)] for a [str]: in single quotes, or in double quotes when the
    text has a single quote and no double quote; the backslash and the
    quote in use are escaped, control characters are written [\n], [\r],
    [\t] or [\xNN]; every other byte stands for itself, as a printable
    character does. *)
Definition has_char (c : ascii) (s : string) : bool :=
  existsb (Ascii.eqb c) (list_ascii_of_string s).

Definition repr_char (quote c : ascii) : string :=
  let n := nat_of_ascii c in
  if Nat.eqb n 92 then "\\"
  else if Ascii.eqb c quote then String (ascii_of_nat 92) (String c EmptyString)
  else if Nat.eqb n 10 then "\n"
  else if Nat.eqb n 13 then "\r"
  else if Nat.eqb n 9 then "\t"
  else if (Nat.ltb n 32 || Nat.eqb n 127)%bool then
    "\x" ++ String (hex_digit (Z.of_nat (Nat.div n 16)))
               (String (hex_digit (Z.of_nat (Nat.modulo n 16))) EmptyString)
  else String c EmptyString.

Definition repr_str (s : string) : string :=
  let single_quote := ascii_of_nat 39 in
  let double_quote := ascii_of_nat 34 in
  let quote :=
    if (has_char single_quote s && negb (has_char double_quote s))%bool
    then double_quote else single_quote in
  String quote
    (String.concat EmptyString (map (repr_char quote) (list_ascii_of_string s))
     ++ String quote EmptyString).

(** Python values as [json.loads] builds them. *)
Inductive value : Type :=
| VNone
| VBool (b : bool)
| VInt (z : Z)
| VFloat (q : Q)
| VStr (s : string)
| VList (l : list value)
| VDict (d : list (string * value)).

(** [type(v).__name__], as the text of a [TypeError] or an
    [AttributeError] has it. *)
Definition type_name (v : value) : string :=
  match v with
  | VNone => "NoneType"
  | VBool _ => "bool"
  | VInt _ => "int"
  | VFloat _ => "float"
  | VStr _ => "str"
  | VList _ => "list"
  | VDict _ => "dict"
  end.

(** Exceptions, by class, each with the text [str(e)] gives; for a
    [KeyError] that is the [repr] of the key.  [LibraryError] stands for
    whatever a third party package raised ([eth_account], [aiohttp],
    [websockets], [telegram]).  Every class here is a subclass of
    [Exception], which is what the [except Exception] clauses of the
    sources catch. *)
Inductive exn : Type :=
| ValueError (msg : string)
| AttributeError (msg : string)
| TypeError (msg : string)
| IndexError (msg : string)
| KeyError (msg : string)
| OverflowError (msg : string)
| JSONDecodeError (msg : string)
| ConnectionClosed (msg : string)
| LibraryError (msg : string).

(** [str(e)]. *)
Definition str_of_exn (e : exn) : string :=
  match e with
  | ValueError m | AttributeError m | TypeError m | IndexError m
  | KeyError m | OverflowError m | JSONDecodeError m
  | ConnectionClosed m | LibraryError m => m
  end.

Definition to_bytes32_hex (z : Z) : string + exn :=
  if (0 <=? z) && (z <? 2 ^ 256) then inl (hex_fixed 64 z)
  else inr (OverflowError "int too big to convert").

(** Truth value of a Python value. *)
Definition truthy (v : value) : bool :=
  match v with
  | VNone => false
  | VBool b => b
  | VInt z => negb (z =? 0)
  | VFloat q => negb (Qnum q =? 0)
  | VStr s => negb (s =? EmptyString)%string
  | VList l => match l with [] => false | _ => true end
  | VDict d => match d with [] => false | _ => true end
  end.

Fixpoint assoc {A : Type} (k : string) (d : list (string * A)) : option A :=
  match d with
  | [] => None
  | (k', v) :: d' => if (k =? k')%string then Some v else assoc k d'
  end.

(** [d[k] = v] on an insertion-ordered [dict]: an existing key keeps its
    place, a new key goes last. *)
Fixpoint dict_set {A : Type} (k : string) (v : A) (d : list (string * A))
  : list (string * A) :=
  match d with
  | [] => [(k, v)]
  | (k', v') :: d' =>
      if (k =? k')%string then (k', v) :: d' else (k', v') :: dict_set k v d'
  end.

(** [v.get(k, default)]: only a [dict] has the method. *)
Definition get_default (v : value) (k : string) (default : value) : value + exn :=
  match v with
  | VDict d => inl (match assoc k d with Some x => x | None => default end)
  | _ => inr (AttributeError ("'" ++ type_name v ++ "' object has no attribute 'get'"))
  end.

(** [v.get(k)] is [v.get(k, None)]. *)
Definition get (v : value) (k : string) : value + exn := get_default v k VNone.

(** [v[0]]. *)
Definition item0 (v : value) : value + exn :=
  match v with
  | VList (x :: _) => inl x
  | VList [] => inr (IndexError "list index out of range")
  | VStr s => match code_points s with
              | c :: _ => inl (VStr c)
              | [] => inr (IndexError "string index out of range")
              end
  | VDict _ => inr (KeyError "0")
  | _ => inr (TypeError ("'" ++ type_name v ++ "' object is not subscriptable"))
  end.

(** [v == "literal"]. *)
Definition eq_str (v : value) (s : string) : bool :=
  match v with
  | VStr s' => (s' =? s)%string
  | _ => false
  end.

(** [k in v] for a [str] k: part of a [str], member of a [list], key of
    a [dict]; nothing else can be searched. *)
Definition str_in_value (k : string) (v : value) : bool + exn :=
  match v with
  | VDict d => inl (match assoc k d with Some _ => true | None => false end)
  | VList l => inl (existsb (fun x => eq_str x k) l)
  | VStr s => inl (str_in k s)
  | _ => inr (TypeError ("argument of type '" ++ type_name v ++ "' is not iterable"))
  end.

(** [v in s] for a [str] s: the left operand has to be a [str]. *)
Definition value_in_str (v : value) (s : string) : bool + exn :=
  match v with
  | VStr k => inl (str_in k s)
  | _ => inr (TypeError ("'in <string>' requires string as left operand, not "
                         ++ type_name v))
  end.

(** Results that may be an exception, chained. *)
Definition and_then {A B} (r : A + exn) (k : A -> B + exn) : B + exn :=
  match r with inl a => k a | inr e => inr e end.

(** [v[k]] for a [str] key. *)
Definition item (v : value) (k : string) : value + exn :=
  match v with
  | VDict d => match assoc k d with
               | Some x => inl x
               | None => inr (KeyError (repr_str k))
               end
  | VList _ => inr (TypeError "list indices must be integers or slices, not str")
  | VStr _ => inr (TypeError "string indices must be integers, not 'str'")
  | _ => inr (TypeError ("'" ++ type_name v ++ "' object is not subscriptable"))
  end.

(** The items a [for] loop over [v] visits. *)
Definition chars (s : string) : list value := map VStr (code_points s).

Definition iterate (v : value) : list value + exn :=
  match v with
  | VList l => inl l
  | VDict d => inl (map (fun kv => VStr (fst kv)) d)
  | VStr s => inl (chars s)
  | _ => inr (TypeError ("'" ++ type_name v ++ "' object is not iterable"))
  end.

(** A number, as [abs] needs it. *)
Definition number (v : value) : Q + exn :=
  match v with
  | VInt z => inl (inject_Z z)
  | VFloat q => inl q
  | VBool b => inl (inject_Z (if b then 1 else 0))
  | _ => inr (TypeError ("bad operand type for abs(): '" ++ type_name v ++ "'"))
  end.

(** A number, as the format code [f] needs it. *)
Definition number_to_format (v : value) : Q + exn :=
  match v with
  | VInt z => inl (inject_Z z)
  | VFloat q => inl q
  | VBool b => inl (inject_Z (if b then 1 else 0))
  | VStr _ => inr (ValueError "Unknown format code 'f' for object of type 'str'")
  | _ => inr (TypeError ("unsupported format string passed to " ++ type_name v
                         ++ ".__format__"))
  end.

(** Levels of the [loguru] logger. *)
Inductive level : Type := DEBUG | INFO | SUCCESS | WARNING | ERROR.

(** ** Computations: state passing with exceptions.  An [async def] over a
    state [S] returns a value or raises, and leaves a state behind. *)
Definition M (S A : Type) : Type := S -> (A + exn) * S.

Definition ret {S A} (a : A) : M S A := fun w => (inl a, w).

Definition bind {S A B} (c : M S A) (k : A -> M S B) : M S B :=
  fun w => match c w with
           | (inl a, w') => k a w'
           | (inr e, w') => (inr e, w')
           end.

Definition raise {S A} (e : exn) : M S A := fun w => (inr e, w).

(** [try: c except Exception as e: h e] *)
Definition try_except {S A} (c : M S A) (h : exn -> M S A) : M S A :=
  fun w => match c w with
           | (inl a, w') => (inl a, w')
           | (inr e, w') => h e w'
           end.

Definition lift {S A} (r : A + exn) : M S A :=
  match r with inl a => ret a | inr e => raise e end.

(** A call into a library, which gives the text of what it raises. *)
Definition lift_lib {S A} (r : A + string) : M S A :=
  match r with inl a => ret a | inr m => raise (LibraryError m) end.

Definition get_state {S} : M S S := fun w => (inl w, w).

Definition modify {S} (f : S -> S) : M S unit := fun w => (inl tt, f w).

(** Two things said of a computation: it keeps a property of the state,
    whatever it returns or raises; it returns, whatever the state. *)
Definition preserves {S A} (P : S -> Prop) (c : M S A) : Prop :=
  forall s, P s -> P (snd (c s)).

Definition never_raises {S A} (c : M S A) : Prop :=
  forall s, exists a, fst (c s) = inl a.

Declare Scope exec_scope.
Delimit Scope exec_scope with exec.
Notation "x <- c ;; k" := (bind c (fun x => k))
  (at level 61, c at next level, right associativity) : exec_scope.
Notation "c ;;; k" := (bind c (fun _ => k))
  (at level 61, right associativity) : exec_scope.

End Py.

(* ===================================================================== *)
(** * copy_engine/executor.py                                             *)
(* ===================================================================== *)
Module Executor.
Import Py.

(** ** hyperliquid/models.py: the enumerations the executor imports *)
Inductive OrderSide : Type := BUY | SELL.

Definition OrderSide_value (s : OrderSide) : string :=
  match s with BUY => "buy" | SELL => "sell" end.

Definition OrderSide_eqb (a b : OrderSide) : bool :=
  match a, b with BUY, BUY | SELL, SELL => true | _, _ => false end.

Inductive PositionSide : Type := LONG | SHORT.

Inductive OrderType : Type := MARKET | LIMIT | STOP_MARKET | STOP_LIMIT.

Definition OrderType_eqb (a b : OrderType) : bool :=
  match a, b with
  | MARKET, MARKET | LIMIT, LIMIT | STOP_MARKET, STOP_MARKET
  | STOP_LIMIT, STOP_LIMIT => true
  | _, _ => false
  end.

(** ** Wire format of the exchange endpoint *)
Inductive Tif : Type := Ioc | Gtc | Alo.

(** One entry of ["orders"]: keys a, b, p, s, r, t, c of the source. *)
Record OrderWire : Type := {
  o_a : option string;
  o_b : bool;
  o_p : string;
  o_s : string;
  o_r : bool;
  o_t : Tif;
  o_c : string
}.

Inductive Action : Type :=
| ActUpdateLeverage (asset : string) (isCross : bool) (leverage : Z)
| ActOrder (orders : list OrderWire) (grouping : string)
| ActCancel (cancels : list (option string * string))
| ActCancelByCloid (cancels : list (option string * option string)).

Record Signature : Type := { sig_r : string; sig_s : string; sig_v : Z }.

Record SignedAction : Type := {
  action : Action;
  nonce : Z;
  signature : Signature;
  vaultAddress : option string
}.

Record SignedMessage : Type := { msg_r : Z; msg_s : Z; msg_v : Z }.

(** ** What the executor takes from outside the repository:
    [eth_account.Account], number formatting and [response.json()].
    Where one of them fails it gives the text of the exception it
    raises, which reaches the executor as a [LibraryError].
    [response_json body] is what [await response.json()] makes of an
    answer with the text [body]: the value read from it, or what the call
    raises (the text is not JSON, or the answer does not have the JSON
    content type that [aiohttp] asks for). *)
Class Env : Type := {
  LocalAccount : Type;
  from_key : string -> LocalAccount + string;
  address : LocalAccount -> string;
  sign_typed_data : LocalAccount -> value -> value -> value -> SignedMessage + string;
  str_float : Q -> string;
  str_decimal : Q -> string;
  response_json : string -> value + string
}.

Inductive HttpResult : Type :=
| Response (status : Z) (text : string)
| TransportFailure (msg : string).

Record Request : Type := { req_url : string; req_json : SignedAction }.

(** The world an executor runs in: [clock] gives the successive readings
    of [time.time()], [exchange] the answer to the n-th POST.  A reading is
    a float, the seconds of a clock that counts nanoseconds in 64 bits: a
    thousand times a reading is far below the overflow threshold of the
    floats. *)
Record World : Type := {
  clock : nat -> Q;
  ticks : nat;
  exchange : nat -> Request -> HttpResult;
  posts : list Request;
  log : list (level * string)
}.

(** ** Computations over the executor's world *)
Definition M (A : Type) : Type := Py.M World A.
Local Open Scope exec_scope.

Definition time_time : M Q :=
  fun w => (inl (clock w (ticks w)),
            {| clock := clock w; ticks := S (ticks w); exchange := exchange w;
               posts := posts w; log := log w |}).

Definition logger (l : level) (msg : string) : M unit :=
  fun w => (inl tt,
            {| clock := clock w; ticks := ticks w; exchange := exchange w;
               posts := posts w; log := log w ++ [(l, msg)] |}).

(** [session.post(url, json=payload, ...)]: the request goes out, then the
    exchange answers or the transport raises. *)
Definition session_post (url : string) (payload : SignedAction) : M (Z * string) :=
  fun w =>
    let req := {| req_url := url; req_json := payload |} in
    let w' := {| clock := clock w; ticks := ticks w; exchange := exchange w;
                 posts := posts w ++ [req]; log := log w |} in
    match exchange w (length (posts w)) req with
    | Response st body => (inl (st, body), w')
    | TransportFailure m => (inr (LibraryError m), w')
    end.

Definition fmt_opt (o : option string) : string :=
  match o with Some s => s | None => "None" end.

Definition opt_str_eqb (a b : option string) : bool :=
  match a, b with
  | Some x, Some y => (x =? y)%string
  | None, None => true
  | _, _ => false
  end.

Section WithEnv.
Context {env : Env}.

Record TradeExecutor : Type := {
  wallet_address : option string;
  private_key : option string;
  info_url : string;
  exchange_url : string;
  dry_run : bool;
  account : option LocalAccount
}.

(** [TradeExecutor.__init__] *)
Definition __init__ (wallet_address0 private_key0 : option string)
           (info_url0 exchange_url0 : string) (dry_run0 : bool)
  : M TradeExecutor :=
  let wa := if truthy_str wallet_address0
            then option_map lower wallet_address0 else None in
  if (truthy_str private_key0 && negb dry_run0)%bool then
    try_except
      (acct <- lift_lib (from_key (fmt_opt private_key0)) ;;
       (if negb (opt_str_eqb (Some (lower (address acct))) wa)
        then raise (ValueError ("Private key address " ++ address acct
                                ++ " doesn't match configured address "
                                ++ fmt_opt wa))
        else ret tt) ;;;
       logger INFO ("✅ Executor initialized for wallet " ++ fmt_opt wa) ;;;
       ret {| wallet_address := wa; private_key := private_key0;
              info_url := info_url0; exchange_url := exchange_url0;
              dry_run := dry_run0; account := Some acct |})
      (fun e =>
         logger ERROR ("Failed to initialize signing account: " ++ str_of_exn e) ;;;
         raise e)
  else if negb dry_run0 then
    raise (ValueError "Cannot run in live mode without private key")
  else
    logger WARNING "⚠️ Running in DRY RUN mode - no real trades will be executed" ;;;
    ret {| wallet_address := wa; private_key := private_key0;
           info_url := info_url0; exchange_url := exchange_url0;
           dry_run := dry_run0; account := None |}.

(** The EIP-712 data handed to [sign_typed_data]. *)
Definition structured_domain : value :=
  VDict [("name", VStr "Exchange"); ("version", VStr "1");
         ("chainId", VInt 1337);
         ("verifyingContract", VStr "0x0000000000000000000000000000000000000000")].

Definition structured_types : value :=
  VDict [("Agent",
          VList [VDict [("name", VStr "source"); ("type", VStr "string")];
                 VDict [("name", VStr "connectionId"); ("type", VStr "bytes32")]])].

Definition structured_message : value :=
  VDict [("source", VStr "a");
         ("connectionId",
          VStr "0x0000000000000000000000000000000000000000000000000000000000000000")].

(** [TradeExecutor._sign_action] *)
Definition _sign_action (self : TradeExecutor) (act : Action) : M SignedAction :=
  match account self with
  | None => raise (ValueError "Cannot sign actions without account")
  | Some acct =>
      t <- time_time ;;
      let timestamp := int_of_real (float_mul t 1000) in
      signed_message <- lift_lib (sign_typed_data acct structured_domain
                                structured_types structured_message) ;;
      r <- lift (to_bytes32_hex (msg_r signed_message)) ;;
      s <- lift (to_bytes32_hex (msg_s signed_message)) ;;
      ret {| action := act;
             nonce := timestamp;
             signature := {| sig_r := "0x" ++ r; sig_s := "0x" ++ s;
                             sig_v := msg_v signed_message |};
             vaultAddress := None |}
  end.

(** [TradeExecutor._update_leverage] *)
Definition _update_leverage (self : TradeExecutor) (symbol : string)
           (leverage : Z) (is_cross : bool) : M bool :=
  try_except
    (signed_action <- _sign_action self (ActUpdateLeverage symbol is_cross leverage) ;;
     response <- session_post (exchange_url self) signed_action ;;
     if fst response =? 200 then
       _ <- lift_lib (response_json (snd response)) ;;
       logger SUCCESS ("✅ Updated leverage for " ++ symbol ++ " to "
                       ++ str_of_int leverage ++ "x") ;;;
       ret true
     else
       logger ERROR ("Failed to update leverage: " ++ snd response) ;;;
       ret false)
    (fun e => logger ERROR ("Error updating leverage: " ++ str_of_exn e) ;;; ret false).

(** [TradeExecutor._simulate_order] *)
Definition _simulate_order (self : TradeExecutor) (symbol : string)
           (side : OrderSide) (size : Q) (order_type : OrderType)
           (price : option Q) (leverage : Z) : M string :=
  t <- time_time ;;
  let order_id := "sim_" ++ symbol ++ "_" ++ str_of_int (int_of_real t) in
  (if OrderType_eqb order_type MARKET then
     logger INFO ("🔵 DRY RUN: Would execute MARKET " ++ OrderSide_value side ++ " "
                  ++ symbol ++ " size=" ++ str_decimal size ++ " leverage="
                  ++ str_of_int leverage ++ "x → Order ID: " ++ order_id)
   else
     logger INFO ("🔵 DRY RUN: Would place LIMIT " ++ OrderSide_value side ++ " "
                  ++ symbol ++ " size=" ++ str_decimal size ++ " price="
                  ++ match price with Some p => str_decimal p | None => "None" end
                  ++ " leverage=" ++ str_of_int leverage ++ "x → Order ID: "
                  ++ order_id)) ;;;
  ret order_id.

(** The expression both live placement paths use to read the order id:
    [result["response"]["data"].get("statuses", [{}])[0]
       .get("resting", {}).get("oid")]. *)
Definition resting_oid (data : value) : value + exn :=
  match get_default data "statuses" (VList [VDict []]) with
  | inr e => inr e
  | inl statuses =>
      match item0 statuses with
      | inr e => inr e
      | inl first =>
          match get_default first "resting" (VDict []) with
          | inr e => inr e
          | inl resting => get resting "oid"
          end
      end
  end.

(** [result.get("status") == "ok" and result.get("response", {}).get("data")]:
    [and] evaluates its right operand only when the left one holds, and the
    whole has the truth value tested by [if]. *)
Definition status_ok_with_data (result : value) : bool + exn :=
  match get result "status" with
  | inr e => inr e
  | inl st =>
      if eq_str st "ok" then
        match get_default result "response" (VDict []) with
        | inr e => inr e
        | inl resp =>
            match get resp "data" with
            | inr e => inr e
            | inl data => inl (truthy data)
            end
        end
      else inl false
  end.

(** [result["response"]["data"]] *)
Definition response_data (result : value) : value + exn :=
  and_then (item result "response") (fun resp => item resp "data").

(** [TradeExecutor.execute_market_order] *)
Definition execute_market_order (self : TradeExecutor) (symbol : string)
           (side : OrderSide) (size : Q) (leverage : Z) (reduce_only : bool)
  : M value :=
  if dry_run self then
    order_id <- _simulate_order self symbol side size MARKET None leverage ;;
    ret (VStr order_id)
  else
    try_except
      ((if 1 <? leverage then
          _ <- _update_leverage self symbol leverage true ;; ret tt
        else ret tt) ;;;
       let act :=
         ActOrder [ {| o_a := wallet_address self;
                       o_b := OrderSide_eqb side BUY;
                       o_p := "0";
                       o_s := str_float size;
                       o_r := reduce_only;
                       o_t := Ioc;
                       o_c := symbol |} ] "na" in
       signed_action <- _sign_action self act ;;
       response <- session_post (exchange_url self) signed_action ;;
       if fst response =? 200 then
         result <- lift_lib (response_json (snd response)) ;;
         logger SUCCESS ("✅ Market " ++ OrderSide_value side ++ " order executed: "
                         ++ symbol ++ " size=" ++ str_decimal size ++ " leverage="
                         ++ str_of_int leverage ++ "x") ;;;
         ok <- lift (status_ok_with_data result) ;;
         if (ok : bool) then
           data <- lift (response_data result) ;;
           order_id <- lift (resting_oid data) ;;
           ret order_id
         else ret (VStr "executed")
       else
         logger ERROR ("Failed to execute market order: " ++ snd response) ;;;
         ret VNone)
      (fun e => logger ERROR ("Error executing market order: " ++ str_of_exn e) ;;;
                ret VNone).

(** [TradeExecutor.execute_limit_order] *)
Definition execute_limit_order (self : TradeExecutor) (symbol : string)
           (side : OrderSide) (size price : Q) (leverage : Z)
           (reduce_only post_only : bool) : M value :=
  if dry_run self then
    order_id <- _simulate_order self symbol side size LIMIT (Some price) leverage ;;
    ret (VStr order_id)
  else
    try_except
      ((if 1 <? leverage then
          _ <- _update_leverage self symbol leverage true ;; ret tt
        else ret tt) ;;;
       let tif := if post_only then Alo else Gtc in
       let act :=
         ActOrder [ {| o_a := wallet_address self;
                       o_b := OrderSide_eqb side BUY;
                       o_p := str_float price;
                       o_s := str_float size;
                       o_r := reduce_only;
                       o_t := tif;
                       o_c := symbol |} ] "na" in
       signed_action <- _sign_action self act ;;
       response <- session_post (exchange_url self) signed_action ;;
       if fst response =? 200 then
         result <- lift_lib (response_json (snd response)) ;;
         logger SUCCESS ("✅ Limit " ++ OrderSide_value side ++ " order placed: "
                         ++ symbol ++ " size=" ++ str_decimal size ++ " price="
                         ++ str_decimal price ++ " leverage="
                         ++ str_of_int leverage ++ "x") ;;;
         ok <- lift (status_ok_with_data result) ;;
         if (ok : bool) then
           data <- lift (response_data result) ;;
           order_id <- lift (resting_oid data) ;;
           ret order_id
         else ret VNone
       else
         logger ERROR ("Failed to place limit order: " ++ snd response) ;;;
         ret VNone)
      (fun e => logger ERROR ("Error placing limit order: " ++ str_of_exn e) ;;;
                ret VNone).

(** [TradeExecutor.close_position]; the market order it delegates to runs
    with the default [leverage=1]. *)
Definition close_position (self : TradeExecutor) (symbol : string) (size : Q)
           (side : OrderSide) : M value :=
  if dry_run self then
    logger INFO ("🔵 DRY RUN: Would close " ++ OrderSide_value side ++ " "
                 ++ str_decimal size ++ " " ++ symbol) ;;;
    t <- time_time ;;
    ret (VStr ("dry_run_close_" ++ symbol ++ "_" ++ str_of_int (int_of_real t)))
  else
    execute_market_order self symbol side size 1 true.

(** [TradeExecutor.cancel_order] *)
Definition cancel_order (self : TradeExecutor) (symbol order_id : string) : M bool :=
  if dry_run self then
    logger INFO ("🔵 DRY RUN: Would cancel order " ++ order_id ++ " for " ++ symbol) ;;;
    ret true
  else
    try_except
      (signed_action <- _sign_action self (ActCancel [(wallet_address self, order_id)]) ;;
       response <- session_post (exchange_url self) signed_action ;;
       if fst response =? 200 then
         logger SUCCESS ("✅ Cancelled order " ++ order_id ++ " for " ++ symbol) ;;;
         ret true
       else
         logger ERROR ("Failed to cancel order: " ++ snd response) ;;;
         ret false)
      (fun e => logger ERROR ("Error cancelling order: " ++ str_of_exn e) ;;; ret false).

(** [len(v)] *)
Definition len (v : value) : Z + exn :=
  match v with
  | VList l => inl (Z.of_nat (List.length l))
  | VDict d => inl (Z.of_nat (List.length d))
  | VStr s => inl (Z.of_nat (String.length s))
  | _ => inr (TypeError "object has no len()")
  end.

Definition for_symbol (symbol : option string) : string :=
  if truthy_str symbol then " for " ++ fmt_opt symbol else EmptyString.

(** [TradeExecutor.cancel_all_orders] *)
Definition cancel_all_orders (self : TradeExecutor) (symbol : option string) : M Z :=
  if dry_run self then
    logger INFO ("🔵 DRY RUN: Would cancel all orders" ++ for_symbol symbol) ;;;
    ret 0
  else
    try_except
      (let act := ActCancelByCloid
                    [(if truthy_str symbol then symbol else None, None)] in
       signed_action <- _sign_action self act ;;
       response <- session_post (exchange_url self) signed_action ;;
       if fst response =? 200 then
         result <- lift_lib (response_json (snd response)) ;;
         resp <- lift (get_default result "response" (VDict [])) ;;
         data <- lift (get_default resp "data" (VDict [])) ;;
         statuses <- lift (get_default data "statuses" (VList [])) ;;
         count <- lift (len statuses) ;;
         logger SUCCESS ("✅ Cancelled " ++ str_of_int count ++ " orders"
                         ++ for_symbol symbol) ;;;
         ret count
       else
         logger ERROR ("Failed to cancel all orders: " ++ snd response) ;;;
         ret 0)
      (fun e => logger ERROR ("Error cancelling all orders: " ++ str_of_exn e) ;;; ret 0).

(** The [side] parameter of [close_position] is documented as the "side to
    close (opposite of position side)": a long position is closed by
    selling, a short one by buying. *)
Definition side_to_close (p : PositionSide) : OrderSide :=
  match p with
  | LONG => SELL
  | SHORT => BUY
  end.

(** ** Names for two pieces of the placement paths, for stating what they do *)

(** The action [execute_market_order] builds. *)
Definition market_action (self : TradeExecutor) (symbol : string)
           (side : OrderSide) (size : Q) (reduce_only : bool) : Action :=
  ActOrder [ {| o_a := wallet_address self; o_b := OrderSide_eqb side BUY;
                o_p := "0"; o_s := str_float size; o_r := reduce_only;
                o_t := Ioc; o_c := symbol |} ] "na".

(** The action [execute_limit_order] builds. *)
Definition limit_action (self : TradeExecutor) (symbol : string)
           (side : OrderSide) (size price : Q) (reduce_only post_only : bool)
  : Action :=
  ActOrder [ {| o_a := wallet_address self; o_b := OrderSide_eqb side BUY;
                o_p := str_float price; o_s := str_float size; o_r := reduce_only;
                o_t := if post_only then Alo else Gtc; o_c := symbol |} ] "na".

(** The url and the action of a posted request. *)
Definition sent (r : Request) : string * Action :=
  (req_url r, action (req_json r)).

(** The value a placement path returns on HTTP 200, from [response.json()]
    on: an exception anywhere ends in the [except] clause, which returns
    [None]; [fallback] is what the path returns when the body is not
    [status=ok] with data (["executed"] for market orders, [None] for limit
    orders). *)
Definition parsed_result (fallback : value) (parsed : value + string) : value :=
  match parsed with
  | inr _ => VNone
  | inl result =>
      match status_ok_with_data result with
      | inr _ => VNone
      | inl false => fallback
      | inl true =>
          match response_data result with
          | inr _ => VNone
          | inl data =>
              match resting_oid data with
              | inr _ => VNone
              | inl order_id => order_id
              end
          end
      end
  end.

(** ** The life of one executor object: a sequence of method calls.  No
    method assigns an attribute of [self], so the object a call leaves
    behind is the object it was given. *)
Inductive Call : Type :=
| Call_sign_action (act : Action)
| Call_update_leverage (symbol : string) (leverage : Z) (is_cross : bool)
| Call_execute_market_order (symbol : string) (side : OrderSide) (size : Q)
                            (leverage : Z) (reduce_only : bool)
| Call_execute_limit_order (symbol : string) (side : OrderSide) (size price : Q)
                           (leverage : Z) (reduce_only post_only : bool)
| Call_close_position (symbol : string) (size : Q) (side : OrderSide)
| Call_cancel_order (symbol order_id : string)
| Call_cancel_all_orders (symbol : option string)
| Call_simulate_order (symbol : string) (side : OrderSide) (size : Q)
                      (order_type : OrderType) (price : option Q) (leverage : Z).

Definition invoke (self : TradeExecutor) (c : Call) (w : World)
  : TradeExecutor * World :=
  match c with
  | Call_sign_action act => (self, snd (_sign_action self act w))
  | Call_update_leverage sy lv cr => (self, snd (_update_leverage self sy lv cr w))
  | Call_execute_market_order sy sd sz lv ro =>
      (self, snd (execute_market_order self sy sd sz lv ro w))
  | Call_execute_limit_order sy sd sz pr lv ro po =>
      (self, snd (execute_limit_order self sy sd sz pr lv ro po w))
  | Call_close_position sy sz sd => (self, snd (close_position self sy sz sd w))
  | Call_cancel_order sy oid => (self, snd (cancel_order self sy oid w))
  | Call_cancel_all_orders sy => (self, snd (cancel_all_orders self sy w))
  | Call_simulate_order sy sd sz ot pr lv =>
      (self, snd (_simulate_order self sy sd sz ot pr lv w))
  end.

Fixpoint run (self : TradeExecutor) (calls : list Call) (w : World)
  : TradeExecutor * World :=
  match calls with
  | [] => (self, w)
  | c :: rest => let (self', w') := invoke self c w in run self' rest w'
  end.

End WithEnv.
End Executor.

(* ===================================================================== *)
(** * copy_engine/executor_old.py                                         *)
(* ===================================================================== *)
Module ExecutorOld.
Import Py.
Local Open Scope exec_scope.

(** The calls into the official SDK's [Exchange] object. *)
Inductive SdkCall : Type :=
| update_leverage (leverage : Z) (symbol : string) (is_cross : bool)
| market_open (symbol : string) (is_buy : bool) (size slippage : Q)
| order (symbol : string) (is_buy : bool) (size price : Q) (tif : string)
        (reduce_only : bool)
| market_close (symbol : string) (sz : option Q) (slippage : Q)
| cancel (symbol : string) (order_id : Z).

(** What this executor takes from outside the repository: [eth_account],
    the constructors of the SDK objects, and the text forms used in log
    lines. *)
Class Env : Type := {
  LocalAccount : Type;
  Exchange : Type;
  Info : Type;
  from_key : string -> LocalAccount + string;
  address : LocalAccount -> string;
  new_exchange : LocalAccount -> string -> Exchange + string;
  new_info : string -> Info + string;
  str_float : Q -> string;
  str_value : value -> string;
  json_dumps : value -> string;
  format_exc : exn -> string
}.

(** The world: [sdk n c] is what the n-th SDK call [c] returns, or the text
    of what it raises. *)
Record World : Type := {
  clock : nat -> Q;
  ticks : nat;
  sdk : nat -> SdkCall -> value + string;
  sdk_calls : list SdkCall;
  log : list (level * string)
}.

Definition MO (A : Type) : Type := M World A.

Definition time_time : MO Q :=
  fun w => (inl (clock w (ticks w)),
            {| clock := clock w; ticks := S (ticks w); sdk := sdk w;
               sdk_calls := sdk_calls w; log := log w |}).

Definition logger (l : level) (msg : string) : MO unit :=
  modify (fun w => {| clock := clock w; ticks := ticks w; sdk := sdk w;
                      sdk_calls := sdk_calls w; log := log w ++ [(l, msg)] |}).

Definition call_sdk (c : SdkCall) : MO value :=
  fun w =>
    let w' := {| clock := clock w; ticks := ticks w; sdk := sdk w;
                 sdk_calls := sdk_calls w ++ [c]; log := log w |} in
    match sdk w (List.length (sdk_calls w)) c with
    | inl v => (inl v, w')
    | inr msg => (inr (LibraryError msg), w')
    end.

Section WithEnv.
Context {env : Env}.

Record TradeExecutor : Type := {
  api_url : string;
  wallet_address : option string;
  private_key : option string;
  dry_run : bool;
  account : option LocalAccount;
  exchange : option Exchange;
  info : option Info
}.

Definition fmt_opt (o : option string) : string :=
  match o with Some s => s | None => "None" end.

(** [TradeExecutor.__init__] *)
Definition __init__ (api_url0 : string) (wallet_address0 private_key0 : option string)
           (dry_run0 : bool) : MO TradeExecutor :=
  self <-
    (if (truthy_str private_key0 && negb dry_run0)%bool then
       try_except
         (acct <- lift_lib (from_key (fmt_opt private_key0)) ;;
          ex <- lift_lib (new_exchange acct api_url0) ;;
          inf <- lift_lib (new_info api_url0) ;;
          logger INFO ("✅ Executor initialized for wallet: " ++ address acct) ;;;
          logger INFO "🚀 LIVE TRADING MODE - Real orders will be placed!" ;;;
          ret {| api_url := api_url0; wallet_address := wallet_address0;
                 private_key := private_key0; dry_run := dry_run0;
                 account := Some acct; exchange := Some ex; info := Some inf |})
         (fun e =>
            logger ERROR ("❌ Failed to initialize Hyperliquid SDK: " ++ str_of_exn e) ;;;
            raise e)
     else if negb dry_run0 then
       logger ERROR "❌ Cannot enable live trading without private key!" ;;;
       raise (ValueError "Private key required for live trading")
     else
       ret {| api_url := api_url0; wallet_address := wallet_address0;
              private_key := private_key0; dry_run := dry_run0;
              account := None; exchange := None; info := None |}) ;;
  (if dry_run0
   then logger WARNING "⚠️ DRY RUN MODE - Trades will be simulated, not executed!"
   else ret tt) ;;;
  ret self.

(** [_simulate_order] *)
Definition _simulate_order (self : TradeExecutor) (symbol side : string)
           (size : Q) (leverage : Z) (order_type : string) (price : Q)
           (reduce_only : bool) : MO value :=
  let simulated_price :=
    if Qlt_le_dec 0 price then VFloat price else VInt 50000 in
  t1 <- time_time ;;
  t2 <- time_time ;;
  ret (VDict [("success", VBool true);
              ("order_id", VStr ("SIM_" ++ str_of_int (int_of_real t1)));
              ("symbol", VStr symbol);
              ("side", VStr side);
              ("size", VFloat size);
              ("price", simulated_price);
              ("leverage", VInt leverage);
              ("type", VStr order_type);
              ("reduce_only", VBool reduce_only);
              ("simulated", VBool true);
              ("timestamp", VInt (int_of_real t2))]).

Definition doing (self : TradeExecutor) : string :=
  if dry_run self then "📊 Simulating" else "💰 Executing".

(** [result.get("response", {}).get("data", {}).get("statuses", [])] *)
Definition statuses_of (result : value) : value + exn :=
  and_then (get_default result "response" (VDict [])) (fun resp =>
  and_then (get_default resp "data" (VDict [])) (fun data =>
  get_default data "statuses" (VList []))).

(** The best-effort leverage update in front of a live order. *)
Definition set_leverage (leverage : Z) (symbol : string) : MO unit :=
  try_except
    (leverage_result <- call_sdk (update_leverage leverage symbol true) ;;
     logger DEBUG ("Leverage set result: " ++ str_value leverage_result))
    (fun e => logger WARNING ("Failed to set leverage: " ++ str_of_exn e)).

Definition sdk_ready (self : TradeExecutor) : bool :=
  match exchange self, info self with
  | Some _, Some _ => true
  | _, _ => false
  end.

(** [execute_market_order] *)
Definition execute_market_order (self : TradeExecutor) (symbol side : string)
           (size : Q) (leverage : Z) (reduce_only : bool) : MO value :=
  try_except
    (let is_buy := (side =? "LONG")%string in
     logger INFO (doing self ++ " market order: " ++ symbol ++ " " ++ side
                  ++ " size=" ++ str_float size ++ " leverage="
                  ++ str_of_int leverage ++ "x") ;;;
     if dry_run self then
       _simulate_order self symbol side size leverage "market" 0 reduce_only
     else if negb (sdk_ready self) then
       logger ERROR "❌ Exchange not initialized for live trading" ;;;
       ret VNone
     else
       set_leverage leverage symbol ;;;
       let slippage := (3 # 100)%Q in
       result <- call_sdk (market_open symbol is_buy size slippage) ;;
       st <- lift (get result "status") ;;
       if eq_str st "ok" then
         logger SUCCESS ("✅ Market order executed successfully for " ++ symbol) ;;;
         logger DEBUG ("Response: " ++ json_dumps result) ;;;
         statuses <- lift (statuses_of result) ;;
         if truthy statuses then
           status <- lift (item0 statuses) ;;
           has_filled <- lift (str_in_value "filled" status) ;;
           if (has_filled : bool) then
             filled <- lift (item status "filled") ;;
             oid <- lift (get filled "oid") ;;
             total <- lift (get filled "totalSz") ;;
             avg <- lift (get filled "avgPx") ;;
             ret (VDict [("success", VBool true); ("order_id", oid);
                         ("symbol", VStr symbol); ("side", VStr side);
                         ("size", total); ("price", avg);
                         ("type", VStr "market")])
           else
             has_error <- lift (str_in_value "error" status) ;;
             if (has_error : bool) then
               err <- lift (item status "error") ;;
               logger ERROR ("❌ Order error: " ++ str_value err) ;;;
               ret VNone
             else ret VNone
         else ret VNone
       else
         logger ERROR ("❌ Order failed: " ++ str_value result) ;;;
         ret VNone)
    (fun e =>
       logger ERROR ("❌ Market order execution failed: " ++ str_of_exn e) ;;;
       logger ERROR (format_exc e) ;;;
       ret VNone).

(** [close_position] *)
Definition close_position (self : TradeExecutor) (symbol side : string)
           (size : option Q) : MO value :=
  try_except
    (logger INFO (doing self ++ " position close: " ++ symbol ++ " " ++ side) ;;;
     if dry_run self then
       ret (VDict [("success", VBool true);
                   ("symbol", VStr symbol);
                   ("side", VStr (if (side =? "SHORT")%string then "LONG" else "SHORT"));
                   ("size", match size with
                            | Some q => if Qeq_bool q 0 then VInt 0 else VFloat q
                            | None => VInt 0
                            end);
                   ("type", VStr "market_close");
                   ("simulated", VBool true)])
     else if negb (sdk_ready self) then
       logger ERROR "❌ Exchange not initialized for live trading" ;;;
       ret VNone
     else
       let slippage := (3 # 100)%Q in
       result <- call_sdk (market_close symbol size slippage) ;;
       st <- lift (get result "status") ;;
       if eq_str st "ok" then
         logger SUCCESS ("✅ Position closed successfully for " ++ symbol) ;;;
         logger DEBUG ("Response: " ++ json_dumps result) ;;;
         statuses <- lift (statuses_of result) ;;
         if truthy statuses then
           status <- lift (item0 statuses) ;;
           has_filled <- lift (str_in_value "filled" status) ;;
           if (has_filled : bool) then
             filled <- lift (item status "filled") ;;
             oid <- lift (get filled "oid") ;;
             total <- lift (get filled "totalSz") ;;
             avg <- lift (get filled "avgPx") ;;
             ret (VDict [("success", VBool true); ("order_id", oid);
                         ("symbol", VStr symbol);
                         ("size", total); ("price", avg);
                         ("type", VStr "market_close")])
           else
             has_error <- lift (str_in_value "error" status) ;;
             if (has_error : bool) then
               err <- lift (item status "error") ;;
               logger ERROR ("❌ Close error: " ++ str_value err) ;;;
               ret VNone
             else ret VNone
         else ret VNone
       else
         logger ERROR ("❌ Close failed: " ++ str_value result) ;;;
         ret VNone)
    (fun e =>
       logger ERROR ("❌ Position close failed: " ++ str_of_exn e) ;;;
       logger ERROR (format_exc e) ;;;
       ret VNone).

(** [execute_limit_order] *)
Definition execute_limit_order (self : TradeExecutor) (symbol side : string)
           (size price : Q) (leverage : Z) (reduce_only : bool) : MO value :=
  try_except
    (let is_buy := (side =? "LONG")%string in
     logger INFO (doing self ++ " limit order: " ++ symbol ++ " " ++ side
                  ++ " size=" ++ str_float size ++ " @ $" ++ str_float price
                  ++ " leverage=" ++ str_of_int leverage ++ "x") ;;;
     if dry_run self then
       _simulate_order self symbol side size leverage "limit" price reduce_only
     else if negb (sdk_ready self) then
       logger ERROR "❌ Exchange not initialized for live trading" ;;;
       ret VNone
     else
       set_leverage leverage symbol ;;;
       result <- call_sdk (order symbol is_buy size price "Gtc" reduce_only) ;;
       st <- lift (get result "status") ;;
       if eq_str st "ok" then
         logger SUCCESS ("✅ Limit order placed successfully for " ++ symbol) ;;;
         logger DEBUG ("Response: " ++ json_dumps result) ;;;
         statuses <- lift (statuses_of result) ;;
         if truthy statuses then
           status <- lift (item0 statuses) ;;
           has_resting <- lift (str_in_value "resting" status) ;;
           if (has_resting : bool) then
             resting <- lift (item status "resting") ;;
             oid <- lift (get resting "oid") ;;
             ret (VDict [("success", VBool true); ("order_id", oid);
                         ("symbol", VStr symbol); ("side", VStr side);
                         ("size", VFloat size); ("price", VFloat price);
                         ("type", VStr "limit")])
           else
             has_filled <- lift (str_in_value "filled" status) ;;
             if (has_filled : bool) then
               filled <- lift (item status "filled") ;;
               oid <- lift (get filled "oid") ;;
               total <- lift (get filled "totalSz") ;;
               avg <- lift (get filled "avgPx") ;;
               ret (VDict [("success", VBool true); ("order_id", oid);
                           ("symbol", VStr symbol); ("side", VStr side);
                           ("size", total); ("price", avg);
                           ("type", VStr "limit")])
             else
               has_error <- lift (str_in_value "error" status) ;;
               if (has_error : bool) then
                 err <- lift (item status "error") ;;
                 logger ERROR ("❌ Order error: " ++ str_value err) ;;;
                 ret VNone
               else ret VNone
         else ret VNone
       else
         logger ERROR ("❌ Order failed: " ++ str_value result) ;;;
         ret VNone)
    (fun e =>
       logger ERROR ("❌ Limit order execution failed: " ++ str_of_exn e) ;;;
       logger ERROR (format_exc e) ;;;
       ret VNone).

(** [cancel_order]; only the [Exchange] object is asked for here. *)
Definition cancel_order (self : TradeExecutor) (symbol : string) (order_id : Z)
  : MO value :=
  try_except
    (logger INFO (doing self ++ " order cancel: " ++ symbol ++ " order_id="
                  ++ str_of_int order_id) ;;;
     if dry_run self then
       ret (VDict [("success", VBool true);
                   ("symbol", VStr symbol);
                   ("order_id", VInt order_id);
                   ("cancelled", VBool true);
                   ("simulated", VBool true)])
     else
       match exchange self with
       | None =>
           logger ERROR "❌ Exchange not initialized for live trading" ;;;
           ret VNone
       | Some _ =>
           result <- call_sdk (cancel symbol order_id) ;;
           st <- lift (get result "status") ;;
           if eq_str st "ok" then
             logger SUCCESS ("✅ Order cancelled successfully for " ++ symbol) ;;;
             logger DEBUG ("Response: " ++ json_dumps result) ;;;
             ret (VDict [("success", VBool true);
                         ("symbol", VStr symbol);
                         ("order_id", VInt order_id);
                         ("cancelled", VBool true)])
           else
             logger ERROR ("❌ Cancel failed: " ++ str_value result) ;;;
             ret VNone
       end)
    (fun e =>
       logger ERROR ("❌ Order cancel failed: " ++ str_of_exn e) ;;;
       logger ERROR (format_exc e) ;;;
       ret VNone).

(** ** The life of one executor object: a sequence of method calls *)
Inductive Call : Type :=
| Call_execute_market_order (symbol side : string) (size : Q) (leverage : Z)
                            (reduce_only : bool)
| Call_execute_limit_order (symbol side : string) (size price : Q) (leverage : Z)
                           (reduce_only : bool)
| Call_close_position (symbol side : string) (size : option Q)
| Call_cancel_order (symbol : string) (order_id : Z).

Definition invoke (self : TradeExecutor) (c : Call) : MO value :=
  match c with
  | Call_execute_market_order sy sd sz lv ro => execute_market_order self sy sd sz lv ro
  | Call_execute_limit_order sy sd sz pr lv ro =>
      execute_limit_order self sy sd sz pr lv ro
  | Call_close_position sy sd sz => close_position self sy sd sz
  | Call_cancel_order sy oid => cancel_order self sy oid
  end.

(** The calls in turn, collecting what each returned; a call that raised
    would end the sequence. *)
Fixpoint run (self : TradeExecutor) (calls : list Call) : MO (list value) :=
  match calls with
  | [] => ret []
  | c :: rest =>
      v <- invoke self c ;;
      vs <- run self rest ;;
      ret (v :: vs)
  end.

End WithEnv.
End ExecutorOld.

(* ===================================================================== *)
(** * hyperliquid/websocket.py                                            *)
(* ===================================================================== *)
Module WebSocket.
Import Py.
Local Open Scope exec_scope.

(** [models.WebSocketUpdate] *)
Record WebSocketUpdate : Type := {
  channel : value;
  data : value;
  timestamp : Q
}.

(** What the client takes from outside the repository: [json], the text
    form of values in log lines, and [traceback.format_exc()]. *)
Class Env : Type := {
  json_loads : string -> value + string;
  json_dumps : value -> string;
  str_value : value -> string;
  str_keys : list string -> string;
  format_exc : exn -> string
}.

(** A connection of the [websockets] package: the frames it still has to
    deliver, whether it ends with an error when they run out, and whether
    it is closed. *)
Record Connection : Type := {
  inbox : list string;
  drops : bool;
  closed : bool
}.

Section WithHandlers.
Context {env : Env}.

(** [H] is whatever the registered callbacks act on.  A callback gets the
    update, changes [H] and may raise an [Exception]; it does not reach
    back into the client object.  What a callback raises outside
    [Exception] is the matter of [Interrupted] below. *)
Context {H : Type}.

Record Callback : Type := {
  is_coroutine : bool;
  call : WebSocketUpdate -> H -> H * option exn
}.

(** The attributes of [HyperliquidWebSocket]; [ws] holds the number of the
    connection. *)
Record HyperliquidWebSocket : Type := {
  ws_url : string;
  ws : option nat;
  is_running : bool;
  reconnect_delay : Z;
  subscriptions : list (string * value);
  callbacks : list (string * Callback)
}.

(** The client in its world.  [dial n] is the outcome of the n-th call of
    [websockets.connect] (a text when it raises), [script c] what connection
    [c] will deliver; [wire] records every frame sent, [called] every
    callback invocation. *)
Record State : Type := {
  self : HyperliquidWebSocket;
  dial : nat -> option string;
  dials : nat;
  script : nat -> list string * bool;
  conns : list Connection;
  wire : list (nat * string);
  handler_state : H;
  called : list (string * WebSocketUpdate);
  clock : nat -> Q;
  ticks : nat;
  slept : list Z;
  log : list (level * string)
}.

Definition with_self (f : HyperliquidWebSocket -> HyperliquidWebSocket) (s : State) : State :=
  {| self := f (self s); dial := dial s; dials := dials s; script := script s;
     conns := conns s; wire := wire s; handler_state := handler_state s;
     called := called s; clock := clock s; ticks := ticks s; slept := slept s;
     log := log s |}.

Definition with_conns (dials' : nat) (conns' : list Connection) (s : State) : State :=
  {| self := self s; dial := dial s; dials := dials'; script := script s;
     conns := conns'; wire := wire s; handler_state := handler_state s;
     called := called s; clock := clock s; ticks := ticks s; slept := slept s;
     log := log s |}.

Definition with_wire (wire' : list (nat * string)) (s : State) : State :=
  {| self := self s; dial := dial s; dials := dials s; script := script s;
     conns := conns s; wire := wire'; handler_state := handler_state s;
     called := called s; clock := clock s; ticks := ticks s; slept := slept s;
     log := log s |}.

Definition with_handlers (h : H) (called' : list (string * WebSocketUpdate))
           (s : State) : State :=
  {| self := self s; dial := dial s; dials := dials s; script := script s;
     conns := conns s; wire := wire s; handler_state := h;
     called := called'; clock := clock s; ticks := ticks s; slept := slept s;
     log := log s |}.

Definition with_ticks (n : nat) (s : State) : State :=
  {| self := self s; dial := dial s; dials := dials s; script := script s;
     conns := conns s; wire := wire s; handler_state := handler_state s;
     called := called s; clock := clock s; ticks := n; slept := slept s;
     log := log s |}.

Definition with_slept (l : list Z) (s : State) : State :=
  {| self := self s; dial := dial s; dials := dials s; script := script s;
     conns := conns s; wire := wire s; handler_state := handler_state s;
     called := called s; clock := clock s; ticks := ticks s; slept := l;
     log := log s |}.

Definition with_log (l : list (level * string)) (s : State) : State :=
  {| self := self s; dial := dial s; dials := dials s; script := script s;
     conns := conns s; wire := wire s; handler_state := handler_state s;
     called := called s; clock := clock s; ticks := ticks s; slept := slept s;
     log := l |}.

Definition set_ws (c : option nat) (o : HyperliquidWebSocket) : HyperliquidWebSocket :=
  {| ws_url := ws_url o; ws := c; is_running := is_running o;
     reconnect_delay := reconnect_delay o; subscriptions := subscriptions o;
     callbacks := callbacks o |}.

Definition set_is_running (b : bool) (o : HyperliquidWebSocket) : HyperliquidWebSocket :=
  {| ws_url := ws_url o; ws := ws o; is_running := b;
     reconnect_delay := reconnect_delay o; subscriptions := subscriptions o;
     callbacks := callbacks o |}.

Definition set_subscription (k : string) (v : value) (o : HyperliquidWebSocket)
  : HyperliquidWebSocket :=
  {| ws_url := ws_url o; ws := ws o; is_running := is_running o;
     reconnect_delay := reconnect_delay o;
     subscriptions := dict_set k v (subscriptions o);
     callbacks := callbacks o |}.

Definition set_callback (k : string) (cb : Callback) (o : HyperliquidWebSocket)
  : HyperliquidWebSocket :=
  {| ws_url := ws_url o; ws := ws o; is_running := is_running o;
     reconnect_delay := reconnect_delay o; subscriptions := subscriptions o;
     callbacks := dict_set k cb (callbacks o) |}.

Definition MS (A : Type) : Type := M State A.

(** ** The packages the client calls *)
Definition logger (l : level) (msg : string) : MS unit :=
  modify (fun s => with_log (log s ++ [(l, msg)]) s).

Definition utcnow : MS Q :=
  fun s => (inl (clock s (ticks s)), with_ticks (S (ticks s)) s).

Definition asyncio_sleep (d : Z) : MS unit :=
  modify (fun s => with_slept (slept s ++ [d]) s).

(** [websockets.connect(url)] *)
Definition websockets_connect (url : string) : MS nat :=
  fun s =>
    match dial s (dials s) with
    | Some msg => (inr (LibraryError msg), with_conns (S (dials s)) (conns s) s)
    | None =>
        let c := List.length (conns s) in
        (inl c,
         with_conns (S (dials s))
           (conns s ++ [ {| inbox := fst (script s c); drops := snd (script s c);
                            closed := false |} ]) s)
    end.

(** [ws.closed] *)
Definition conn_closed (c : nat) (s : State) : bool :=
  match nth_error (conns s) c with
  | Some k => closed k
  | None => true
  end.

Fixpoint update_conn (c : nat) (f : Connection -> Connection)
         (l : list Connection) : list Connection :=
  match l, c with
  | [], _ => []
  | k :: l', O => f k :: l'
  | k :: l', S c' => k :: update_conn c' f l'
  end.

(** [ws.send(text)]: a closed connection raises. *)
Definition ws_send (c : nat) (text : string) : MS unit :=
  fun s =>
    if conn_closed c s then (inr (ConnectionClosed "connection is closed"), s)
    else (inl tt, with_wire (wire s ++ [(c, text)]) s).

(** [ws.close()] *)
Definition ws_close (c : nat) : MS unit :=
  modify (fun s =>
            with_conns (dials s)
              (update_conn c (fun k => {| inbox := inbox k; drops := drops k;
                                          closed := true |}) (conns s)) s).

Definition take_frame (c : nat) (rest : list string) : MS unit :=
  modify (fun s =>
            with_conns (dials s)
              (update_conn c (fun k => {| inbox := rest; drops := drops k;
                                          closed := closed k |}) (conns s)) s).

Fixpoint for_each {A : Type} (l : list A) (body : A -> MS unit) : MS unit :=
  match l with
  | [] => ret tt
  | a :: l' => body a ;;; for_each l' body
  end.

(** ** The methods *)

(** [HyperliquidWebSocket.__init__] *)
Definition __init__ (url : string) : HyperliquidWebSocket :=
  {| ws_url := url; ws := None; is_running := false; reconnect_delay := 5;
     subscriptions := []; callbacks := [] |}.

(** [_send_subscription] *)
Definition _send_subscription (d : value) : MS unit :=
  s <- get_state ;;
  match ws (self s) with
  | None => ret tt
  | Some c =>
      try_except
        (ws_send c (json_dumps d) ;;;
         logger DEBUG ("Sent subscription: " ++ str_value d))
        (fun e => logger ERROR ("Failed to send subscription: " ++ str_of_exn e))
  end.

(** [connect] *)
Definition connect : MS unit :=
  try_except
    (s <- get_state ;;
     logger INFO ("Connecting to Hyperliquid WebSocket: " ++ ws_url (self s)) ;;;
     c <- websockets_connect (ws_url (self s)) ;;
     modify (with_self (set_ws (Some c))) ;;;
     modify (with_self (set_is_running true)) ;;;
     logger INFO "WebSocket connected successfully" ;;;
     s' <- get_state ;;
     for_each (subscriptions (self s')) (fun item => _send_subscription (snd item)))
    (fun e =>
       logger ERROR ("Failed to connect to WebSocket: " ++ str_of_exn e) ;;;
       raise e).

(** [disconnect] *)
Definition disconnect : MS unit :=
  modify (with_self (set_is_running false)) ;;;
  s <- get_state ;;
  match ws (self s) with
  | None => ret tt
  | Some c => ws_close c ;;; logger INFO "WebSocket disconnected"
  end.

(** [subscribe_user] *)
Definition subscribe_user (address : string) (callback : option Callback) : MS unit :=
  let chan := "user:" ++ address in
  let subscription :=
    VDict [("method", VStr "subscribe");
           ("subscription", VDict [("type", VStr "userEvents");
                                   ("user", VStr address)])] in
  modify (with_self (set_subscription chan subscription)) ;;;
  match callback with
  | Some cb => modify (with_self (set_callback chan cb))
  | None => ret tt
  end ;;;
  s <- get_state ;;
  match ws (self s) with
  | Some _ => _send_subscription subscription
  | None => ret tt
  end ;;;
  logger INFO ("Subscribed to user updates for " ++ address).

(** [subscribe_trades] *)
Definition subscribe_trades (symbol : string) (callback : option Callback) : MS unit :=
  let chan := "trades:" ++ symbol in
  let subscription :=
    VDict [("method", VStr "subscribe");
           ("subscription", VDict [("type", VStr "trades");
                                   ("coin", VStr symbol)])] in
  modify (with_self (set_subscription chan subscription)) ;;;
  match callback with
  | Some cb => modify (with_self (set_callback chan cb))
  | None => ret tt
  end ;;;
  s <- get_state ;;
  match ws (self s) with
  | Some _ => _send_subscription subscription
  | None => ret tt
  end ;;;
  logger INFO ("Subscribed to trades for " ++ symbol).

(** [subscribe_all_mids] *)
Definition subscribe_all_mids (callback : option Callback) : MS unit :=
  let chan := "allMids" in
  let subscription :=
    VDict [("method", VStr "subscribe");
           ("subscription", VDict [("type", VStr "allMids")])] in
  modify (with_self (set_subscription chan subscription)) ;;;
  match callback with
  | Some cb => modify (with_self (set_callback chan cb))
  | None => ret tt
  end ;;;
  s <- get_state ;;
  match ws (self s) with
  | Some _ => _send_subscription subscription
  | None => ret tt
  end ;;;
  logger INFO "Subscribed to all mid prices".

(** The match logic of [_handle_message], for the frame's channel and one
    registered key: equal; or the key occurs in the channel; or the channel
    occurs in the key; or the key has a colon and the channel is the text
    before it. *)
Definition should_call (chan : value) (callback_channel : string) : bool + exn :=
  if eq_str chan callback_channel then inl true
  else
    match str_in_value callback_channel chan with
    | inr e => inr e
    | inl true => inl true
    | inl false =>
        match value_in_str chan callback_channel with
        | inr e => inr e
        | inl true => inl true
        | inl false =>
            if str_in ":" callback_channel
            then inl (eq_str chan (before_colon callback_channel))
            else inl false
        end
    end.

(** The same logic when the frame's channel is the text [chan]. *)
Definition text_match (chan callback_channel : string) : bool :=
  ((chan =? callback_channel)%string
   || str_in callback_channel chan
   || str_in chan callback_channel
   || (str_in ":" callback_channel
       && (chan =? before_colon callback_channel)%string))%bool.

(** [callback(update)], awaited or not: the invocation is recorded. *)
Definition invoke (callback_channel : string) (callback : Callback)
           (update : WebSocketUpdate) : MS unit :=
  fun s =>
    let (h', outcome) := call callback update (handler_state s) in
    let s' := with_handlers h' (called s ++ [(callback_channel, update)]) s in
    match outcome with
    | None => (inl tt, s')
    | Some e => (inr e, s')
    end.

(** The body of the loop over [self.callbacks.items()]; the result tells
    whether this callback was called. *)
Definition dispatch_one (update : WebSocketUpdate) (item : string * Callback)
  : MS bool :=
  let callback_channel := fst item in
  let callback := snd item in
  logger INFO ("🔍 Checking callback: " ++ callback_channel ++ " vs "
               ++ str_value (channel update)) ;;;
  sc <- lift (should_call (channel update) callback_channel) ;;
  if (sc : bool) then
    logger INFO ("✅ Calling callback for " ++ callback_channel) ;;;
    try_except
      (if is_coroutine callback
       then invoke callback_channel callback update
       else invoke callback_channel callback update)
      (fun e =>
         logger ERROR ("Error in callback for " ++ callback_channel ++ ": "
                       ++ str_of_exn e) ;;;
         logger ERROR (format_exc e)) ;;;
    ret true
  else ret false.

(** The loop, carrying [callback_found]. *)
Fixpoint dispatch (update : WebSocketUpdate) (items : list (string * Callback))
         (callback_found : bool) : MS bool :=
  match items with
  | [] => ret callback_found
  | item :: rest =>
      hit <- dispatch_one update item ;;
      dispatch update rest (if (hit : bool) then true else callback_found)
  end.

(** [list(data.keys())] *)
Definition keys (v : value) : list string :=
  match v with
  | VDict d => map fst d
  | _ => []
  end.

(** [_handle_message] *)
Definition _handle_message (message : string) : MS unit :=
  try_except
    (logger INFO ("📨 RAW WebSocket Message: " ++ take_code_points 500 message ++ "...") ;;;
     parsed <- match json_loads message with
               | inl v => ret v
               | inr msg => raise (JSONDecodeError msg)
               end ;;
     chan <- lift (get_default parsed "channel" (VStr "unknown")) ;;
     logger INFO ("📦 Parsed - Channel: '" ++ str_value chan ++ "', Keys: "
                  ++ str_keys (keys parsed)) ;;;
     now <- utcnow ;;
     let update := {| channel := chan; data := parsed; timestamp := now |} in
     s <- get_state ;;
     callback_found <- dispatch update (callbacks (self s)) false ;;
     if (callback_found : bool) then ret tt
     else logger WARNING ("⚠️ No callback found for channel: " ++ str_value chan))
    (fun e =>
       match e with
       | JSONDecodeError _ =>
           logger ERROR ("Failed to parse WebSocket message: " ++ str_of_exn e) ;;;
           logger ERROR ("Raw message: " ++ message)
       | _ =>
           logger ERROR ("Error handling WebSocket message: " ++ str_of_exn e) ;;;
           logger ERROR (format_exc e)
       end).

(** [async for message in self.ws: await self._handle_message(message)]:
    every frame the connection has is handled in turn; when they run out
    the connection is closed, with a [ConnectionClosed] error if it
    dropped. *)
Fixpoint async_for (c : nat) (frames : list string) (ends_with_error : bool)
  : MS unit :=
  match frames with
  | [] =>
      ws_close c ;;;
      if ends_with_error then raise (ConnectionClosed "no close frame received or sent")
      else ret tt
  | message :: rest =>
      take_frame c rest ;;;
      _handle_message message ;;;
      async_for c rest ends_with_error
  end.

(** One turn of the [while self.is_running] loop of [listen]. *)
Definition listen_turn : MS unit :=
  try_except
    (s <- get_state ;;
     match ws (self s) with
     | None => connect
     | Some c => if conn_closed c s then connect else ret tt
     end ;;;
     s' <- get_state ;;
     match ws (self s') with
     | None => raise (TypeError "'async for' requires an object with __aiter__ method")
     | Some c =>
         match nth_error (conns s') c with
         | Some k => async_for c (if closed k then [] else inbox k) (drops k)
         | None => raise (ConnectionClosed "no such connection")
         end
     end)
    (fun e =>
       s <- get_state ;;
       match e with
       | ConnectionClosed _ =>
           logger WARNING ("WebSocket connection closed, reconnecting in "
                           ++ str_of_int (reconnect_delay (self s)) ++ "s...") ;;;
           asyncio_sleep (reconnect_delay (self s))
       | _ =>
           logger ERROR ("Error in WebSocket listener: " ++ str_of_exn e) ;;;
           asyncio_sleep (reconnect_delay (self s))
       end).

(** How a bounded run of the loop ended: the loop test found [is_running]
    false, or the bound on the number of turns was reached. *)
Inductive LoopExit : Type := Stopped | OutOfFuel.

(** [listen], for at most [fuel] turns of its loop. *)
Fixpoint listen (fuel : nat) : MS LoopExit :=
  match fuel with
  | O => ret OutOfFuel
  | S n =>
      s <- get_state ;;
      if is_running (self s) then listen_turn ;;; listen n
      else ret Stopped
  end.

(** [run] *)
Definition run (fuel : nat) : MS LoopExit :=
  modify (with_self (set_is_running true)) ;;;
  listen fuel.

(** [stop] *)
Definition stop : MS unit :=
  modify (with_self (set_is_running false)) ;;;
  disconnect.

(** ** Names for stating what the methods do *)

(** [s] differs from [s0] at most in the log, the clock reads and what the
    callbacks did: the client object, the connections, the wire and the
    sleeps are those of [s0]. *)
Definition untouched (s0 s : State) : Prop :=
  self s = self s0 /\ dial s = dial s0 /\ dials s = dials s0 /\
  script s = script s0 /\ conns s = conns s0 /\ wire s = wire s0 /\
  clock s = clock s0 /\ slept s = slept s0.

(** The log of [s] starts with the lines [p]. *)
Definition log_starts (p : list (level * string)) (s : State) : Prop :=
  exists l, log s = (p ++ l)%list.

(** The client is marked running. *)
Definition running (s : State) : Prop := is_running (self s) = true.

(** The first log line of [_handle_message]. *)
Definition raw_line (message : string) : level * string :=
  (INFO, "📨 RAW WebSocket Message: " ++ take_code_points 500 message ++ "...").

End WithHandlers.

Arguments Callback H : clear implicits.
Arguments HyperliquidWebSocket H : clear implicits.
Arguments State H : clear implicits.

(** ** Callbacks that raise outside [Exception]

    [asyncio.CancelledError], [KeyboardInterrupt] and [SystemExit] derive
    from [BaseException] and not from [Exception], so that no
    [except Exception] clause catches them.  Here are [_handle_message] and
    [listen] once more, line by line as above, for callbacks that may raise
    one of these: a call now returns, raises an [Exception], or raises a
    [BaseException] that is none. *)
Module Interrupted.

Inductive Raised : Type :=
| Exception (e : exn)
| BaseException (name : string).

Declare Scope interrupted_scope.
Delimit Scope interrupted_scope with interrupted.

Section WithInterrupts.
Context {env : Env} {H : Type}.

(** [interrupts k u h] names the [BaseException] that the callback
    registered under [k] raises when it is called with the update [u] on
    [h], if it raises one; it has then done to [h] what [call] says. *)
Variable interrupts : string -> WebSocketUpdate -> H -> option string.

Definition MB (A : Type) : Type := State H -> (A + Raised) * State H.

Definition ret {A} (a : A) : MB A := fun s => (inl a, s).

Definition bind {A B} (c : MB A) (k : A -> MB B) : MB B :=
  fun s => match c s with
           | (inl a, s') => k a s'
           | (inr e, s') => (inr e, s')
           end.

(** A computation of the client as above: what it raises is an
    [Exception]. *)
Definition plain {A} (c : MS (H := H) A) : MB A :=
  fun s => match c s with
           | (inl a, s') => (inl a, s')
           | (inr e, s') => (inr (Exception e), s')
           end.

(** [try: c except Exception as e: h e] *)
Definition try_except {A} (c : MB A) (h : exn -> MB A) : MB A :=
  fun s => match c s with
           | (inl a, s') => (inl a, s')
           | (inr (Exception e), s') => h e s'
           | (inr (BaseException name), s') => (inr (BaseException name), s')
           end.

Notation "x <- c ;; k" := (bind c (fun x => k))
  (at level 61, c at next level, right associativity) : interrupted_scope.
Notation "c ;;; k" := (bind c (fun _ => k))
  (at level 61, right associativity) : interrupted_scope.
Local Open Scope interrupted_scope.

(** [callback(update)], awaited or not. *)
Definition invoke (callback_channel : string) (callback : Callback H)
           (update : WebSocketUpdate) : MB unit :=
  fun s =>
    match interrupts callback_channel update (handler_state s) with
    | Some name =>
        (inr (BaseException name),
         with_handlers (fst (call callback update (handler_state s)))
           (called s ++ [(callback_channel, update)]) s)
    | None => plain (WebSocket.invoke callback_channel callback update) s
    end.

(** The body of the loop over [self.callbacks.items()]. *)
Definition dispatch_one (update : WebSocketUpdate) (item : string * Callback H)
  : MB bool :=
  let callback_channel := fst item in
  let callback := snd item in
  plain (logger INFO ("🔍 Checking callback: " ++ callback_channel ++ " vs "
                      ++ str_value (channel update))) ;;;
  sc <- plain (lift (should_call (channel update) callback_channel)) ;;
  if (sc : bool) then
    plain (logger INFO ("✅ Calling callback for " ++ callback_channel)) ;;;
    try_except
      (if is_coroutine callback
       then invoke callback_channel callback update
       else invoke callback_channel callback update)
      (fun e =>
         plain (logger ERROR ("Error in callback for " ++ callback_channel ++ ": "
                              ++ str_of_exn e)) ;;;
         plain (logger ERROR (format_exc e))) ;;;
    ret true
  else ret false.

Fixpoint dispatch (update : WebSocketUpdate) (items : list (string * Callback H))
         (callback_found : bool) : MB bool :=
  match items with
  | [] => ret callback_found
  | item :: rest =>
      hit <- dispatch_one update item ;;
      dispatch update rest (if (hit : bool) then true else callback_found)
  end.

(** [_handle_message] *)
Definition _handle_message (message : string) : MB unit :=
  try_except
    (plain (logger INFO ("📨 RAW WebSocket Message: "
                         ++ take_code_points 500 message ++ "...")) ;;;
     parsed <- plain (match json_loads message with
                      | inl v => Py.ret v
                      | inr msg => raise (JSONDecodeError msg)
                      end) ;;
     chan <- plain (lift (get_default parsed "channel" (VStr "unknown"))) ;;
     plain (logger INFO ("📦 Parsed - Channel: '" ++ str_value chan ++ "', Keys: "
                         ++ str_keys (keys parsed))) ;;;
     now <- plain utcnow ;;
     let update := {| channel := chan; data := parsed; timestamp := now |} in
     s <- plain get_state ;;
     callback_found <- dispatch update (callbacks (self s)) false ;;
     if (callback_found : bool) then ret tt
     else plain (logger WARNING ("⚠️ No callback found for channel: "
                                 ++ str_value chan)))
    (fun e =>
       match e with
       | JSONDecodeError _ =>
           plain (logger ERROR ("Failed to parse WebSocket message: "
                                ++ str_of_exn e)) ;;;
           plain (logger ERROR ("Raw message: " ++ message))
       | _ =>
           plain (logger ERROR ("Error handling WebSocket message: "
                                ++ str_of_exn e)) ;;;
           plain (logger ERROR (format_exc e))
       end).

(** [async for message in self.ws: await self._handle_message(message)] *)
Fixpoint async_for (c : nat) (frames : list string) (ends_with_error : bool)
  : MB unit :=
  match frames with
  | [] =>
      plain (ws_close c) ;;;
      if ends_with_error
      then plain (raise (ConnectionClosed "no close frame received or sent"))
      else ret tt
  | message :: rest =>
      plain (take_frame c rest) ;;;
      _handle_message message ;;;
      async_for c rest ends_with_error
  end.

(** One turn of the [while self.is_running] loop of [listen]. *)
Definition listen_turn : MB unit :=
  try_except
    (s <- plain get_state ;;
     match ws (self s) with
     | None => plain connect
     | Some c => if conn_closed c s then plain connect else ret tt
     end ;;;
     s' <- plain get_state ;;
     match ws (self s') with
     | None =>
         plain (raise (TypeError "'async for' requires an object with __aiter__ method"))
     | Some c =>
         match nth_error (conns s') c with
         | Some k => async_for c (if closed k then [] else inbox k) (drops k)
         | None => plain (raise (ConnectionClosed "no such connection"))
         end
     end)
    (fun e =>
       s <- plain get_state ;;
       match e with
       | ConnectionClosed _ =>
           plain (logger WARNING ("WebSocket connection closed, reconnecting in "
                                  ++ str_of_int (reconnect_delay (self s)) ++ "s...")) ;;;
           plain (asyncio_sleep (reconnect_delay (self s)))
       | _ =>
           plain (logger ERROR ("Error in WebSocket listener: " ++ str_of_exn e)) ;;;
           plain (asyncio_sleep (reconnect_delay (self s)))
       end).

(** [listen], for at most [fuel] turns of its loop. *)
Fixpoint listen (fuel : nat) : MB LoopExit :=
  match fuel with
  | O => ret OutOfFuel
  | S n =>
      s <- plain get_state ;;
      if is_running (self s) then listen_turn ;;; listen n
      else ret Stopped
  end.

End WithInterrupts.

End Interrupted.

End WebSocket.

(* ===================================================================== *)
(** * telegram_bot/bot.py                                                 *)
(* ===================================================================== *)
Module Telegram.
Import Py.
Local Open Scope exec_scope.

(** The line feed of the Python string literals. *)
Definition nl : string := String (ascii_of_nat 10) EmptyString.

(** An inline keyboard: rows of buttons, each a label and its
    [callback_data]. *)
Definition Keyboard : Type := list (list (string * string)).

(** The Bot API calls the handlers make. *)
Inductive ApiCall : Type :=
| reply_text (text : string) (parse_mode : option string)
             (reply_markup : option Keyboard)
| query_answer
| edit_message_text (text : string) (parse_mode : option string).

(** The control callbacks the main application may install. *)
Inductive Invocation : Type :=
| Invoked_on_stop_requested (close_positions : bool)
| Invoked_on_pause_requested
| Invoked_on_resume_requested
| Invoked_get_status_callback
| Invoked_get_positions_callback
| Invoked_get_orders_callback
| Invoked_get_pnl_callback.

(** What the handlers take from outside the repository: [str.upper],
    [str.strip], the float formats [:.4f] and [:,.2f], the text of a value
    in an f-string, and the formatted local time. *)
Class Env : Type := {
  upper : string -> string;
  strip : string -> string;
  format_4f : Q -> string;
  format_money : Q -> string;
  str_value : value -> string;
  now_text : nat -> string
}.

(** An update: the id of its effective chat and, for a pressed button, the
    data of its callback query.  A command update carries the message the
    handlers reply to. *)
Record Update : Type := {
  effective_chat_id : Z;
  query_data : option string
}.

Section WithApplication.
Context {env : Env}.

(** [A] is the state of the application the callbacks control. *)
Context {A : Type}.

Record TelegramBot : Type := {
  bot_token : string;
  allowed_chat_id : string;
  on_stop_requested : option (bool -> A -> A * option exn);
  on_pause_requested : option (A -> A * option exn);
  on_resume_requested : option (A -> A * option exn);
  get_status_callback : option (A -> A * (string + exn));
  get_positions_callback : option (A -> A * (string + exn));
  get_orders_callback : option (A -> A * (value + exn));
  get_pnl_callback : option (A -> A * (string + exn))
}.

(** The bot's world: [api_raises n] tells whether the n-th Bot API call
    raises, [api_calls] records the calls made, [invoked] the control
    callbacks called. *)
Record World : Type := {
  api_raises : nat -> option string;
  api_calls : list ApiCall;
  app_state : A;
  invoked : list Invocation;
  ticks : nat;
  log : list (level * string)
}.

Definition MT (R : Type) : Type := M World R.

Definition logger (l : level) (msg : string) : MT unit :=
  modify (fun w => {| api_raises := api_raises w; api_calls := api_calls w;
                      app_state := app_state w; invoked := invoked w;
                      ticks := ticks w; log := log w ++ [(l, msg)] |}).

(** A Bot API call: recorded, then it returns or raises. *)
Definition api (c : ApiCall) : MT unit :=
  fun w =>
    let w' := {| api_raises := api_raises w; api_calls := api_calls w ++ [c];
                 app_state := app_state w; invoked := invoked w;
                 ticks := ticks w; log := log w |} in
    match api_raises w (List.length (api_calls w)) with
    | Some msg => (inr (LibraryError msg), w')
    | None => (inl tt, w')
    end.

(** [datetime.now().strftime('%H:%M:%S UTC')] *)
Definition now_strftime : MT string :=
  fun w => (inl (now_text (ticks w)),
            {| api_raises := api_raises w; api_calls := api_calls w;
               app_state := app_state w; invoked := invoked w;
               ticks := S (ticks w); log := log w |}).

(** Calling a control callback: recorded, run on the application, and its
    result returned or its exception raised. *)
Definition call_control {R} (name : Invocation) (f : A -> A * (R + exn)) : MT R :=
  fun w =>
    let (a', r) := f (app_state w) in
    (r, {| api_raises := api_raises w; api_calls := api_calls w;
           app_state := a'; invoked := invoked w ++ [name];
           ticks := ticks w; log := log w |}).

Definition as_result (f : A -> A * option exn) : A -> A * (unit + exn) :=
  fun a => let (a', r) := f a in
           (a', match r with None => inl tt | Some e => inr e end).

(** [TelegramBot.__init__] *)
Definition __init__ (bot_token0 allowed_chat_id0 : string) : MT TelegramBot :=
  logger INFO ("Telegram bot initialized for chat " ++ allowed_chat_id0) ;;;
  ret {| bot_token := bot_token0; allowed_chat_id := allowed_chat_id0;
         on_stop_requested := None; on_pause_requested := None;
         on_resume_requested := None; get_status_callback := None;
         get_positions_callback := None; get_orders_callback := None;
         get_pnl_callback := None |}.

(** [_check_authorized] *)
Definition _check_authorized (self : TelegramBot) (update : Update) : MT bool :=
  let user_chat_id := str_of_int (effective_chat_id update) in
  if negb (user_chat_id =? allowed_chat_id self)%string then
    logger WARNING ("Unauthorized access attempt from chat " ++ user_chat_id) ;;;
    ret false
  else ret true.

(** [_start_command] *)
Definition _start_command (self : TelegramBot) (update : Update) : MT unit :=
  ok <- _check_authorized self update ;;
  if negb ok then api (reply_text "⛔ Unauthorized" None None)
  else
    api (reply_text (strip ("
🤖 <b>Hyperliquid Copy Trading Bot</b>

<b>Available Commands:</b>

/status - Current bot status
/positions - View open positions  
/orders - View open orders
/pnl - Account PnL summary
/pause - Pause copying (keep positions)
/resume - Resume copying
/stop - Stop bot and close positions

<b>Status:</b> 🟢 Active
        ")) (Some "HTML") None).

(** [_status_command] *)
Definition _status_command (self : TelegramBot) (update : Update) : MT unit :=
  ok <- _check_authorized self update ;;
  if negb ok then api (reply_text "⛔ Unauthorized" None None)
  else
    match get_status_callback self with
    | Some callback =>
        try_except
          (status <- call_control Invoked_get_status_callback callback ;;
           api (reply_text status (Some "HTML") None))
          (fun e =>
             logger ERROR ("Error getting status: " ++ str_of_exn e) ;;;
             api (reply_text ("❌ Error: " ++ str_of_exn e) None None))
    | None => api (reply_text "Status callback not configured" None None)
    end.

(** [_positions_command] *)
Definition _positions_command (self : TelegramBot) (update : Update) : MT unit :=
  ok <- _check_authorized self update ;;
  if negb ok then api (reply_text "⛔ Unauthorized" None None)
  else
    match get_positions_callback self with
    | Some callback =>
        try_except
          (positions <- call_control Invoked_get_positions_callback callback ;;
           api (reply_text positions (Some "HTML") None))
          (fun e =>
             logger ERROR ("Error getting positions: " ++ str_of_exn e) ;;;
             api (reply_text ("❌ Error: " ++ str_of_exn e) None None))
    | None => api (reply_text "📍 No positions callback configured" None None)
    end.

(** The lines [_orders_command] writes for the [i]-th order. *)
Definition as_upper (v : value) : string + exn :=
  match v with
  | VStr s => inl (upper s)
  | _ => inr (AttributeError ("'" ++ type_name v ++ "' object has no attribute 'upper'"))
  end.

Definition trigger_line (order : value) : string + exn :=
  and_then (str_in_value "trigger_price" order) (fun present =>
  if (present : bool) then
    and_then (item order "trigger_price") (fun t =>
    if truthy t then
      and_then (number_to_format t) (fun q =>
      inl ("   Trigger: $" ++ format_money q ++ nl))
    else inl EmptyString)
  else inl EmptyString).

Definition order_lines (i : Z) (order : value) : string + exn :=
  and_then (get_default order "side" (VStr "BUY")) (fun side_v =>
  and_then (as_upper side_v) (fun side =>
  and_then (get_default order "order_type" (VStr "LIMIT")) (fun type_v =>
  and_then (as_upper type_v) (fun order_type =>
  and_then (item order "symbol") (fun symbol =>
  and_then (item order "size") (fun size_v =>
  and_then (number size_v) (fun size =>
  and_then (item order "price") (fun price_v =>
  and_then (number_to_format price_v) (fun price =>
  and_then (trigger_line order) (fun trigger =>
  inl ("<b>" ++ str_of_int i ++ ". " ++ str_value symbol ++ " " ++ side ++ "</b>" ++ nl
       ++ "   Type: " ++ order_type ++ nl
       ++ "   Size: " ++ format_4f (Qabs size) ++ nl
       ++ "   Price: $" ++ format_money price ++ nl
       ++ trigger
       ++ nl))))))))))).

(** [for i, order in enumerate(orders, 1): message += ...] *)
Fixpoint orders_message (i : Z) (orders : list value) (message : string)
  : string + exn :=
  match orders with
  | [] => inl message
  | order :: rest =>
      and_then (order_lines i order) (fun lines =>
      orders_message (i + 1) rest (message ++ lines))
  end.

(** [_orders_command] *)
Definition _orders_command (self : TelegramBot) (update : Update) : MT unit :=
  ok <- _check_authorized self update ;;
  if negb ok then api (reply_text "⛔ Unauthorized" None None)
  else
    match get_orders_callback self with
    | Some callback =>
        try_except
          (orders <- call_control Invoked_get_orders_callback callback ;;
           if negb (truthy orders) then
             api (reply_text "📋 No open orders" None None)
           else
             items <- lift (iterate orders) ;;
             message <- lift (orders_message 1 items ("<b>Open Orders</b>" ++ nl ++ nl)) ;;
             api (reply_text (strip message) (Some "HTML") None))
          (fun e =>
             logger ERROR ("Error getting orders: " ++ str_of_exn e) ;;;
             api (reply_text ("❌ Error: " ++ str_of_exn e) None None))
    | None => api (reply_text "📋 No orders callback configured" None None)
    end.

(** [_pause_command] *)
Definition _pause_command (self : TelegramBot) (update : Update) : MT unit :=
  ok <- _check_authorized self update ;;
  if negb ok then api (reply_text "⛔ Unauthorized" None None)
  else
    match on_pause_requested self with
    | Some callback =>
        try_except
          (call_control Invoked_on_pause_requested (as_result callback) ;;;
           api (reply_text
                  ("⏸️ <b>Bot Paused</b>" ++ nl ++ nl ++ "No new trades will be copied."
                   ++ nl ++ "Existing positions remain open.")
                  (Some "HTML") None))
          (fun e =>
             logger ERROR ("Error pausing: " ++ str_of_exn e) ;;;
             api (reply_text ("❌ Error: " ++ str_of_exn e) None None))
    | None => api (reply_text "Pause callback not configured" None None)
    end.

(** [_resume_command] *)
Definition _resume_command (self : TelegramBot) (update : Update) : MT unit :=
  ok <- _check_authorized self update ;;
  if negb ok then api (reply_text "⛔ Unauthorized" None None)
  else
    match on_resume_requested self with
    | Some callback =>
        try_except
          (call_control Invoked_on_resume_requested (as_result callback) ;;;
           api (reply_text
                  ("▶️ <b>Bot Resumed</b>" ++ nl ++ nl ++ "Copying trades is now active!")
                  (Some "HTML") None))
          (fun e =>
             logger ERROR ("Error resuming: " ++ str_of_exn e) ;;;
             api (reply_text ("❌ Error: " ++ str_of_exn e) None None))
    | None => api (reply_text "Resume callback not configured" None None)
    end.

(** [_stop_command] *)
Definition _stop_command (self : TelegramBot) (update : Update) : MT unit :=
  ok <- _check_authorized self update ;;
  if negb ok then api (reply_text "⛔ Unauthorized" None None)
  else
    let keyboard : Keyboard :=
      [ [ ("Close Positions", "stop_close"); ("Keep Positions", "stop_keep") ];
        [ ("❌ Cancel", "stop_cancel") ] ] in
    api (reply_text
           ("⚠️ <b>STOP COPY TRADING</b>" ++ nl ++ nl
            ++ "This will:" ++ nl
            ++ "✅ Stop copying new trades" ++ nl
            ++ "✅ Cancel all open orders" ++ nl ++ nl
            ++ "Do you want to close all positions too?")
           (Some "HTML") (Some keyboard)).

Definition data_is (d : option string) (s : string) : bool :=
  match d with
  | Some x => (x =? s)%string
  | None => false
  end.

(** [_button_callback] *)
Definition _button_callback (self : TelegramBot) (update : Update) : MT unit :=
  api query_answer ;;;
  ok <- _check_authorized self update ;;
  if negb ok then api (edit_message_text "⛔ Unauthorized" None)
  else if data_is (query_data update) "stop_close" then
    api (edit_message_text
           ("🛑 <b>Stopping bot...</b>" ++ nl ++ nl
            ++ "• Cancelling all orders" ++ nl
            ++ "• Closing all positions" ++ nl
            ++ "• Shutting down" ++ nl ++ nl
            ++ "Please wait...")
           (Some "HTML")) ;;;
    match on_stop_requested self with
    | Some callback =>
        try_except
          (call_control (Invoked_on_stop_requested true) (as_result (callback true)) ;;;
           api (edit_message_text
                  ("✅ <b>Bot Stopped</b>" ++ nl ++ nl
                   ++ "All orders cancelled." ++ nl
                   ++ "All positions closed." ++ nl
                   ++ "Status: 🔴 INACTIVE")
                  (Some "HTML")))
          (fun e => api (edit_message_text ("❌ Error: " ++ str_of_exn e) None))
    | None => ret tt
    end
  else if data_is (query_data update) "stop_keep" then
    api (edit_message_text
           ("🛑 <b>Stopping bot...</b>" ++ nl ++ nl
            ++ "• Cancelling all orders" ++ nl
            ++ "• Keeping positions open" ++ nl
            ++ "• Shutting down" ++ nl ++ nl
            ++ "Please wait...")
           (Some "HTML")) ;;;
    match on_stop_requested self with
    | Some callback =>
        try_except
          (call_control (Invoked_on_stop_requested false) (as_result (callback false)) ;;;
           api (edit_message_text
                  ("✅ <b>Bot Stopped</b>" ++ nl ++ nl
                   ++ "All orders cancelled." ++ nl
                   ++ "Positions kept open." ++ nl
                   ++ "Status: 🔴 INACTIVE")
                  (Some "HTML")))
          (fun e => api (edit_message_text ("❌ Error: " ++ str_of_exn e) None))
    | None => ret tt
    end
  else if data_is (query_data update) "stop_cancel" then
    api (edit_message_text "✅ Stop cancelled. Bot is still running." (Some "HTML"))
  else ret tt.

(** [_pnl_command] *)
Definition _pnl_command (self : TelegramBot) (update : Update) : MT unit :=
  ok <- _check_authorized self update ;;
  if negb ok then api (reply_text "⛔ Unauthorized" None None)
  else
    now <- now_strftime ;;
    api (reply_text (strip ("
💰 <b>Account PnL Summary</b>

<b>Session:</b>
• Total Trades: 0
• Winners: 0
• Losers: 0
• Win Rate: 0%

<b>PnL:</b>
• Today: $0.00 (0%)
• This Week: $0.00 (0%)
• Total: $0.00 (0%)

🕐 <i>Updated: " ++ now ++ "</i>
        ")) (Some "HTML") None).

(** The command handlers [start] registers, by command. *)
Definition command_handlers : list (string * (TelegramBot -> Update -> MT unit)) :=
  [ ("start", _start_command);
    ("status", _status_command);
    ("positions", _positions_command);
    ("orders", _orders_command);
    ("pause", _pause_command);
    ("resume", _resume_command);
    ("stop", _stop_command);
    ("pnl", _pnl_command) ].

End WithApplication.

Arguments TelegramBot A : clear implicits.
Arguments World A : clear implicits.

End Telegram.

(* ===================================================================== *)
(** * hyperliquid/models.py: the dataclasses and their properties         *)
(* ===================================================================== *)
Module Models.
Import Py Executor.

(** A Python [float] is an IEEE 754 binary64 number; its [/] raises
    [ZeroDivisionError] on a zero divisor of either sign, and [==] is the
    IEEE comparison (a NaN equals nothing, the two zeros are equal). *)
Inductive ArithmeticError : Type :=
| ZeroDivisionError (msg : string).

Definition truediv (a b : float) : float + ArithmeticError :=
  if PrimFloat.eqb b 0 then inr (ZeroDivisionError "float division by zero")
  else inl (a / b)%float.

(** [class Position] *)
Module Position.

Record t : Type := {
  symbol : string;
  side : PositionSide;
  size : float;
  entry_price : float;
  current_price : float;
  leverage : float;
  unrealized_pnl : float;
  liquidation_price : option float;
  margin : option float;
  timestamp : option Q
}.

(** [Position.notional_value] *)
Definition notional_value (self : t) : float :=
  (size self * current_price self)%float.

(** [Position.pnl_percentage] *)
Definition pnl_percentage (self : t) : float + ArithmeticError :=
  if PrimFloat.eqb (entry_price self) 0 then inl 0%float
  else
    match side self with
    | LONG =>
        match truediv (current_price self - entry_price self)%float (entry_price self) with
        | inl q => inl (q * 100)%float
        | inr e => inr e
        end
    | SHORT =>
        match truediv (entry_price self - current_price self)%float (entry_price self) with
        | inl q => inl (q * 100)%float
        | inr e => inr e
        end
    end.

End Position.

(** [class Order] *)
Module Order.

Record t : Type := {
  order_id : string;
  symbol : string;
  side : OrderSide;
  order_type : OrderType;
  size : float;
  price : option float;
  filled_size : float;
  status : string;
  timestamp : option Q;
  trigger_price : option float
}.

(** The constructor with the defaults of the dataclass. *)
Definition new (order_id0 symbol0 : string) (side0 : OrderSide)
           (order_type0 : OrderType) (size0 : float) : t :=
  {| order_id := order_id0; symbol := symbol0; side := side0;
     order_type := order_type0; size := size0; price := None;
     filled_size := 0%float; status := "open"; timestamp := None;
     trigger_price := None |}.

(** [Order.is_filled] *)
Definition is_filled (self : t) : bool := (status self =? "filled")%string.

(** [Order.is_open] *)
Definition is_open (self : t) : bool := (status self =? "open")%string.

End Order.

(** [class UserState] *)
Module UserState.

Record t : Type := {
  address : string;
  positions : list Position.t;
  orders : list Order.t;
  balance : float;
  margin_used : float;
  unrealized_pnl : float;
  timestamp : Q
}.

(** [UserState.available_balance] *)
Definition available_balance (self : t) : float :=
  (balance self - margin_used self)%float.

(** [UserState.total_equity] *)
Definition total_equity (self : t) : float :=
  (balance self + unrealized_pnl self)%float.

(** [UserState.margin_ratio] *)
Definition margin_ratio (self : t) : float + ArithmeticError :=
  if PrimFloat.eqb (balance self) 0 then inl 0%float
  else
    match truediv (margin_used self) (balance self) with
    | inl q => inl (q * 100)%float
    | inr e => inr e
    end.

End UserState.

End Models.

(* ===================================================================== *)
(** * telegram_bot/notifications.py                                       *)
(* ===================================================================== *)
Module Notifications.
Import Py.
Local Open Scope exec_scope.

(** What the service takes from outside the repository: the [telegram.Bot]
    constructor, [str.upper], [str.title], [str.strip], the float formats
    [:.4f], [:,.2f] and [:+.2f], [str] of a float, and
    [datetime.now().strftime(fmt)] at the n-th reading of the clock. *)
Class Env : Type := {
  Bot : Type;
  new_bot : string -> Bot + string;
  upper : string -> string;
  title : string -> string;
  strip : string -> string;
  format_4f : float -> string;
  format_money : float -> string;
  format_signed_2f : float -> string;
  str_float : float -> string;
  strftime : string -> nat -> string
}.

(** [bot.send_message(chat_id=..., text=..., parse_mode=...)] *)
Record ApiCall : Type := {
  to_chat : string;
  text : string;
  parse_mode : string
}.

(** The world: [api_raises n] tells whether the n-th Bot API call raises,
    [api_calls] records the calls made. *)
Record World : Type := {
  api_raises : nat -> option string;
  api_calls : list ApiCall;
  ticks : nat;
  log : list (level * string)
}.

Definition MN (R : Type) : Type := M World R.

Definition logger (l : level) (msg : string) : MN unit :=
  modify (fun w => {| api_raises := api_raises w; api_calls := api_calls w;
                      ticks := ticks w; log := log w ++ [(l, msg)] |}).

Definition bot_send_message (chat text0 mode : string) : MN unit :=
  fun w =>
    let w' := {| api_raises := api_raises w;
                 api_calls := api_calls w
                              ++ [ {| to_chat := chat; text := text0;
                                      parse_mode := mode |} ];
                 ticks := ticks w; log := log w |} in
    match api_raises w (List.length (api_calls w)) with
    | Some msg => (inr (LibraryError msg), w')
    | None => (inl tt, w')
    end.

(** [s[-n:]] *)
Definition last_chars (n : nat) (s : string) : string := last_code_points n s.

Section WithEnv.
Context {env : Env}.

Definition now_strftime (fmt : string) : MN string :=
  fun w => (inl (strftime fmt (ticks w)),
            {| api_raises := api_raises w; api_calls := api_calls w;
               ticks := S (ticks w); log := log w |}).

Record NotificationService : Type := {
  bot : Bot;
  chat_id : string;
  enabled : bool
}.

(** [NotificationService.__init__] *)
Definition __init__ (bot_token chat_id0 : string) : MN NotificationService :=
  b <- lift_lib (new_bot bot_token) ;;
  logger INFO ("Notification service initialized for chat " ++ chat_id0) ;;;
  ret {| bot := b; chat_id := chat_id0; enabled := true |}.

(** [send_message] *)
Definition send_message (self : NotificationService) (message mode : string)
  : MN bool :=
  if negb (enabled self) then
    logger DEBUG "Notifications disabled, skipping message" ;;;
    ret false
  else
    try_except
      (bot_send_message (chat_id self) message mode ;;;
       ret true)
      (fun e =>
         logger ERROR ("Failed to send Telegram message: " ++ str_of_exn e) ;;;
         ret false).

(** [send_trade_notification] *)
Definition send_trade_notification (self : NotificationService)
           (symbol side : string) (size entry_price leverage target_size : float)
           (is_simulated : bool) : MN unit :=
  let mode_emoji := if is_simulated then "🧪" else "✅" in
  let mode_text := if is_simulated then "[SIMULATED]" else EmptyString in
  now <- now_strftime "%H:%M:%S UTC" ;;
  let message := "
" ++ mode_emoji ++ " <b>New Trade Copied!</b> " ++ mode_text ++ "

<b>Symbol:</b> " ++ symbol ++ "
<b>Side:</b> " ++ (upper side) ++ "
<b>Your Size:</b> " ++ (format_4f size) ++ "
<b>Entry:</b> $" ++ (format_money entry_price) ++ "
<b>Leverage:</b> " ++ (str_float leverage) ++ "x
<b>Notional:</b> $" ++ (format_money (size * entry_price)%float) ++ "

━━━━━━━━━━━━━━━━━━
<b>Target Size:</b> " ++ (format_4f target_size) ++ "
<b>Time:</b> " ++ now ++ "
" in
  _ <- send_message self (strip message) "HTML" ;;
  ret tt.

(** [send_position_close_notification] *)
Definition send_position_close_notification (self : NotificationService)
           (symbol : string) (pnl : option float) (is_simulated : bool) : MN unit :=
  let mode_emoji := if is_simulated then "🧪" else "🔴" in
  let mode_text := if is_simulated then "[SIMULATED]" else EmptyString in
  let pnl_text :=
    match pnl with
    | Some x =>
        let pnl_emoji := if PrimFloat.ltb 0 x then "📈" else "📉" in
        "
<b>PnL:</b> " ++ pnl_emoji ++ " $" ++ format_money x
    | None => EmptyString
    end in
  now <- now_strftime "%H:%M:%S UTC" ;;
  let message := "
" ++ mode_emoji ++ " <b>Position Closed</b> " ++ mode_text ++ "

<b>Symbol:</b> " ++ symbol ++ pnl_text ++ "
<b>Time:</b> " ++ now ++ "
" in
  _ <- send_message self (strip message) "HTML" ;;
  ret tt.

(** [send_hourly_report] *)
Definition send_hourly_report (self : NotificationService) (trades_copied : Z)
           (account_pnl_usd account_pnl_pct : float) (open_positions open_orders : Z)
           (target_wallet : string) : MN unit :=
  let pnl_emoji := if PrimFloat.ltb 0 account_pnl_usd then "📈" else "📉" in
  now <- now_strftime "%H:%M UTC" ;;
  let message := "
📊 <b>Hourly Copy Trading Report</b>

<b>Target:</b> <code>" ++ (take_code_points 10 target_wallet) ++ "..." ++ (last_chars 6 target_wallet) ++ "</code>

━━━━━━━━━━━━━━━━━━━━━━━━━
📈 <b>Trades Copied:</b> " ++ (str_of_int trades_copied) ++ "
💰 <b>Account PnL:</b> " ++ pnl_emoji ++ " $" ++ (format_money account_pnl_usd) ++ " (" ++ (format_signed_2f account_pnl_pct) ++ "%)
📍 <b>Open Positions:</b> " ++ (str_of_int open_positions) ++ "
📝 <b>Open Orders:</b> " ++ (str_of_int open_orders) ++ "
━━━━━━━━━━━━━━━━━━━━━━━━━

🕐 <b>Report Time:</b> " ++ now ++ "
" in
  _ <- send_message self (strip message) "HTML" ;;
  ret tt.

(** [send_error_notification] *)
Definition send_error_notification (self : NotificationService)
           (error_message : string) : MN unit :=
  now <- now_strftime "%H:%M:%S UTC" ;;
  let message := "
⚠️ <b>Error Detected</b>

<code>" ++ error_message ++ "</code>

<b>Time:</b> " ++ now ++ "
" in
  _ <- send_message self (strip message) "HTML" ;;
  ret tt.

(** [send_startup_notification] *)
Definition send_startup_notification (self : NotificationService)
           (target_wallet sizing_mode ratio : string) (leverage_adjustment : float)
  : MN unit :=
  let message := "
🚀 <b>Copy Trading Bot Started</b>

<b>Target Wallet:</b>
<code>" ++ target_wallet ++ "</code>

<b>Configuration:</b>
• Sizing: " ++ (title sizing_mode) ++ "
• Ratio: " ++ ratio ++ "
• Leverage: " ++ (str_float leverage_adjustment) ++ "x of target
• Status: <b>ACTIVE</b> 🟢

Bot is now monitoring for trades!
" in
  _ <- send_message self (strip message) "HTML" ;;
  ret tt.

(** [send_shutdown_notification] *)
Definition send_shutdown_notification (self : NotificationService) : MN unit :=
  let message := "
🛑 <b>Copy Trading Bot Stopped</b>

Bot has been shut down gracefully.
Status: <b>INACTIVE</b> 🔴
" in
  _ <- send_message self (strip message) "HTML" ;;
  ret tt.

(** [enable] *)
Definition enable (self : NotificationService) : MN NotificationService :=
  logger INFO "Notifications enabled" ;;;
  ret {| bot := bot self; chat_id := chat_id self; enabled := true |}.

(** [disable] *)
Definition disable (self : NotificationService) : MN NotificationService :=
  logger INFO "Notifications disabled" ;;;
  ret {| bot := bot self; chat_id := chat_id self; enabled := false |}.

(** ** The life of one service object: a sequence of method calls *)
Inductive Call : Type :=
| Call_send_message (message mode : string)
| Call_send_trade_notification (symbol side : string)
    (size entry_price leverage target_size : float) (is_simulated : bool)
| Call_send_position_close_notification (symbol : string) (pnl : option float)
    (is_simulated : bool)
| Call_send_hourly_report (trades_copied : Z) (account_pnl_usd account_pnl_pct : float)
    (open_positions open_orders : Z) (target_wallet : string)
| Call_send_error_notification (error_message : string)
| Call_send_startup_notification (target_wallet sizing_mode ratio : string)
    (leverage_adjustment : float)
| Call_send_shutdown_notification
| Call_enable
| Call_disable.

(** One call: the object it leaves behind. *)
Definition invoke (self : NotificationService) (c : Call) : MN NotificationService :=
  match c with
  | Call_send_message m p => _ <- send_message self m p ;; ret self
  | Call_send_trade_notification sy sd sz ep lv ts sim =>
      send_trade_notification self sy sd sz ep lv ts sim ;;; ret self
  | Call_send_position_close_notification sy pnl sim =>
      send_position_close_notification self sy pnl sim ;;; ret self
  | Call_send_hourly_report tc usd pct op oo tw =>
      send_hourly_report self tc usd pct op oo tw ;;; ret self
  | Call_send_error_notification m => send_error_notification self m ;;; ret self
  | Call_send_startup_notification tw sm r la =>
      send_startup_notification self tw sm r la ;;; ret self
  | Call_send_shutdown_notification => send_shutdown_notification self ;;; ret self
  | Call_enable => enable self
  | Call_disable => disable self
  end.

Fixpoint run (self : NotificationService) (calls : list Call) : MN NotificationService :=
  match calls with
  | [] => ret self
  | c :: rest => self' <- invoke self c ;; run self' rest
  end.

(** ** Names for stating what the methods do *)

(** Whether a call is one of the sending methods. *)
Definition sends (c : Call) : bool :=
  match c with
  | Call_enable | Call_disable => false
  | _ => true
  end.

(** The number of sending calls of [calls] made while the service is
    enabled, starting from [on]. *)
Fixpoint sent_while_enabled (on : bool) (calls : list Call) : nat :=
  match calls with
  | [] => O
  | Call_enable :: rest => sent_while_enabled true rest
  | Call_disable :: rest => sent_while_enabled false rest
  | _ :: rest => (if on then 1 else 0) + sent_while_enabled on rest
  end.

End WithEnv.
End Notifications.

(* ===================================================================== *)
(** * A small concrete environment, for running the model                 *)
(* ===================================================================== *)
Module Demo.
Import Py Executor.

(** A stand-in for [eth_account]: the key ["bad"] is refused, any other key
    [k] belongs to the address ["0xAbC" ++ k]; every signature is (1, 2, 27).
    [response_json] knows a handful of bodies. *)
Definition bodies : list (string * value) :=
  [ ("resting",
     VDict [("status", VStr "ok");
            ("response",
             VDict [("type", VStr "order");
                    ("data", VDict [("statuses",
                       VList [VDict [("resting", VDict [("oid", VInt 77)])]])])])]);
    ("filled",
     VDict [("status", VStr "ok");
            ("response",
             VDict [("type", VStr "order");
                    ("data", VDict [("statuses",
                       VList [VDict [("filled",
                          VDict [("oid", VInt 78); ("totalSz", VStr "0.1");
                                 ("avgPx", VStr "60000.0")])]])])])]);
    ("rejected",
     VDict [("status", VStr "ok");
            ("response",
             VDict [("type", VStr "order");
                    ("data", VDict [("statuses",
                       VList [VDict [("error", VStr "Insufficient margin")]])])])]);
    ("err",
     VDict [("status", VStr "err"); ("response", VStr "Invalid signature")]) ].

#[local] Instance env : Env := {|
  LocalAccount := string;
  from_key := fun k => if (k =? "bad")%string then inr "invalid key"
                       else inl ("0xAbC" ++ k);
  address := fun a => a;
  sign_typed_data := fun _ _ _ _ => inl {| msg_r := 1; msg_s := 2; msg_v := 27 |};
  str_float := fun q => str_of_int (int_of_real q) ++ ".0";
  str_decimal := fun q => str_of_int (int_of_real q);
  response_json := fun body => match assoc body bodies with
                               | Some v => inl v
                               | None => inr "Expecting value"
                               end
|}.

(** The exchange answers every POST with [st] and [body]. *)
Definition world (t : nat -> Q) (st : Z) (body : string) : World :=
  {| clock := t; ticks := O;
     exchange := fun _ _ => Response st body;
     posts := []; log := [] |}.

(** Two clock readings half a millisecond apart, inside one millisecond:
    the floats that [1700000000.1232] and [1700000000.1237] denote. *)
Definition close_readings (n : nat) : Q :=
  match n with
  | O => binary64 (17000000001232 # 10000)
  | _ => binary64 (17000000001237 # 10000)
  end.

(** A reading just below a millisecond boundary: the float that
    [1700000000.001] denotes is a little less than that number. *)
Definition boundary_reading : Q := binary64 (1700000000001 # 1000).

Definition live : TradeExecutor :=
  {| wallet_address := Some "0xabc1"; private_key := Some "1";
     info_url := "https://api.hyperliquid.xyz/info";
     exchange_url := "https://api.hyperliquid.xyz/exchange";
     dry_run := false; account := Some "0xAbC1" |}.

Definition dry : TradeExecutor :=
  {| wallet_address := Some "0xabc1"; private_key := None;
     info_url := "https://api.hyperliquid.xyz/info";
     exchange_url := "https://api.hyperliquid.xyz/exchange";
     dry_run := true; account := None |}.

(** Worlds whose exchange answers 200 with a resting, a filled and a
    rejected order, 200 with an error envelope, 500 and 503. *)
Definition w_resting : World := world close_readings 200 "resting".
Definition w_filled : World := world close_readings 200 "filled".
Definition w_rejected : World := world close_readings 200 "rejected".
Definition w_err : World := world close_readings 200 "err".
Definition w_500 : World := world close_readings 500 "Internal Server Error".
Definition w_503 : World := world close_readings 503 "Service Unavailable".

(** Two signing calls in a row, the clock read at [close_readings 0] and
    [close_readings 1]. *)
Definition cancel77 : Action := ActCancel [(Some "0xabc1", "77")].

Definition w0 : World := world close_readings 200 "resting".

Definition w_boundary : World := world (fun _ => boundary_reading) 200 "resting".

Definition first_signing : (SignedAction + exn) * World :=
  Eval vm_compute in _sign_action live cancel77 w0.

Definition second_signing : (SignedAction + exn) * World :=
  Eval vm_compute in _sign_action live cancel77 (snd first_signing).

Definition signed_at (n : Z) : SignedAction :=
  {| action := cancel77; nonce := n;
     signature :=
       {| sig_r := "0x0000000000000000000000000000000000000000000000000000000000000001";
          sig_s := "0x0000000000000000000000000000000000000000000000000000000000000002";
          sig_v := 27 |};
     vaultAddress := None |}.

End Demo.

Module DemoOld.
Import Py ExecutorOld.

#[local] Instance env : Env := {|
  LocalAccount := string;
  Exchange := unit;
  Info := unit;
  from_key := fun k => if (k =? "bad")%string then inr "invalid key"
                       else inl ("0xAbC" ++ k);
  address := fun a => a;
  new_exchange := fun _ _ => inl tt;
  new_info := fun _ => inl tt;
  str_float := fun q => str_of_int (int_of_real q) ++ ".0";
  str_value := fun v => match v with VStr s => s | _ => "?" end;
  json_dumps := fun _ => "{}";
  format_exc := fun e => "Traceback (most recent call last): " ++ str_of_exn e
|}.

(** Every SDK call answers [v]. *)
Definition world (v : value) : World :=
  {| clock := Demo.close_readings; ticks := O; sdk := fun _ _ => inl v;
     sdk_calls := []; log := [] |}.

Definition dry : TradeExecutor :=
  {| api_url := "https://api.hyperliquid.xyz"; wallet_address := None;
     private_key := None; dry_run := true;
     account := None; exchange := None; info := None |}.

Definition live : TradeExecutor :=
  {| api_url := "https://api.hyperliquid.xyz"; wallet_address := None;
     private_key := Some "1"; dry_run := false;
     account := Some "0xAbC1"; exchange := Some tt; info := Some tt |}.

Definition filled_answer : value :=
  VDict [("status", VStr "ok");
         ("response",
          VDict [("type", VStr "order");
                 ("data", VDict [("statuses",
                    VList [VDict [("filled",
                       VDict [("oid", VInt 78); ("totalSz", VStr "0.1");
                              ("avgPx", VStr "60000.0")])]])])])].

End DemoOld.

Module DemoWS.
Import Py WebSocket.

(** A printer for values, standing in for [str] and [json.dumps]. *)
Fixpoint show (v : value) : string :=
  match v with
  | VNone => "None"
  | VBool b => if b then "True" else "False"
  | VInt z => str_of_int z
  | VFloat q => str_of_int (Qnum q) ++ "/" ++ str_of_int (Zpos (Qden q))
  | VStr s => "'" ++ s ++ "'"
  | VList l =>
      "[" ++ (fix items (l : list value) : string :=
                match l with
                | [] => EmptyString
                | x :: r => show x ++ ", " ++ items r
                end) l ++ "]"
  | VDict d =>
      "{" ++ (fix items (d : list (string * value)) : string :=
                match d with
                | [] => EmptyString
                | kv :: r => "'" ++ fst kv ++ "': " ++ show (snd kv) ++ ", " ++ items r
                end) d ++ "}"
  end.

(** The frames [json.loads] knows: each text below stands for the JSON
    document beside it; anything else does not parse. *)
Definition frames : list (string * value) :=
  [ ("trades ETH",   VDict [("channel", VStr "trades:ETH"); ("data", VList [])]);
    ("trades ETHFI", VDict [("channel", VStr "trades:ETHFI"); ("data", VList [])]);
    ("bare address", VDict [("channel", VStr "0xabc"); ("data", VList [])]);
    ("user",         VDict [("channel", VStr "user"); ("data", VDict [])]);
    ("mids",         VDict [("channel", VStr "allMids"); ("data", VDict [])]);
    ("pong",         VDict [("channel", VStr "pong")]);
    ("no channel",   VDict [("data", VInt 1)]);
    ("number",       VDict [("channel", VInt 5)]);
    ("array",        VList [VInt 1]) ].

#[local] Instance env : Env := {|
  json_loads := fun text => match assoc text frames with
                            | Some v => inl v
                            | None => inr "Expecting value: line 1 column 1 (char 0)"
                            end;
  json_dumps := show;
  str_value := fun v => match v with VStr s => s | _ => show v end;
  str_keys := fun ks => show (VList (map VStr ks));
  format_exc := fun e => "Traceback (most recent call last): " ++ str_of_exn e
|}.

(** Callbacks act on a list of notes: [note n] appends [n]; [faulty] raises. *)
Definition note (n : string) : Callback (list string) :=
  {| is_coroutine := true; call := fun _ h => ((h ++ [n])%list, None) |}.

Definition faulty : Callback (list string) :=
  {| is_coroutine := false; call := fun _ h => (h, Some (ValueError "boom")) |}.

(** A fresh client: every dial succeeds, connection [c] delivers [script c]. *)
Definition fresh (script0 : nat -> list string * bool) : State (list string) :=
  {| self := __init__ "wss://api.hyperliquid.xyz/ws";
     dial := fun _ => None; dials := O; script := script0;
     conns := []; wire := []; handler_state := []; called := [];
     clock := fun _ => 1700000000 # 1; ticks := O; slept := []; log := [] |}.

Definition silent : nat -> list string * bool := fun _ => ([], true).

(** The client after three subscriptions made before any connection. *)
Definition subscribed : State (list string) :=
  snd (bind (subscribe_trades "ETH" (Some (note "eth trade")))
         (fun _ => bind (subscribe_user "0xabc" (Some (note "user event")))
                     (fun _ => subscribe_all_mids (Some faulty)))
         (fresh silent)).

(** The same client once marked running. *)
Definition started : State (list string) :=
  with_self (set_is_running true) subscribed.

(** Connection 0 delivers one frame and drops; the later ones are silent. *)
Definition one_frame_then_drop : nat -> list string * bool :=
  fun c => match c with O => (["trades ETH"], true) | _ => ([], true) end.

(** The three subscription frames as they go on the wire. *)
Definition trades_frame : string :=
  json_dumps (VDict [("method", VStr "subscribe");
                     ("subscription", VDict [("type", VStr "trades");
                                             ("coin", VStr "ETH")])]).

Definition user_frame : string :=
  json_dumps (VDict [("method", VStr "subscribe");
                     ("subscription", VDict [("type", VStr "userEvents");
                                             ("user", VStr "0xabc")])]).

Definition mids_frame : string :=
  json_dumps (VDict [("method", VStr "subscribe");
                     ("subscription", VDict [("type", VStr "allMids")])]).

(** The subscribed client after a first [connect()]. *)
Definition connected : State (list string) := snd (connect subscribed).

(** The subscribed client, marked running, in a world whose first
    connection delivers one frame and drops. *)
Definition dropping : State (list string) :=
  snd (bind (subscribe_trades "ETH" (Some (note "eth trade")))
         (fun _ => bind (subscribe_user "0xabc" (Some (note "user event")))
                     (fun _ => bind (subscribe_all_mids (Some faulty))
                                 (fun _ => modify (with_self (set_is_running true)))))
         (fresh one_frame_then_drop)).

End DemoWS.

Module DemoBot.
Import Py Telegram.

#[local] Instance env : Env := {|
  upper := fun s => s;
  strip := fun s => s;
  format_4f := fun q => str_of_int (int_of_real q) ++ ".0000";
  format_money := fun q => str_of_int (int_of_real q) ++ ".00";
  str_value := fun v => match v with VStr s => s | _ => "?" end;
  now_text := fun _ => "12:00:00 UTC"
|}.

(** The application is a counter of control requests; every callback is
    installed and bumps it. *)
Definition bot : TelegramBot nat :=
  {| bot_token := "token"; allowed_chat_id := "42";
     on_stop_requested := Some (fun _ n => (S n, None));
     on_pause_requested := Some (fun n => (S n, None));
     on_resume_requested := Some (fun n => (S n, None));
     get_status_callback := Some (fun n => (S n, inl "running"));
     get_positions_callback := Some (fun n => (S n, inl "no positions"));
     get_orders_callback := Some (fun n => (S n, inl (VList [])));
     get_pnl_callback := Some (fun n => (S n, inl "0")) |}.

Definition world : World nat :=
  {| api_raises := fun _ => None; api_calls := []; app_state := O;
     invoked := []; ticks := O; log := [] |}.

(** A [/pause] from chat 7, and the "Close Positions" button pressed there. *)
Definition stranger : Update := {| effective_chat_id := 7; query_data := None |}.

Definition stranger_button : Update :=
  {| effective_chat_id := 7; query_data := Some "stop_close" |}.

Definition owner : Update := {| effective_chat_id := 42; query_data := None |}.

End DemoBot.

Module DemoOldMore.
Import Py ExecutorOld.

(** An SDK whose leverage update raises and whose other calls answer [v]. *)
Definition leverage_refused (v : value) : World :=
  {| clock := Demo.close_readings; ticks := O;
     sdk := fun _ c => match c with
                       | update_leverage _ _ _ => inr "leverage not allowed"
                       | _ => inl v
                       end;
     sdk_calls := []; log := [] |}.

Definition resting_answer : value :=
  VDict [("status", VStr "ok");
         ("response",
          VDict [("type", VStr "order");
                 ("data", VDict [("statuses",
                    VList [VDict [("resting", VDict [("oid", VInt 77)])]])])])].

Definition error_answer : value :=
  VDict [("status", VStr "ok");
         ("response",
          VDict [("type", VStr "order");
                 ("data", VDict [("statuses",
                    VList [VDict [("error", VStr "Insufficient margin")]])])])].

Definition refused_answer : value :=
  VDict [("status", VStr "err"); ("response", VStr "Invalid signature")].

(** A live executor whose SDK objects are missing. *)
Definition unready : @TradeExecutor DemoOld.env :=
  {| api_url := "https://api.hyperliquid.xyz"; wallet_address := None;
     private_key := Some "1"; dry_run := false;
     account := None; exchange := None; info := None |}.

End DemoOldMore.

Module DemoWSMore.
Import Py WebSocket.

(** The subscribed client, marked running, in a world where no dial gets
    through. *)
Definition offline : State (list string) :=
  {| self := set_is_running true (self DemoWS.subscribed);
     dial := fun _ => Some "Connection refused"; dials := O;
     script := DemoWS.silent;
     conns := []; wire := []; handler_state := []; called := [];
     clock := fun _ => 1700000000 # 1; ticks := O; slept := []; log := [] |}.

(** The frames of [DemoWS] and one more, whose channel is the empty text. *)
Definition frames : list (string * value) :=
  ("empty channel", VDict [("channel", VStr EmptyString); ("data", VList [])])
    :: DemoWS.frames.

#[local] Instance env : Env := {|
  json_loads := fun text => match assoc text frames with
                            | Some v => inl v
                            | None => inr "Expecting value: line 1 column 1 (char 0)"
                            end;
  json_dumps := DemoWS.show;
  str_value := fun v => match v with VStr s => s | _ => DemoWS.show v end;
  str_keys := fun ks => DemoWS.show (VList (map VStr ks));
  format_exc := fun e => "Traceback (most recent call last): " ++ str_of_exn e
|}.

(** The callback for the trades of ETH is cancelled while it runs, which
    raises [asyncio.CancelledError] in it; no other callback raises outside
    [Exception]. *)
Definition cancelled (k : string) (_ : WebSocketUpdate) (_ : list string)
  : option string :=
  if (k =? "trades:ETH")%string then Some "CancelledError" else None.

End DemoWSMore.

Module DemoBotMore.
Import Py Telegram.

(** A bot whose callbacks all raise, and one with no callback installed. *)
Definition failing : TelegramBot nat :=
  {| bot_token := "token"; allowed_chat_id := "42";
     on_stop_requested := Some (fun _ n => (n, Some (ValueError "exchange down")));
     on_pause_requested := Some (fun n => (n, Some (ValueError "exchange down")));
     on_resume_requested := Some (fun n => (n, Some (ValueError "exchange down")));
     get_status_callback := Some (fun n => (n, inr (ValueError "exchange down")));
     get_positions_callback := Some (fun n => (n, inr (ValueError "exchange down")));
     get_orders_callback := Some (fun n => (n, inr (ValueError "exchange down")));
     get_pnl_callback := Some (fun n => (n, inr (ValueError "exchange down"))) |}.

Definition bare : TelegramBot nat :=
  {| bot_token := "token"; allowed_chat_id := "42";
     on_stop_requested := None; on_pause_requested := None;
     on_resume_requested := None; get_status_callback := None;
     get_positions_callback := None; get_orders_callback := None;
     get_pnl_callback := None |}.

(** The buttons of the confirmation keyboard, pressed in the allowed chat. *)
Definition keep_button : Update :=
  {| effective_chat_id := 42; query_data := Some "stop_keep" |}.

Definition cancel_button : Update :=
  {| effective_chat_id := 42; query_data := Some "stop_cancel" |}.

(** A world where the first Bot API call times out and the later ones go
    through. *)
Definition offline : World nat :=
  {| api_raises := fun n => match n with O => Some "timed out" | _ => None end;
     api_calls := []; app_state := O; invoked := []; ticks := O; log := [] |}.

(** A bot whose open orders are a complete order followed by one that
    has no [symbol]. *)
Definition complete_order : value :=
  VDict [("symbol", VStr "ETH"); ("side", VStr "buy");
         ("size", VFloat (3 # 2)); ("price", VInt 2000)].

Definition nameless_order : value :=
  VDict [("side", VStr "sell"); ("size", VInt 1); ("price", VInt 10)].

Definition listing : TelegramBot nat :=
  {| bot_token := "token"; allowed_chat_id := "42";
     on_stop_requested := None; on_pause_requested := None;
     on_resume_requested := None; get_status_callback := None;
     get_positions_callback := None;
     get_orders_callback :=
       Some (fun n => (n, inl (VList [complete_order; nameless_order])));
     get_pnl_callback := None |}.

End DemoBotMore.

Module DemoNotify.
Import Py Notifications.

(** A stand-in for the formatting of Python and for [telegram.Bot]: the
    empty token is refused; numbers are shown by a fixed text. *)
#[local] Instance env : Env := {|
  Bot := string;
  new_bot := fun token => if (token =? EmptyString)%string
                          then inr "You must pass the token you received"
                          else inl token;
  upper := fun s => s;
  title := fun s => s;
  strip := fun s => s;
  format_4f := fun _ => "0.1000";
  format_money := fun _ => "6,000.00";
  format_signed_2f := fun _ => "+1.50";
  str_float := fun _ => "3.0";
  strftime := fun _ _ => "12:00:00 UTC"
|}.

Definition service : NotificationService :=
  {| bot := "token"; chat_id := "42"; enabled := true |}.

(** The Bot API takes every call; it raises on every call. *)
Definition world : World :=
  {| api_raises := fun _ => None; api_calls := []; ticks := O; log := [] |}.

Definition down : World :=
  {| api_raises := fun _ => Some "Timed out"; api_calls := []; ticks := O; log := [] |}.

End DemoNotify.

Module DemoModels.
Import Py Executor Models.

(** A long position entered at 100 and now at 110; one whose entry price
    is a negative zero; an account with no balance. *)
Definition long_position : Position.t :=
  {| Position.symbol := "BTC"; Position.side := LONG; Position.size := 2%float;
     Position.entry_price := 100%float; Position.current_price := 110%float;
     Position.leverage := 3%float; Position.unrealized_pnl := 20%float;
     Position.liquidation_price := None; Position.margin := None;
     Position.timestamp := None |}.

Definition unpriced_position : Position.t :=
  {| Position.symbol := "BTC"; Position.side := SHORT; Position.size := 2%float;
     Position.entry_price := (-0)%float; Position.current_price := 110%float;
     Position.leverage := 3%float; Position.unrealized_pnl := 0%float;
     Position.liquidation_price := None; Position.margin := None;
     Position.timestamp := None |}.

Definition empty_account : UserState.t :=
  {| UserState.address := "0xabc1"; UserState.positions := [];
     UserState.orders := []; UserState.balance := 0%float;
     UserState.margin_used := 5%float; UserState.unrealized_pnl := 0%float;
     UserState.timestamp := 1700000000 # 1 |}.

End DemoModels.

(* ===================================================================== *)
(** * Facts about the built-ins                                           *)
(* ===================================================================== *)
Section StringFacts.
Import Py.

Lemma prefix_nil (s : string) : String.prefix EmptyString s = true.
Proof. destruct s; reflexivity. Qed.

Lemma prefix_cons (c d : ascii) (a b : string) :
  String.prefix (String c a) (String d b) = (Ascii.eqb c d && String.prefix a b)%bool.
Proof.
  simpl. destruct (ascii_dec c d) as [->|N].
  - now rewrite Ascii.eqb_refl.
  - apply Ascii.eqb_neq in N. now rewrite N.
Qed.

Lemma prefix_app (a r : string) : String.prefix a (a ++ r) = true.
Proof.
  induction a as [|c a IH]; [apply prefix_nil|].
  simpl append. rewrite prefix_cons, Ascii.eqb_refl. exact IH.
Qed.

Lemma prefix_split (a b : string) :
  String.prefix a b = true -> exists r, b = a ++ r.
Proof.
  revert b. induction a as [|c a IH]; intros b H.
  - now exists b.
  - destruct b as [|d b]; [discriminate|].
    rewrite prefix_cons in H. apply andb_prop in H as [Hc Hp].
    apply Ascii.eqb_eq in Hc. subst d.
    destruct (IH _ Hp) as [r ->]. now exists r.
Qed.

(** [a in b] holds exactly when [b] is some text, then [a], then some text. *)
Lemma str_in_spec (a b : string) :
  str_in a b = true <-> exists l r, b = l ++ a ++ r.
Proof.
  split.
  - induction b as [|d b IH]; cbn [str_in]; intros H.
    + destruct a; [|discriminate]. now exists EmptyString, EmptyString.
    + destruct (String.prefix a (String d b)) eqn:P.
      * apply prefix_split in P as [r ->]. now exists EmptyString, r.
      * destruct (IH H) as (l & r & ->). now exists (String d l), r.
  - intros (l & r & ->). induction l as [|c l IH].
    + simpl append. destruct (a ++ r) eqn:E; cbn [str_in].
      * destruct a; [reflexivity|discriminate].
      * rewrite <- E, prefix_app. reflexivity.
    + simpl append. cbn [str_in].
      destruct (String.prefix a (String c (l ++ a ++ r))); [reflexivity|exact IH].
Qed.

Lemma str_in_refl (a : string) : str_in a a = true.
Proof.
  apply str_in_spec. exists EmptyString, EmptyString. simpl.
  induction a as [|c a IH]; simpl; congruence.
Qed.

Lemma append_nil_r (a : string) : a ++ EmptyString = a.
Proof. induction a; simpl; congruence. Qed.

Lemma append_assoc (a b c : string) : (a ++ b) ++ c = a ++ b ++ c.
Proof. induction a; simpl; congruence. Qed.

(** The decimal text of an integer has no underscore. *)
Lemma digits_no_underscore (d : Decimal.uint) :
  str_in "_" (NilEmpty.string_of_uint d) = false.
Proof. induction d; simpl; trivial. Qed.

Lemma str_of_int_no_underscore (z : Z) : str_in "_" (str_of_int z) = false.
Proof.
  unfold str_of_int, NilZero.string_of_int, NilZero.string_of_uint.
  destruct (Z.to_int z) as [d|d]; destruct d; simpl; trivial;
    apply digits_no_underscore.
Qed.

(** [str] is one-to-one on integers. *)
Lemma str_of_int_inj (a b : Z) : str_of_int a = str_of_int b -> a = b.
Proof.
  unfold str_of_int. intros H.
  assert (P : forall z, NilZero.int_of_string (NilZero.string_of_int (Z.to_int z))
                        = Some (Z.to_int z)).
  { intros z. apply NilZero.isi; destruct z; simpl; try discriminate;
      intros [= E]; now apply (DecimalPos.Unsigned.to_uint_nonnil p). }
  apply DecimalZ.to_int_inj.
  assert (E : Some (Z.to_int a) = Some (Z.to_int b)) by (rewrite <- !P; now rewrite H).
  now injection E.
Qed.

(** Text, an underscore, digits: the last underscore tells where the
    digits start. *)
Lemma underscore_split (s1 s2 d1 d2 : string) :
  str_in "_" d1 = false -> str_in "_" d2 = false ->
  s1 ++ "_" ++ d1 = s2 ++ "_" ++ d2 -> s1 = s2 /\ d1 = d2.
Proof.
  intros H1 H2. revert s2. induction s1 as [|c s1 IH]; intros [|c2 s2] E.
  - simpl in E. injection E as E. now split.
  - simpl in E. injection E as Ec E. subst d1.
    assert (T : str_in "_" (s2 ++ "_" ++ d2) = true)
      by (apply str_in_spec; now exists s2, d2).
    destruct (eq_true_false_abs _ T H1).
  - simpl in E. injection E as Ec E. subst d2.
    assert (T : str_in "_" (s1 ++ "_" ++ d1) = true)
      by (apply str_in_spec; now exists s1, d1).
    destruct (eq_true_false_abs _ T H2).
  - simpl in E. injection E as Ec E. subst c2.
    destruct (IH _ E) as [-> ->]. now split.
Qed.

End StringFacts.

(* ===================================================================== *)
(** * Facts about computations                                            *)
(* ===================================================================== *)
Section MonadFacts.
Import Py.
Context {S : Type}.

Lemma preserves_ret {A} (P : S -> Prop) (a : A) : preserves P (ret a).
Proof. intros s Hs. exact Hs. Qed.

Lemma preserves_raise {A} (P : S -> Prop) (e : exn) : preserves P (@raise S A e).
Proof. intros s Hs. exact Hs. Qed.

Lemma preserves_lift {A} (P : S -> Prop) (r : A + exn) : preserves P (lift r).
Proof. destruct r; [apply preserves_ret|apply preserves_raise]. Qed.

Lemma preserves_lift_lib {A} (P : S -> Prop) (r : A + string) :
  preserves P (lift_lib r).
Proof. destruct r; [apply preserves_ret|apply preserves_raise]. Qed.

Lemma preserves_get_state (P : S -> Prop) : preserves P get_state.
Proof. intros s Hs. exact Hs. Qed.

Lemma preserves_modify (P : S -> Prop) (f : S -> S) :
  (forall s, P s -> P (f s)) -> preserves P (modify f).
Proof. intros Hf s Hs. apply Hf, Hs. Qed.

Lemma preserves_bind {A B} (P : S -> Prop) (c : M S A) (k : A -> M S B) :
  preserves P c -> (forall a, preserves P (k a)) -> preserves P (bind c k).
Proof.
  intros Hc Hk s Hs. unfold bind. specialize (Hc s Hs).
  destruct (c s) as [[a|e] s']; [apply Hk|]; exact Hc.
Qed.

(** The continuation may look at the state it is started in. *)
Lemma preserves_bind_state {B} (P : S -> Prop) (k : S -> M S B) :
  (forall s, P s -> preserves P (k s)) -> preserves P (bind get_state k).
Proof. intros Hk s Hs. unfold bind, get_state. now apply Hk. Qed.

Lemma preserves_try_except {A} (P : S -> Prop) (c : M S A) (h : exn -> M S A) :
  preserves P c -> (forall e, preserves P (h e)) -> preserves P (try_except c h).
Proof.
  intros Hc Hh s Hs. unfold try_except. specialize (Hc s Hs).
  destruct (c s) as [[a|e] s']; [|apply Hh]; exact Hc.
Qed.

Lemma bind_inl {A B} (c : M S A) (k : A -> M S B) (s s1 : S) (a : A) :
  c s = (inl a, s1) -> bind c k s = k a s1.
Proof. unfold bind. now intros ->. Qed.

Lemma bind_inr {A B} (c : M S A) (k : A -> M S B) (s s1 : S) (e : exn) :
  c s = (inr e, s1) -> bind c k s = (inr e, s1).
Proof. unfold bind. now intros ->. Qed.

Lemma never_raises_ret {A} (a : A) : never_raises (@ret S A a).
Proof. intros s. now exists a. Qed.

Lemma never_raises_modify (f : S -> S) : never_raises (modify f).
Proof. intros s. now exists tt. Qed.

Lemma never_raises_bind {A B} (c : M S A) (k : A -> M S B) :
  never_raises c -> (forall a, never_raises (k a)) -> never_raises (bind c k).
Proof.
  intros Hc Hk s. unfold bind. destruct (Hc s) as [a Ha].
  destruct (c s) as [[a'|e] s']; simpl in Ha; [|discriminate]. apply Hk.
Qed.

Lemma never_raises_try_except {A} (c : M S A) (h : exn -> M S A) :
  (forall e, never_raises (h e)) -> never_raises (try_except c h).
Proof.
  intros Hh s. unfold try_except.
  destruct (c s) as [[a|e] s']; [now exists a|apply Hh].
Qed.

End MonadFacts.

(* ===================================================================== *)
(** * Facts about the rounding of floats                                  *)
(* ===================================================================== *)
Section FloatFacts.
Import Py.

(** The nearest integer is the quotient rounded down, or the next one. *)
Lemma round_half_even_bounds (n d : Z) :
  0 < d -> n / d <= round_half_even n d <= n / d + 1.
Proof.
  intros Hd. unfold round_half_even.
  destruct ((2 * (n mod d)) <? d); [lia|].
  destruct (d <? (2 * (n mod d))); [lia|].
  destruct (Z.even (n / d)); lia.
Qed.

Lemma div_le_cross (n1 d1 n2 d2 : Z) :
  0 < d1 -> 0 < d2 -> n1 * d2 <= n2 * d1 -> n1 / d1 <= n2 / d2.
Proof.
  intros H1 H2 H.
  apply Z.div_le_lower_bound; [lia|].
  pose proof (Z.mul_div_le n1 d1 H1).
  nia.
Qed.

Lemma round_half_even_mono (n1 d1 n2 d2 : Z) :
  0 < d1 -> 0 < d2 -> n1 * d2 <= n2 * d1 ->
  round_half_even n1 d1 <= round_half_even n2 d2.
Proof.
  intros H1 H2 H.
  pose proof (div_le_cross n1 d1 n2 d2 H1 H2 H) as Hf.
  pose proof (round_half_even_bounds n1 d1 H1) as B1.
  pose proof (round_half_even_bounds n2 d2 H2) as B2.
  destruct (Z.eq_dec (n1 / d1) (n2 / d2)) as [E|NE]; [|lia].
  pose proof (Z.div_mod n1 d1 ltac:(lia)) as M1.
  pose proof (Z.div_mod n2 d2 ltac:(lia)) as M2.
  pose proof (Z.mod_pos_bound n1 d1 H1) as R1.
  pose proof (Z.mod_pos_bound n2 d2 H2) as R2.
  unfold round_half_even in *. rewrite <- E in *.
  set (f := n1 / d1) in *. set (r1 := n1 mod d1) in *. set (r2 := n2 mod d2) in *.
  assert (Hr : r1 * d2 <= r2 * d1) by nia.
  destruct ((2 * r1) <? d1) eqn:A1.
  - destruct ((2 * r2) <? d2); [lia|]. destruct (d2 <? (2 * r2)); [lia|].
    destruct (Z.even f); lia.
  - apply Z.ltb_ge in A1.
    assert (A2 : d2 <= 2 * r2) by nia.
    assert (A2' : ((2 * r2) <? d2) = false) by (apply Z.ltb_ge; lia).
    rewrite A2'.
    destruct (d1 <? (2 * r1)) eqn:C1.
    + apply Z.ltb_lt in C1.
      assert (C2 : (d2 <? (2 * r2)) = true) by (apply Z.ltb_lt; nia).
      rewrite C2. lia.
    + destruct (d2 <? (2 * r2)); [destruct (Z.even f); lia|].
      destruct (Z.even f); lia.
Qed.

Lemma binary64_units_nonneg (n d : Z) : 0 < n -> 0 < d -> 0 <= binary64_units n d.
Proof.
  intros Hn Hd. unfold binary64_units.
  set (s := Z.max 0 _).
  assert (0 < 2 ^ s) by (apply Z.pow_pos_nonneg; lia).
  pose proof (round_half_even_bounds (n * 2 ^ 1074) (d * 2 ^ s) ltac:(lia)) as B.
  assert (0 <= n * 2 ^ 1074 / (d * 2 ^ s)).
  { apply Z.div_pos; [|lia].
    assert (0 < 2 ^ 1074) by (apply Z.pow_pos_nonneg; lia). lia. }
  nia.
Qed.

Lemma binary64_units_mono (n1 d1 n2 d2 : Z) :
  0 < n1 -> 0 < d1 -> 0 < n2 -> 0 < d2 -> n1 * d2 <= n2 * d1 ->
  binary64_units n1 d1 <= binary64_units n2 d2.
Proof.
  intros Hn1 Hd1 Hn2 Hd2 H. unfold binary64_units.
  assert (HP : 0 < 2 ^ 1074) by (apply Z.pow_pos_nonneg; lia).
  set (P := 2 ^ 1074) in *.
  set (N1 := n1 * P). set (N2 := n2 * P).
  assert (HN : N1 * d2 <= N2 * d1) by (unfold N1, N2; nia).
  assert (HN1 : 0 < N1) by (unfold N1; nia).
  assert (HN2 : 0 < N2) by (unfold N2; nia).
  pose proof (div_le_cross N1 d1 N2 d2 Hd1 Hd2 HN) as HY.
  assert (HY1 : 0 <= N1 / d1) by (apply Z.div_pos; lia).
  set (Y1 := N1 / d1) in *. set (Y2 := N2 / d2) in *.
  pose proof (Z.log2_le_mono Y1 Y2 HY) as HL.
  set (s1 := Z.max 0 (Z.log2 Y1 - 52)). set (s2 := Z.max 0 (Z.log2 Y2 - 52)).
  assert (Hs : s1 <= s2) by (unfold s1, s2; lia).
  assert (Hs1 : 0 <= s1) by (unfold s1; lia).
  assert (Hp1 : 0 < 2 ^ s1) by (apply Z.pow_pos_nonneg; lia).
  assert (Hp2 : 0 < 2 ^ s2) by (apply Z.pow_pos_nonneg; lia).
  destruct (Z.eq_dec s1 s2) as [E|NE].
  - rewrite <- E. apply Z.mul_le_mono_nonneg_r; [lia|].
    apply round_half_even_mono; nia.
  - assert (Hlt : s1 + 1 <= s2) by lia.
    assert (Hs2 : s2 = Z.log2 Y2 - 52) by (unfold s2 in *; lia).
    assert (HY2pos : 0 < Y2).
    { destruct (Z.eq_dec Y2 0) as [Z0|]; [|lia].
      rewrite Z0 in Hs2. cbn in Hs2. lia. }
    pose proof (Z.log2_spec Y2 HY2pos) as [Lo2 _].
    assert (Hl2 : Z.log2 Y2 = s2 + 52) by lia. rewrite Hl2 in Lo2.
    pose proof (Z.mul_div_le N2 d2 Hd2) as Hfl2. fold Y2 in Hfl2.
    pose proof (round_half_even_bounds N2 (d2 * 2 ^ s2) ltac:(lia)) as [B2 _].
    assert (F2 : 2 ^ 52 <= N2 / (d2 * 2 ^ s2)).
    { apply Z.div_le_lower_bound; [lia|].
      rewrite Z.pow_add_r in Lo2 by lia. nia. }
    assert (Up1 : Y1 < 2 ^ (s1 + 53)).
    { destruct (Z.eq_dec Y1 0) as [Z0|NZ].
      - rewrite Z0. apply Z.pow_pos_nonneg; lia.
      - pose proof (Z.log2_spec Y1 ltac:(lia)) as [_ Hi].
        eapply Z.lt_le_trans; [exact Hi|].
        apply Z.pow_le_mono_r; [lia|]. unfold s1. lia. }
    pose proof (round_half_even_bounds N1 (d1 * 2 ^ s1) ltac:(lia)) as [_ B1].
    assert (F1 : N1 / (d1 * 2 ^ s1) < 2 ^ 53).
    { apply Z.div_lt_upper_bound; [lia|].
      assert (N1 < d1 * (Y1 + 1)).
      { pose proof (Z.div_mod N1 d1 ltac:(lia)).
        pose proof (Z.mod_pos_bound N1 d1 Hd1). fold Y1 in H0. nia. }
      rewrite Z.pow_add_r in Up1 by lia. nia. }
    assert (E2 : 2 ^ s2 = 2 ^ s1 * 2 ^ (s2 - s1)).
    { rewrite <- Z.pow_add_r by lia. f_equal. lia. }
    assert (G : 2 <= 2 ^ (s2 - s1)).
    { change 2 with (2 ^ 1) at 1. apply Z.pow_le_mono_r; lia. }
    assert (T52 : 2 ^ 53 = 2 * 2 ^ 52) by reflexivity.
    nia.
Qed.

(** Rounding to the nearest float keeps the order. *)
Lemma binary64_mono (x y : Q) : (x <= y)%Q -> (binary64 x <= binary64 y)%Q.
Proof.
  destruct x as [a b], y as [c d]. intros H.
  unfold Qle in H. cbn [Qnum Qden] in H. unfold binary64. cbn [Qnum Qden].
  destruct a as [|a|a], c as [|c|c]; try lia;
    rewrite ?Qred_correct; unfold Qle; cbn [Qnum Qden]; try lia.
  - pose proof (binary64_units_nonneg (Zpos c) (Zpos d) ltac:(lia) ltac:(lia)). lia.
  - pose proof (binary64_units_mono (Zpos a) (Zpos b) (Zpos c) (Zpos d)
                  ltac:(lia) ltac:(lia) ltac:(lia) ltac:(lia) H). nia.
  - pose proof (binary64_units_nonneg (Zpos a) (Zpos b) ltac:(lia) ltac:(lia)). lia.
  - pose proof (binary64_units_nonneg (Zpos a) (Zpos b) ltac:(lia) ltac:(lia)).
    pose proof (binary64_units_nonneg (Zpos c) (Zpos d) ltac:(lia) ltac:(lia)). nia.
  - pose proof (binary64_units_mono (Zpos c) (Zpos d) (Zpos a) (Zpos b)
                  ltac:(lia) ltac:(lia) ltac:(lia) ltac:(lia) ltac:(lia)). nia.
Qed.

(** The product of floats keeps the order in its first factor, for a
    factor that is not negative. *)
Lemma float_mul_mono (a b c : Q) :
  (0 <= c)%Q -> (a <= b)%Q -> (float_mul a c <= float_mul b c)%Q.
Proof.
  intros Hc H. unfold float_mul. apply binary64_mono.
  now apply Qmult_le_compat_r.
Qed.

End FloatFacts.

(* ===================================================================== *)
(** * Properties of the SDK-based executor                                *)
(* ===================================================================== *)
Section OldExecutorFacts.
Import Py ExecutorOld.
Local Open Scope exec_scope.
Context {env : Env}.

(** Live mode without a private key is refused by the constructor; with a
    key the refusal is not raised. *)
Lemma old_init_needs_signing_key (url : string) (wa pk : option string) (w : World) :
  (truthy_str pk = false ->
   fst (__init__ url wa pk false w)
   = inr (ValueError "Private key required for live trading")) /\
  (truthy_str pk = true ->
   fst (__init__ url wa pk false w)
   <> inr (ValueError "Private key required for live trading")).
Proof.
  split; intros Hpk; unfold __init__; rewrite Hpk; cbn [andb negb].
  - reflexivity.
  - unfold bind at 1, try_except.
    unfold bind at 1, lift_lib.
    destruct (from_key (fmt_opt pk)) as [acct|m]; [|cbn; discriminate].
    unfold bind at 1, ret at 1.
    destruct (new_exchange acct url) as [ex|m]; [|cbn; discriminate].
    unfold bind at 1, ret at 1.
    destruct (new_info url) as [inf|m]; cbn; discriminate.
Qed.

(** In dry-run mode closing a position returns a confirmation that names
    the side opposite to the position's, and calls nothing in the SDK. *)
Lemma old_close_position_dry_run (self : TradeExecutor) (symbol side : string)
      (size : option Q) (w : World) :
  dry_run self = true ->
  exists w',
    close_position self symbol side size w
    = (inl (VDict [("success", VBool true);
                   ("symbol", VStr symbol);
                   ("side", VStr (if (side =? "SHORT")%string then "LONG" else "SHORT"));
                   ("size", match size with
                            | Some q => if Qeq_bool q 0 then VInt 0 else VFloat q
                            | None => VInt 0
                            end);
                   ("type", VStr "market_close");
                   ("simulated", VBool true)]), w') /\
    sdk_calls w' = sdk_calls w.
Proof.
  intros Hdry. unfold close_position, doing. rewrite Hdry.
  unfold try_except, bind, logger, modify, ret. cbn -[append].
  eexists. split; reflexivity.
Qed.

(** Live, closing a position is one call of the SDK's [market_close], for
    the symbol and size given, with 3% slippage; the side is left to the
    SDK. *)
Lemma old_close_position_live (self : TradeExecutor) (symbol side : string)
      (size : option Q) (w : World) :
  dry_run self = false -> sdk_ready self = true ->
  sdk_calls (snd (close_position self symbol side size w))
  = (sdk_calls w ++ [market_close symbol size (3 # 100)])%list.
Proof.
  intros Hlive Hready. unfold close_position, doing. rewrite Hlive, Hready.
  cbn [negb]. unfold try_except.
  unfold bind at 1, logger at 1, modify at 1.
  unfold bind at 1, call_sdk at 1. cbn [sdk sdk_calls].
  set (P := fun x : World =>
              sdk_calls x = (sdk_calls w ++ [market_close symbol size (3 # 100)])%list).
  assert (Plog : forall l msg, preserves P (logger l msg))
    by (intros l msg x Hx; exact Hx).
  destruct (sdk w (List.length (sdk_calls w)) (market_close symbol size (3 # 100)))
    as [result|msg].
  - match goal with
    | |- sdk_calls (snd (let (r, w') := ?X in _)) = _ => assert (K : P (snd X))
    end.
    { apply preserves_bind; [apply preserves_lift|intros st| reflexivity].
      destruct (eq_str st "ok").
      - apply preserves_bind; [apply Plog|intros _].
        apply preserves_bind; [apply Plog|intros _].
        apply preserves_bind; [apply preserves_lift|intros statuses].
        destruct (truthy statuses); [|apply preserves_ret].
        apply preserves_bind; [apply preserves_lift|intros status].
        apply preserves_bind; [apply preserves_lift|intros [|]].
        + repeat (apply preserves_bind; [apply preserves_lift|intros ?]).
          apply preserves_ret.
        + apply preserves_bind; [apply preserves_lift|intros [|]];
            [|apply preserves_ret].
          apply preserves_bind; [apply preserves_lift|intros err].
          apply preserves_bind; [apply Plog|intros _; apply preserves_ret].
      - apply preserves_bind; [apply Plog|intros _; apply preserves_ret]. }
    match goal with
    | |- sdk_calls (snd (let (r, w') := ?X in _)) = _ => destruct X as [[a|e] w2]
    end; exact K.
  - reflexivity.
Qed.

(** What a live market order makes of the SDK's answer: a [filled] first
    entry is returned with its order id, total size and average price; an
    [error] first entry, or a status other than ok, gives [None]. *)
Lemma old_market_order_parses (self : TradeExecutor) (symbol side : string)
      (size : Q) (leverage : Z) (reduce_only : bool) (w : World) (result : value) :
  dry_run self = false -> sdk_ready self = true ->
  (forall n is_buy, sdk w n (market_open symbol is_buy size (3 # 100)) = inl result) ->
  forall st, get result "status" = inl st ->
  (eq_str st "ok" = false ->
   fst (execute_market_order self symbol side size leverage reduce_only w) = inl VNone) /\
  (eq_str st "ok" = true ->
   forall d rest,
     statuses_of result = inl (VList (VDict d :: rest)) ->
     (forall filled,
         assoc "filled" d = Some (VDict filled) ->
         fst (execute_market_order self symbol side size leverage reduce_only w)
         = inl (VDict [("success", VBool true);
                       ("order_id", match assoc "oid" filled with
                                    | Some x => x | None => VNone end);
                       ("symbol", VStr symbol); ("side", VStr side);
                       ("size", match assoc "totalSz" filled with
                                | Some x => x | None => VNone end);
                       ("price", match assoc "avgPx" filled with
                                 | Some x => x | None => VNone end);
                       ("type", VStr "market")])) /\
     (forall err,
         assoc "filled" d = None -> assoc "error" d = Some err ->
         fst (execute_market_order self symbol side size leverage reduce_only w)
         = inl VNone)).
Proof.
  intros Hlive Hready Hans st Hst.
  assert (Pre : exists w1,
             execute_market_order self symbol side size leverage reduce_only w
             = try_except
                 (st0 <- lift (get result "status") ;;
                  if eq_str st0 "ok" then
                    logger SUCCESS ("✅ Market order executed successfully for " ++ symbol) ;;;
                    logger DEBUG ("Response: " ++ json_dumps result) ;;;
                    statuses <- lift (statuses_of result) ;;
                    if truthy statuses then
                      status <- lift (item0 statuses) ;;
                      has_filled <- lift (str_in_value "filled" status) ;;
                      if (has_filled : bool) then
                        filled <- lift (item status "filled") ;;
                        oid <- lift (get filled "oid") ;;
                        total <- lift (get filled "totalSz") ;;
                        avg <- lift (get filled "avgPx") ;;
                        ret (VDict [("success", VBool true); ("order_id", oid);
                                    ("symbol", VStr symbol); ("side", VStr side);
                                    ("size", total); ("price", avg);
                                    ("type", VStr "market")])
                      else
                        has_error <- lift (str_in_value "error" status) ;;
                        if (has_error : bool) then
                          err <- lift (item status "error") ;;
                          logger ERROR ("❌ Order error: " ++ str_value err) ;;;
                          ret VNone
                        else ret VNone
                    else ret VNone
                  else
                    logger ERROR ("❌ Order failed: " ++ str_value result) ;;;
                    ret VNone)
                 (fun e =>
                    logger ERROR ("❌ Market order execution failed: " ++ str_of_exn e) ;;;
                    logger ERROR (format_exc e) ;;;
                    ret VNone) w1).
  { unfold execute_market_order, doing. rewrite Hlive, Hready. cbn [negb].
    unfold try_except at 1.
    unfold bind at 1, logger at 1, modify at 1.
    unfold bind at 1, set_leverage, try_except at 1, bind at 1, call_sdk at 1.
    destruct (sdk _ _ (update_leverage leverage symbol true)) as [lr|msg];
      unfold logger at 1, modify at 1;
      unfold bind at 1, call_sdk at 1; cbn [sdk sdk_calls]; rewrite Hans;
      eexists; reflexivity. }
  destruct Pre as [w1 ->].
  unfold try_except, bind, lift, logger, modify, ret. rewrite Hst. split.
  - intros Hno. rewrite Hno. reflexivity.
  - intros Hok d rest Hstat. rewrite Hok, Hstat. cbn [truthy item0 str_in_value].
    split.
    + intros filled Hf. rewrite Hf. cbn [item]. rewrite Hf.
      unfold get, get_default. reflexivity.
    + intros err Hnf Herr. rewrite Hnf, Herr. cbn [item]. rewrite Herr.
      reflexivity.
Qed.

End OldExecutorFacts.

(* ===================================================================== *)
(** * Properties of the executor                                          *)
(* ===================================================================== *)
Section ExecutorFacts.
Import Py Executor.
Local Open Scope exec_scope.
Context {env : Env}.

(** [int()] of a real never decreases when the real grows. *)
Lemma int_of_real_mono (p q : Q) :
  (p <= q)%Q -> int_of_real p <= int_of_real q.
Proof.
  unfold Qle, int_of_real. destruct p as [a b], q as [c d]; simpl. intros H.
  rewrite <- (Z.quot_mul_cancel_r a (Zpos b) (Zpos d)) by lia.
  rewrite <- (Z.quot_mul_cancel_r c (Zpos d) (Zpos b)) by lia.
  rewrite (Z.mul_comm (Zpos d) (Zpos b)).
  apply Z.quot_le_mono; lia.
Qed.

(** A signing call that returns has read the clock once and used that
    reading, times 1000 as a float and truncated, as the nonce. *)
Lemma sign_action_nonce (self : TradeExecutor) (act : Action) (w w' : World)
      (sa : SignedAction) :
  _sign_action self act w = (inl sa, w') ->
  nonce sa = int_of_real (float_mul (clock w (ticks w)) 1000) /\ action sa = act.
Proof.
  unfold _sign_action. destruct (account self) as [acct|]; [|discriminate].
  unfold bind, time_time, lift_lib, lift, ret, raise.
  destruct (sign_typed_data _ _ _ _) as [m|]; [|discriminate].
  destruct (to_bytes32_hex (msg_r m)); [|discriminate].
  destruct (to_bytes32_hex (msg_s m)); [|discriminate].
  intros [= <- _]. split; reflexivity.
Qed.

End ExecutorFacts.

(** C1, as the code has it: the nonce of a signed action is
    [int(time.time() * 1000)], the clock reading of that call times 1000,
    multiplied as floats and truncated; there is no bump and no record of
    the last nonce.  For two signing calls of one executor, the later one
    reading a clock that has not gone backwards, the second nonce is greater
    than or equal to the first; it is not bumped past it. *)
Theorem C1_nonce_is_clock_milliseconds
        (env : Executor.Env) (self : Executor.TradeExecutor)
        (act1 act2 : Executor.Action) (w w1 w1' w2 : Executor.World)
        (sa1 sa2 : Executor.SignedAction) :
  Executor._sign_action self act1 w = (inl sa1, w1) ->
  Executor._sign_action self act2 w1' = (inl sa2, w2) ->
  (Executor.clock w (Executor.ticks w) <= Executor.clock w1' (Executor.ticks w1'))%Q ->
  Executor.nonce sa1
  = Py.int_of_real (Py.float_mul (Executor.clock w (Executor.ticks w)) 1000) /\
  Executor.nonce sa2
  = Py.int_of_real (Py.float_mul (Executor.clock w1' (Executor.ticks w1')) 1000) /\
  Executor.nonce sa1 <= Executor.nonce sa2.
Proof.
  intros H1 H2 Hle.
  apply sign_action_nonce in H1 as [N1 _].
  apply sign_action_nonce in H2 as [N2 _].
  repeat split; trivial.
  rewrite N1, N2. apply int_of_real_mono.
  apply float_mul_mono; [discriminate | exact Hle].
Qed.

Lemma C1_nonce_is_clock_milliseconds_witness :
  Executor.nonce (Demo.signed_at 1700000000123)
  = Py.int_of_real (Py.float_mul (Demo.close_readings 0) 1000) /\
  Executor.nonce (Demo.signed_at 1700000000123)
  = Py.int_of_real (Py.float_mul (Demo.close_readings 1) 1000) /\
  Executor.nonce (Demo.signed_at 1700000000123)
  <= Executor.nonce (Demo.signed_at 1700000000123).
Proof.
  apply (C1_nonce_is_clock_milliseconds Demo.env Demo.live Demo.cancel77 Demo.cancel77
           Demo.w0 (snd Demo.first_signing) (snd Demo.first_signing)
           (snd Demo.second_signing)).
  - vm_compute. reflexivity.
  - vm_compute. reflexivity.
  - vm_compute. discriminate.
Defined.

(** C1 as the specification words it fails: two signing calls in a row by
    one executor, the clock read at 1700000000.1232 s and 1700000000.1237 s,
    both carry the nonce 1700000000123. *)
Lemma C1_same_millisecond_same_nonce :
  exists sa1 w1 sa2 w2,
    Executor._sign_action Demo.live Demo.cancel77 Demo.w0 = (inl sa1, w1) /\
    Executor._sign_action Demo.live Demo.cancel77 w1 = (inl sa2, w2) /\
    Executor.nonce sa1 = 1700000000123 /\
    Executor.nonce sa2 = 1700000000123 /\
    ~ Executor.nonce sa1 < Executor.nonce sa2.
Proof.
  exists (Demo.signed_at 1700000000123), (snd Demo.first_signing),
         (Demo.signed_at 1700000000123), (snd Demo.second_signing).
  repeat split; try (vm_compute; reflexivity).
  simpl. lia.
Qed.

(** The product is the product of floats: at the reading that
    [1700000000.001] denotes, a little below that number, the product with
    1000 rounds to the float 1700000000001.0 and the nonce is
    1700000000001, where the exact product would truncate to
    1700000000000. *)
Example nonce_at_a_millisecond_boundary :
  exists sa w',
    Executor._sign_action Demo.live Demo.cancel77 Demo.w_boundary = (inl sa, w') /\
    Executor.nonce sa = 1700000000001 /\
    (Demo.boundary_reading < 1700000000001 # 1000)%Q /\
    Py.int_of_real (Demo.boundary_reading * 1000) = 1700000000000.
Proof.
  do 2 eexists. split; [vm_compute; reflexivity|].
  split; [reflexivity|]. split; vm_compute; reflexivity.
Qed.

Section ConstructorFacts.
Import Py Executor.
Context {env : Env}.

Lemma opt_str_eqb_eq (a b : option string) : opt_str_eqb a b = true -> a = b.
Proof.
  destruct a as [x|], b as [y|]; simpl; try discriminate; trivial.
  intros H. apply String.eqb_eq in H. now subst.
Qed.

(** What a constructor call that returns an object has established. *)
Lemma init_returns (wa pk : option string) (iu eu : string) (dr : bool)
      (w w' : World) (self : TradeExecutor) :
  __init__ wa pk iu eu dr w = (inl self, w') ->
  dry_run self = dr /\ private_key self = pk /\
  wallet_address self = (if truthy_str wa then option_map lower wa else None) /\
  (dr = false ->
   exists acct, from_key (fmt_opt pk) = inl acct /\ account self = Some acct /\
                wallet_address self = Some (lower (address acct))).
Proof.
  unfold __init__. destruct (truthy_str pk) eqn:Hpk, dr;
    cbn -[opt_str_eqb append];
    unfold try_except, bind, lift_lib, logger, raise, ret;
    cbn -[opt_str_eqb append].
  - intros [= <- _]. simpl. intuition discriminate.
  - destruct (from_key (fmt_opt pk)) as [acct|m]; cbn -[opt_str_eqb append];
      [|discriminate].
    destruct (opt_str_eqb (Some (lower (address acct))) _) eqn:E;
      cbn -[opt_str_eqb append]; [|discriminate].
    intros [= <- _]. simpl. repeat split; trivial.
    intros _. exists acct. repeat split; trivial.
    apply opt_str_eqb_eq in E. now rewrite <- E.
  - intros [= <- _]. simpl. intuition discriminate.
  - discriminate.
Qed.

(** Method calls leave the object as it was. *)
Lemma run_keeps_self (calls : list Call) (self : TradeExecutor) (w : World) :
  fst (run self calls w) = self.
Proof.
  revert self w. induction calls as [|c rest IH]; intros self w; [reflexivity|].
  simpl. destruct c; simpl; apply IH.
Qed.

End ConstructorFacts.

(** C8: constructing the executor in live mode ([dry_run] false) with no
    private key (absent or empty) fails with the constructor's
    [ValueError("Cannot run in live mode without private key")], the error the
    specification calls ConfigurationError; with a key present, live
    construction does not raise that error.  The constructor of
    [executor_old.py] does the same with
    [ValueError("Private key required for live trading")]. *)
Theorem C8_live_mode_needs_signing_key
        (env : Executor.Env) (wa pk : option string) (iu eu : string)
        (w : Executor.World) :
  (Py.truthy_str pk = false ->
   Executor.__init__ wa pk iu eu false w
   = (inr (Py.ValueError "Cannot run in live mode without private key"), w)) /\
  (Py.truthy_str pk = true ->
   fst (Executor.__init__ wa pk iu eu false w)
   <> inr (Py.ValueError "Cannot run in live mode without private key")) /\
  (forall (old : ExecutorOld.Env) (url : string) (old_w : ExecutorOld.World),
      (Py.truthy_str pk = false ->
       fst (ExecutorOld.__init__ url wa pk false old_w)
       = inr (Py.ValueError "Private key required for live trading")) /\
      (Py.truthy_str pk = true ->
       fst (ExecutorOld.__init__ url wa pk false old_w)
       <> inr (Py.ValueError "Private key required for live trading"))).
Proof.
  split; [|split]; [| |intros old url old_w; apply old_init_needs_signing_key];
    intros Hpk; unfold Executor.__init__; rewrite Hpk;
    cbn -[Executor.opt_str_eqb]; [reflexivity|].
  unfold Py.try_except, Py.bind, Py.lift_lib, Executor.logger,
    Py.raise, Py.ret; cbn -[Executor.opt_str_eqb].
  destruct (Executor.from_key (Executor.fmt_opt pk)) as [acct|m];
    cbn -[Executor.opt_str_eqb]; [|discriminate].
  destruct (Executor.opt_str_eqb (Some (Py.lower (Executor.address acct))) _);
    cbn; discriminate.
Qed.

Lemma C8_live_mode_needs_signing_key_witness :
  Executor.__init__ (env := Demo.env) (Some "0xABC1") (Some EmptyString) "info" "exchange" false Demo.w0
  = (inr (Py.ValueError "Cannot run in live mode without private key"), Demo.w0) /\
  fst (Executor.__init__ (env := Demo.env) (Some "0xABC1") (Some "1") "info" "exchange" false Demo.w0)
  <> inr (Py.ValueError "Cannot run in live mode without private key") /\
  fst (ExecutorOld.__init__ (env := DemoOld.env) "https://api.hyperliquid.xyz"
         (Some "0xABC1") None false (DemoOld.world Py.VNone))
  = inr (Py.ValueError "Private key required for live trading").
Proof.
  split; [|split].
  - apply (proj1 (C8_live_mode_needs_signing_key Demo.env (Some "0xABC1") (Some EmptyString)
                    "info" "exchange" Demo.w0)).
    reflexivity.
  - apply (proj1 (proj2 (C8_live_mode_needs_signing_key Demo.env (Some "0xABC1")
                           (Some "1") "info" "exchange" Demo.w0))).
    reflexivity.
  - apply (proj1 (proj2 (proj2 (C8_live_mode_needs_signing_key Demo.env
                                  (Some "0xABC1") None "info" "exchange" Demo.w0))
                    DemoOld.env "https://api.hyperliquid.xyz"
                    (DemoOld.world Py.VNone))).
    reflexivity.
Defined.

(** C9: an executor that the constructor returned in live mode holds the
    account derived from its private key, and that account's address equals
    the configured wallet address up to letter case (the stored address is
    the configured one in lower case); after any sequence of method calls
    these fields are what the constructor left. *)
Theorem C9_live_executor_address_matches
        (env : Executor.Env) (wa pk : option string) (iu eu : string) (dr : bool)
        (w w' : Executor.World) (self : Executor.TradeExecutor)
        (calls : list Executor.Call) :
  Executor.__init__ wa pk iu eu dr w = (inl self, w') ->
  Executor.dry_run self = false ->
  let self' := fst (Executor.run self calls w') in
  exists acct cfg,
    wa = Some cfg /\
    Executor.from_key (Executor.fmt_opt pk) = inl acct /\
    Executor.private_key self' = pk /\
    Executor.account self' = Some acct /\
    Executor.wallet_address self' = Some (Py.lower cfg) /\
    Py.lower (Executor.address acct) = Py.lower cfg.
Proof.
  intros Hinit Hlive self'. subst self'. rewrite run_keeps_self.
  apply init_returns in Hinit as (Hdr & Hpk & Hwa & Hacct).
  rewrite Hlive in Hdr. symmetry in Hdr.
  destruct (Hacct Hdr) as (acct & Hkey & Ha & Hw).
  rewrite Hw in Hwa.
  destruct wa as [cfg|]; [|destruct (Py.truthy_str None); discriminate].
  destruct (Py.truthy_str (Some cfg)); [|discriminate].
  simpl in Hwa. injection Hwa as Hlow.
  exists acct, cfg. rewrite Hw, Hlow. repeat split; trivial.
Qed.

Lemma C9_live_executor_address_matches_witness :
  exists acct cfg,
    Some "0xABC1" = Some cfg /\
    Executor.from_key (Env := Demo.env) (Executor.fmt_opt (Some "1")) = inl acct /\
    Executor.private_key
      (fst (Executor.run Demo.live
              [Executor.Call_cancel_order "BTC" "77";
               Executor.Call_close_position "BTC" (1 # 10) Executor.SELL]
              (snd (Executor.__init__ (env := Demo.env) (Some "0xABC1") (Some "1")
                      "https://api.hyperliquid.xyz/info"
                      "https://api.hyperliquid.xyz/exchange" false Demo.w0))))
    = Some "1" /\
    Executor.account
      (fst (Executor.run Demo.live
              [Executor.Call_cancel_order "BTC" "77";
               Executor.Call_close_position "BTC" (1 # 10) Executor.SELL]
              (snd (Executor.__init__ (env := Demo.env) (Some "0xABC1") (Some "1")
                      "https://api.hyperliquid.xyz/info"
                      "https://api.hyperliquid.xyz/exchange" false Demo.w0))))
    = Some acct /\
    Executor.wallet_address
      (fst (Executor.run Demo.live
              [Executor.Call_cancel_order "BTC" "77";
               Executor.Call_close_position "BTC" (1 # 10) Executor.SELL]
              (snd (Executor.__init__ (env := Demo.env) (Some "0xABC1") (Some "1")
                      "https://api.hyperliquid.xyz/info"
                      "https://api.hyperliquid.xyz/exchange" false Demo.w0))))
    = Some (Py.lower cfg) /\
    Py.lower (Executor.address (Env := Demo.env) acct) = Py.lower cfg.
Proof.
  apply (C9_live_executor_address_matches Demo.env (Some "0xABC1") (Some "1")
           "https://api.hyperliquid.xyz/info" "https://api.hyperliquid.xyz/exchange"
           false Demo.w0 _ Demo.live).
  - vm_compute. reflexivity.
  - reflexivity.
Defined.

(** C4, as the code has it: in dry-run mode both placement methods return
    the text ["sim_" ++ symbol ++ "_" ++ seconds], where [seconds] is the
    clock reading of the call in whole seconds; no request is posted; the id
    is not empty; and two such ids are equal exactly when both the symbol
    and the whole second are the same, so calls for one symbol within one
    second share an id. *)
Theorem C4_dry_run_order_is_simulated
        (env : Executor.Env) (self : Executor.TradeExecutor) (symbol : string)
        (side : Executor.OrderSide) (size price : Q) (leverage : Z)
        (reduce_only post_only : bool) (w : Executor.World) :
  Executor.dry_run self = true ->
  let seconds := Py.int_of_real (Executor.clock w (Executor.ticks w)) in
  let order_id := "sim_" ++ symbol ++ "_" ++ Py.str_of_int seconds in
  (exists w',
      Executor.execute_market_order self symbol side size leverage reduce_only w
      = (inl (Py.VStr order_id), w') /\
      Executor.posts w' = Executor.posts w) /\
  (exists w',
      Executor.execute_limit_order self symbol side size price leverage
                                   reduce_only post_only w
      = (inl (Py.VStr order_id), w') /\
      Executor.posts w' = Executor.posts w) /\
  order_id <> EmptyString /\
  (forall (symbol2 : string) (seconds2 : Z),
      order_id = "sim_" ++ symbol2 ++ "_" ++ Py.str_of_int seconds2
      <-> symbol = symbol2 /\ seconds = seconds2).
Proof.
  intros Hdry seconds order_id.
  split; [|split; [|split]].
  - unfold Executor.execute_market_order. rewrite Hdry.
    unfold Py.bind, Executor._simulate_order, Py.bind,
      Executor.time_time, Executor.logger, Py.ret.
    cbn -[append]. eexists. split; reflexivity.
  - unfold Executor.execute_limit_order. rewrite Hdry.
    unfold Py.bind, Executor._simulate_order, Py.bind,
      Executor.time_time, Executor.logger, Py.ret.
    cbn -[append]. eexists. split; reflexivity.
  - discriminate.
  - intros symbol2 seconds2. subst order_id. split.
    + simpl. intros [= E].
      apply underscore_split in E; try apply str_of_int_no_underscore.
      destruct E as [Es Ed]. split; [exact Es|now apply str_of_int_inj].
    + intros [-> <-]. reflexivity.
Qed.

Lemma C4_dry_run_order_is_simulated_witness :
  (exists w',
      Executor.execute_market_order Demo.dry "BTC" Executor.BUY (1 # 10) 5 false Demo.w0
      = (inl (Py.VStr "sim_BTC_1700000000"), w') /\
      Executor.posts w' = []) /\
  (exists w',
      Executor.execute_limit_order Demo.dry "BTC" Executor.BUY (1 # 10) 60000 5
                                   false false Demo.w0
      = (inl (Py.VStr "sim_BTC_1700000000"), w') /\
      Executor.posts w' = []) /\
  "sim_BTC_1700000000" <> EmptyString /\
  (forall (symbol2 : string) (seconds2 : Z),
      "sim_BTC_1700000000" = "sim_" ++ symbol2 ++ "_" ++ Py.str_of_int seconds2
      <-> "BTC" = symbol2 /\ 1700000000 = seconds2).
Proof.
  apply (C4_dry_run_order_is_simulated Demo.env Demo.dry "BTC" Executor.BUY
           (1 # 10) 60000 5 false false Demo.w0).
  reflexivity.
Defined.

(** C4 as the specification words it fails on uniqueness: two dry-run market
    orders for BTC placed in a row, the clock read at 1700000000.1232 s and
    1700000000.1237 s, both return the id sim_BTC_1700000000. *)
Lemma C4_two_calls_one_second_same_id :
  exists w1 w2,
    Executor.execute_market_order Demo.dry "BTC" Executor.BUY (1 # 10) 5 false Demo.w0
    = (inl (Py.VStr "sim_BTC_1700000000"), w1) /\
    Executor.execute_market_order Demo.dry "BTC" Executor.SELL (2 # 10) 1 false w1
    = (inl (Py.VStr "sim_BTC_1700000000"), w2) /\
    Executor.ticks w1 = 1%nat /\ Executor.ticks w2 = 2%nat.
Proof.
  do 2 eexists. repeat split; vm_compute; reflexivity.
Qed.

(* --------------------------------------------------------------------- *)
(** ** Live placement: what is posted and what comes back                 *)
(* --------------------------------------------------------------------- *)

Ltac exec_unfold :=
  unfold Py.try_except, Py.bind, Py.lift, Py.lift_lib,
    Executor.logger, Py.raise, Py.ret, Executor.session_post,
    Executor.time_time.

Section LivePlacement.
Import Py Executor.
Context {env : Env}.

(** Signing reads the clock and touches nothing else. *)
Lemma sign_action_frame (self : TradeExecutor) (act : Action) (w w' : World)
      (r : SignedAction + exn) :
  _sign_action self act w = (r, w') ->
  posts w' = posts w /\ exchange w' = exchange w /\ log w' = log w /\
  clock w' = clock w /\
  match r with inl sa => action sa = act | inr _ => True end.
Proof.
  unfold _sign_action. destruct (account self) as [acct|].
  - exec_unfold.
    destruct (sign_typed_data _ _ _ _) as [m|]; cbn.
    + destruct (to_bytes32_hex (msg_r m)); cbn.
      * destruct (to_bytes32_hex (msg_s m)); cbn; intros [= <- <-]; cbn; tauto.
      * intros [= <- <-]; cbn; tauto.
    + intros [= <- <-]; cbn; tauto.
  - exec_unfold. intros [= <- <-]. tauto.
Qed.

(** With an account whose signature fits 32 bytes, signing returns. *)
Lemma sign_action_returns (self : TradeExecutor) (acct : LocalAccount)
      (m : SignedMessage) (act : Action) (w : World) :
  account self = Some acct ->
  sign_typed_data acct structured_domain structured_types structured_message = inl m ->
  0 <= msg_r m < 2 ^ 256 -> 0 <= msg_s m < 2 ^ 256 ->
  exists sa w', _sign_action self act w = (inl sa, w') /\ action sa = act /\
                posts w' = posts w /\ exchange w' = exchange w /\ log w' = log w.
Proof.
  intros Ha Hs Hr Hs'. unfold _sign_action. rewrite Ha. exec_unfold. rewrite Hs.
  unfold to_bytes32_hex.
  replace ((0 <=? msg_r m) && (msg_r m <? 2 ^ 256))%bool with true
    by (symmetry; apply andb_true_intro; split; [apply Z.leb_le|apply Z.ltb_lt]; lia).
  replace ((0 <=? msg_s m) && (msg_s m <? 2 ^ 256))%bool with true
    by (symmetry; apply andb_true_intro; split; [apply Z.leb_le|apply Z.ltb_lt]; lia).
  cbn -[hex_fixed append]. do 2 eexists. repeat split.
Qed.

(** The leverage update always returns, and leaves clock and exchange. *)
Lemma update_leverage_returns (self : TradeExecutor) (symbol : string)
      (leverage : Z) (is_cross : bool) (w : World) :
  exists b w', _update_leverage self symbol leverage is_cross w = (inl b, w') /\
               clock w' = clock w /\ exchange w' = exchange w.
Proof.
  unfold _update_leverage. unfold try_except at 1, bind at 1.
  destruct (_sign_action self _ w) as [[sa|e] w1] eqn:S;
    apply sign_action_frame in S as (_ & Hx & _ & Hc & _).
  - exec_unfold. destruct (exchange w1 _ _) as [st body|msg]; cbn -[append].
    + destruct (st =? 200); cbn -[append].
      * destruct (response_json body); cbn -[append]; do 2 eexists;
          (split; [reflexivity|split; assumption]).
      * do 2 eexists. split; [reflexivity|split; assumption].
    + do 2 eexists. split; [reflexivity|split; assumption].
  - exec_unfold. do 2 eexists. split; [reflexivity|split; assumption].
Qed.

End LivePlacement.

Section LiveResults.
Import Py Executor.
Context {env : Env}.

Lemma bind_returns {A B} (c : M A) (k : A -> M B) (w w1 : World) (a : A) :
  c w = (inl a, w1) -> bind c k w = k a w1.
Proof. unfold bind. now intros ->. Qed.

(** The optional leverage update in front of a placement. *)
Lemma placement_prelude (self : TradeExecutor) (symbol : string) (leverage : Z)
      (w : World) :
  exists w1,
    (if 1 <? leverage
     then bind (_update_leverage self symbol leverage true) (fun _ => ret tt)
     else ret tt) w = (inl tt, w1) /\
    clock w1 = clock w /\ exchange w1 = exchange w /\
    (leverage <= 1 -> w1 = w).
Proof.
  destruct (Z.ltb_spec 1 leverage) as [Hl|Hl].
  - destruct (update_leverage_returns self symbol leverage true w)
      as (b & w1 & E & Hc & Hx).
    exists w1. rewrite (bind_returns _ _ _ _ _ E). repeat split; trivial. lia.
  - exists w. repeat split.
Qed.

Variables (self : TradeExecutor) (acct : LocalAccount) (m : SignedMessage).
Hypothesis live : dry_run self = false.
Hypothesis has_account : account self = Some acct.
Hypothesis signs :
  sign_typed_data acct structured_domain structured_types structured_message = inl m.
Hypothesis r_fits : 0 <= msg_r m < 2 ^ 256.
Hypothesis s_fits : 0 <= msg_s m < 2 ^ 256.

(** A live market order whose request the exchange answers. *)
Lemma market_order_answered (symbol : string) (side : OrderSide) (size : Q)
      (leverage : Z) (reduce_only : bool) (w : World) (st : Z) (body : string) :
  (forall n sa, action sa = market_action self symbol side size reduce_only ->
                exchange w n {| req_url := exchange_url self; req_json := sa |}
                = Response st body) ->
  exists w1 sa w',
    action sa = market_action self symbol side size reduce_only /\
    (leverage <= 1 -> w1 = w) /\
    posts w' = (posts w1 ++ [ {| req_url := exchange_url self; req_json := sa |} ])%list /\
    execute_market_order self symbol side size leverage reduce_only w
    = (inl (if st =? 200 then parsed_result (VStr "executed") (response_json body)
            else VNone), w') /\
    (st <> 200 ->
     log w' = (log w1 ++ [(ERROR, ("Failed to execute market order: " ++ body)%string)])%list).
Proof.
  intros Hans. unfold execute_market_order. rewrite live.
  destruct (placement_prelude self symbol leverage w) as (w1 & P & _ & Hx1 & Hw1).
  destruct (sign_action_returns self acct m
              (market_action self symbol side size reduce_only) w1
              has_account signs r_fits s_fits)
    as (sa & w2 & S & Hact & Hp2 & Hx2 & Hl2).
  exists w1, sa.
  unfold try_except at 1. unfold bind at 1. rewrite P.
  unfold bind at 1. fold (market_action self symbol side size reduce_only). rewrite S.
  unfold bind at 1, session_post. rewrite Hx2, Hx1, (Hans _ _ Hact).
  assert (Fin : forall (r : value + exn) (wf : World),
             posts wf = (posts w2 ++ [ {| req_url := exchange_url self; req_json := sa |} ])%list ->
             (st <> 200 ->
              log wf = (log w2 ++ [(ERROR, ("Failed to execute market order: " ++ body)%string)])%list) ->
             forall v, r = inl v ->
             exists w',
               action sa = market_action self symbol side size reduce_only /\
               (leverage <= 1 -> w1 = w) /\
               posts w' = (posts w1 ++ [ {| req_url := exchange_url self; req_json := sa |} ])%list /\
               (r, wf) = (inl v, w') /\
               (st <> 200 ->
                log w' = (log w1 ++ [(ERROR, ("Failed to execute market order: " ++ body)%string)])%list)).
  { intros r wf Hp Hlg v ->. exists wf. rewrite <- Hp2, <- Hl2. tauto. }
  cbn [fst snd]. destruct (st =? 200) eqn:Hst.
  - apply Z.eqb_eq in Hst. exec_unfold.
    destruct (response_json body) as [result|msg]; cbn -[append].
    + destruct (status_ok_with_data result) as [[|]|e]; cbn -[append].
      * destruct (response_data result) as [data|e]; cbn -[append].
        -- destruct (resting_oid data) as [oid|e]; cbn -[append];
             apply Fin; cbn; trivial; congruence.
        -- apply Fin; cbn; trivial; congruence.
      * apply Fin; cbn; trivial; congruence.
      * apply Fin; cbn; trivial; congruence.
    + apply Fin; cbn; trivial; congruence.
  - exec_unfold. cbn -[append]. apply Fin; cbn -[append]; trivial.
Qed.

(** A live limit order whose request the exchange answers. *)
Lemma limit_order_answered (symbol : string) (side : OrderSide) (size price : Q)
      (leverage : Z) (reduce_only post_only : bool) (w : World) (st : Z) (body : string) :
  (forall n sa, action sa = limit_action self symbol side size price reduce_only post_only ->
                exchange w n {| req_url := exchange_url self; req_json := sa |}
                = Response st body) ->
  exists w1 sa w',
    action sa = limit_action self symbol side size price reduce_only post_only /\
    (leverage <= 1 -> w1 = w) /\
    posts w' = (posts w1 ++ [ {| req_url := exchange_url self; req_json := sa |} ])%list /\
    execute_limit_order self symbol side size price leverage reduce_only post_only w
    = (inl (if st =? 200 then parsed_result VNone (response_json body)
            else VNone), w') /\
    (st <> 200 ->
     log w' = (log w1 ++ [(ERROR, ("Failed to place limit order: " ++ body)%string)])%list).
Proof.
  intros Hans. unfold execute_limit_order. rewrite live.
  destruct (placement_prelude self symbol leverage w) as (w1 & P & _ & Hx1 & Hw1).
  destruct (sign_action_returns self acct m
              (limit_action self symbol side size price reduce_only post_only) w1
              has_account signs r_fits s_fits)
    as (sa & w2 & S & Hact & Hp2 & Hx2 & Hl2).
  exists w1, sa.
  unfold try_except at 1. unfold bind at 1. rewrite P.
  unfold bind at 1. cbv zeta. fold (limit_action self symbol side size price reduce_only post_only). rewrite S.
  unfold bind at 1, session_post. rewrite Hx2, Hx1, (Hans _ _ Hact).
  assert (Fin : forall (r : value + exn) (wf : World),
             posts wf = (posts w2 ++ [ {| req_url := exchange_url self; req_json := sa |} ])%list ->
             (st <> 200 ->
              log wf = (log w2 ++ [(ERROR, ("Failed to place limit order: " ++ body)%string)])%list) ->
             forall v, r = inl v ->
             exists w',
               action sa = limit_action self symbol side size price reduce_only post_only /\
               (leverage <= 1 -> w1 = w) /\
               posts w' = (posts w1 ++ [ {| req_url := exchange_url self; req_json := sa |} ])%list /\
               (r, wf) = (inl v, w') /\
               (st <> 200 ->
                log w' = (log w1 ++ [(ERROR, ("Failed to place limit order: " ++ body)%string)])%list)).
  { intros r wf Hp Hlg v ->. exists wf. rewrite <- Hp2, <- Hl2. tauto. }
  cbn [fst snd]. destruct (st =? 200) eqn:Hst.
  - apply Z.eqb_eq in Hst. exec_unfold.
    destruct (response_json body) as [result|msg]; cbn -[append].
    + destruct (status_ok_with_data result) as [[|]|e]; cbn -[append].
      * destruct (response_data result) as [data|e]; cbn -[append].
        -- destruct (resting_oid data) as [oid|e]; cbn -[append];
             apply Fin; cbn; trivial; congruence.
        -- apply Fin; cbn; trivial; congruence.
      * apply Fin; cbn; trivial; congruence.
      * apply Fin; cbn; trivial; congruence.
    + apply Fin; cbn; trivial; congruence.
  - exec_unfold. cbn -[append]. apply Fin; cbn -[append]; trivial.
Qed.

End LiveResults.

Section ClosePosition.
Import Py Executor.
Context {env : Env}.

(** A live market order without leverage update posts nothing, or exactly
    its own order. *)
Lemma market_order_posts (self : TradeExecutor) (symbol : string)
      (side : OrderSide) (size : Q) (leverage : Z) (reduce_only : bool)
      (w w' : World) (r : value + exn) :
  dry_run self = false -> leverage <= 1 ->
  execute_market_order self symbol side size leverage reduce_only w = (r, w') ->
  posts w' = posts w \/
  exists sa,
    posts w' = (posts w ++ [ {| req_url := exchange_url self; req_json := sa |} ])%list /\
    action sa = market_action self symbol side size reduce_only.
Proof.
  intros Hlive Hlev. unfold execute_market_order. rewrite Hlive.
  destruct (placement_prelude self symbol leverage w) as (w1 & P & _ & _ & Hw1).
  rewrite (Hw1 Hlev) in P. clear Hw1 w1.
  unfold try_except at 1. unfold bind at 1. rewrite P.
  unfold bind at 1. fold (market_action self symbol side size reduce_only).
  destruct (_sign_action self _ w) as [[sa|e] w2] eqn:S;
    apply sign_action_frame in S as (Hp & _ & _ & _ & Ha).
  - intros E. right. exists sa. split; [|exact Ha]. rewrite <- Hp.
    revert E. exec_unfold.
    destruct (exchange w2 _ _) as [st body|msg]; cbn -[append].
    + destruct (st =? 200); cbn -[append].
      * destruct (response_json body) as [result|msg]; cbn -[append].
        -- destruct (status_ok_with_data result) as [[|]|e]; cbn -[append].
           ++ destruct (response_data result) as [data|e]; cbn -[append].
              ** destruct (resting_oid data); cbn -[append]; now intros [= _ <-].
              ** now intros [= _ <-].
           ++ now intros [= _ <-].
           ++ now intros [= _ <-].
        -- now intros [= _ <-].
      * now intros [= _ <-].
    + now intros [= _ <-].
  - exec_unfold. intros [= _ <-]. left. exact Hp.
Qed.

End ClosePosition.

(** A live [close_position] is the reduce-only market order on the side it
    is given. *)
Lemma close_position_places_reduce_only_order
      (env : Executor.Env) (self : Executor.TradeExecutor) (symbol : string)
      (size : Q) (side : Executor.OrderSide) (w : Executor.World) :
  Executor.dry_run self = false ->
  Executor.close_position self symbol size side w
  = Executor.execute_market_order self symbol side size 1 true w /\
  let w' := snd (Executor.close_position self symbol size side w) in
  (Executor.posts w' = Executor.posts w \/
   exists sa,
     Executor.posts w'
     = (Executor.posts w
          ++ [ {| Executor.req_url := Executor.exchange_url self;
                  Executor.req_json := sa |} ])%list /\
     Executor.action sa = Executor.market_action self symbol side size true).
Proof.
  intros Hdry.
  assert (E : Executor.close_position self symbol size side w
              = Executor.execute_market_order self symbol side size 1 true w)
    by (unfold Executor.close_position; now rewrite Hdry).
  split; [exact E|]. rewrite E. cbv zeta.
  destruct (Executor.execute_market_order self symbol side size 1 true w)
    as [r w'] eqn:R.
  apply market_order_posts in R; [exact R|exact Hdry|lia].
Qed.

(** C3: [close_position] is called with the side to close with, which its
    interface defines as the side opposite to the position's.  For a
    position of side [position_side] so closed, a live call is the market
    order [execute_market_order(symbol, side, size, reduce_only=True)]:
    whatever it posts is one reduce-only immediate-or-cancel order that buys
    exactly when the position is short.  In dry-run mode it returns the
    synthetic confirmation ["dry_run_close_" ++ symbol ++ "_" ++ seconds] and
    posts nothing.  In [executor_old.py], whose [side] is the position's
    side, the dry-run confirmation names the opposite side and no SDK call
    is made. *)
Theorem C3_close_position_delegates
        (env : Executor.Env) (self : Executor.TradeExecutor) (symbol : string)
        (size : Q) (position_side : Executor.PositionSide) (w : Executor.World) :
  let side := Executor.side_to_close position_side in
  (Executor.dry_run self = false ->
   Executor.close_position self symbol size side w
   = Executor.execute_market_order self symbol side size 1 true w /\
   let w' := snd (Executor.close_position self symbol size side w) in
   (Executor.posts w' = Executor.posts w \/
    exists sa,
      Executor.posts w'
      = (Executor.posts w
           ++ [ {| Executor.req_url := Executor.exchange_url self;
                   Executor.req_json := sa |} ])%list /\
      Executor.action sa
      = Executor.ActOrder
          [ {| Executor.o_a := Executor.wallet_address self;
               Executor.o_b := match position_side with
                               | Executor.SHORT => true
                               | Executor.LONG => false
                               end;
               Executor.o_p := "0";
               Executor.o_s := Executor.str_float size;
               Executor.o_r := true;
               Executor.o_t := Executor.Ioc;
               Executor.o_c := symbol |} ] "na")) /\
  (Executor.dry_run self = true ->
   exists w',
     Executor.close_position self symbol size side w
     = (inl (Py.VStr ("dry_run_close_" ++ symbol ++ "_"
                        ++ Py.str_of_int
                             (Py.int_of_real (Executor.clock w (Executor.ticks w))))),
        w') /\
     Executor.posts w' = Executor.posts w) /\
  (forall (old : ExecutorOld.Env) (old_self : ExecutorOld.TradeExecutor)
          (old_side : string) (old_size : option Q) (old_w : ExecutorOld.World),
      ExecutorOld.dry_run old_self = true ->
      exists old_w' confirmation,
        ExecutorOld.close_position old_self symbol old_side old_size old_w
        = (inl (Py.VDict confirmation), old_w') /\
        Py.assoc "side" confirmation
        = Some (Py.VStr (if (old_side =? "SHORT")%string then "LONG" else "SHORT")) /\
        Py.assoc "simulated" confirmation = Some (Py.VBool true) /\
        ExecutorOld.sdk_calls old_w' = ExecutorOld.sdk_calls old_w).
Proof.
  intros side. split; [|split].
  - intros Hdry.
    destruct (close_position_places_reduce_only_order env self symbol size side w Hdry)
      as [E P].
    split; [exact E|]. cbv zeta in *.
    destruct P as [P|(sa & P & Ha)]; [now left|right].
    exists sa. split; [exact P|]. rewrite Ha. subst side.
    now destruct position_side.
  - intros Hdry. unfold Executor.close_position. rewrite Hdry. exec_unfold.
    cbn -[append]. eexists. split; reflexivity.
  - intros old old_self old_side old_size old_w Hdry.
    destruct (old_close_position_dry_run old_self symbol old_side old_size old_w Hdry)
      as (w' & E & Hc).
    do 2 eexists. split; [exact E|]. repeat split. exact Hc.
Qed.

Lemma C3_close_position_delegates_witness :
  (Executor.close_position Demo.live "BTC" (1 # 10) Executor.SELL Demo.w_resting
   = Executor.execute_market_order Demo.live "BTC" Executor.SELL (1 # 10) 1 true
                                   Demo.w_resting) /\
  (exists w',
     Executor.close_position Demo.dry "BTC" (1 # 10) Executor.SELL Demo.w_resting
     = (inl (Py.VStr "dry_run_close_BTC_1700000000"), w') /\
     Executor.posts w' = Executor.posts Demo.w_resting) /\
  (exists old_w' confirmation,
      ExecutorOld.close_position DemoOld.dry "BTC" "LONG" (Some (1 # 10))
        (DemoOld.world Py.VNone)
      = (inl (Py.VDict confirmation), old_w') /\
      Py.assoc "side" confirmation = Some (Py.VStr "SHORT") /\
      Py.assoc "simulated" confirmation = Some (Py.VBool true) /\
      ExecutorOld.sdk_calls old_w' = []).
Proof.
  split; [|split].
  - apply (proj1 (C3_close_position_delegates Demo.env Demo.live "BTC" (1 # 10)
                    Executor.LONG Demo.w_resting)).
    reflexivity.
  - apply (proj1 (proj2 (C3_close_position_delegates Demo.env Demo.dry "BTC" (1 # 10)
                           Executor.LONG Demo.w_resting))).
    reflexivity.
  - apply (proj2 (proj2 (C3_close_position_delegates Demo.env Demo.dry "BTC" (1 # 10)
                           Executor.LONG Demo.w_resting))
             DemoOld.env DemoOld.dry "LONG" (Some (1 # 10)) (DemoOld.world Py.VNone)).
    reflexivity.
Defined.

(** Run: closing a long position ([side = SELL]) posts one reduce-only sell
    order and returns the resting order id; the SDK-based executor, live,
    makes one [market_close] call. *)
Example close_long_position_run :
  (exists w',
      Executor.close_position Demo.live "BTC" (1 # 10)
        (Executor.side_to_close Executor.LONG) Demo.w_resting
      = (inl (Py.VInt 77), w') /\
      map (fun rq => Executor.action (Executor.req_json rq)) (Executor.posts w')
      = [ Executor.ActOrder
            [ {| Executor.o_a := Some "0xabc1"; Executor.o_b := false;
                 Executor.o_p := "0"; Executor.o_s := "0.0";
                 Executor.o_r := true; Executor.o_t := Executor.Ioc;
                 Executor.o_c := "BTC" |} ] "na" ]) /\
  ExecutorOld.sdk_calls
    (snd (ExecutorOld.close_position DemoOld.live "BTC" "LONG" None
            (DemoOld.world DemoOld.filled_answer)))
  = [ExecutorOld.market_close "BTC" None (3 # 100)].
Proof.
  split; [eexists; split; vm_compute; reflexivity|].
  vm_compute. reflexivity.
Qed.

Section ResponseParsing.
Import Py Executor.
Context {env : Env}.

(** Only the first status entry is read, and only its [resting] key. *)
Lemma resting_oid_first (data : value) (d : list (string * value))
      (rest : list value) :
  get_default data "statuses" (VList [VDict []]) = inl (VList (VDict d :: rest)) ->
  resting_oid data = match assoc "resting" d with
                     | Some resting => get resting "oid"
                     | None => inl VNone
                     end.
Proof.
  intros H. unfold resting_oid. rewrite H. cbn [item0 get_default].
  destruct (assoc "resting" d); reflexivity.
Qed.

End ResponseParsing.

(** C2, as the code has it.  For a live placement of [executor.py] whose
    order request is answered with HTTP status [st] and body [body]:
    - any status other than 200 makes both methods return [None], the body
      going to the error log; nothing is raised and nothing but [None]
      comes back;
    - on 200 with [status=ok] and non-empty data the first status entry is
      read: a [resting] entry gives its [oid], an [error] entry gives
      [None];
    - a limit order answered 200 with a body that is not [status=ok] with
      data returns [None]. *)
Theorem C2_live_placement_response
        (env : Executor.Env) (self : Executor.TradeExecutor)
        (acct : Executor.LocalAccount) (m : Executor.SignedMessage)
        (symbol : string) (side : Executor.OrderSide) (size price : Q)
        (leverage : Z) (reduce_only post_only : bool) (w : Executor.World)
        (st : Z) (body : string) :
  Executor.dry_run self = false ->
  Executor.account self = Some acct ->
  Executor.sign_typed_data acct Executor.structured_domain
    Executor.structured_types Executor.structured_message = inl m ->
  0 <= Executor.msg_r m < 2 ^ 256 ->
  0 <= Executor.msg_s m < 2 ^ 256 ->
  (forall n sa,
      Executor.exchange w n {| Executor.req_url := Executor.exchange_url self;
                               Executor.req_json := sa |}
      = Executor.Response st body) ->
  let market :=
    Executor.execute_market_order self symbol side size leverage reduce_only w in
  let limit :=
    Executor.execute_limit_order self symbol side size price leverage
                                 reduce_only post_only w in
  (st <> 200 ->
   fst market = inl Py.VNone /\ fst limit = inl Py.VNone /\
   (exists l, Executor.log (snd market)
              = (l ++ [(Py.ERROR,
                        ("Failed to execute market order: " ++ body)%string)])%list) /\
   (exists l, Executor.log (snd limit)
              = (l ++ [(Py.ERROR,
                        ("Failed to place limit order: " ++ body)%string)])%list)) /\
  (st = 200 ->
   forall result,
     Executor.response_json body = inl result ->
     (Executor.status_ok_with_data result = inl true ->
      forall data d rest,
        Executor.response_data result = inl data ->
        Py.get_default data "statuses" (Py.VList [Py.VDict []])
        = inl (Py.VList (Py.VDict d :: rest)) ->
        (forall resting oid,
            Py.assoc "resting" d = Some (Py.VDict resting) ->
            Py.assoc "oid" resting = Some oid ->
            fst market = inl oid /\ fst limit = inl oid) /\
        (forall err,
            Py.assoc "resting" d = None -> Py.assoc "error" d = Some err ->
            fst market = inl Py.VNone /\ fst limit = inl Py.VNone)) /\
     (Executor.status_ok_with_data result = inl false ->
      fst limit = inl Py.VNone)).
Proof.
  intros Hlive Hacct Hsign Hr Hs Hans market limit.
  destruct (market_order_answered self acct m Hlive Hacct Hsign Hr Hs
              symbol side size leverage reduce_only w st body)
    as (w1 & sa & w' & _ & _ & _ & Em & Lm); [intros; apply Hans|].
  destruct (limit_order_answered self acct m Hlive Hacct Hsign Hr Hs
              symbol side size price leverage reduce_only post_only w st body)
    as (v1 & sb & v' & _ & _ & _ & El & Ll); [intros; apply Hans|].
  subst market limit. rewrite Em, El. cbn [fst snd]. split.
  - intros Hst. apply Z.eqb_neq in Hst as Hst'. rewrite Hst'.
    repeat split; [eexists; apply (Lm Hst)|eexists; apply (Ll Hst)].
  - intros -> result Hjson. cbn [Z.eqb Pos.eqb]. rewrite Hjson.
    unfold Executor.parsed_result. split.
    + intros Hok data d rest Hdata Hstat. rewrite Hok, Hdata.
      rewrite (resting_oid_first data d rest Hstat). split.
      * intros resting oid Hrest Hoid. rewrite Hrest.
        unfold Py.get, Py.get_default. rewrite Hoid. split; reflexivity.
      * intros err Hnone _. rewrite Hnone. split; reflexivity.
    + intros Hno. rewrite Hno. reflexivity.
Qed.

Lemma C2_live_placement_response_witness :
  (fst (Executor.execute_market_order Demo.live "BTC" Executor.BUY (1 # 10) 1 false
          Demo.w_resting) = inl (Py.VInt 77) /\
   fst (Executor.execute_limit_order Demo.live "BTC" Executor.BUY (1 # 10) 60000 1
          false false Demo.w_resting) = inl (Py.VInt 77)) /\
  (fst (Executor.execute_market_order Demo.live "BTC" Executor.BUY (1 # 10) 1 false
          Demo.w_500) = inl Py.VNone /\
   fst (Executor.execute_limit_order Demo.live "BTC" Executor.BUY (1 # 10) 60000 1
          false false Demo.w_500) = inl Py.VNone).
Proof.
  assert (F : 0 <= 1 < 2 ^ 256 /\ 0 <= 2 < 2 ^ 256)
    by (repeat split; (discriminate || reflexivity)).
  split.
  - destruct (C2_live_placement_response Demo.env Demo.live "0xAbC1"
                {| Executor.msg_r := 1; Executor.msg_s := 2; Executor.msg_v := 27 |}
                "BTC" Executor.BUY (1 # 10) 60000 1 false false Demo.w_resting
                200 "resting" eq_refl eq_refl eq_refl (proj1 F) (proj2 F)
                (fun _ _ => eq_refl)) as [_ H].
    destruct (H eq_refl _ eq_refl) as [Hok _].
    destruct (Hok eq_refl _ [("resting", Py.VDict [("oid", Py.VInt 77)])] []
                eq_refl eq_refl) as [Hrest _].
    exact (Hrest [("oid", Py.VInt 77)] (Py.VInt 77) eq_refl eq_refl).
  - destruct (C2_live_placement_response Demo.env Demo.live "0xAbC1"
                {| Executor.msg_r := 1; Executor.msg_s := 2; Executor.msg_v := 27 |}
                "BTC" Executor.BUY (1 # 10) 60000 1 false false Demo.w_500
                500 "Internal Server Error" eq_refl eq_refl eq_refl
                (proj1 F) (proj2 F) (fun _ _ => eq_refl)) as [H _].
    destruct H as (Hm & Hl & _); [discriminate|]. split; assumption.
Defined.

(** C2 as the specification words it fails: answered with HTTP 500 or 503,
    both placement methods return plain [None], the same for either body;
    nothing is raised, and the body is in the error log only. *)
Lemma C2_rejection_is_a_plain_none :
  fst (Executor.execute_market_order Demo.live "BTC" Executor.BUY (1 # 10) 1 false
         Demo.w_500) = inl Py.VNone /\
  fst (Executor.execute_market_order Demo.live "BTC" Executor.BUY (1 # 10) 1 false
         Demo.w_503) = inl Py.VNone /\
  fst (Executor.execute_limit_order Demo.live "BTC" Executor.BUY (1 # 10) 60000 1
         false false Demo.w_500) = inl Py.VNone /\
  fst (Executor.execute_limit_order Demo.live "BTC" Executor.BUY (1 # 10) 60000 1
         false false Demo.w_503) = inl Py.VNone /\
  Executor.log
    (snd (Executor.execute_market_order Demo.live "BTC" Executor.BUY (1 # 10) 1 false
            Demo.w_500))
  = [(Py.ERROR, "Failed to execute market order: Internal Server Error")].
Proof.
  repeat split; vm_compute; reflexivity.
Qed.

(** Beside C2, two runs.  Answered 200 with the error envelope
    [status=err], the market order returns ["executed"] where the limit
    order returns [None].  Answered 200 with a [filled] first entry (oid 78,
    totalSz 0.1, avgPx 60000.0), both methods return [None], where the
    SDK-based executor returns the fill. *)
Example market_order_reports_executed_on_err :
  fst (Executor.execute_market_order Demo.live "BTC" Executor.BUY (1 # 10) 1 false
         Demo.w_err) = inl (Py.VStr "executed") /\
  fst (Executor.execute_limit_order Demo.live "BTC" Executor.BUY (1 # 10) 60000 1
         false false Demo.w_err) = inl Py.VNone.
Proof.
  split; vm_compute; reflexivity.
Qed.

Example filled_order_is_not_reported :
  fst (Executor.execute_market_order Demo.live "BTC" Executor.BUY (1 # 10) 1 false
         Demo.w_filled) = inl Py.VNone /\
  fst (Executor.execute_limit_order Demo.live "BTC" Executor.BUY (1 # 10) 60000 1
         false false Demo.w_filled) = inl Py.VNone /\
  fst (ExecutorOld.execute_market_order DemoOld.live "BTC" "LONG" (1 # 10) 1 false
         (DemoOld.world DemoOld.filled_answer))
  = inl (Py.VDict [("success", Py.VBool true); ("order_id", Py.VInt 78);
                   ("symbol", Py.VStr "BTC"); ("side", Py.VStr "LONG");
                   ("size", Py.VStr "0.1"); ("price", Py.VStr "60000.0");
                   ("type", Py.VStr "market")]).
Proof.
  repeat split; vm_compute; reflexivity.
Qed.

(* ===================================================================== *)
(** * Properties of the websocket client                                  *)
(* ===================================================================== *)
Section DispatchFacts.
Import Py WebSocket.
Local Open Scope exec_scope.
Context {env : Env} {H : Type}.


(** For a text channel the match logic never raises. *)
Lemma should_call_text (chan k : string) :
  should_call (VStr chan) k = inl (text_match chan k).
Proof.
  unfold should_call, text_match, eq_str, str_in_value, value_in_str.
  destruct (chan =? k)%string; [reflexivity|].
  destruct (str_in k chan); [reflexivity|].
  destruct (str_in chan k); [reflexivity|].
  destruct (str_in ":" k); reflexivity.
Qed.

(** The text before the first colon starts the whole text. *)
Lemma before_colon_prefix (k : string) : exists r, k = before_colon k ++ r.
Proof.
  induction k as [|c k [r IH]]; [now exists EmptyString|].
  simpl. destruct (Ascii.eqb c ":").
  - now exists (String c k).
  - exists r. simpl. now rewrite <- IH.
Qed.

(** The first and the last of the four tests add nothing to the two
    containment tests. *)
Lemma text_match_containment (chan k : string) :
  text_match chan k = (str_in k chan || str_in chan k)%bool.
Proof.
  unfold text_match.
  destruct (String.eqb_spec chan k) as [->|_].
  - now rewrite str_in_refl.
  - cbn [orb]. destruct (str_in k chan); [reflexivity|]. cbn [orb].
    destruct (str_in chan k) eqn:E; [reflexivity|]. cbn [orb].
    destruct (str_in ":" k); [|reflexivity]. cbn [andb].
    destruct (String.eqb_spec chan (before_colon k)) as [->|_]; [|reflexivity].
    rewrite <- E. symmetry. apply str_in_spec.
    destruct (before_colon_prefix k) as [r Hr]. exists EmptyString, r. exact Hr.
Qed.

(** One turn of the callback loop on a text channel. *)
Lemma dispatch_one_text (u : WebSocketUpdate) (chan k : string) (cb : Callback H)
      (st : State H) :
  channel u = VStr chan ->
  exists st',
    dispatch_one u (k, cb) st = (inl (text_match chan k), st') /\
    called st' = (called st ++ if text_match chan k then [(k, u)] else [])%list.
Proof.
  intros Hc. unfold dispatch_one. cbn [fst snd]. rewrite Hc, should_call_text.
  unfold bind, logger, modify, lift, ret. cbn -[append text_match].
  destruct (text_match chan k).
  - unfold try_except, invoke, with_log, with_handlers.
    cbn -[append].
    destruct (is_coroutine cb);
      destruct (call cb u _) as [h' [e|]]; cbn -[append];
      eexists; split; reflexivity.
  - eexists. split; [reflexivity|]. cbn. now rewrite app_nil_r.
Qed.

(** The whole loop on a text channel: exactly the callbacks whose key
    passes the match logic are called, in the order of registration. *)
Lemma dispatch_text (u : WebSocketUpdate) (chan : string)
      (items : list (string * Callback H)) (found : bool) (st : State H) :
  channel u = VStr chan ->
  exists st',
    dispatch u items found st
    = (inl (found || existsb (fun item => text_match chan (fst item)) items)%bool, st') /\
    called st'
    = (called st
         ++ map (fun item => (fst item, u))
              (filter (fun item => text_match chan (fst item)) items))%list.
Proof.
  intros Hc. revert found st.
  induction items as [|[k cb] rest IH]; intros found st.
  - exists st. cbn. rewrite orb_false_r, app_nil_r. split; reflexivity.
  - cbn [dispatch].
    destruct (dispatch_one_text u chan k cb st Hc) as (st1 & E1 & C1).
    rewrite (bind_inl _ _ _ _ _ E1).
    destruct (IH (if text_match chan k then true else found) st1) as (st2 & E2 & C2).
    exists st2. rewrite E2, C2, C1. cbn [existsb filter fst].
    destruct (text_match chan k); cbn [map fst]; split;
      rewrite <- ?app_assoc, ?orb_true_r, ?app_nil_l; reflexivity.
Qed.

End DispatchFacts.

Section HandlingFacts.
Import Py WebSocket.
Local Open Scope exec_scope.
Context {env : Env} {H : Type}.

Lemma untouched_refl (s : State H) : untouched s s.
Proof. repeat split. Qed.

Lemma logger_untouched (s0 : State H) (l : level) (msg : string) :
  preserves (untouched s0) (logger (H := H) l msg).
Proof. intros s Hs. exact Hs. Qed.

Lemma logger_log_starts (p : list (level * string)) (l : level) (msg : string) :
  preserves (log_starts (H := H) p) (logger l msg).
Proof.
  intros s [r Hr]. exists (r ++ [(l, msg)])%list. cbn. rewrite Hr.
  now rewrite app_assoc.
Qed.

Lemma invoke_untouched (s0 : State H) (k : string) (cb : Callback H)
      (u : WebSocketUpdate) :
  preserves (untouched s0) (invoke k cb u).
Proof.
  intros s Hs. unfold invoke.
  destruct (call cb u (handler_state s)) as [h' [e|]]; exact Hs.
Qed.

Lemma invoke_log_starts (p : list (level * string)) (k : string)
      (cb : Callback H) (u : WebSocketUpdate) :
  preserves (log_starts p) (invoke k cb u).
Proof.
  intros s Hs. unfold invoke.
  destruct (call cb u (handler_state s)) as [h' [e|]]; exact Hs.
Qed.

(** Both properties go through one turn of the callback loop, through the
    loop and through the handling of a frame; [P] stands for either. *)
Section Through.
Variable P : State H -> Prop.
Hypothesis P_logger : forall l msg, preserves P (logger l msg).
Hypothesis P_invoke : forall k cb u, preserves P (invoke k cb u).
Hypothesis P_ticks : forall s, P s -> P (with_ticks (Datatypes.S (ticks s)) s).

Lemma dispatch_one_through (u : WebSocketUpdate) (item : string * Callback H) :
  preserves P (dispatch_one u item).
Proof.
  unfold dispatch_one.
  apply preserves_bind; [apply P_logger|intros _].
  apply preserves_bind; [apply preserves_lift|intros [|]].
  - apply preserves_bind; [apply P_logger|intros _].
    apply preserves_bind; [|intros _; apply preserves_ret].
    apply preserves_try_except.
    + destruct (is_coroutine (snd item)); apply P_invoke.
    + intros e. apply preserves_bind; [apply P_logger|intros _; apply P_logger].
  - apply preserves_ret.
Qed.

Lemma dispatch_through (u : WebSocketUpdate) (items : list (string * Callback H))
      (found : bool) :
  preserves P (dispatch u items found).
Proof.
  revert found. induction items as [|item rest IH]; intros found; cbn [dispatch].
  - apply preserves_ret.
  - apply preserves_bind; [apply dispatch_one_through|intros hit; apply IH].
Qed.

Lemma handle_message_through (message : string) :
  preserves P (_handle_message message).
Proof.
  unfold _handle_message. apply preserves_try_except.
  - apply preserves_bind; [apply P_logger|intros _].
    apply preserves_bind;
      [destruct (json_loads message); [apply preserves_ret|apply preserves_raise]|].
    intros parsed.
    apply preserves_bind; [apply preserves_lift|intros chan].
    apply preserves_bind; [apply P_logger|intros _].
    apply preserves_bind; [intros s Hs; apply P_ticks, Hs|intros now].
    apply preserves_bind_state. intros s _.
    apply preserves_bind; [apply dispatch_through|].
    intros [|]; [apply preserves_ret|apply P_logger].
  - intros e. destruct e;
      (apply preserves_bind; [apply P_logger|intros _; apply P_logger]).
Qed.

End Through.

(** Handling a frame leaves the client, its connections and the wire. *)
Lemma handle_message_untouched (s0 : State H) (message : string) :
  preserves (untouched s0) (_handle_message message).
Proof.
  apply handle_message_through.
  - intros l msg. apply logger_untouched.
  - intros k cb u. apply invoke_untouched.
  - intros s Hs. exact Hs.
Qed.

(** Handling a frame only adds to the log. *)
Lemma handle_message_log_starts (p : list (level * string)) (message : string) :
  preserves (log_starts (H := H) p) (_handle_message message).
Proof.
  apply handle_message_through.
  - intros l msg. apply logger_log_starts.
  - intros k cb u. apply invoke_log_starts.
  - intros s Hs. exact Hs.
Qed.

(** Handling a frame returns: both [except] clauses only log. *)
Lemma handle_message_returns (message : string) :
  never_raises (_handle_message (H := H) message).
Proof.
  unfold _handle_message. apply never_raises_try_except. intros e.
  destruct e; (apply never_raises_bind; [|intros _]; apply never_raises_modify).
Qed.

(** Its first log line is the raw frame. *)
Lemma handle_message_logs_raw (message : string) (s : State H) :
  log_starts (log s ++ [raw_line message]) (snd (_handle_message message s)).
Proof.
  unfold _handle_message, try_except.
  rewrite (bind_inl _ _ s (with_log (log s ++ [raw_line message]) s) tt)
    by reflexivity.
  match goal with
  | |- context [ bind ?c ?k ] =>
      pose proof (preserves_bind (log_starts (log s ++ [raw_line message])) c k) as B
  end.
  assert (Hstart : log_starts (H := H) (log s ++ [raw_line message])
                     (with_log (log s ++ [raw_line message]) s))
    by (exists []; cbn; now rewrite app_nil_r).
  match goal with
  | |- context [ bind ?c ?k ?s1 ] =>
      assert (Hb : log_starts (log s ++ [raw_line message]) (snd (bind c k s1)))
  end.
  { apply B; [| |exact Hstart].
    - destruct (json_loads message); [apply preserves_ret|apply preserves_raise].
    - intros parsed.
      apply preserves_bind; [apply preserves_lift|intros chan].
      apply preserves_bind; [apply logger_log_starts|intros _].
      apply preserves_bind; [intros s1 Hs1; exact Hs1|intros now].
      apply preserves_bind_state. intros s1 _.
      apply preserves_bind.
      + apply dispatch_through.
        * intros l msg. apply logger_log_starts.
        * intros k cb u. apply invoke_log_starts.
      + intros [|]; [apply preserves_ret|apply logger_log_starts]. }
  match goal with
  | |- context [ bind ?c ?k ?s1 ] => destruct (bind c k s1) as [[a|e] s2]
  end; [exact Hb|].
  cbn [snd] in Hb.
  destruct e;
    (eapply preserves_bind;
     [apply logger_log_starts|intros _; apply logger_log_starts|exact Hb]).
Qed.

End HandlingFacts.

Section TextFrames.
Import Py WebSocket.
Local Open Scope exec_scope.
Context {env : Env} {H : Type}.

Lemma existsb_filter {A} (f : A -> bool) (l : list A) :
  existsb f l = match filter f l with [] => false | _ => true end.
Proof.
  induction l as [|a l IH]; [reflexivity|].
  cbn [existsb filter]. destruct (f a); [reflexivity|exact IH].
Qed.

Lemma filter_none {A} (f : A -> bool) (l : list A) :
  (forall a, In a l -> f a = false) -> filter f l = [].
Proof.
  induction l as [|a l IH]; intros Hl; [reflexivity|].
  cbn [filter]. rewrite (Hl a (or_introl eq_refl)).
  apply IH. intros b Hb. apply Hl. now right.
Qed.

(** A frame that parses to a [dict] whose channel is a text. *)
Lemma handle_message_text (message : string) (d : list (string * value))
      (chan : string) (st : State H) :
  json_loads message = inl (VDict d) ->
  get_default (VDict d) "channel" (VStr "unknown") = inl (VStr chan) ->
  let update := {| channel := VStr chan; data := VDict d;
                   timestamp := clock st (ticks st) |} in
  let hits := filter (fun item => text_match chan (fst item)) (callbacks (self st)) in
  exists st',
    _handle_message message st = (inl tt, st') /\
    called st' = (called st ++ map (fun item => (fst item, update)) hits)%list /\
    (hits = [] ->
     exists l, log st'
               = (l ++ [(WARNING,
                         ("⚠️ No callback found for channel: "
                            ++ str_value (VStr chan))%string)])%list).
Proof.
  intros Hjson Hchan update hits.
  unfold _handle_message, try_except.
  unfold bind at 1. unfold logger at 1, modify at 1.
  unfold bind at 1. rewrite Hjson. unfold ret at 1.
  unfold bind at 1. rewrite Hchan. unfold lift at 1, ret at 1.
  unfold bind at 1. unfold logger at 1, modify at 1.
  unfold bind at 1. unfold utcnow at 1.
  unfold bind at 1. unfold get_state at 1.
  unfold bind at 1.
  change (clock (with_log _ (with_log _ st)) (ticks (with_log _ (with_log _ st))))
    with (clock st (ticks st)).
  fold update.
  match goal with
  | |- context [ dispatch update ?items false ?s1 ] =>
      change items with (callbacks (self st));
      destruct (dispatch_text update chan (callbacks (self st)) false s1 eq_refl)
        as (st2 & E & C);
      change (called s1) with (called st) in C
  end.
  rewrite E. cbn [orb]. fold hits in C.
  rewrite (existsb_filter _ (callbacks (self st))). fold hits.
  destruct hits as [|h0 hr] eqn:Hh.
  - eexists. split; [reflexivity|]. split; [exact C|].
    intros _. eexists. reflexivity.
  - exists st2. split; [reflexivity|]. split; [exact C|]. discriminate.
Qed.

(** What the text match logic amounts to. *)
Lemma text_match_spec (chan k : string) :
  text_match chan k = true <->
  chan = k \/ (exists l r, chan = l ++ k ++ r) \/ (exists l r, k = l ++ chan ++ r) \/
  (str_in ":" k = true /\ chan = before_colon k).
Proof.
  unfold text_match. rewrite !orb_true_iff, andb_true_iff, !str_in_spec.
  rewrite !String.eqb_eq. tauto.
Qed.

End TextFrames.

(** C5, as the code has it: for an inbound frame that parses to an object
    whose channel (["unknown"] when absent) is a text, dispatch calls exactly
    the registered callbacks whose key passes the match logic of the code, in
    the order of registration, each once, and no other callback.  A key
    passes when it equals the channel, or occurs inside the channel, or
    contains the channel, or has a colon with the channel being the text
    before it; this is containment of one text in the other, not equality of
    a channel kind and parameter. *)
Theorem C5_dispatch_calls_the_containment_matches
        (env : WebSocket.Env) (H : Type) (message : string)
        (d : list (string * Py.value)) (chan : string) (st : WebSocket.State H) :
  WebSocket.json_loads message = inl (Py.VDict d) ->
  Py.get_default (Py.VDict d) "channel" (Py.VStr "unknown") = inl (Py.VStr chan) ->
  let update := {| WebSocket.channel := Py.VStr chan;
                   WebSocket.data := Py.VDict d;
                   WebSocket.timestamp := WebSocket.clock st (WebSocket.ticks st) |} in
  (exists st',
      WebSocket._handle_message message st = (inl tt, st') /\
      WebSocket.called st'
      = (WebSocket.called st
           ++ map (fun item => (fst item, update))
                (filter (fun item => WebSocket.text_match chan (fst item))
                   (WebSocket.callbacks (WebSocket.self st))))%list) /\
  (forall k,
      WebSocket.text_match chan k = true <->
      chan = k \/ (exists l r, chan = l ++ k ++ r) \/
      (exists l r, k = l ++ chan ++ r) \/
      (Py.str_in ":" k = true /\ chan = Py.before_colon k)) /\
  (forall k,
      WebSocket.text_match chan k = (Py.str_in k chan || Py.str_in chan k)%bool).
Proof.
  intros Hjson Hchan update. split; [|split].
  - destruct (handle_message_text message d chan st Hjson Hchan) as (st' & E & C & _).
    exists st'. split; assumption.
  - intros k. apply text_match_spec.
  - intros k. apply text_match_containment.
Qed.

Lemma C5_dispatch_calls_the_containment_matches_witness :
  let update := {| WebSocket.channel := Py.VStr "user";
                   WebSocket.data := Py.VDict [("channel", Py.VStr "user");
                                               ("data", Py.VDict [])];
                   WebSocket.timestamp := 1700000000 # 1 |} in
  (exists st',
      WebSocket._handle_message (env := DemoWS.env) "user" DemoWS.subscribed = (inl tt, st') /\
      WebSocket.called st'
      = (WebSocket.called DemoWS.subscribed
           ++ map (fun item => (fst item, update))
                (filter (fun item => WebSocket.text_match "user" (fst item))
                   (WebSocket.callbacks (WebSocket.self DemoWS.subscribed))))%list) /\
  (forall k,
      WebSocket.text_match "user" k = true <->
      "user" = k \/ (exists l r, "user" = l ++ k ++ r) \/
      (exists l r, k = l ++ "user" ++ r) \/
      (Py.str_in ":" k = true /\ "user" = Py.before_colon k)) /\
  (forall k,
      WebSocket.text_match "user" k = (Py.str_in k "user" || Py.str_in "user" k)%bool).
Proof.
  apply (C5_dispatch_calls_the_containment_matches DemoWS.env (list string) "user"
           [("channel", Py.VStr "user"); ("data", Py.VDict [])] "user"
           DemoWS.subscribed).
  - reflexivity.
  - reflexivity.
Defined.

(** C5 as the specification words it fails: with callbacks registered for
    trades:ETH, user:0xabc and allMids, a frame on channel trades:ETHFI calls
    the callback of trades:ETH, and a frame on channel 0xabc calls the
    callback of user:0xabc; in both cases the key is not the channel and the
    channel is not the text before the key's colon. *)
Lemma C5_containment_calls_a_foreign_handler :
  (exists st',
      WebSocket._handle_message (env := DemoWS.env) "trades ETHFI" DemoWS.subscribed = (inl tt, st') /\
      map fst (WebSocket.called st') = ["trades:ETH"] /\
      WebSocket.handler_state st' = ["eth trade"]) /\
  (exists st',
      WebSocket._handle_message (env := DemoWS.env) "bare address" DemoWS.subscribed = (inl tt, st') /\
      map fst (WebSocket.called st') = ["user:0xabc"] /\
      WebSocket.handler_state st' = ["user event"]) /\
  "trades:ETH" <> "trades:ETHFI" /\ Py.before_colon "trades:ETH" <> "trades:ETHFI" /\
  "user:0xabc" <> "0xabc" /\ Py.before_colon "user:0xabc" <> "0xabc".
Proof.
  split; [|split].
  - eexists. split; [vm_compute; reflexivity|]. split; reflexivity.
  - eexists. split; [vm_compute; reflexivity|]. split; reflexivity.
  - repeat split; discriminate.
Qed.

Section ListeningFacts.
Import Py WebSocket.
Local Open Scope exec_scope.
Context {env : Env} {H : Type}.

(** A property that no step of the client can break goes through
    connecting and listening. *)
Section Through.
Variable P : State H -> Prop.
Hypothesis P_logger : forall l msg, preserves P (logger l msg).
Hypothesis P_invoke : forall k cb u, preserves P (invoke k cb u).
Hypothesis P_ticks : forall s, P s -> P (with_ticks (Datatypes.S (ticks s)) s).
Hypothesis P_conns : forall n c s, P s -> P (with_conns n c s).
Hypothesis P_wire : forall w s, P s -> P (with_wire w s).
Hypothesis P_slept : forall l s, P s -> P (with_slept l s).
Hypothesis P_ws : forall c s, P s -> P (with_self (set_ws c) s).
Hypothesis P_run : forall s, P s -> P (with_self (set_is_running true) s).

Lemma send_subscription_through (d : value) : preserves P (_send_subscription d).
Proof.
  unfold _send_subscription. apply preserves_bind_state. intros s _.
  destruct (ws (self s)) as [c|]; [|apply preserves_ret].
  apply preserves_try_except.
  - apply preserves_bind; [|intros _; apply P_logger].
    intros s1 Hs1. unfold ws_send. destruct (conn_closed c s1); [exact Hs1|].
    apply P_wire, Hs1.
  - intros e. apply P_logger.
Qed.

Lemma for_each_through {A} (l : list A) (body : A -> MS unit) :
  (forall a, preserves P (body a)) -> preserves P (for_each l body).
Proof.
  intros Hb. induction l as [|a l IH]; cbn [for_each].
  - apply preserves_ret.
  - apply preserves_bind; [apply Hb|intros _; exact IH].
Qed.

Lemma connect_through : preserves P connect.
Proof.
  unfold connect. apply preserves_try_except.
  - apply preserves_bind_state. intros s _.
    apply preserves_bind; [apply P_logger|intros _].
    apply preserves_bind.
    { intros s1 Hs1. unfold websockets_connect.
      destruct (dial s1 (dials s1)); apply P_conns, Hs1. }
    intros c.
    apply preserves_bind; [apply preserves_modify, P_ws|intros _].
    apply preserves_bind; [apply preserves_modify, P_run|intros _].
    apply preserves_bind; [apply P_logger|intros _].
    apply preserves_bind_state. intros s1 _.
    apply for_each_through. intros item. apply send_subscription_through.
  - intros e. apply preserves_bind; [apply P_logger|intros _; apply preserves_raise].
Qed.

Lemma async_for_through (c : nat) (frames : list string) (e : bool) :
  preserves P (async_for c frames e).
Proof.
  induction frames as [|m rest IH]; cbn [async_for].
  - apply preserves_bind; [apply preserves_modify; intros s; apply P_conns|intros _].
    destruct e; [apply preserves_raise|apply preserves_ret].
  - apply preserves_bind; [apply preserves_modify; intros s; apply P_conns|intros _].
    apply preserves_bind; [|intros _; exact IH].
    apply handle_message_through; assumption.
Qed.

Lemma listen_turn_through : preserves P listen_turn.
Proof.
  unfold listen_turn. apply preserves_try_except.
  - apply preserves_bind_state. intros s _.
    apply preserves_bind.
    { destruct (ws (self s)) as [c|]; [|apply connect_through].
      destruct (conn_closed c s); [apply connect_through|apply preserves_ret]. }
    intros _. apply preserves_bind_state. intros s1 _.
    destruct (ws (self s1)) as [c|]; [|apply preserves_raise].
    destruct (nth_error (conns s1) c) as [k|]; [|apply preserves_raise].
    apply async_for_through.
  - intros e. apply preserves_bind_state. intros s _.
    destruct e;
      (apply preserves_bind;
       [apply P_logger|intros _; apply preserves_modify; intros s1; apply P_slept]).
Qed.

End Through.

Lemma running_through_listen_turn : preserves (running (H := H)) listen_turn.
Proof.
  apply listen_turn_through; try (intros; intros s Hs; exact Hs);
    try (intros; assumption).
  - intros k cb u s Hs. unfold invoke.
    destruct (call cb u (handler_state s)) as [h' [e|]]; exact Hs.
  - intros s _. reflexivity.
Qed.

Lemma log_starts_through_async_for (p : list (level * string)) (c : nat)
      (frames : list string) (e : bool) :
  preserves (log_starts (H := H) p) (async_for c frames e).
Proof.
  apply async_for_through; try (intros; assumption).
  - intros l msg. apply logger_log_starts.
  - intros k cb u. apply invoke_log_starts.
Qed.

(** One turn of the loop returns: both [except] clauses log and sleep. *)
Lemma listen_turn_returns : never_raises (listen_turn (H := H)).
Proof.
  unfold listen_turn. apply never_raises_try_except. intros e.
  unfold never_raises, bind, get_state. intros s.
  destruct e; cbn; now exists tt.
Qed.

(** While the client is marked running the loop goes on, turn after turn. *)
Lemma listen_goes_on (fuel : nat) (s : State H) :
  running s ->
  exists s', listen fuel s = (inl OutOfFuel, s') /\ running s'.
Proof.
  revert s. induction fuel as [|n IH]; intros s Hs.
  - exists s. split; [reflexivity|exact Hs].
  - cbn [listen]. unfold bind at 1, get_state at 1. unfold running in Hs.
    rewrite Hs.
    destruct (listen_turn_returns s) as [[] E].
    pose proof (running_through_listen_turn s Hs) as R.
    destruct (listen_turn s) as [r s1] eqn:T. cbn [fst snd] in *. subst r.
    rewrite (bind_inl _ _ _ _ _ T). apply IH, R.
Qed.

(** The loop over the frames of a connection handles every frame and ends
    only when the frames have run out. *)
Lemma async_for_handles_all (c : nat) (frames : list string) (e : bool)
      (s : State H) :
  fst (async_for c frames e s)
  = (if e then inr (ConnectionClosed "no close frame received or sent") else inl tt) /\
  forall m, In m frames -> In (raw_line m) (log (snd (async_for c frames e s))).
Proof.
  revert s. induction frames as [|m rest IH]; intros s.
  - split; [|intros m []]. cbn. destruct e; reflexivity.
  - cbn [async_for].
    rewrite (bind_inl _ _ s _ tt) by reflexivity.
    match goal with |- context [ bind (_handle_message m) ?k ?s1 ] => set (s0 := s1) end.
    destruct (handle_message_returns m s0) as [[] E].
    pose proof (handle_message_logs_raw m s0) as L.
    destruct (_handle_message m s0) as [r s1] eqn:T. cbn [fst snd] in *. subst r.
    rewrite (bind_inl _ _ _ _ _ T).
    destruct (IH s1) as [F I]. split; [exact F|].
    intros m' [<-|Hin]; [|apply I, Hin].
    destruct (log_starts_through_async_for _ c rest e s1 L) as [l Hl].
    rewrite Hl. apply in_or_app. left. apply in_or_app. right. now left.
Qed.

End ListeningFacts.

(** ** The client with callbacks that raise outside [Exception] *)
Section InterruptedFacts.
Import Py WebSocket.
Context {env : Env} {H : Type}.

Let MB := Interrupted.MB (H := H).

Lemma plain_ret {A} (a : A) (s : State H) :
  Interrupted.plain (Py.ret a) s = Interrupted.ret a s.
Proof. reflexivity. Qed.

(** A sequence of plain steps is plain. *)
Lemma plain_bind {A B} (c : MS A) (k : A -> MS B) (c' : MB A) (k' : A -> MB B)
      (s : State H) :
  (forall s, c' s = Interrupted.plain c s) ->
  (forall a s, k' a s = Interrupted.plain (k a) s) ->
  Interrupted.bind c' k' s = Interrupted.plain (Py.bind c k) s.
Proof.
  intros Hc Hk. unfold Interrupted.bind. rewrite Hc.
  unfold Interrupted.plain, Py.bind.
  destruct (c s) as [[a|e] s1]; [|reflexivity].
  rewrite Hk. reflexivity.
Qed.

Lemma plain_try_except {A} (c : MS A) (h : exn -> MS A) (c' : MB A)
      (h' : exn -> MB A) (s : State H) :
  (forall s, c' s = Interrupted.plain c s) ->
  (forall e s, h' e s = Interrupted.plain (h e) s) ->
  Interrupted.try_except c' h' s = Interrupted.plain (Py.try_except c h) s.
Proof.
  intros Hc Hh. unfold Interrupted.try_except. rewrite Hc.
  unfold Interrupted.plain, Py.try_except.
  destruct (c s) as [[a|e] s1]; [reflexivity|].
  rewrite Hh. reflexivity.
Qed.

Variable interrupts : string -> WebSocketUpdate -> H -> option string.
Hypothesis none : forall k u h, interrupts k u h = None.

Lemma invoke_plain (k : string) (cb : Callback H) (u : WebSocketUpdate) (s : State H) :
  Interrupted.invoke interrupts k cb u s = Interrupted.plain (invoke k cb u) s.
Proof. unfold Interrupted.invoke. now rewrite none. Qed.

Lemma dispatch_one_plain (u : WebSocketUpdate) (item : string * Callback H)
      (s : State H) :
  Interrupted.dispatch_one interrupts u item s = Interrupted.plain (dispatch_one u item) s.
Proof.
  unfold Interrupted.dispatch_one, dispatch_one.
  apply plain_bind; [reflexivity|]. intros _ s1.
  apply plain_bind; [reflexivity|]. intros [|] s2; [|reflexivity].
  apply plain_bind; [reflexivity|]. intros _ s3.
  apply plain_bind; [|reflexivity]. intros s4.
  apply plain_try_except.
  - intros s5. destruct (is_coroutine (snd item)); apply invoke_plain.
  - intros e s5. apply plain_bind; reflexivity.
Qed.

Lemma dispatch_plain (u : WebSocketUpdate) (items : list (string * Callback H))
      (found : bool) (s : State H) :
  Interrupted.dispatch interrupts u items found s
  = Interrupted.plain (dispatch u items found) s.
Proof.
  revert found s. induction items as [|item rest IH]; intros found s; [reflexivity|].
  cbn [Interrupted.dispatch dispatch].
  apply plain_bind; [apply dispatch_one_plain|]. intros hit s1. apply IH.
Qed.

Lemma handle_message_plain (message : string) (s : State H) :
  Interrupted._handle_message interrupts message s
  = Interrupted.plain (_handle_message message) s.
Proof.
  unfold Interrupted._handle_message, _handle_message.
  apply plain_try_except.
  - intros s0.
    apply plain_bind; [reflexivity|]. intros _ s1.
    apply plain_bind; [reflexivity|]. intros parsed s2.
    apply plain_bind; [reflexivity|]. intros chan s3.
    apply plain_bind; [reflexivity|]. intros _ s4.
    apply plain_bind; [reflexivity|]. intros now s5.
    apply plain_bind; [reflexivity|]. intros s6 s7.
    apply plain_bind; [intros s8; apply dispatch_plain|].
    intros [|] s8; reflexivity.
  - intros e s0. destruct e; apply plain_bind; reflexivity.
Qed.

Lemma async_for_plain (c : nat) (frames : list string) (e : bool) (s : State H) :
  Interrupted.async_for interrupts c frames e s
  = Interrupted.plain (async_for c frames e) s.
Proof.
  revert s. induction frames as [|m rest IH]; intros s.
  - cbn [Interrupted.async_for async_for].
    apply plain_bind; [reflexivity|]. intros _ s1. destruct e; reflexivity.
  - cbn [Interrupted.async_for async_for].
    apply plain_bind; [reflexivity|]. intros _ s1.
    apply plain_bind; [intros s2; apply handle_message_plain|]. intros _ s2.
    apply IH.
Qed.

Lemma listen_turn_plain (s : State H) :
  Interrupted.listen_turn interrupts s = Interrupted.plain listen_turn s.
Proof.
  unfold Interrupted.listen_turn, listen_turn.
  apply plain_try_except.
  - intros s0.
    apply plain_bind; [reflexivity|]. intros s1 s2.
    apply plain_bind.
    + intros s3. destruct (ws (self s1)) as [c|]; [|reflexivity].
      destruct (conn_closed c s1); reflexivity.
    + intros _ s3.
      apply plain_bind; [reflexivity|]. intros s4 s5.
      destruct (ws (self s4)) as [c|]; [|reflexivity].
      destruct (nth_error (conns s4) c) as [k|]; [|reflexivity].
      apply async_for_plain.
  - intros e s0.
    apply plain_bind; [reflexivity|]. intros s1 s2.
    destruct e; apply plain_bind; reflexivity.
Qed.

(** With callbacks that raise nothing outside [Exception], the listening
    loop is the one of the client above. *)
Lemma listen_plain (fuel : nat) (s : State H) :
  Interrupted.listen interrupts fuel s = Interrupted.plain (listen fuel) s.
Proof.
  revert s. induction fuel as [|n IH]; intros s; [reflexivity|].
  cbn [Interrupted.listen listen].
  apply plain_bind; [reflexivity|]. intros s1 s2.
  destruct (is_running (self s1)); [|reflexivity].
  apply plain_bind; [apply listen_turn_plain|]. intros _ s3. apply IH.
Qed.

End InterruptedFacts.

(** C6, as the code has it: for every inbound raw message and every set
    of callbacks that raise nothing outside [Exception], handling the
    message returns and leaves the client object, its connections and the
    wire as they were; a message that does not parse, or parses to something
    that is not an object, is logged as an error and no callback is called;
    a parsed frame on a text channel that no registered key matches is
    logged with a warning and no callback is called; the loop over the
    frames of a connection handles every frame and ends only when the
    connection does; and, started while the client is marked running, the
    listening loop is still going after any number of turns.  The clauses
    that catch are [except Exception] clauses: what a callback raises
    outside [Exception] is not caught by them. *)
Theorem C6_bad_frames_and_handlers_do_not_stop_listening
        (env : WebSocket.Env) (H : Type) (message : string) (st : WebSocket.State H) :
  (exists st',
      WebSocket._handle_message message st = (inl tt, st') /\
      WebSocket.untouched st st') /\
  (forall why,
      WebSocket.json_loads message = inr why ->
      exists st',
        WebSocket._handle_message message st = (inl tt, st') /\
        WebSocket.called st' = WebSocket.called st /\
        WebSocket.handler_state st' = WebSocket.handler_state st /\
        WebSocket.log st'
        = (WebSocket.log st
             ++ [ WebSocket.raw_line message;
                  (Py.ERROR, ("Failed to parse WebSocket message: " ++ why)%string);
                  (Py.ERROR, ("Raw message: " ++ message)%string) ])%list) /\
  (forall v,
      WebSocket.json_loads message = inl v ->
      match v with Py.VDict _ => False | _ => True end ->
      exists st',
        WebSocket._handle_message message st = (inl tt, st') /\
        WebSocket.called st' = WebSocket.called st /\
        WebSocket.handler_state st' = WebSocket.handler_state st /\
        WebSocket.log st'
        = (WebSocket.log st
             ++ [ WebSocket.raw_line message;
                  (Py.ERROR,
                   ("Error handling WebSocket message: '" ++ Py.type_name v
                      ++ "' object has no attribute 'get'")%string);
                  (Py.ERROR,
                   WebSocket.format_exc
                     (Py.AttributeError
                        ("'" ++ Py.type_name v
                           ++ "' object has no attribute 'get'"))) ])%list) /\
  (forall d chan,
      WebSocket.json_loads message = inl (Py.VDict d) ->
      Py.get_default (Py.VDict d) "channel" (Py.VStr "unknown") = inl (Py.VStr chan) ->
      (forall k cb, In (k, cb) (WebSocket.callbacks (WebSocket.self st)) ->
                    WebSocket.text_match chan k = false) ->
      exists st' l,
        WebSocket._handle_message message st = (inl tt, st') /\
        WebSocket.called st' = WebSocket.called st /\
        WebSocket.log st'
        = (l ++ [(Py.WARNING,
                  ("⚠️ No callback found for channel: "
                     ++ WebSocket.str_value (Py.VStr chan))%string)])%list) /\
  (forall c frames ends_with_error,
      fst (WebSocket.async_for c frames ends_with_error st)
      = (if ends_with_error
         then inr (Py.ConnectionClosed "no close frame received or sent")
         else inl tt) /\
      forall m, In m frames ->
                In (WebSocket.raw_line m)
                   (WebSocket.log (snd (WebSocket.async_for c frames ends_with_error st)))) /\
  (WebSocket.running st ->
   forall fuel,
   exists st',
     WebSocket.listen fuel st = (inl WebSocket.OutOfFuel, st') /\
     WebSocket.running st') /\
  (forall interrupts : string -> WebSocket.WebSocketUpdate -> H -> option string,
      (forall k u h, interrupts k u h = None) ->
      WebSocket.running st ->
      forall fuel,
      exists st',
        WebSocket.Interrupted.listen interrupts fuel st
        = (inl WebSocket.OutOfFuel, st') /\
        WebSocket.running st').
Proof.
  split; [|split; [|split; [|split; [|split; [|split]]]]].
  - destruct (handle_message_returns (H := H) message st) as [[] E].
    pose proof (handle_message_untouched st message st (untouched_refl st)) as U.
    destruct (WebSocket._handle_message message st) as [r st'].
    cbn [fst snd] in *. subst r. now exists st'.
  - intros why Hjson.
    unfold WebSocket._handle_message, Py.try_except, Py.bind, WebSocket.logger,
      Py.modify, Py.raise. rewrite Hjson. cbn -[append Py.take_code_points].
    eexists. repeat split. cbn -[append Py.take_code_points].
    rewrite <- !app_assoc. reflexivity.
  - intros v Hjson Hv.
    unfold WebSocket._handle_message, Py.try_except, Py.bind, WebSocket.logger,
      Py.modify, Py.raise, Py.lift. rewrite Hjson.
    destruct v; try contradiction; cbn -[append Py.take_code_points];
      (eexists; repeat split; cbn -[append Py.take_code_points];
       rewrite <- !app_assoc; reflexivity).
  - intros d chan Hjson Hchan Hnone.
    destruct (handle_message_text message d chan st Hjson Hchan) as (st' & E & C & W).
    assert (Hf : filter (fun item => WebSocket.text_match chan (fst item))
                   (WebSocket.callbacks (WebSocket.self st)) = []).
    { apply filter_none. intros [k cb] Hin. exact (Hnone k cb Hin). }
    destruct (W Hf) as [l Hl]. exists st', l.
    rewrite Hf in C. cbn in C. rewrite app_nil_r in C. repeat split; assumption.
  - intros c frames e. apply async_for_handles_all.
  - intros Hrun fuel. apply listen_goes_on, Hrun.
  - intros interrupts Hnone Hrun fuel.
    destruct (listen_goes_on fuel st Hrun) as (st' & E & R).
    exists st'. split; [|exact R].
    rewrite (listen_plain interrupts Hnone). unfold WebSocket.Interrupted.plain.
    now rewrite E.
Qed.

Lemma C6_bad_frames_and_handlers_do_not_stop_listening_witness :
  (exists st',
      WebSocket._handle_message (env := DemoWS.env) "not json" DemoWS.started
      = (inl tt, st') /\
      WebSocket.called st' = WebSocket.called DemoWS.started /\
      WebSocket.handler_state st' = WebSocket.handler_state DemoWS.started /\
      WebSocket.log st'
      = (WebSocket.log DemoWS.started
           ++ [ WebSocket.raw_line "not json";
                (Py.ERROR, "Failed to parse WebSocket message: Expecting value: line 1 column 1 (char 0)");
                (Py.ERROR, "Raw message: not json") ])%list) /\
  (exists st',
      WebSocket._handle_message (env := DemoWS.env) "array" DemoWS.started
      = (inl tt, st') /\
      WebSocket.called st' = WebSocket.called DemoWS.started /\
      WebSocket.handler_state st' = WebSocket.handler_state DemoWS.started /\
      WebSocket.log st'
      = (WebSocket.log DemoWS.started
           ++ [ WebSocket.raw_line "array";
                (Py.ERROR,
                 "Error handling WebSocket message: 'list' object has no attribute 'get'");
                (Py.ERROR,
                 WebSocket.format_exc (Env := DemoWS.env)
                   (Py.AttributeError "'list' object has no attribute 'get'")) ])%list) /\
  (exists st' l,
      WebSocket._handle_message (env := DemoWS.env) "pong" DemoWS.started
      = (inl tt, st') /\
      WebSocket.called st' = WebSocket.called DemoWS.started /\
      WebSocket.log st'
      = (l ++ [(Py.WARNING, "⚠️ No callback found for channel: pong")])%list) /\
  (exists st',
      WebSocket.listen (env := DemoWS.env) 3 DemoWS.started
      = (inl WebSocket.OutOfFuel, st') /\
      WebSocket.running st').
Proof.
  split; [|split; [|split]].
  - apply (proj1 (proj2 (C6_bad_frames_and_handlers_do_not_stop_listening
                           DemoWS.env (list string) "not json" DemoWS.started))).
    reflexivity.
  - apply (proj1 (proj2 (proj2 (C6_bad_frames_and_handlers_do_not_stop_listening
                                  DemoWS.env (list string) "array" DemoWS.started)))
             (Py.VList [Py.VInt 1])).
    + reflexivity.
    + exact I.
  - apply (proj1 (proj2 (proj2 (proj2
             (C6_bad_frames_and_handlers_do_not_stop_listening
                DemoWS.env (list string) "pong" DemoWS.started))))
             [("channel", Py.VStr "pong")] "pong").
    + reflexivity.
    + reflexivity.
    + intros k cb [E|[E|[E|[]]]]; inversion E; reflexivity.
  - apply (proj1 (proj2 (proj2 (proj2 (proj2 (proj2
             (C6_bad_frames_and_handlers_do_not_stop_listening
                DemoWS.env (list string) "pong" DemoWS.started))))))).
    reflexivity.
Defined.

(** C6 as the specification words it fails: the task is cancelled while
    the callback for the trades of ETH runs, so that the callback raises
    [asyncio.CancelledError].  No [except Exception] clause catches it:
    handling the frame raises it, and so does the listening loop, on its
    first turn, with the client still marked running; nothing reconnects. *)
Lemma C6_cancelled_handler_ends_listening :
  WebSocket.running DemoWS.dropping /\
  (exists st',
      WebSocket.Interrupted._handle_message (env := DemoWS.env)
        DemoWSMore.cancelled "trades ETH" DemoWS.dropping
      = (inr (WebSocket.Interrupted.BaseException "CancelledError"), st') /\
      map fst (WebSocket.called st') = ["trades:ETH"]) /\
  (exists st',
      WebSocket.Interrupted.listen (env := DemoWS.env)
        DemoWSMore.cancelled 3 DemoWS.dropping
      = (inr (WebSocket.Interrupted.BaseException "CancelledError"), st') /\
      WebSocket.running st' /\
      map fst (WebSocket.called st') = ["trades:ETH"] /\
      WebSocket.dials st' = 1%nat /\
      WebSocket.slept st' = []).
Proof.
  split; [reflexivity|]. split.
  - eexists. split; [vm_compute; reflexivity|]. reflexivity.
  - eexists. split; [vm_compute; reflexivity|]. repeat split.
Qed.

Section ReplayFacts.
Import Py WebSocket.
Local Open Scope exec_scope.
Context {env : Env} {H : Type}.






End ReplayFacts.

Section SubscribeFacts.
Import Py WebSocket.
Local Open Scope exec_scope.
Context {env : Env} {H : Type}.





End SubscribeFacts.

Section LoopReplayFacts.
Import Py WebSocket.
Local Open Scope exec_scope.
Context {env : Env} {H : Type}.






End LoopReplayFacts.

(** A faulting handler, run: the callback registered for allMids raises
    [ValueError("boom")]; the frame loop logs it, goes on to the next frame
    and calls the user callback for it. *)
Example faulting_handler_is_caught :
  exists st',
    WebSocket.async_for (env := DemoWS.env) O ["mids"; "user"] false DemoWS.started
    = (inl tt, st') /\
    map fst (WebSocket.called st') = ["allMids"; "user:0xabc"] /\
    WebSocket.handler_state st' = ["user event"] /\
    In (Py.ERROR, "Error in callback for allMids: boom") (WebSocket.log st').
Proof.
  eexists. split; [vm_compute; reflexivity|].
  split; [reflexivity|]. split; [reflexivity|].
  cbn. repeat ((left; reflexivity) || right).
Qed.




(** A drop and a reconnect, run: connection 0 delivers one trade frame and
    drops; two turns of the listening loop put the three subscriptions on
    connection 0, then on connection 1, once each, and the trade callback
    has been called once. *)
Example listen_replays_after_a_drop :
  exists st',
    WebSocket.listen (env := DemoWS.env) 2 DemoWS.dropping
    = (inl WebSocket.OutOfFuel, st') /\
    WebSocket.wire st'
    = [(0%nat, DemoWS.trades_frame); (0%nat, DemoWS.user_frame);
       (0%nat, DemoWS.mids_frame);
       (1%nat, DemoWS.trades_frame); (1%nat, DemoWS.user_frame);
       (1%nat, DemoWS.mids_frame)] /\
    WebSocket.handler_state st' = ["eth trade"] /\
    WebSocket.slept st' = [5; 5].
Proof.
  eexists. split; [vm_compute; reflexivity|]. repeat split.
Qed.

(* ===================================================================== *)
(** * Properties of the Telegram bot                                      *)
(* ===================================================================== *)
Section AuthorisationFacts.
Import Py Telegram.
Local Open Scope exec_scope.
Context {env : Env} {A : Type}.

(** The check on a chat that is not the allowed one: a warning is logged
    and the answer is no. *)
Lemma check_refuses (self : TelegramBot A) (update : Update) (w : World A) :
  str_of_int (effective_chat_id update) <> allowed_chat_id self ->
  exists w',
    _check_authorized self update w = (inl false, w') /\
    api_raises w' = api_raises w /\ api_calls w' = api_calls w /\
    invoked w' = invoked w /\ app_state w' = app_state w.
Proof.
  intros Hne. unfold _check_authorized.
  apply String.eqb_neq in Hne. rewrite Hne. cbn [negb].
  unfold bind, logger, modify, ret. eexists. split; [reflexivity|].
  repeat split.
Qed.

(** A handler that starts with the check and answers a refusal with one
    Bot API call [c] does just that for a chat that is not allowed. *)
Lemma refusal (self : TelegramBot A) (update : Update) (w : World A)
      (c : ApiCall) (k : bool -> MT unit) :
  k false = api c ->
  str_of_int (effective_chat_id update) <> allowed_chat_id self ->
  exists r w',
    bind (_check_authorized self update) k w = (r, w') /\
    api_calls w' = (api_calls w ++ [c])%list /\
    invoked w' = invoked w /\ app_state w' = app_state w.
Proof.
  intros Hk Hne.
  destruct (check_refuses self update w Hne) as (w1 & E & Hr & Hc & Hi & Ha).
  rewrite (bind_inl _ _ _ _ _ E), Hk. unfold api.
  destruct (api_raises w1 (List.length (api_calls w1)));
    do 2 eexists; (split; [reflexivity|]); cbn; rewrite Hc, Hi, Ha; repeat split.
Qed.

End AuthorisationFacts.

(** C10: for each of the command handlers (start, status, positions,
    orders, pause, resume, stop, pnl), an update whose effective chat id,
    written as text, differs from [allowed_chat_id] gets the single reply
    "Unauthorized" and no control callback is called; for the button
    handler no control callback is called either, and once the query has
    been answered the message is replaced by "Unauthorized". *)
Theorem C10_unauthorized_chat_reaches_no_callback
        (env : Telegram.Env) (A : Type) (self : Telegram.TelegramBot A)
        (update : Telegram.Update) (w : Telegram.World A) :
  Py.str_of_int (Telegram.effective_chat_id update) <> Telegram.allowed_chat_id self ->
  (forall name handler,
      In (name, handler) Telegram.command_handlers ->
      exists r w',
        handler self update w = (r, w') /\
        Telegram.api_calls w'
        = (Telegram.api_calls w
             ++ [Telegram.reply_text "⛔ Unauthorized" None None])%list /\
        Telegram.invoked w' = Telegram.invoked w /\
        Telegram.app_state w' = Telegram.app_state w) /\
  (exists r w',
      Telegram._button_callback self update w = (r, w') /\
      Telegram.invoked w' = Telegram.invoked w /\
      Telegram.app_state w' = Telegram.app_state w /\
      (Telegram.api_raises w (List.length (Telegram.api_calls w)) = None ->
       Telegram.api_calls w'
       = (Telegram.api_calls w
            ++ [Telegram.query_answer;
                Telegram.edit_message_text "⛔ Unauthorized" None])%list)).
Proof.
  intros Hne. split.
  - intros name handler Hin. cbn in Hin.
    repeat (destruct Hin as [[= _ <-]|Hin]; [apply refusal; [reflexivity|exact Hne]|]).
    destruct Hin.
  - unfold Telegram._button_callback.
    unfold Py.bind at 1. unfold Telegram.api at 1.
    destruct (Telegram.api_raises w (List.length (Telegram.api_calls w))) as [msg|] eqn:R.
    + do 2 eexists. split; [reflexivity|]. cbn. repeat split. discriminate.
    + match goal with
      | |- context [ Py.bind (Telegram._check_authorized self update) ?k ?w1 ] =>
          destruct (refusal self update w1
                      (Telegram.edit_message_text "⛔ Unauthorized" None)
                      k eq_refl Hne)
            as (r & w' & E & Hc & Hi & Ha)
      end.
      exists r, w'. split; [exact E|]. rewrite Hc, Hi, Ha. cbn.
      repeat split. intros _. now rewrite <- app_assoc.
Qed.

Lemma C10_unauthorized_chat_reaches_no_callback_witness :
  (forall name handler,
      In (name, handler) (Telegram.command_handlers (env := DemoBot.env)) ->
      exists r w',
        handler DemoBot.bot DemoBot.stranger_button DemoBot.world = (r, w') /\
        Telegram.api_calls w'
        = (Telegram.api_calls DemoBot.world
             ++ [Telegram.reply_text "⛔ Unauthorized" None None])%list /\
        Telegram.invoked w' = Telegram.invoked DemoBot.world /\
        Telegram.app_state w' = Telegram.app_state DemoBot.world) /\
  (exists r w',
      Telegram._button_callback DemoBot.bot
        DemoBot.stranger_button DemoBot.world = (r, w') /\
      Telegram.invoked w' = Telegram.invoked DemoBot.world /\
      Telegram.app_state w' = Telegram.app_state DemoBot.world /\
      (Telegram.api_raises DemoBot.world
         (List.length (Telegram.api_calls DemoBot.world)) = None ->
       Telegram.api_calls w'
       = (Telegram.api_calls DemoBot.world
            ++ [Telegram.query_answer;
                Telegram.edit_message_text "⛔ Unauthorized" None])%list)).
Proof.
  apply (C10_unauthorized_chat_reaches_no_callback DemoBot.env nat DemoBot.bot
           DemoBot.stranger_button DemoBot.world).
  discriminate.
Defined.

(** The same commands from the allowed chat do reach the callbacks: the
    owner's [/pause] calls [on_pause_requested], and the owner's "Close
    Positions" button calls [on_stop_requested(close_positions=True)]. *)
Example owner_reaches_the_callbacks :
  Telegram.invoked
    (snd (Telegram._pause_command DemoBot.bot DemoBot.owner
            DemoBot.world))
  = [Telegram.Invoked_on_pause_requested] /\
  Telegram.invoked
    (snd (Telegram._button_callback DemoBot.bot
            {| Telegram.effective_chat_id := 42;
               Telegram.query_data := Some "stop_close" |}
            DemoBot.world))
  = [Telegram.Invoked_on_stop_requested true] /\
  Telegram.invoked
    (snd (Telegram._pause_command DemoBot.bot DemoBot.stranger
            DemoBot.world))
  = [].
Proof.
  repeat split; vm_compute; reflexivity.
Qed.

(* ===================================================================== *)
(** * Further properties of the executor                                  *)
(* ===================================================================== *)
Section ExecutorSteps.
Import Py Executor.
Local Open Scope exec_scope.
Context {env : Env}.

(** Stepping through the body of a [try]: a first command that returns
    hands over to the rest, one that raises hands over to the handler. *)
Lemma try_bind_inl {S A B} (c : Py.M S A) (k : A -> Py.M S B) (h : exn -> Py.M S B)
      (s s1 : S) (a : A) :
  c s = (inl a, s1) -> try_except (bind c k) h s = try_except (k a) h s1.
Proof. unfold try_except, bind. now intros ->. Qed.

Lemma try_bind_inr {S A B} (c : Py.M S A) (k : A -> Py.M S B) (h : exn -> Py.M S B)
      (s s1 : S) (e : exn) :
  c s = (inr e, s1) -> try_except (bind c k) h s = h e s1.
Proof. unfold try_except, bind. now intros ->. Qed.

Lemma logger_keeps_posts (p : list Request) (l : level) (msg : string) :
  preserves (fun x => posts x = p) (logger l msg).
Proof. intros s Hs. exact Hs. Qed.

(** What follows the POST in the two placement paths reads the answer and
    logs; it posts nothing. *)
Lemma placement_tail_keeps_posts (p : list Request) (fallback : value)
      (ok_line bad_line : string) (response : Z * string) :
  preserves (fun x => posts x = p)
    (if fst response =? 200 then
       result <- lift_lib (response_json (snd response)) ;;
       logger SUCCESS ok_line ;;;
       ok <- lift (status_ok_with_data result) ;;
       if (ok : bool) then
         data <- lift (response_data result) ;;
         order_id <- lift (resting_oid data) ;;
         ret order_id
       else ret fallback
     else
       logger ERROR (bad_line ++ snd response) ;;;
       ret VNone).
Proof.
  destruct (fst response =? 200).
  - apply preserves_bind; [apply preserves_lift_lib|intros result].
    apply preserves_bind; [apply logger_keeps_posts|intros _].
    apply preserves_bind; [apply preserves_lift|intros [|]]; [|apply preserves_ret].
    apply preserves_bind; [apply preserves_lift|intros data].
    apply preserves_bind; [apply preserves_lift|intros oid; apply preserves_ret].
  - apply preserves_bind; [apply logger_keeps_posts|intros _; apply preserves_ret].
Qed.

(** The POST itself: the request is recorded, whatever comes back. *)
Lemma session_post_posts (url : string) (sa : SignedAction) (w : World) :
  posts (snd (session_post url sa w))
  = (posts w ++ [ {| req_url := url; req_json := sa |} ])%list /\
  exchange (snd (session_post url sa w)) = exchange w /\
  clock (snd (session_post url sa w)) = clock w /\
  fst (session_post url sa w)
  = match exchange w (List.length (posts w)) {| req_url := url; req_json := sa |} with
    | Response st body => inl (st, body)
    | TransportFailure m => inr (LibraryError m)
    end.
Proof.
  unfold session_post.
  destruct (exchange w _ _); cbn; repeat split.
Qed.

End ExecutorSteps.

Section DryRunFacts.
Import Py Executor.
Local Open Scope exec_scope.
Context {env : Env}.

(** Without an account nothing can be signed, so the private leverage
    update gives up before any request. *)
Lemma update_leverage_without_account (self : TradeExecutor) (symbol : string)
      (leverage : Z) (is_cross : bool) (w : World) :
  account self = None ->
  exists w', _update_leverage self symbol leverage is_cross w = (inl false, w') /\
             posts w' = posts w.
Proof.
  intros Ha. unfold _update_leverage, _sign_action. rewrite Ha.
  unfold try_except, bind, raise, logger, ret. eexists. split; reflexivity.
Qed.

(** One call on an executor in dry-run mode that holds no account. *)
Lemma dry_invoke_keeps_posts (self : TradeExecutor) (c : Call) (w : World) :
  dry_run self = true -> account self = None ->
  posts (snd (invoke self c w)) = posts w.
Proof.
  intros Hdry Ha.
  destruct c; cbn [invoke snd];
    unfold execute_market_order, execute_limit_order, close_position,
      cancel_order, cancel_all_orders; rewrite ?Hdry;
    try (unfold _simulate_order, bind, time_time, logger, ret; reflexivity).
  - unfold _sign_action. rewrite Ha. reflexivity.
  - destruct (update_leverage_without_account self symbol leverage is_cross w Ha)
      as (w' & E & Hp).
    now rewrite E.
  - unfold _simulate_order, bind, time_time, logger, ret.
    destruct (OrderType_eqb order_type MARKET); reflexivity.
Qed.

Lemma dry_run_keeps_posts (calls : list Call) (self : TradeExecutor) (w : World) :
  dry_run self = true -> account self = None ->
  posts (snd (run self calls w)) = posts w.
Proof.
  intros Hdry Ha. revert w. induction calls as [|c rest IH]; intros w; [reflexivity|].
  cbn [run].
  assert (E : invoke self c w = (self, snd (invoke self c w)))
    by (destruct c; reflexivity).
  rewrite E, IH. now apply dry_invoke_keeps_posts.
Qed.

End DryRunFacts.

(** X1: constructing the executor with [dry_run=True] always succeeds,
    whatever the key and the address, and leaves it without a signing
    account; no sequence of calls of its methods, the private ones
    included, then posts a request. *)
Theorem X1_dry_run_executor_never_posts
        (env : Executor.Env) (wa pk : option string) (iu eu : string)
        (w : Executor.World) (calls : list Executor.Call) :
  exists self w',
    Executor.__init__ wa pk iu eu true w = (inl self, w') /\
    Executor.dry_run self = true /\
    Executor.account self = None /\
    Executor.posts w' = Executor.posts w /\
    Executor.posts (snd (Executor.run self calls w')) = Executor.posts w.
Proof.
  unfold Executor.__init__. rewrite andb_false_r. cbn [negb].
  unfold Py.bind, Executor.logger, Py.ret.
  do 2 eexists. split; [reflexivity|].
  split; [reflexivity|]. split; [reflexivity|]. split; [reflexivity|].
  now rewrite dry_run_keeps_posts.
Qed.

Section ReturnFacts.
Import Py Executor.
Local Open Scope exec_scope.
Context {env : Env}.

Lemma never_raises_logger (l : level) (msg : string) : never_raises (logger l msg).
Proof. intros s. now exists tt. Qed.

Lemma never_raises_time : never_raises time_time.
Proof. intros s. eexists. reflexivity. Qed.

Lemma simulate_order_returns (self : TradeExecutor) (symbol : string)
      (side : OrderSide) (size : Q) (order_type : OrderType) (price : option Q)
      (leverage : Z) :
  never_raises (_simulate_order self symbol side size order_type price leverage).
Proof.
  unfold _simulate_order.
  apply never_raises_bind; [apply never_raises_time|intros t].
  apply never_raises_bind; [|intros _; apply never_raises_ret].
  destruct (OrderType_eqb order_type MARKET); apply never_raises_logger.
Qed.

(** An [except Exception] clause that logs and returns a value. *)
Lemma logging_handler_returns {A} (line : exn -> string) (a : A) (e : exn) :
  never_raises (logger ERROR (line e) ;;; ret a).
Proof.
  apply never_raises_bind; [apply never_raises_logger|intros _; apply never_raises_ret].
Qed.

End ReturnFacts.

(** X2: no order method of the executor raises.  Whatever the signer, the
    transport and the parser of the response do, [execute_market_order],
    [execute_limit_order], [close_position], [cancel_order],
    [cancel_all_orders] and [_update_leverage] return a value: every failure
    ends in the method's [except Exception] clause. *)
Theorem X2_order_methods_never_raise
        (env : Executor.Env) (self : Executor.TradeExecutor) (symbol : string) :
  (forall side size leverage reduce_only,
      Py.never_raises
        (Executor.execute_market_order self symbol side size leverage reduce_only)) /\
  (forall side size price leverage reduce_only post_only,
      Py.never_raises
        (Executor.execute_limit_order self symbol side size price leverage
           reduce_only post_only)) /\
  (forall size side, Py.never_raises (Executor.close_position self symbol size side)) /\
  (forall order_id, Py.never_raises (Executor.cancel_order self symbol order_id)) /\
  (forall filter, Py.never_raises (Executor.cancel_all_orders self filter)) /\
  (forall leverage is_cross,
      Py.never_raises (Executor._update_leverage self symbol leverage is_cross)).
Proof.
  assert (Hm : forall side size leverage reduce_only,
             Py.never_raises
               (Executor.execute_market_order self symbol side size leverage reduce_only)).
  { intros. unfold Executor.execute_market_order. destruct (Executor.dry_run self).
    - apply never_raises_bind; [apply simulate_order_returns|].
      intros oid. apply never_raises_ret.
    - apply never_raises_try_except. intros e.
      apply (logging_handler_returns
               (fun e => ("Error executing market order: " ++ Py.str_of_exn e)%string)). }
  split; [exact Hm|]. split; [|split; [|split; [|split]]].
  - intros. unfold Executor.execute_limit_order. destruct (Executor.dry_run self).
    + apply never_raises_bind; [apply simulate_order_returns|].
      intros oid. apply never_raises_ret.
    + apply never_raises_try_except. intros e.
      apply (logging_handler_returns
               (fun e => ("Error placing limit order: " ++ Py.str_of_exn e)%string)).
  - intros. unfold Executor.close_position. destruct (Executor.dry_run self).
    + apply never_raises_bind; [apply never_raises_logger|intros _].
      apply never_raises_bind; [apply never_raises_time|intros t].
      apply never_raises_ret.
    + apply Hm.
  - intros. unfold Executor.cancel_order. destruct (Executor.dry_run self).
    + apply never_raises_bind; [apply never_raises_logger|intros _].
      apply never_raises_ret.
    + apply never_raises_try_except. intros e.
      apply (logging_handler_returns
               (fun e => ("Error cancelling order: " ++ Py.str_of_exn e)%string)).
  - intros. unfold Executor.cancel_all_orders. destruct (Executor.dry_run self).
    + apply never_raises_bind; [apply never_raises_logger|intros _].
      apply never_raises_ret.
    + apply never_raises_try_except. intros e.
      apply (logging_handler_returns
               (fun e => ("Error cancelling all orders: " ++ Py.str_of_exn e)%string)).
  - intros. unfold Executor._update_leverage.
    apply never_raises_try_except. intros e.
    apply (logging_handler_returns
             (fun e => ("Error updating leverage: " ++ Py.str_of_exn e)%string)).
Qed.

Section SignedPosts.
Import Py Executor.
Local Open Scope exec_scope.
Context {env : Env}.

Variables (self : TradeExecutor) (acct : LocalAccount) (m : SignedMessage).
Hypothesis has_account : account self = Some acct.
Hypothesis signs :
  sign_typed_data acct structured_domain structured_types structured_message = inl m.
Hypothesis r_fits : 0 <= msg_r m < 2 ^ 256.
Hypothesis s_fits : 0 <= msg_s m < 2 ^ 256.

(** The leverage update of an executor that can sign. *)
Lemma update_leverage_signed (symbol : string) (leverage : Z) (is_cross : bool)
      (w : World) :
  exists sa w',
    let req := {| req_url := exchange_url self; req_json := sa |} in
    action sa = ActUpdateLeverage symbol is_cross leverage /\
    nonce sa = int_of_real (float_mul (clock w (ticks w)) 1000) /\
    posts w' = (posts w ++ [req])%list /\
    _update_leverage self symbol leverage is_cross w
    = (inl match exchange w (List.length (posts w)) req with
           | Response st body =>
               ((st =? 200)
                && match response_json body with
                   | inl _ => true
                   | inr _ => false
                   end)%bool
           | TransportFailure _ => false
           end, w').
Proof.
  destruct (sign_action_returns self acct m
              (ActUpdateLeverage symbol is_cross leverage) w
              has_account signs r_fits s_fits)
    as (sa & w1 & S & Hact & Hp & Hx & _).
  destruct (sign_action_nonce self _ w w1 sa S) as [Hn _].
  exists sa. unfold _update_leverage.
  rewrite (try_bind_inl _ _ _ _ _ _ S).
  unfold try_except, bind at 1, session_post. cbv beta.
  rewrite Hx, Hp.
  destruct (exchange w _ _) as [st body|msg]; cbn [fst snd].
  - destruct (st =? 200); cbn [andb].
    + unfold bind at 1, lift_lib.
      destruct (response_json body) as [v|why];
        refine (ex_intro _ _ (conj Hact (conj Hn (conj _ eq_refl)))); reflexivity.
    + refine (ex_intro _ _ (conj Hact (conj Hn (conj _ eq_refl)))); reflexivity.
  - refine (ex_intro _ _ (conj Hact (conj Hn (conj _ eq_refl)))); reflexivity.
Qed.

(** A signed request followed by a [tail] that posts nothing, inside a
    [try] whose handler posts nothing: exactly that request goes out. *)
Lemma signed_post (A : Type) (act : Action) (tail : Z * string -> M A)
      (h : exn -> M A) (w : World) :
  (forall p response, preserves (fun x => posts x = p) (tail response)) ->
  (forall p e, preserves (fun x => posts x = p) (h e)) ->
  exists sa,
    action sa = act /\
    nonce sa = int_of_real (float_mul (clock w (ticks w)) 1000) /\
    posts (snd (try_except
                  (signed_action <- _sign_action self act ;;
                   response <- session_post (exchange_url self) signed_action ;;
                   tail response) h w))
    = (posts w ++ [ {| req_url := exchange_url self; req_json := sa |} ])%list.
Proof.
  intros Htail Hh.
  destruct (sign_action_returns self acct m act w has_account signs r_fits s_fits)
    as (sa & w1 & S & Hact & Hp & _).
  destruct (sign_action_nonce self _ w w1 sa S) as [Hn _].
  exists sa. split; [exact Hact|]. split; [exact Hn|].
  rewrite (try_bind_inl _ _ _ _ _ _ S).
  destruct (session_post_posts (exchange_url self) sa w1) as (Hq & _ & _ & _).
  rewrite Hp in Hq.
  destruct (session_post (exchange_url self) sa w1) as [[response|e] w2] eqn:E;
    cbn [snd] in Hq.
  - rewrite (try_bind_inl _ _ _ _ _ _ E).
    apply (preserves_try_except (fun x => posts x = _) _ _ (Htail _ response)
             (Hh _) w2 Hq).
  - rewrite (try_bind_inr _ _ _ _ _ _ E). apply (Hh _ e w2 Hq).
Qed.

End SignedPosts.

(** X3: what [_update_leverage] reports.  With an account whose signing
    goes through it posts one request to the exchange URL, carrying the
    [updateLeverage] action for the symbol, margin mode and leverage given
    and, as nonce, [int(time.time() * 1000)] for the clock reading of the
    call, the product being that of floats; it returns [True] exactly when
    the exchange answers that request with HTTP 200 and [response.json()]
    returns, and [False] for any other status, when [response.json()]
    raises and on a transport error.  Without an account it posts nothing
    and returns [False]. *)
Theorem X3_update_leverage_reports_the_answer
        (env : Executor.Env) (self : Executor.TradeExecutor) (symbol : string)
        (leverage : Z) (is_cross : bool) (w : Executor.World) :
  (forall acct m,
      Executor.account self = Some acct ->
      Executor.sign_typed_data acct Executor.structured_domain
        Executor.structured_types Executor.structured_message = inl m ->
      0 <= Executor.msg_r m < 2 ^ 256 ->
      0 <= Executor.msg_s m < 2 ^ 256 ->
      exists sa w',
        let req := {| Executor.req_url := Executor.exchange_url self;
                      Executor.req_json := sa |} in
        Executor.action sa = Executor.ActUpdateLeverage symbol is_cross leverage /\
        Executor.nonce sa
        = Py.int_of_real (Py.float_mul (Executor.clock w (Executor.ticks w)) 1000) /\
        Executor.posts w' = (Executor.posts w ++ [req])%list /\
        Executor._update_leverage self symbol leverage is_cross w
        = (inl match Executor.exchange w (List.length (Executor.posts w)) req with
               | Executor.Response st body =>
                   ((st =? 200)
                    && match Executor.response_json body with
                       | inl _ => true
                       | inr _ => false
                       end)%bool
               | Executor.TransportFailure _ => false
               end, w')) /\
  (Executor.account self = None ->
   exists w',
     Executor._update_leverage self symbol leverage is_cross w = (inl false, w') /\
     Executor.posts w' = Executor.posts w).
Proof.
  split; [|apply update_leverage_without_account].
  intros acct m Ha Hs Hr Hs'.
  exact (update_leverage_signed self acct m Ha Hs Hr Hs' symbol leverage is_cross w).
Qed.

Lemma X3_update_leverage_reports_the_answer_witness :
  (exists w',
      Executor._update_leverage Demo.live "BTC" 5 true Demo.w_resting = (inl true, w') /\
      map Executor.sent (Executor.posts w')
      = [("https://api.hyperliquid.xyz/exchange",
          Executor.ActUpdateLeverage "BTC" true 5)]) /\
  (exists w',
      Executor._update_leverage Demo.live "BTC" 5 true Demo.w_500 = (inl false, w')) /\
  (exists w',
      Executor._update_leverage Demo.dry "BTC" 5 true Demo.w_resting = (inl false, w') /\
      Executor.posts w' = []).
Proof.
  assert (F : 0 <= 1 < 2 ^ 256 /\ 0 <= 2 < 2 ^ 256)
    by (repeat split; (discriminate || reflexivity)).
  split; [|split].
  - destruct (proj1 (X3_update_leverage_reports_the_answer Demo.env Demo.live "BTC" 5
                       true Demo.w_resting) "0xAbC1"
                {| Executor.msg_r := 1; Executor.msg_s := 2; Executor.msg_v := 27 |}
                eq_refl eq_refl (proj1 F) (proj2 F))
      as (sa & w' & Hact & _ & Hp & E).
    exists w'. split; [exact E|]. rewrite Hp. unfold Executor.sent. cbn.
    now rewrite Hact.
  - destruct (proj1 (X3_update_leverage_reports_the_answer Demo.env Demo.live "BTC" 5
                       true Demo.w_500) "0xAbC1"
                {| Executor.msg_r := 1; Executor.msg_s := 2; Executor.msg_v := 27 |}
                eq_refl eq_refl (proj1 F) (proj2 F))
      as (sa & w' & _ & _ & _ & E).
    exists w'. exact E.
  - exact (proj2 (X3_update_leverage_reports_the_answer Demo.env Demo.dry "BTC" 5
                    true Demo.w_resting) eq_refl).
Defined.

Section PlacementPosts.
Import Py Executor.
Local Open Scope exec_scope.
Context {env : Env}.

Variables (self : TradeExecutor) (acct : LocalAccount) (m : SignedMessage).
Hypothesis has_account : account self = Some acct.
Hypothesis signs :
  sign_typed_data acct structured_domain structured_types structured_message = inl m.
Hypothesis r_fits : 0 <= msg_r m < 2 ^ 256.
Hypothesis s_fits : 0 <= msg_s m < 2 ^ 256.

(** The optional leverage update in front of a placement, for an executor
    that can sign. *)
Lemma prelude_posts (symbol : string) (leverage : Z) (w : World) :
  exists w1 reqs,
    (if 1 <? leverage
     then bind (_update_leverage self symbol leverage true) (fun _ => ret tt)
     else ret tt) w = (inl tt, w1) /\
    posts w1 = (posts w ++ reqs)%list /\
    map sent reqs
    = if 1 <? leverage
      then [(exchange_url self, ActUpdateLeverage symbol true leverage)] else [].
Proof.
  destruct (1 <? leverage).
  - destruct (update_leverage_signed self acct m has_account signs r_fits s_fits
                symbol leverage true w) as (sa & w1 & Hact & _ & Hp & E).
    exists w1, [ {| req_url := exchange_url self; req_json := sa |} ].
    rewrite (bind_inl _ _ _ _ _ E). split; [reflexivity|]. split; [exact Hp|].
    unfold sent. cbn. now rewrite Hact.
  - exists w, []. split; [reflexivity|]. now rewrite app_nil_r.
Qed.

(** A placement: the leverage update when there is one, then the order,
    whatever the exchange answers to either. *)
Lemma placement_posts (symbol : string) (leverage : Z) (act : Action)
      (tail : Z * string -> M value) (h : exn -> M value) (w : World) :
  (forall p response, preserves (fun x => posts x = p) (tail response)) ->
  (forall p e, preserves (fun x => posts x = p) (h e)) ->
  exists reqs,
    posts (snd (try_except
                  ((if 1 <? leverage
                    then bind (_update_leverage self symbol leverage true)
                              (fun _ => ret tt)
                    else ret tt) ;;;
                   signed_action <- _sign_action self act ;;
                   response <- session_post (exchange_url self) signed_action ;;
                   tail response) h w))
    = (posts w ++ reqs)%list /\
    map sent reqs
    = ((if 1 <? leverage
        then [(exchange_url self, ActUpdateLeverage symbol true leverage)] else [])
         ++ [(exchange_url self, act)])%list.
Proof.
  intros Htail Hh.
  destruct (prelude_posts symbol leverage w) as (w1 & reqs & P & Hp & Hs).
  rewrite (try_bind_inl _ _ _ _ _ _ P).
  destruct (signed_post self acct m has_account signs r_fits s_fits
              value act tail h w1 Htail Hh) as (sa & Hact & _ & Hq).
  exists (reqs ++ [ {| req_url := exchange_url self; req_json := sa |} ])%list.
  rewrite Hq, Hp, <- app_assoc. split; [reflexivity|].
  rewrite map_app, Hs. unfold sent. cbn. now rewrite Hact.
Qed.

End PlacementPosts.

(** X4: what a live placement posts.  For an executor that can sign, a
    market order posts, to the exchange URL, the cross-margin leverage
    update when the leverage is above 1 and then the order itself: price
    ["0"], immediate-or-cancel, buying when the side is BUY.  A limit order
    does the same with its own price and the time in force [Alo] when
    [post_only] is set, [Gtc] otherwise.  The order request goes out
    whatever the exchange answered to the leverage update, and nothing else
    is posted. *)
Theorem X4_live_placement_posts_leverage_then_order
        (env : Executor.Env) (self : Executor.TradeExecutor)
        (acct : Executor.LocalAccount) (m : Executor.SignedMessage)
        (symbol : string) (side : Executor.OrderSide) (size price : Q)
        (leverage : Z) (reduce_only post_only : bool) (w : Executor.World) :
  Executor.dry_run self = false ->
  Executor.account self = Some acct ->
  Executor.sign_typed_data acct Executor.structured_domain
    Executor.structured_types Executor.structured_message = inl m ->
  0 <= Executor.msg_r m < 2 ^ 256 ->
  0 <= Executor.msg_s m < 2 ^ 256 ->
  let url := Executor.exchange_url self in
  let leverage_update :=
    if 1 <? leverage
    then [(url, Executor.ActUpdateLeverage symbol true leverage)] else [] in
  (exists reqs,
      Executor.posts
        (snd (Executor.execute_market_order self symbol side size leverage
                reduce_only w))
      = (Executor.posts w ++ reqs)%list /\
      map Executor.sent reqs
      = (leverage_update
           ++ [(url,
                Executor.ActOrder
                  [ {| Executor.o_a := Executor.wallet_address self;
                       Executor.o_b := Executor.OrderSide_eqb side Executor.BUY;
                       Executor.o_p := "0";
                       Executor.o_s := Executor.str_float size;
                       Executor.o_r := reduce_only;
                       Executor.o_t := Executor.Ioc;
                       Executor.o_c := symbol |} ] "na")])%list) /\
  (exists reqs,
      Executor.posts
        (snd (Executor.execute_limit_order self symbol side size price leverage
                reduce_only post_only w))
      = (Executor.posts w ++ reqs)%list /\
      map Executor.sent reqs
      = (leverage_update
           ++ [(url,
                Executor.ActOrder
                  [ {| Executor.o_a := Executor.wallet_address self;
                       Executor.o_b := Executor.OrderSide_eqb side Executor.BUY;
                       Executor.o_p := Executor.str_float price;
                       Executor.o_s := Executor.str_float size;
                       Executor.o_r := reduce_only;
                       Executor.o_t := if post_only then Executor.Alo
                                       else Executor.Gtc;
                       Executor.o_c := symbol |} ] "na")])%list).
Proof.
  intros Hlive Ha Hs Hr Hs' url leverage_update. subst url leverage_update.
  split.
  - unfold Executor.execute_market_order. rewrite Hlive.
    apply (placement_posts self acct m Ha Hs Hr Hs').
    + intros p response. apply placement_tail_keeps_posts.
    + intros p e. apply preserves_bind; [apply logger_keeps_posts|].
      intros _. apply preserves_ret.
  - unfold Executor.execute_limit_order. rewrite Hlive.
    apply (placement_posts self acct m Ha Hs Hr Hs').
    + intros p response. apply placement_tail_keeps_posts.
    + intros p e. apply preserves_bind; [apply logger_keeps_posts|].
      intros _. apply preserves_ret.
Qed.

Lemma X4_live_placement_posts_leverage_then_order_witness :
  (exists reqs,
      Executor.posts
        (snd (Executor.execute_market_order Demo.live "BTC" Executor.BUY (1 # 10) 5
                false Demo.w_500))
      = (Executor.posts Demo.w_500 ++ reqs)%list /\
      map Executor.sent reqs
      = [("https://api.hyperliquid.xyz/exchange",
          Executor.ActUpdateLeverage "BTC" true 5);
         ("https://api.hyperliquid.xyz/exchange",
          Executor.ActOrder
            [ {| Executor.o_a := Some "0xabc1"; Executor.o_b := true;
                 Executor.o_p := "0"; Executor.o_s := "0.0";
                 Executor.o_r := false; Executor.o_t := Executor.Ioc;
                 Executor.o_c := "BTC" |} ] "na")]) /\
  (exists reqs,
      Executor.posts
        (snd (Executor.execute_limit_order Demo.live "BTC" Executor.BUY (1 # 10)
                60000 5 false true Demo.w_500))
      = (Executor.posts Demo.w_500 ++ reqs)%list /\
      map Executor.sent reqs
      = [("https://api.hyperliquid.xyz/exchange",
          Executor.ActUpdateLeverage "BTC" true 5);
         ("https://api.hyperliquid.xyz/exchange",
          Executor.ActOrder
            [ {| Executor.o_a := Some "0xabc1"; Executor.o_b := true;
                 Executor.o_p := "60000.0"; Executor.o_s := "0.0";
                 Executor.o_r := false; Executor.o_t := Executor.Alo;
                 Executor.o_c := "BTC" |} ] "na")]).
Proof.
  assert (F : 0 <= 1 < 2 ^ 256 /\ 0 <= 2 < 2 ^ 256)
    by (repeat split; (discriminate || reflexivity)).
  exact (X4_live_placement_posts_leverage_then_order Demo.env Demo.live "0xAbC1"
           {| Executor.msg_r := 1; Executor.msg_s := 2; Executor.msg_v := 27 |}
           "BTC" Executor.BUY (1 # 10) 60000 5 false true Demo.w_500
           eq_refl eq_refl eq_refl (proj1 F) (proj2 F)).
Defined.

Section CancelFacts.
Import Py Executor.
Local Open Scope exec_scope.
Context {env : Env}.

Variables (self : TradeExecutor) (acct : LocalAccount) (m : SignedMessage).
Hypothesis live : dry_run self = false.
Hypothesis has_account : account self = Some acct.
Hypothesis signs :
  sign_typed_data acct structured_domain structured_types structured_message = inl m.
Hypothesis r_fits : 0 <= msg_r m < 2 ^ 256.
Hypothesis s_fits : 0 <= msg_s m < 2 ^ 256.

Lemma cancel_order_signed (symbol order_id : string) (w : World) :
  exists sa w',
    let req := {| req_url := exchange_url self; req_json := sa |} in
    action sa = ActCancel [(wallet_address self, order_id)] /\
    posts w' = (posts w ++ [req])%list /\
    cancel_order self symbol order_id w
    = (inl match exchange w (List.length (posts w)) req with
           | Response st _ => st =? 200
           | TransportFailure _ => false
           end, w').
Proof.
  destruct (sign_action_returns self acct m
              (ActCancel [(wallet_address self, order_id)]) w
              has_account signs r_fits s_fits)
    as (sa & w1 & S & Hact & Hp & Hx & _).
  exists sa. unfold cancel_order. rewrite live.
  rewrite (try_bind_inl _ _ _ _ _ _ S).
  unfold try_except, bind at 1, session_post. cbv beta.
  rewrite Hx, Hp.
  destruct (exchange w _ _) as [st body|msg]; cbn [fst snd].
  - destruct (st =? 200);
      refine (ex_intro _ _ (conj Hact (conj _ eq_refl))); reflexivity.
  - refine (ex_intro _ _ (conj Hact (conj _ eq_refl))); reflexivity.
Qed.

(** The count [cancel_all_orders] reads in a parsed body; a failure on the
    way is a count of 0. *)
Lemma cancel_all_signed (symbol : option string) (w : World) :
  exists sa w',
    let req := {| req_url := exchange_url self; req_json := sa |} in
    action sa = ActCancelByCloid [(if truthy_str symbol then symbol else None, None)] /\
    posts w' = (posts w ++ [req])%list /\
    cancel_all_orders self symbol w
    = (inl match exchange w (List.length (posts w)) req with
           | Response st body =>
               if st =? 200 then
                 match response_json body with
                 | inl result =>
                     match and_then (get_default result "response" (VDict []))
                             (fun resp =>
                                and_then (get_default resp "data" (VDict []))
                                  (fun data =>
                                     and_then (get_default data "statuses" (VList []))
                                       len)) with
                     | inl count => count
                     | inr _ => 0
                     end
                 | inr _ => 0
                 end
               else 0
           | TransportFailure _ => 0
           end, w').
Proof.
  destruct (sign_action_returns self acct m
              (ActCancelByCloid [(if truthy_str symbol then symbol else None, None)]) w
              has_account signs r_fits s_fits)
    as (sa & w1 & S & Hact & Hp & Hx & _).
  exists sa. unfold cancel_all_orders. rewrite live. cbv zeta.
  rewrite (try_bind_inl _ _ _ _ _ _ S).
  unfold try_except, bind at 1, session_post. cbv beta.
  rewrite Hx, Hp.
  destruct (exchange w _ _) as [st body|msg]; cbn [fst snd].
  - destruct (st =? 200).
    + unfold bind at 1, lift_lib.
      destruct (response_json body) as [result|why];
        [|refine (ex_intro _ _ (conj Hact (conj _ eq_refl))); reflexivity].
      unfold ret at 1, bind at 1, lift.
      destruct (get_default result "response" (VDict [])) as [resp|e];
        [|refine (ex_intro _ _ (conj Hact (conj _ eq_refl))); reflexivity].
      unfold ret at 1, bind at 1. cbn [and_then].
      destruct (get_default resp "data" (VDict [])) as [data|e];
        [|refine (ex_intro _ _ (conj Hact (conj _ eq_refl))); reflexivity].
      unfold ret at 1, bind at 1. cbn [and_then].
      destruct (get_default data "statuses" (VList [])) as [statuses|e];
        [|refine (ex_intro _ _ (conj Hact (conj _ eq_refl))); reflexivity].
      unfold ret at 1, bind at 1. cbn [and_then].
      destruct (len statuses) as [count|e];
        refine (ex_intro _ _ (conj Hact (conj _ eq_refl))); reflexivity.
    + refine (ex_intro _ _ (conj Hact (conj _ eq_refl))); reflexivity.
  - refine (ex_intro _ _ (conj Hact (conj _ eq_refl))); reflexivity.
Qed.

Lemma len_nonneg (v : value) (n : Z) : len v = inl n -> 0 <= n.
Proof. destruct v; cbn; intros [= <-]; lia. Qed.

End CancelFacts.

(** X5: [cancel_order] goes by the HTTP status alone.  In dry-run mode it
    returns [True] and posts nothing.  Live, an executor that can sign posts
    one [cancel] action naming its wallet address and the order id (the
    symbol is not part of the request) and returns [True] exactly when the
    answer has status 200; the body of the answer is not read, so a 200
    carrying an error still counts as cancelled, and a transport error
    gives [False]. *)
Theorem X5_cancel_order_goes_by_the_status_code
        (env : Executor.Env) (self : Executor.TradeExecutor)
        (symbol order_id : string) (w : Executor.World) :
  (Executor.dry_run self = true ->
   exists w',
     Executor.cancel_order self symbol order_id w = (inl true, w') /\
     Executor.posts w' = Executor.posts w) /\
  (forall acct m,
      Executor.dry_run self = false ->
      Executor.account self = Some acct ->
      Executor.sign_typed_data acct Executor.structured_domain
        Executor.structured_types Executor.structured_message = inl m ->
      0 <= Executor.msg_r m < 2 ^ 256 ->
      0 <= Executor.msg_s m < 2 ^ 256 ->
      exists sa w',
        let req := {| Executor.req_url := Executor.exchange_url self;
                      Executor.req_json := sa |} in
        Executor.action sa
        = Executor.ActCancel [(Executor.wallet_address self, order_id)] /\
        Executor.posts w' = (Executor.posts w ++ [req])%list /\
        Executor.cancel_order self symbol order_id w
        = (inl match Executor.exchange w (List.length (Executor.posts w)) req with
               | Executor.Response st _ => st =? 200
               | Executor.TransportFailure _ => false
               end, w')).
Proof.
  split.
  - intros Hdry. unfold Executor.cancel_order. rewrite Hdry.
    unfold Py.bind, Executor.logger, Py.ret. eexists. split; reflexivity.
  - intros acct m Hlive Ha Hs Hr Hs'.
    exact (cancel_order_signed self acct m Hlive Ha Hs Hr Hs' symbol order_id w).
Qed.

Lemma X5_cancel_order_goes_by_the_status_code_witness :
  (exists w',
      Executor.cancel_order Demo.dry "BTC" "77" Demo.w_500 = (inl true, w') /\
      Executor.posts w' = Executor.posts Demo.w_500) /\
  (exists sa w',
      Executor.action sa = Executor.ActCancel [(Some "0xabc1", "77")] /\
      Executor.posts w'
      = [ {| Executor.req_url := "https://api.hyperliquid.xyz/exchange";
             Executor.req_json := sa |} ] /\
      Executor.cancel_order Demo.live "BTC" "77" Demo.w_err = (inl true, w')) /\
  (exists sa w',
      Executor.action sa = Executor.ActCancel [(Some "0xabc1", "77")] /\
      Executor.posts w'
      = [ {| Executor.req_url := "https://api.hyperliquid.xyz/exchange";
             Executor.req_json := sa |} ] /\
      Executor.cancel_order Demo.live "BTC" "77" Demo.w_500 = (inl false, w')).
Proof.
  assert (F : 0 <= 1 < 2 ^ 256 /\ 0 <= 2 < 2 ^ 256)
    by (repeat split; (discriminate || reflexivity)).
  split; [|split].
  - exact (proj1 (X5_cancel_order_goes_by_the_status_code Demo.env Demo.dry
                    "BTC" "77" Demo.w_500) eq_refl).
  - exact (proj2 (X5_cancel_order_goes_by_the_status_code Demo.env Demo.live
                    "BTC" "77" Demo.w_err) "0xAbC1"
             {| Executor.msg_r := 1; Executor.msg_s := 2; Executor.msg_v := 27 |}
             eq_refl eq_refl eq_refl (proj1 F) (proj2 F)).
  - exact (proj2 (X5_cancel_order_goes_by_the_status_code Demo.env Demo.live
                    "BTC" "77" Demo.w_500) "0xAbC1"
             {| Executor.msg_r := 1; Executor.msg_s := 2; Executor.msg_v := 27 |}
             eq_refl eq_refl eq_refl (proj1 F) (proj2 F)).
Defined.

(** X6: what [cancel_all_orders] counts.  In dry-run mode it returns 0 and
    posts nothing.  Live, an executor that can sign posts one
    [cancelByCloid] action (the asset is the symbol, or [None] when the
    symbol is absent or empty) and returns a count that is never negative:
    the number of entries of [response.data.statuses] when the answer has
    status 200 and that list is there; 0 when a key on the way is missing,
    when [response] is a text as in an error envelope, when the body does
    not parse, when the status is not 200, and when the transport fails. *)
Theorem X6_cancel_all_orders_counts_statuses
        (env : Executor.Env) (self : Executor.TradeExecutor)
        (symbol : option string) (w : Executor.World) :
  (Executor.dry_run self = true ->
   exists w',
     Executor.cancel_all_orders self symbol w = (inl 0, w') /\
     Executor.posts w' = Executor.posts w) /\
  (forall acct m,
      Executor.dry_run self = false ->
      Executor.account self = Some acct ->
      Executor.sign_typed_data acct Executor.structured_domain
        Executor.structured_types Executor.structured_message = inl m ->
      0 <= Executor.msg_r m < 2 ^ 256 ->
      0 <= Executor.msg_s m < 2 ^ 256 ->
      exists sa count w',
        let req := {| Executor.req_url := Executor.exchange_url self;
                      Executor.req_json := sa |} in
        let answer := Executor.exchange w (List.length (Executor.posts w)) req in
        Executor.action sa
        = Executor.ActCancelByCloid
            [(if Py.truthy_str symbol then symbol else None, None)] /\
        Executor.posts w' = (Executor.posts w ++ [req])%list /\
        Executor.cancel_all_orders self symbol w = (inl count, w') /\
        0 <= count /\
        (forall msg, answer = Executor.TransportFailure msg -> count = 0) /\
        (forall st body,
            answer = Executor.Response st body ->
            (st <> 200 -> count = 0) /\
            (st = 200 ->
             (forall why, Executor.response_json body = inr why -> count = 0) /\
             (forall d,
                 Executor.response_json body = inl (Py.VDict d) ->
                 (Py.assoc "response" d = None -> count = 0) /\
                 (forall text,
                     Py.assoc "response" d = Some (Py.VStr text) -> count = 0) /\
                 (forall r,
                     Py.assoc "response" d = Some (Py.VDict r) ->
                     (Py.assoc "data" r = None -> count = 0) /\
                     (forall dd,
                         Py.assoc "data" r = Some (Py.VDict dd) ->
                         (Py.assoc "statuses" dd = None -> count = 0) /\
                         (forall statuses,
                             Py.assoc "statuses" dd = Some (Py.VList statuses) ->
                             count = Z.of_nat (List.length statuses)))))))).
Proof.
  split.
  - intros Hdry. unfold Executor.cancel_all_orders. rewrite Hdry.
    unfold Py.bind, Executor.logger, Py.ret. eexists. split; reflexivity.
  - intros acct m Hlive Ha Hs Hr Hs'.
    destruct (cancel_all_signed self acct m Hlive Ha Hs Hr Hs' symbol w)
      as (sa & w' & Hact & Hp & E).
    cbv zeta in E. exists sa. eexists. exists w'. cbv zeta.
    split; [exact Hact|]. split; [exact Hp|]. split; [exact E|].
    destruct (Executor.exchange w _ _) as [st body|msg]; split.
    + destruct (st =? 200); [|lia].
      destruct (Executor.response_json body) as [result|why]; [|lia].
      destruct (Py.get_default result "response" _) as [resp|e]; cbn; [|lia].
      destruct (Py.get_default resp "data" _) as [data|e]; cbn; [|lia].
      destruct (Py.get_default data "statuses" _) as [statuses|e]; cbn; [|lia].
      destruct (Executor.len statuses) as [n|e] eqn:L; [|lia].
      now apply len_nonneg in L.
    + split; [discriminate|]. intros st0 body0 [= <- <-]. split.
      * intros Hst. apply Z.eqb_neq in Hst. now rewrite Hst.
      * intros ->. cbn [Z.eqb Pos.eqb]. split.
        -- intros why ->. reflexivity.
        -- intros d ->. cbn [Py.get_default Py.and_then]. split; [|split].
           ++ intros ->. reflexivity.
           ++ intros text ->. reflexivity.
           ++ intros r ->. cbn [Py.get_default Py.and_then]. split.
              ** intros ->. reflexivity.
              ** intros dd ->. cbn [Py.get_default Py.and_then]. split.
                 --- intros ->. reflexivity.
                 --- intros statuses ->. reflexivity.
    + lia.
    + split; [reflexivity|discriminate].
Qed.

Lemma X6_cancel_all_orders_counts_statuses_witness :
  (exists w',
      Executor.cancel_all_orders Demo.dry (Some "BTC") Demo.w_resting = (inl 0, w') /\
      Executor.posts w' = Executor.posts Demo.w_resting) /\
  (exists w',
      Executor.cancel_all_orders Demo.live None Demo.w_resting = (inl 1, w') /\
      map Executor.sent (Executor.posts w')
      = [("https://api.hyperliquid.xyz/exchange",
          Executor.ActCancelByCloid [(None, None)])]) /\
  (exists w', Executor.cancel_all_orders Demo.live None Demo.w_err = (inl 0, w')).
Proof.
  assert (F : 0 <= 1 < 2 ^ 256 /\ 0 <= 2 < 2 ^ 256)
    by (repeat split; (discriminate || reflexivity)).
  split; [|split].
  - exact (proj1 (X6_cancel_all_orders_counts_statuses Demo.env Demo.dry
                    (Some "BTC") Demo.w_resting) eq_refl).
  - destruct (proj2 (X6_cancel_all_orders_counts_statuses Demo.env Demo.live
                       None Demo.w_resting) "0xAbC1"
                {| Executor.msg_r := 1; Executor.msg_s := 2; Executor.msg_v := 27 |}
                eq_refl eq_refl eq_refl (proj1 F) (proj2 F))
      as (sa & count & w' & Hact & Hp & E & _ & _ & Hans).
    destruct (Hans 200 "resting" eq_refl) as [_ H200].
    destruct (H200 eq_refl) as [_ Hd].
    destruct (Hd _ eq_refl) as (_ & _ & Hr).
    destruct (Hr _ eq_refl) as [_ Hdd].
    destruct (Hdd _ eq_refl) as [_ Hst].
    rewrite (Hst _ eq_refl) in E.
    exists w'. split; [exact E|]. rewrite Hp. unfold Executor.sent. cbn.
    now rewrite Hact.
  - destruct (proj2 (X6_cancel_all_orders_counts_statuses Demo.env Demo.live
                       None Demo.w_err) "0xAbC1"
                {| Executor.msg_r := 1; Executor.msg_s := 2; Executor.msg_v := 27 |}
                eq_refl eq_refl eq_refl (proj1 F) (proj2 F))
      as (sa & count & w' & _ & _ & E & _ & _ & Hans).
    destruct (Hans 200 "err" eq_refl) as [_ H200].
    destruct (H200 eq_refl) as [_ Hd].
    destruct (Hd _ eq_refl) as (_ & Htext & _).
    rewrite (Htext _ eq_refl) in E.
    exists w'. exact E.
Defined.

Section RequestInvariant.
Import Py Executor.
Local Open Scope exec_scope.
Context {env : Env}.

Variables (self : TradeExecutor) (w0 : World).

(** The requests added since [w0] all go to the exchange URL, carry no
    vault address, and have some reading of the clock, in milliseconds, as
    nonce; the clock is the one of [w0]. *)
Let signed_for_exchange (r : Request) : Prop :=
  req_url r = exchange_url self /\
  vaultAddress (req_json r) = None /\
  exists n, nonce (req_json r) = int_of_real (float_mul (clock w0 n) 1000).

Let kept (x : World) : Prop :=
  clock x = clock w0 /\
  exists reqs, posts x = (posts w0 ++ reqs)%list /\ Forall signed_for_exchange reqs.

Lemma kept_frame (x y : World) :
  kept x -> clock y = clock x -> posts y = posts x -> kept y.
Proof.
  intros [Hc (reqs & Hp & Hf)] Hc' Hp'. split; [congruence|].
  exists reqs. split; [congruence|exact Hf].
Qed.

Lemma logger_kept (l : level) (msg : string) : preserves kept (logger l msg).
Proof. intros x Hx. apply (kept_frame x); [exact Hx| |]; reflexivity. Qed.

Lemma time_kept : preserves kept time_time.
Proof. intros x Hx. apply (kept_frame x); [exact Hx| |]; reflexivity. Qed.

Lemma sign_kept (act : Action) : preserves kept (_sign_action self act).
Proof.
  intros x Hx. destruct (_sign_action self act x) as [r x1] eqn:S.
  apply sign_action_frame in S as (Hp & _ & _ & Hc & _).
  apply (kept_frame x); assumption.
Qed.

Lemma sign_action_vault (act : Action) (w w' : World) (sa : SignedAction) :
  _sign_action self act w = (inl sa, w') -> vaultAddress sa = None.
Proof.
  unfold _sign_action. destruct (account self) as [acct|]; [|discriminate].
  unfold bind, time_time, lift_lib, lift, ret, raise.
  destruct (sign_typed_data _ _ _ _) as [m|]; [|discriminate].
  destruct (to_bytes32_hex (msg_r m)); [|discriminate].
  destruct (to_bytes32_hex (msg_s m)); [|discriminate].
  now intros [= <- _].
Qed.

(** Signing an action and posting it to the exchange URL. *)
Lemma sign_and_post_kept {A} (act : Action) (tail : Z * string -> M A) :
  (forall response, preserves kept (tail response)) ->
  preserves kept
    (signed_action <- _sign_action self act ;;
     response <- session_post (exchange_url self) signed_action ;;
     tail response).
Proof.
  intros Htail x Hx. unfold bind at 1.
  destruct (_sign_action self act x) as [[sa|e] x1] eqn:S.
  - pose proof (sign_action_vault _ _ _ _ S) as Hv.
    destruct (sign_action_nonce self _ _ _ _ S) as [Hn _].
    apply sign_action_frame in S as (Hp & _ & _ & Hc & _).
    assert (K : kept (snd (session_post (exchange_url self) sa x1))).
    { destruct (session_post_posts (exchange_url self) sa x1) as (Hq & _ & Hc' & _).
      destruct Hx as [Hc0 (reqs & Hp0 & Hf)]. split; [congruence|].
      exists (reqs ++ [ {| req_url := exchange_url self; req_json := sa |} ])%list.
      split; [rewrite Hq, Hp, Hp0; now rewrite app_assoc|].
      apply Forall_app. split; [exact Hf|]. constructor; [|constructor].
      split; [reflexivity|]. split; [exact Hv|].
      exists (ticks x). cbn. now rewrite Hn, Hc0. }
    unfold bind.
    destruct (session_post (exchange_url self) sa x1) as [[response|e] x2];
      [apply Htail|]; exact K.
  - apply sign_action_frame in S as (Hp & _ & _ & Hc & _).
    apply (kept_frame x); assumption.
Qed.

Lemma handler_kept {A} (line : string) (a : A) :
  preserves kept (logger ERROR line ;;; ret a).
Proof.
  apply preserves_bind; [apply logger_kept|intros _; apply preserves_ret].
Qed.

Lemma update_leverage_kept (symbol : string) (leverage : Z) (is_cross : bool) :
  preserves kept (_update_leverage self symbol leverage is_cross).
Proof.
  unfold _update_leverage. apply preserves_try_except; [|intros e; apply handler_kept].
  apply sign_and_post_kept. intros response.
  destruct (fst response =? 200).
  - apply preserves_bind; [apply preserves_lift_lib|intros _].
    apply preserves_bind; [apply logger_kept|intros _; apply preserves_ret].
  - apply preserves_bind; [apply logger_kept|intros _; apply preserves_ret].
Qed.

Lemma placement_tail_kept (fallback : value) (ok_line bad_line : string)
      (response : Z * string) :
  preserves kept
    (if fst response =? 200 then
       result <- lift_lib (response_json (snd response)) ;;
       logger SUCCESS ok_line ;;;
       ok <- lift (status_ok_with_data result) ;;
       if (ok : bool) then
         data <- lift (response_data result) ;;
         order_id <- lift (resting_oid data) ;;
         ret order_id
       else ret fallback
     else
       logger ERROR (bad_line ++ snd response) ;;;
       ret VNone).
Proof.
  destruct (fst response =? 200).
  - apply preserves_bind; [apply preserves_lift_lib|intros result].
    apply preserves_bind; [apply logger_kept|intros _].
    apply preserves_bind; [apply preserves_lift|intros [|]]; [|apply preserves_ret].
    apply preserves_bind; [apply preserves_lift|intros data].
    apply preserves_bind; [apply preserves_lift|intros oid; apply preserves_ret].
  - apply preserves_bind; [apply logger_kept|intros _; apply preserves_ret].
Qed.

Lemma simulate_order_kept (symbol : string) (side : OrderSide) (size : Q)
      (order_type : OrderType) (price : option Q) (leverage : Z) :
  preserves kept (_simulate_order self symbol side size order_type price leverage).
Proof.
  unfold _simulate_order.
  apply preserves_bind; [apply time_kept|intros t].
  apply preserves_bind; [|intros _; apply preserves_ret].
  destruct (OrderType_eqb order_type MARKET); apply logger_kept.
Qed.

Lemma market_order_kept (symbol : string) (side : OrderSide) (size : Q)
      (leverage : Z) (reduce_only : bool) :
  preserves kept (execute_market_order self symbol side size leverage reduce_only).
Proof.
  unfold execute_market_order. destruct (dry_run self).
  - apply preserves_bind; [apply simulate_order_kept|intros oid; apply preserves_ret].
  - apply preserves_try_except; [|intros e; apply handler_kept].
    apply preserves_bind.
    + destruct (1 <? leverage); [|apply preserves_ret].
      apply preserves_bind; [apply update_leverage_kept|intros _; apply preserves_ret].
    + intros _. apply sign_and_post_kept. intros response.
      apply placement_tail_kept.
Qed.

Lemma invoke_kept (c : Call) (x : World) : kept x -> kept (snd (invoke self c x)).
Proof.
  destruct c; cbn [invoke snd].
  - apply sign_kept.
  - apply update_leverage_kept.
  - apply market_order_kept.
  - unfold execute_limit_order. destruct (dry_run self).
    + apply preserves_bind; [apply simulate_order_kept|intros oid; apply preserves_ret].
    + apply preserves_try_except; [|intros e; apply handler_kept].
      apply preserves_bind.
      * destruct (1 <? leverage); [|apply preserves_ret].
        apply preserves_bind; [apply update_leverage_kept|intros _; apply preserves_ret].
      * intros _. apply sign_and_post_kept. intros response.
        apply placement_tail_kept.
  - unfold close_position. destruct (dry_run self); [|apply market_order_kept].
    apply preserves_bind; [apply logger_kept|intros _].
    apply preserves_bind; [apply time_kept|intros t; apply preserves_ret].
  - unfold cancel_order. destruct (dry_run self).
    + apply preserves_bind; [apply logger_kept|intros _; apply preserves_ret].
    + apply preserves_try_except; [|intros e; apply handler_kept].
      apply sign_and_post_kept. intros response.
      destruct (fst response =? 200);
        (apply preserves_bind; [apply logger_kept|intros _; apply preserves_ret]).
  - unfold cancel_all_orders. destruct (dry_run self).
    + apply preserves_bind; [apply logger_kept|intros _; apply preserves_ret].
    + apply preserves_try_except; [|intros e; apply handler_kept].
      apply sign_and_post_kept. intros response.
      destruct (fst response =? 200).
      * apply preserves_bind; [apply preserves_lift_lib|intros result].
        repeat (apply preserves_bind; [apply preserves_lift|intros ?]).
        apply preserves_bind; [apply logger_kept|intros _; apply preserves_ret].
      * apply preserves_bind; [apply logger_kept|intros _; apply preserves_ret].
  - apply simulate_order_kept.
Qed.

Lemma run_kept (calls : list Call) (x : World) :
  kept x -> kept (snd (run self calls x)).
Proof.
  revert x. induction calls as [|c rest IH]; intros x Hx; [exact Hx|].
  cbn [run].
  assert (E : invoke self c x = (self, snd (invoke self c x)))
    by (destruct c; reflexivity).
  rewrite E. apply IH, invoke_kept, Hx.
Qed.

Lemma run_requests (calls : list Call) :
  exists reqs,
    posts (snd (run self calls w0)) = (posts w0 ++ reqs)%list /\
    Forall (fun r =>
              req_url r = exchange_url self /\
              vaultAddress (req_json r) = None /\
              exists n, nonce (req_json r) = int_of_real (float_mul (clock w0 n) 1000))
           reqs.
Proof.
  destruct (run_kept calls w0) as [_ H]; [|exact H].
  split; [reflexivity|]. exists []. split; [now rewrite app_nil_r|constructor].
Qed.

End RequestInvariant.

(** X7: over any sequence of method calls an executor only adds to the
    requests posted, and every request it adds goes to its exchange URL (the
    info URL is never posted to), carries no vault address, and has as
    nonce [int(t * 1000)] for some reading [t] of the clock, the product
    being that of floats. *)
Theorem X7_every_request_is_signed_for_the_exchange
        (env : Executor.Env) (self : Executor.TradeExecutor)
        (calls : list Executor.Call) (w : Executor.World) :
  exists reqs,
    Executor.posts (snd (Executor.run self calls w))
    = (Executor.posts w ++ reqs)%list /\
    Forall (fun r =>
              Executor.req_url r = Executor.exchange_url self /\
              Executor.vaultAddress (Executor.req_json r) = None /\
              exists n,
                Executor.nonce (Executor.req_json r)
                = Py.int_of_real (Py.float_mul (Executor.clock w n) 1000))
           reqs.
Proof. apply run_requests. Qed.

(** X8: how live construction fails once a key is given.  A key that
    [eth_account] refuses raises the library's error; a key whose address,
    in lower case, is not the configured address in lower case raises
    [ValueError] naming both addresses; either way the error is logged at
    ERROR level and raised again, and nothing is posted.  With no
    configured address, or an empty one, a key that [eth_account] accepts
    is always refused in this way, so a live executor cannot be built
    without its wallet address. *)
Theorem X8_live_construction_rejects_a_foreign_key
        (env : Executor.Env) (wa pk : option string) (iu eu : string)
        (w : Executor.World) :
  Py.truthy_str pk = true ->
  let configured := if Py.truthy_str wa then option_map Py.lower wa else None in
  let failed (e : Py.exn) :=
    (inr e : Executor.TradeExecutor + Py.exn,
     {| Executor.clock := Executor.clock w; Executor.ticks := Executor.ticks w;
        Executor.exchange := Executor.exchange w; Executor.posts := Executor.posts w;
        Executor.log :=
          (Executor.log w
             ++ [(Py.ERROR,
                  ("Failed to initialize signing account: " ++ Py.str_of_exn e)%string)])%list
     |}) in
  (forall why,
      Executor.from_key (Executor.fmt_opt pk) = inr why ->
      Executor.__init__ wa pk iu eu false w = failed (Py.LibraryError why)) /\
  (forall acct,
      Executor.from_key (Executor.fmt_opt pk) = inl acct ->
      configured <> Some (Py.lower (Executor.address acct)) ->
      Executor.__init__ wa pk iu eu false w
      = failed (Py.ValueError
                  ("Private key address " ++ Executor.address acct
                     ++ " doesn't match configured address "
                     ++ Executor.fmt_opt configured))) /\
  (Py.truthy_str wa = false ->
   exists e, Executor.__init__ wa pk iu eu false w = failed e).
Proof.
  intros Hpk configured failed.
  assert (Hbad : forall acct,
             Executor.from_key (Executor.fmt_opt pk) = inl acct ->
             configured <> Some (Py.lower (Executor.address acct)) ->
             Executor.__init__ wa pk iu eu false w
             = failed (Py.ValueError
                         ("Private key address " ++ Executor.address acct
                            ++ " doesn't match configured address "
                            ++ Executor.fmt_opt configured))).
  { intros acct Hkey Hne. unfold Executor.__init__. rewrite Hpk. cbn [andb negb].
    fold configured.
    unfold Py.try_except, Py.bind at 1, Py.lift_lib. rewrite Hkey.
    unfold Py.ret at 1, Py.bind at 1.
    destruct (Executor.opt_str_eqb (Some (Py.lower (Executor.address acct))) configured)
      eqn:E.
    - apply opt_str_eqb_eq in E. now destruct Hne.
    - reflexivity. }
  split; [|split; [exact Hbad|]].
  - intros why Hkey. unfold Executor.__init__. rewrite Hpk. cbn [andb negb].
    unfold Py.try_except, Py.bind at 1, Py.lift_lib. rewrite Hkey. reflexivity.
  - intros Hwa.
    destruct (Executor.from_key (Executor.fmt_opt pk)) as [acct|why] eqn:Hkey.
    + eexists. apply (Hbad acct eq_refl). subst configured. rewrite Hwa. discriminate.
    + exists (Py.LibraryError why).
      unfold Executor.__init__. rewrite Hpk. cbn [andb negb].
      unfold Py.try_except, Py.bind at 1, Py.lift_lib. rewrite Hkey. reflexivity.
Qed.

Lemma X8_live_construction_rejects_a_foreign_key_witness :
  fst (Executor.__init__ (env := Demo.env) (Some "0xABC1") (Some "bad") "info"
         "exchange" false Demo.w0)
  = inr (Py.LibraryError "invalid key") /\
  fst (Executor.__init__ (env := Demo.env) (Some "0xABC1") (Some "2") "info"
         "exchange" false Demo.w0)
  = inr (Py.ValueError
           "Private key address 0xAbC2 doesn't match configured address 0xabc1") /\
  (exists e w',
      Executor.__init__ (env := Demo.env) (Some EmptyString) (Some "1") "info"
        "exchange" false Demo.w0 = (inr e, w') /\
      Executor.posts w' = []).
Proof.
  split; [|split].
  - rewrite (proj1 (X8_live_construction_rejects_a_foreign_key Demo.env
                      (Some "0xABC1") (Some "bad") "info" "exchange" Demo.w0 eq_refl)
               "invalid key" eq_refl).
    reflexivity.
  - rewrite (proj1 (proj2 (X8_live_construction_rejects_a_foreign_key Demo.env
                             (Some "0xABC1") (Some "2") "info" "exchange" Demo.w0
                             eq_refl))
               "0xAbC2" eq_refl);
      [reflexivity|discriminate].
  - destruct (proj2 (proj2 (X8_live_construction_rejects_a_foreign_key Demo.env
                              (Some EmptyString) (Some "1") "info" "exchange" Demo.w0
                              eq_refl)) eq_refl) as [e E].
    exists e. eexists. split; [exact E|reflexivity].
Defined.

(* ===================================================================== *)
(** * Further properties of the SDK-based executor                        *)
(* ===================================================================== *)

(** A computation built from binds, lifts, log lines, conditionals and
    returns keeps whatever the log lines keep. *)
Ltac keeps_through Plog :=
  repeat first
    [ apply preserves_ret
    | apply preserves_lift
    | apply Plog
    | apply preserves_bind; [|intros ?]
    | match goal with
      | |- Py.preserves _ (if ?b then _ else _) => destruct b
      end ].

Section OldReturnFacts.
Import Py ExecutorOld.
Local Open Scope exec_scope.
Context {env : Env}.

Lemma old_handler_returns (line : string) (e : exn) :
  never_raises (logger ERROR line ;;; logger ERROR (format_exc e) ;;; ret VNone).
Proof.
  apply never_raises_bind; [apply never_raises_modify|intros _].
  apply never_raises_bind; [apply never_raises_modify|intros _].
  apply never_raises_ret.
Qed.

Lemma old_invoke_returns (self : TradeExecutor) (c : Call) :
  never_raises (invoke self c).
Proof.
  destruct c; cbn [invoke];
    unfold execute_market_order, execute_limit_order, close_position, cancel_order;
    apply never_raises_try_except; intros e; apply old_handler_returns.
Qed.

Lemma old_run_returns (self : TradeExecutor) (calls : list Call) (w : World) :
  exists vs w', run self calls w = (inl vs, w') /\
                List.length vs = List.length calls.
Proof.
  revert w. induction calls as [|c rest IH]; intros w.
  - exists [], w. split; reflexivity.
  - cbn [run]. destruct (old_invoke_returns self c w) as [v Hv].
    destruct (invoke self c w) as [r w1] eqn:E. cbn [fst] in Hv. subst r.
    rewrite (bind_inl _ _ _ _ _ E).
    destruct (IH w1) as (vs & w2 & E2 & Hl).
    rewrite (bind_inl _ _ _ _ _ E2).
    exists (v :: vs), w2. split; [reflexivity|]. cbn. now rewrite Hl.
Qed.

End OldReturnFacts.

(** X9: no method of the SDK-based executor raises.  Over any sequence of
    calls of [execute_market_order], [execute_limit_order], [close_position]
    and [cancel_order], in dry-run or live mode and whatever the SDK returns
    or raises, every call returns a value. *)
Theorem X9_sdk_executor_methods_never_raise
        (env : ExecutorOld.Env) (self : ExecutorOld.TradeExecutor)
        (calls : list ExecutorOld.Call) (w : ExecutorOld.World) :
  exists results w',
    ExecutorOld.run self calls w = (inl results, w') /\
    List.length results = List.length calls.
Proof. apply old_run_returns. Qed.

Section OldDryRunFacts.
Import Py ExecutorOld.
Local Open Scope exec_scope.
Context {env : Env}.

Lemma old_logger_keeps_calls (p : list SdkCall) (l : level) (msg : string) :
  preserves (fun x => sdk_calls x = p) (logger l msg).
Proof. intros s Hs. exact Hs. Qed.

(** The simulated order: its price is the one given when that is positive
    and the mock price 50000 otherwise; its id is the clock's whole second
    and does not name the symbol. *)
Lemma old_simulate_order_result (self : TradeExecutor) (symbol side : string)
      (size : Q) (leverage : Z) (order_type : string) (price : Q)
      (reduce_only : bool) (w : World) :
  exists w',
    _simulate_order self symbol side size leverage order_type price reduce_only w
    = (inl (VDict [("success", VBool true);
                   ("order_id",
                    VStr ("SIM_" ++ str_of_int (int_of_real (clock w (ticks w)))));
                   ("symbol", VStr symbol);
                   ("side", VStr side);
                   ("size", VFloat size);
                   ("price", if Qlt_le_dec 0 price then VFloat price else VInt 50000);
                   ("leverage", VInt leverage);
                   ("type", VStr order_type);
                   ("reduce_only", VBool reduce_only);
                   ("simulated", VBool true);
                   ("timestamp", VInt (int_of_real (clock w (S (ticks w)))))]), w') /\
    sdk_calls w' = sdk_calls w /\ log w' = log w /\ clock w' = clock w /\
    sdk w' = sdk w.
Proof.
  unfold _simulate_order, bind, time_time, ret. cbn -[append str_of_int int_of_real].
  eexists. split; [reflexivity|]. repeat split.
Qed.

End OldDryRunFacts.

Section OldDryRunCalls.
Import Py ExecutorOld.
Local Open Scope exec_scope.
Context {env : Env}.

Variable self : TradeExecutor.
Hypothesis dry : dry_run self = true.

Lemma old_dry_market (symbol side : string) (size : Q) (leverage : Z)
      (reduce_only : bool) (w : World) :
  exists w',
    execute_market_order self symbol side size leverage reduce_only w
    = (inl (VDict [("success", VBool true);
                   ("order_id",
                    VStr ("SIM_" ++ str_of_int (int_of_real (clock w (ticks w)))));
                   ("symbol", VStr symbol);
                   ("side", VStr side);
                   ("size", VFloat size);
                   ("price", VInt 50000);
                   ("leverage", VInt leverage);
                   ("type", VStr "market");
                   ("reduce_only", VBool reduce_only);
                   ("simulated", VBool true);
                   ("timestamp", VInt (int_of_real (clock w (S (ticks w)))))]), w') /\
    sdk_calls w' = sdk_calls w.
Proof.
  unfold execute_market_order, doing. rewrite dry.
  unfold try_except, bind at 1, logger, modify.
  match goal with
  | |- context [ _simulate_order self symbol side size leverage "market" 0 reduce_only ?w1 ] =>
      destruct (old_simulate_order_result self symbol side size leverage "market" 0
                  reduce_only w1) as (w' & E & Hc & _)
  end.
  rewrite E. exists w'. split; [reflexivity|exact Hc].
Qed.

Lemma old_dry_limit (symbol side : string) (size price : Q) (leverage : Z)
      (reduce_only : bool) (w : World) :
  exists w',
    execute_limit_order self symbol side size price leverage reduce_only w
    = (inl (VDict [("success", VBool true);
                   ("order_id",
                    VStr ("SIM_" ++ str_of_int (int_of_real (clock w (ticks w)))));
                   ("symbol", VStr symbol);
                   ("side", VStr side);
                   ("size", VFloat size);
                   ("price", if Qlt_le_dec 0 price then VFloat price else VInt 50000);
                   ("leverage", VInt leverage);
                   ("type", VStr "limit");
                   ("reduce_only", VBool reduce_only);
                   ("simulated", VBool true);
                   ("timestamp", VInt (int_of_real (clock w (S (ticks w)))))]), w') /\
    sdk_calls w' = sdk_calls w.
Proof.
  unfold execute_limit_order, doing. rewrite dry.
  unfold try_except, bind at 1, logger, modify.
  match goal with
  | |- context [ _simulate_order self symbol side size leverage "limit" price reduce_only ?w1 ] =>
      destruct (old_simulate_order_result self symbol side size leverage "limit" price
                  reduce_only w1) as (w' & E & Hc & _)
  end.
  rewrite E. exists w'. split; [reflexivity|exact Hc].
Qed.

Lemma old_dry_cancel (symbol : string) (order_id : Z) (w : World) :
  exists w',
    cancel_order self symbol order_id w
    = (inl (VDict [("success", VBool true);
                   ("symbol", VStr symbol);
                   ("order_id", VInt order_id);
                   ("cancelled", VBool true);
                   ("simulated", VBool true)]), w') /\
    sdk_calls w' = sdk_calls w.
Proof.
  unfold cancel_order, doing. rewrite dry.
  unfold try_except, bind, logger, modify, ret. eexists. split; reflexivity.
Qed.

Lemma old_dry_invoke (c : Call) (w : World) :
  sdk_calls (snd (invoke self c w)) = sdk_calls w.
Proof.
  destruct c; cbn [invoke].
  - destruct (old_dry_market symbol side size leverage reduce_only w) as (w' & E & H).
    now rewrite E.
  - destruct (old_dry_limit symbol side size price leverage reduce_only w)
      as (w' & E & H).
    now rewrite E.
  - destruct (old_close_position_dry_run self symbol side size w dry) as (w' & E & H).
    now rewrite E.
  - destruct (old_dry_cancel symbol order_id w) as (w' & E & H). now rewrite E.
Qed.

Lemma old_dry_run (calls : list Call) (w : World) :
  sdk_calls (snd (run self calls w)) = sdk_calls w.
Proof.
  revert w. induction calls as [|c rest IH]; intros w; [reflexivity|].
  cbn [run]. pose proof (old_dry_invoke c w) as Hc.
  destruct (old_invoke_returns self c w) as [v Hv].
  destruct (invoke self c w) as [r w1] eqn:E. cbn [fst snd] in *. subst r.
  rewrite (bind_inl _ _ _ _ _ E).
  specialize (IH w1). unfold bind, ret.
  destruct (run self rest w1) as [[vs|e] w2]; cbn [snd] in *; congruence.
Qed.

End OldDryRunCalls.

(** X10: the SDK-based executor in dry-run mode.  A market order is
    reported at the mock price 50000, a limit order at its own price when
    that is positive and at 50000 otherwise; the simulated order id is
    ["SIM_"] and the clock's whole second, the same for every symbol; a
    cancel is confirmed with [cancelled] and [simulated] set.  No sequence
    of calls reaches the SDK. *)
Theorem X10_sdk_executor_dry_run_simulates
        (env : ExecutorOld.Env) (self : ExecutorOld.TradeExecutor)
        (symbol side : string) (size price : Q) (leverage order_id : Z)
        (reduce_only : bool) (w : ExecutorOld.World)
        (calls : list ExecutorOld.Call) :
  ExecutorOld.dry_run self = true ->
  let simulated (order_type : string) (shown_price : Py.value) :=
    Py.VDict
      [("success", Py.VBool true);
       ("order_id",
        Py.VStr ("SIM_" ++ Py.str_of_int
                             (Py.int_of_real
                                (ExecutorOld.clock w (ExecutorOld.ticks w)))));
       ("symbol", Py.VStr symbol);
       ("side", Py.VStr side);
       ("size", Py.VFloat size);
       ("price", shown_price);
       ("leverage", Py.VInt leverage);
       ("type", Py.VStr order_type);
       ("reduce_only", Py.VBool reduce_only);
       ("simulated", Py.VBool true);
       ("timestamp",
        Py.VInt (Py.int_of_real (ExecutorOld.clock w (S (ExecutorOld.ticks w)))))] in
  (exists w',
      ExecutorOld.execute_market_order self symbol side size leverage reduce_only w
      = (inl (simulated "market" (Py.VInt 50000)), w') /\
      ExecutorOld.sdk_calls w' = ExecutorOld.sdk_calls w) /\
  (exists w',
      ExecutorOld.execute_limit_order self symbol side size price leverage
        reduce_only w
      = (inl (simulated "limit"
                (if Qlt_le_dec 0 price then Py.VFloat price else Py.VInt 50000)), w') /\
      ExecutorOld.sdk_calls w' = ExecutorOld.sdk_calls w) /\
  (exists w',
      ExecutorOld.cancel_order self symbol order_id w
      = (inl (Py.VDict [("success", Py.VBool true);
                        ("symbol", Py.VStr symbol);
                        ("order_id", Py.VInt order_id);
                        ("cancelled", Py.VBool true);
                        ("simulated", Py.VBool true)]), w') /\
      ExecutorOld.sdk_calls w' = ExecutorOld.sdk_calls w) /\
  ExecutorOld.sdk_calls (snd (ExecutorOld.run self calls w)) = ExecutorOld.sdk_calls w.
Proof.
  intros Hdry simulated. subst simulated.
  split; [apply old_dry_market, Hdry|].
  split; [apply old_dry_limit, Hdry|].
  split; [apply old_dry_cancel, Hdry|].
  apply old_dry_run, Hdry.
Qed.

Lemma X10_sdk_executor_dry_run_simulates_witness :
  fst (ExecutorOld.execute_limit_order DemoOld.dry "BTC" "LONG" (1 # 10) (-5) 3 false
         (DemoOld.world Py.VNone))
  = inl (Py.VDict
           [("success", Py.VBool true);
            ("order_id", Py.VStr "SIM_1700000000");
            ("symbol", Py.VStr "BTC");
            ("side", Py.VStr "LONG");
            ("size", Py.VFloat (1 # 10));
            ("price", Py.VInt 50000);
            ("leverage", Py.VInt 3);
            ("type", Py.VStr "limit");
            ("reduce_only", Py.VBool false);
            ("simulated", Py.VBool true);
            ("timestamp", Py.VInt 1700000000)]) /\
  ExecutorOld.sdk_calls
    (snd (ExecutorOld.run DemoOld.dry
            [ExecutorOld.Call_execute_market_order "BTC" "LONG" (1 # 10) 3 false;
             ExecutorOld.Call_cancel_order "BTC" 77;
             ExecutorOld.Call_close_position "BTC" "LONG" None]
            (DemoOld.world Py.VNone)))
  = [].
Proof.
  pose proof (X10_sdk_executor_dry_run_simulates DemoOld.env DemoOld.dry "BTC" "LONG"
                (1 # 10) (-5) 3 77 false (DemoOld.world Py.VNone)
                [ExecutorOld.Call_execute_market_order "BTC" "LONG" (1 # 10) 3 false;
                 ExecutorOld.Call_cancel_order "BTC" 77;
                 ExecutorOld.Call_close_position "BTC" "LONG" None]
                eq_refl) as (_ & (w' & E & _) & _ & Hrun).
  split; [|exact Hrun].
  rewrite E. reflexivity.
Defined.

Section OldLiveCalls.
Import Py ExecutorOld.
Local Open Scope exec_scope.
Context {env : Env}.

Lemma call_sdk_calls (c : SdkCall) (w : World) :
  sdk_calls (snd (call_sdk c w)) = (sdk_calls w ++ [c])%list /\
  sdk (snd (call_sdk c w)) = sdk w /\
  fst (call_sdk c w)
  = match sdk w (List.length (sdk_calls w)) c with
    | inl v => inl v
    | inr msg => inr (LibraryError msg)
    end.
Proof. unfold call_sdk. destruct (sdk w _ c); repeat split. Qed.

(** The leverage update in front of a live order is made once and its
    failure is only logged. *)
Lemma set_leverage_calls (leverage : Z) (symbol : string) (w : World) :
  exists w',
    set_leverage leverage symbol w = (inl tt, w') /\
    sdk_calls w' = (sdk_calls w ++ [update_leverage leverage symbol true])%list /\
    sdk w' = sdk w.
Proof.
  unfold set_leverage, try_except, bind, call_sdk, logger, modify.
  destruct (sdk w _ _); eexists; split; try reflexivity; split; reflexivity.
Qed.

(** What follows the SDK's answer reads it and logs; it calls nothing. *)
Lemma old_market_tail_keeps_calls (p : list SdkCall) (symbol side kind : string)
      (ok_line err_line bad_line : string) (result : value) :
  preserves (fun x => sdk_calls x = p)
    (st <- lift (get result "status") ;;
     if eq_str st "ok" then
       logger SUCCESS ok_line ;;;
       logger DEBUG ("Response: " ++ json_dumps result) ;;;
       statuses <- lift (statuses_of result) ;;
       if truthy statuses then
         status <- lift (item0 statuses) ;;
         has_filled <- lift (str_in_value "filled" status) ;;
         if (has_filled : bool) then
           filled <- lift (item status "filled") ;;
           oid <- lift (get filled "oid") ;;
           total <- lift (get filled "totalSz") ;;
           avg <- lift (get filled "avgPx") ;;
           ret (VDict [("success", VBool true); ("order_id", oid);
                       ("symbol", VStr symbol); ("side", VStr side);
                       ("size", total); ("price", avg);
                       ("type", VStr kind)])
         else
           has_error <- lift (str_in_value "error" status) ;;
           if (has_error : bool) then
             err <- lift (item status "error") ;;
             logger ERROR (err_line ++ str_value err) ;;;
             ret VNone
           else ret VNone
       else ret VNone
     else
       logger ERROR (bad_line ++ str_value result) ;;;
       ret VNone).
Proof. keeps_through old_logger_keeps_calls. Qed.

Lemma old_handler_keeps_calls (p : list SdkCall) (line : string) (e : exn) :
  preserves (fun x => sdk_calls x = p)
    (logger ERROR line ;;; logger ERROR (format_exc e) ;;; ret VNone).
Proof. keeps_through old_logger_keeps_calls. Qed.

Variable self : TradeExecutor.
Hypothesis live : dry_run self = false.

Lemma old_live_market_calls (symbol side : string) (size : Q) (leverage : Z)
      (reduce_only : bool) (w : World) :
  sdk_ready self = true ->
  sdk_calls (snd (execute_market_order self symbol side size leverage reduce_only w))
  = (sdk_calls w ++ [update_leverage leverage symbol true;
                     market_open symbol (side =? "LONG")%string size (3 # 100)])%list.
Proof.
  intros Hready. unfold execute_market_order, doing. rewrite live, Hready.
  cbn [negb]. cbv zeta.
  rewrite (try_bind_inl (logger INFO _) _ _ w _ tt eq_refl).
  match goal with
  | |- context [ try_except _ _ ?w1 ] =>
      destruct (set_leverage_calls leverage symbol w1) as (w2 & E & Hc & _)
  end.
  rewrite (try_bind_inl _ _ _ _ _ _ E).
  destruct (call_sdk_calls (market_open symbol (side =? "LONG")%string size (3 # 100)) w2)
    as (Hq & _ & _).
  rewrite Hc in Hq. cbn [sdk_calls] in Hq. rewrite <- app_assoc in Hq. cbn [app] in Hq.
  destruct (call_sdk _ w2) as [[result|e] w3] eqn:C; cbn [snd] in Hq.
  - rewrite (try_bind_inl _ _ _ _ _ _ C).
    apply (preserves_try_except (fun x => sdk_calls x = _) _ _
             (old_market_tail_keeps_calls _ symbol side "market" _ _ _ result)
             (fun e => old_handler_keeps_calls _ _ e) w3 Hq).
  - rewrite (try_bind_inr _ _ _ _ _ _ C).
    apply (old_handler_keeps_calls _ _ e w3 Hq).
Qed.

Lemma old_live_limit_calls (symbol side : string) (size price : Q) (leverage : Z)
      (reduce_only : bool) (w : World) :
  sdk_ready self = true ->
  sdk_calls (snd (execute_limit_order self symbol side size price leverage
                    reduce_only w))
  = (sdk_calls w ++ [update_leverage leverage symbol true;
                     order symbol (side =? "LONG")%string size price "Gtc"
                           reduce_only])%list.
Proof.
  intros Hready. unfold execute_limit_order, doing. rewrite live, Hready.
  cbn [negb]. cbv zeta.
  rewrite (try_bind_inl (logger INFO _) _ _ w _ tt eq_refl).
  match goal with
  | |- context [ try_except _ _ ?w1 ] =>
      destruct (set_leverage_calls leverage symbol w1) as (w2 & E & Hc & _)
  end.
  rewrite (try_bind_inl _ _ _ _ _ _ E).
  destruct (call_sdk_calls
              (order symbol (side =? "LONG")%string size price "Gtc" reduce_only) w2)
    as (Hq & _ & _).
  rewrite Hc in Hq. cbn [sdk_calls] in Hq. rewrite <- app_assoc in Hq. cbn [app] in Hq.
  destruct (call_sdk _ w2) as [[result|e] w3] eqn:C; cbn [snd] in Hq.
  - rewrite (try_bind_inl _ _ _ _ _ _ C).
    refine (preserves_try_except (fun x => sdk_calls x = _) _ _ _ _ w3 Hq).
    + keeps_through old_logger_keeps_calls.
    + intros e. apply old_handler_keeps_calls.
  - rewrite (try_bind_inr _ _ _ _ _ _ C).
    apply (old_handler_keeps_calls _ _ e w3 Hq).
Qed.

Lemma old_live_cancel_calls (symbol : string) (order_id : Z) (w : World) :
  exchange self <> None ->
  sdk_calls (snd (cancel_order self symbol order_id w))
  = (sdk_calls w ++ [cancel symbol order_id])%list.
Proof.
  intros Hex. unfold cancel_order, doing. rewrite live.
  destruct (exchange self) as [ex|]; [|now destruct Hex].
  rewrite (try_bind_inl (logger INFO _) _ _ w _ tt eq_refl).
  match goal with
  | |- context [ try_except _ _ ?w1 ] =>
      destruct (call_sdk_calls (cancel symbol order_id) w1) as (Hq & _ & _)
  end.
  cbn [sdk_calls] in Hq.
  match goal with
  | |- context [ try_except _ _ ?w1 ] =>
      destruct (call_sdk (cancel symbol order_id) w1) as [[result|e] w3] eqn:C
  end; cbn [snd] in Hq.
  - rewrite (try_bind_inl _ _ _ _ _ _ C).
    refine (preserves_try_except (fun x => sdk_calls x = _) _ _ _ _ w3 Hq).
    + keeps_through old_logger_keeps_calls.
    + intros e. apply old_handler_keeps_calls.
  - rewrite (try_bind_inr _ _ _ _ _ _ C).
    apply (old_handler_keeps_calls _ _ e w3 Hq).
Qed.

(** Without the SDK objects a live call gives up before any SDK call. *)
Lemma old_not_ready (symbol side : string) (size price : Q) (size_opt : option Q)
      (leverage : Z) (reduce_only : bool) (w : World) :
  sdk_ready self = false ->
  (exists w', execute_market_order self symbol side size leverage reduce_only w
              = (inl VNone, w') /\ sdk_calls w' = sdk_calls w) /\
  (exists w', execute_limit_order self symbol side size price leverage reduce_only w
              = (inl VNone, w') /\ sdk_calls w' = sdk_calls w) /\
  (exists w', close_position self symbol side size_opt w
              = (inl VNone, w') /\ sdk_calls w' = sdk_calls w).
Proof.
  intros Hready.
  unfold execute_market_order, execute_limit_order, close_position, doing.
  rewrite live, Hready. cbn [negb].
  unfold try_except, bind, logger, modify, ret.
  repeat split; eexists; split; reflexivity.
Qed.

Lemma old_cancel_not_ready (symbol : string) (order_id : Z) (w : World) :
  exchange self = None ->
  exists w', cancel_order self symbol order_id w = (inl VNone, w') /\
             sdk_calls w' = sdk_calls w.
Proof.
  intros Hex. unfold cancel_order, doing. rewrite live, Hex.
  unfold try_except, bind, logger, modify, ret. eexists. split; reflexivity.
Qed.

End OldLiveCalls.

(** X11: the SDK calls of the live SDK-based executor.  With the SDK
    objects in place a market order makes the cross-margin leverage update
    and then [market_open] with 3% slippage, a limit order the leverage
    update and then [order] with time in force [Gtc], a close one
    [market_close] with 3% slippage, a cancel one [cancel]; the order buys
    exactly when the side is the text ["LONG"].  Each call is made once,
    the order also goes out when the leverage update raised, and nothing
    else is called whatever the SDK answers.  Without the SDK objects the
    methods return [None] and call nothing. *)
Theorem X11_sdk_executor_live_calls
        (env : ExecutorOld.Env) (self : ExecutorOld.TradeExecutor)
        (symbol side : string) (size price : Q) (size_opt : option Q)
        (leverage order_id : Z) (reduce_only : bool) (w : ExecutorOld.World) :
  ExecutorOld.dry_run self = false ->
  let is_buy := (side =? "LONG")%string in
  let market :=
    ExecutorOld.execute_market_order self symbol side size leverage reduce_only w in
  let limit :=
    ExecutorOld.execute_limit_order self symbol side size price leverage
      reduce_only w in
  let close := ExecutorOld.close_position self symbol side size_opt w in
  let cncl := ExecutorOld.cancel_order self symbol order_id w in
  (ExecutorOld.sdk_ready self = true ->
   ExecutorOld.sdk_calls (snd market)
   = (ExecutorOld.sdk_calls w
        ++ [ExecutorOld.update_leverage leverage symbol true;
            ExecutorOld.market_open symbol is_buy size (3 # 100)])%list /\
   ExecutorOld.sdk_calls (snd limit)
   = (ExecutorOld.sdk_calls w
        ++ [ExecutorOld.update_leverage leverage symbol true;
            ExecutorOld.order symbol is_buy size price "Gtc" reduce_only])%list /\
   ExecutorOld.sdk_calls (snd close)
   = (ExecutorOld.sdk_calls w
        ++ [ExecutorOld.market_close symbol size_opt (3 # 100)])%list) /\
  (ExecutorOld.exchange self <> None ->
   ExecutorOld.sdk_calls (snd cncl)
   = (ExecutorOld.sdk_calls w ++ [ExecutorOld.cancel symbol order_id])%list) /\
  (ExecutorOld.sdk_ready self = false ->
   fst market = inl Py.VNone /\ fst limit = inl Py.VNone /\ fst close = inl Py.VNone /\
   ExecutorOld.sdk_calls (snd market) = ExecutorOld.sdk_calls w /\
   ExecutorOld.sdk_calls (snd limit) = ExecutorOld.sdk_calls w /\
   ExecutorOld.sdk_calls (snd close) = ExecutorOld.sdk_calls w) /\
  (ExecutorOld.exchange self = None ->
   fst cncl = inl Py.VNone /\
   ExecutorOld.sdk_calls (snd cncl) = ExecutorOld.sdk_calls w).
Proof.
  intros Hlive is_buy market limit close cncl.
  subst is_buy market limit close cncl.
  split; [|split; [|split]].
  - intros Hready. split; [|split].
    + apply old_live_market_calls; assumption.
    + apply old_live_limit_calls; assumption.
    + apply old_close_position_live; assumption.
  - intros Hex. apply old_live_cancel_calls; assumption.
  - intros Hready.
    destruct (old_not_ready self Hlive symbol side size price size_opt leverage
                reduce_only w Hready)
      as ((w1 & E1 & H1) & (w2 & E2 & H2) & (w3 & E3 & H3)).
    rewrite E1, E2, E3. cbn [fst snd]. repeat split; assumption.
  - intros Hex.
    destruct (old_cancel_not_ready self Hlive symbol order_id w Hex) as (w1 & E1 & H1).
    rewrite E1. split; [reflexivity|exact H1].
Qed.

Lemma X11_sdk_executor_live_calls_witness :
  ExecutorOld.sdk_calls
    (snd (ExecutorOld.execute_market_order DemoOld.live "BTC" "SHORT" (1 # 10) 3 false
            (DemoOldMore.leverage_refused DemoOld.filled_answer)))
  = [ExecutorOld.update_leverage 3 "BTC" true;
     ExecutorOld.market_open "BTC" false (1 # 10) (3 # 100)] /\
  ExecutorOld.sdk_calls
    (snd (ExecutorOld.cancel_order DemoOld.live "BTC" 77
            (DemoOld.world DemoOldMore.refused_answer)))
  = [ExecutorOld.cancel "BTC" 77] /\
  fst (ExecutorOld.execute_limit_order DemoOldMore.unready "BTC" "LONG" (1 # 10) 60000
         3 false (DemoOld.world DemoOld.filled_answer))
  = inl Py.VNone.
Proof.
  split; [|split].
  - exact (proj1 (proj1 (X11_sdk_executor_live_calls DemoOld.env DemoOld.live
                           "BTC" "SHORT" (1 # 10) 60000 None 3 77 false
                           (DemoOldMore.leverage_refused DemoOld.filled_answer)
                           eq_refl) eq_refl)).
  - refine (proj1 (proj2 (X11_sdk_executor_live_calls DemoOld.env DemoOld.live
                            "BTC" "SHORT" (1 # 10) 60000 None 3 77 false
                            (DemoOld.world DemoOldMore.refused_answer) eq_refl)) _).
    discriminate.
  - exact (proj1 (proj2 (proj1 (proj2 (proj2
             (X11_sdk_executor_live_calls DemoOld.env DemoOldMore.unready
                "BTC" "LONG" (1 # 10) 60000 None 3 77 false
                (DemoOld.world DemoOld.filled_answer) eq_refl))) eq_refl))).
Defined.

Section OldLiveResults.
Import Py ExecutorOld.
Local Open Scope exec_scope.
Context {env : Env}.

Variable self : TradeExecutor.
Hypothesis live : dry_run self = false.

(** A live limit order whose [order] call the SDK answers with [result]. *)
Lemma old_limit_order_parses (symbol side : string) (size price : Q) (leverage : Z)
      (reduce_only : bool) (w : World) (result : value) :
  sdk_ready self = true ->
  (forall n, sdk w n (order symbol (side =? "LONG")%string size price "Gtc" reduce_only)
             = inl result) ->
  forall st, get result "status" = inl st ->
  let limit :=
    fst (execute_limit_order self symbol side size price leverage reduce_only w) in
  (eq_str st "ok" = false -> limit = inl VNone) /\
  (eq_str st "ok" = true ->
   (statuses_of result = inl (VList []) -> limit = inl VNone) /\
   (forall d rest,
       statuses_of result = inl (VList (VDict d :: rest)) ->
       (forall resting,
           assoc "resting" d = Some (VDict resting) ->
           limit = inl (VDict [("success", VBool true);
                               ("order_id", match assoc "oid" resting with
                                            | Some x => x | None => VNone end);
                               ("symbol", VStr symbol); ("side", VStr side);
                               ("size", VFloat size); ("price", VFloat price);
                               ("type", VStr "limit")])) /\
       (forall filled,
           assoc "resting" d = None -> assoc "filled" d = Some (VDict filled) ->
           limit = inl (VDict [("success", VBool true);
                               ("order_id", match assoc "oid" filled with
                                            | Some x => x | None => VNone end);
                               ("symbol", VStr symbol); ("side", VStr side);
                               ("size", match assoc "totalSz" filled with
                                        | Some x => x | None => VNone end);
                               ("price", match assoc "avgPx" filled with
                                         | Some x => x | None => VNone end);
                               ("type", VStr "limit")])) /\
       (assoc "resting" d = None -> assoc "filled" d = None -> limit = inl VNone))).
Proof.
  intros Hready Hans st Hst limit. subst limit.
  unfold execute_limit_order, doing. rewrite live, Hready. cbn [negb]. cbv zeta.
  rewrite (try_bind_inl (logger INFO _) _ _ w _ tt eq_refl).
  match goal with
  | |- context [ try_except _ _ ?w1 ] =>
      destruct (set_leverage_calls leverage symbol w1) as (w2 & E & _ & Hsdk)
  end.
  rewrite (try_bind_inl _ _ _ _ _ _ E).
  assert (C : exists w3,
             call_sdk (order symbol (side =? "LONG")%string size price "Gtc" reduce_only) w2
             = (inl result, w3)).
  { unfold call_sdk. rewrite Hsdk. cbn [sdk]. rewrite Hans. eexists. reflexivity. }
  destruct C as [w3 C]. rewrite (try_bind_inl _ _ _ _ _ _ C).
  unfold try_except, bind, lift, logger, modify, ret. rewrite Hst. split.
  - intros Hno. rewrite Hno. reflexivity.
  - intros Hok. rewrite Hok. split.
    + intros Hstat. rewrite Hstat. reflexivity.
    + intros d rest Hstat. rewrite Hstat. cbn [truthy item0 str_in_value].
      split; [|split].
      * intros resting Hr. rewrite Hr. cbn [item]. rewrite Hr.
        unfold get, get_default. reflexivity.
      * intros filled Hr Hf. rewrite Hr, Hf. cbn [item]. rewrite Hf.
        unfold get, get_default. reflexivity.
      * intros Hr Hf. rewrite Hr, Hf.
        destruct (assoc "error" d) as [err|] eqn:He; [|reflexivity].
        cbn [item]. rewrite He. reflexivity.
Qed.

(** A live call whose SDK call raises ends in the [except] clause. *)
Lemma old_limit_order_sdk_raises (symbol side : string) (size price : Q)
      (leverage : Z) (reduce_only : bool) (w : World) (why : string) :
  sdk_ready self = true ->
  (forall n, sdk w n (order symbol (side =? "LONG")%string size price "Gtc" reduce_only)
             = inr why) ->
  exists w',
    execute_limit_order self symbol side size price leverage reduce_only w
    = (inl VNone, w') /\
    exists l, log w'
              = (l ++ [(ERROR, ("❌ Limit order execution failed: " ++ why)%string);
                       (ERROR, format_exc (LibraryError why))])%list.
Proof.
  intros Hready Hans.
  unfold execute_limit_order, doing. rewrite live, Hready. cbn [negb]. cbv zeta.
  rewrite (try_bind_inl (logger INFO _) _ _ w _ tt eq_refl).
  match goal with
  | |- context [ try_except _ _ ?w1 ] =>
      destruct (set_leverage_calls leverage symbol w1) as (w2 & E & _ & Hsdk)
  end.
  rewrite (try_bind_inl _ _ _ _ _ _ E).
  assert (C : exists w3,
             call_sdk (order symbol (side =? "LONG")%string size price "Gtc" reduce_only) w2
             = (inr (LibraryError why), w3)).
  { unfold call_sdk. rewrite Hsdk. cbn [sdk]. rewrite Hans. eexists. reflexivity. }
  destruct C as [w3 C]. rewrite (try_bind_inr _ _ _ _ _ _ C).
  unfold bind, logger, modify, ret. cbn -[append].
  eexists. split; [reflexivity|].
  exists (log w3). cbn -[append]. now rewrite <- app_assoc.
Qed.

(** A live cancel whose [cancel] call the SDK answers with [result]. *)
Lemma old_cancel_parses (symbol : string) (order_id : Z) (w : World)
      (result : value) :
  exchange self <> None ->
  (forall n, sdk w n (cancel symbol order_id) = inl result) ->
  forall st, get result "status" = inl st ->
  fst (cancel_order self symbol order_id w)
  = inl (if eq_str st "ok"
         then VDict [("success", VBool true); ("symbol", VStr symbol);
                     ("order_id", VInt order_id); ("cancelled", VBool true)]
         else VNone).
Proof.
  intros Hex Hans st Hst. unfold cancel_order, doing. rewrite live.
  destruct (exchange self) as [ex|]; [|now destruct Hex].
  unfold try_except, bind, call_sdk, lift, logger, modify, ret. cbn [sdk sdk_calls].
  rewrite Hans, Hst. destruct (eq_str st "ok"); reflexivity.
Qed.

End OldLiveResults.

(** X12: what the live SDK-based executor makes of the SDK's answer to a
    limit order and to a cancel.  For a limit order: a status other than
    ok gives [None]; with status ok the first status entry is read and a
    [resting] entry gives a confirmation with its order id and the size and
    price that were asked for, a [filled] entry one with the fill's total
    size and average price, anything else (an [error] entry, no entry)
    [None]; when the SDK raises the result is [None] and the error is
    logged.  For a cancel: status ok gives a confirmation with [cancelled]
    set, any other status [None]. *)
Theorem X12_sdk_executor_reads_the_answer
        (env : ExecutorOld.Env) (self : ExecutorOld.TradeExecutor)
        (symbol side : string) (size price : Q) (leverage order_id : Z)
        (reduce_only : bool) (w : ExecutorOld.World) :
  ExecutorOld.dry_run self = false ->
  ExecutorOld.sdk_ready self = true ->
  let placed :=
    ExecutorOld.order symbol (side =? "LONG")%string size price "Gtc" reduce_only in
  let limit :=
    fst (ExecutorOld.execute_limit_order self symbol side size price leverage
           reduce_only w) in
  let confirmation (oid shown_size shown_price : Py.value) :=
    Py.VDict [("success", Py.VBool true); ("order_id", oid);
              ("symbol", Py.VStr symbol); ("side", Py.VStr side);
              ("size", shown_size); ("price", shown_price);
              ("type", Py.VStr "limit")] in
  let field (k : string) (d : list (string * Py.value)) :=
    match Py.assoc k d with Some x => x | None => Py.VNone end in
  (forall result st,
      (forall n, ExecutorOld.sdk w n placed = inl result) ->
      Py.get result "status" = inl st ->
      (Py.eq_str st "ok" = false -> limit = inl Py.VNone) /\
      (Py.eq_str st "ok" = true ->
       (ExecutorOld.statuses_of result = inl (Py.VList []) -> limit = inl Py.VNone) /\
       (forall d rest,
           ExecutorOld.statuses_of result = inl (Py.VList (Py.VDict d :: rest)) ->
           (forall resting,
               Py.assoc "resting" d = Some (Py.VDict resting) ->
               limit = inl (confirmation (field "oid" resting)
                              (Py.VFloat size) (Py.VFloat price))) /\
           (forall filled,
               Py.assoc "resting" d = None ->
               Py.assoc "filled" d = Some (Py.VDict filled) ->
               limit = inl (confirmation (field "oid" filled)
                              (field "totalSz" filled) (field "avgPx" filled))) /\
           (Py.assoc "resting" d = None -> Py.assoc "filled" d = None ->
            limit = inl Py.VNone)))) /\
  (forall why,
      (forall n, ExecutorOld.sdk w n placed = inr why) ->
      limit = inl Py.VNone) /\
  (forall result st,
      (forall n, ExecutorOld.sdk w n (ExecutorOld.cancel symbol order_id) = inl result) ->
      Py.get result "status" = inl st ->
      fst (ExecutorOld.cancel_order self symbol order_id w)
      = inl (if Py.eq_str st "ok"
             then Py.VDict [("success", Py.VBool true); ("symbol", Py.VStr symbol);
                            ("order_id", Py.VInt order_id);
                            ("cancelled", Py.VBool true)]
             else Py.VNone)).
Proof.
  intros Hlive Hready placed limit confirmation field.
  subst placed limit confirmation field. split; [|split].
  - intros result st Hans Hst.
    exact (old_limit_order_parses self Hlive symbol side size price leverage
             reduce_only w result Hready Hans st Hst).
  - intros why Hans.
    destruct (old_limit_order_sdk_raises self Hlive symbol side size price leverage
                reduce_only w why Hready Hans) as (w' & E & _).
    now rewrite E.
  - intros result st Hans Hst.
    apply (old_cancel_parses self Hlive symbol order_id w result); trivial.
    unfold ExecutorOld.sdk_ready in Hready.
    destruct (ExecutorOld.exchange self); [discriminate|discriminate].
Qed.

Lemma X12_sdk_executor_reads_the_answer_witness :
  fst (ExecutorOld.execute_limit_order DemoOld.live "BTC" "LONG" (1 # 10) 60000 3
         false (DemoOld.world DemoOldMore.resting_answer))
  = inl (Py.VDict [("success", Py.VBool true); ("order_id", Py.VInt 77);
                   ("symbol", Py.VStr "BTC"); ("side", Py.VStr "LONG");
                   ("size", Py.VFloat (1 # 10)); ("price", Py.VFloat 60000);
                   ("type", Py.VStr "limit")]) /\
  fst (ExecutorOld.execute_limit_order DemoOld.live "BTC" "LONG" (1 # 10) 60000 3
         false (DemoOld.world DemoOldMore.error_answer))
  = inl Py.VNone /\
  fst (ExecutorOld.cancel_order DemoOld.live "BTC" 77
         (DemoOld.world DemoOldMore.refused_answer))
  = inl Py.VNone.
Proof.
  split; [|split].
  - destruct (proj1 (X12_sdk_executor_reads_the_answer DemoOld.env DemoOld.live
                       "BTC" "LONG" (1 # 10) 60000 3 77 false
                       (DemoOld.world DemoOldMore.resting_answer) eq_refl eq_refl)
                DemoOldMore.resting_answer (Py.VStr "ok") (fun _ => eq_refl) eq_refl)
      as [_ Hok].
    destruct (Hok eq_refl) as [_ Hd].
    destruct (Hd [("resting", Py.VDict [("oid", Py.VInt 77)])] [] eq_refl)
      as (Hrest & _).
    exact (Hrest [("oid", Py.VInt 77)] eq_refl).
  - destruct (proj1 (X12_sdk_executor_reads_the_answer DemoOld.env DemoOld.live
                       "BTC" "LONG" (1 # 10) 60000 3 77 false
                       (DemoOld.world DemoOldMore.error_answer) eq_refl eq_refl)
                DemoOldMore.error_answer (Py.VStr "ok") (fun _ => eq_refl) eq_refl)
      as [_ Hok].
    destruct (Hok eq_refl) as [_ Hd].
    destruct (Hd [("error", Py.VStr "Insufficient margin")] [] eq_refl)
      as (_ & _ & Hnone).
    exact (Hnone eq_refl eq_refl).
  - exact (proj2 (proj2 (X12_sdk_executor_reads_the_answer DemoOld.env DemoOld.live
                           "BTC" "LONG" (1 # 10) 60000 3 77 false
                           (DemoOld.world DemoOldMore.refused_answer) eq_refl eq_refl))
             DemoOldMore.refused_answer (Py.VStr "err") (fun _ => eq_refl) eq_refl).
Defined.

(** X13: the constructor of the SDK-based executor.  In dry-run mode it
    always returns, with no account and no SDK object even when a key is
    given, and logs the dry-run warning.  An executor it returns in live
    mode holds the account of its key and both SDK objects, so the
    "Exchange not initialized" exits of the methods are not taken; its
    wallet address is stored as given and is not compared with the key.
    When [eth_account] or an SDK constructor raises, the error is logged
    and raised again. *)
Theorem X13_sdk_executor_construction
        (env : ExecutorOld.Env) (url : string) (wa pk : option string)
        (w : ExecutorOld.World) :
  (exists w',
      ExecutorOld.__init__ url wa pk true w
      = (inl {| ExecutorOld.api_url := url; ExecutorOld.wallet_address := wa;
                ExecutorOld.private_key := pk; ExecutorOld.dry_run := true;
                ExecutorOld.account := None; ExecutorOld.exchange := None;
                ExecutorOld.info := None |}, w') /\
      ExecutorOld.log w'
      = (ExecutorOld.log w
           ++ [(Py.WARNING,
                "⚠️ DRY RUN MODE - Trades will be simulated, not executed!")])%list) /\
  (forall self w',
      ExecutorOld.__init__ url wa pk false w = (inl self, w') ->
      ExecutorOld.dry_run self = false /\
      ExecutorOld.sdk_ready self = true /\
      ExecutorOld.wallet_address self = wa /\
      exists acct,
        ExecutorOld.from_key (ExecutorOld.fmt_opt pk) = inl acct /\
        ExecutorOld.account self = Some acct) /\
  (Py.truthy_str pk = true ->
   forall why,
     (ExecutorOld.from_key (ExecutorOld.fmt_opt pk) = inr why \/
      exists acct,
        ExecutorOld.from_key (ExecutorOld.fmt_opt pk) = inl acct /\
        (ExecutorOld.new_exchange acct url = inr why \/
         exists ex,
           ExecutorOld.new_exchange acct url = inl ex /\
           ExecutorOld.new_info url = inr why)) ->
     exists w',
       ExecutorOld.__init__ url wa pk false w = (inr (Py.LibraryError why), w') /\
       ExecutorOld.log w'
       = (ExecutorOld.log w
            ++ [(Py.ERROR,
                 ("❌ Failed to initialize Hyperliquid SDK: " ++ why)%string)])%list).
Proof.
  split; [|split].
  - unfold ExecutorOld.__init__. rewrite andb_false_r. cbn [negb].
    unfold Py.bind, Py.ret, ExecutorOld.logger, Py.modify.
    eexists. split; reflexivity.
  - intros self w'. unfold ExecutorOld.__init__.
    destruct (Py.truthy_str pk); cbn [andb negb].
    + unfold Py.bind at 1, Py.try_except, Py.bind at 1, Py.lift_lib.
      destruct (ExecutorOld.from_key (ExecutorOld.fmt_opt pk)) as [acct|why];
        [|cbn; discriminate].
      unfold Py.ret at 1, Py.bind at 1.
      destruct (ExecutorOld.new_exchange acct url) as [ex|why]; [|cbn; discriminate].
      unfold Py.ret at 1, Py.bind at 1.
      destruct (ExecutorOld.new_info url) as [inf|why]; [|cbn; discriminate].
      cbn. intros [= <- _]. cbn. repeat split. now exists acct.
    + cbn. discriminate.
  - intros Hpk why Hwhy. unfold ExecutorOld.__init__. rewrite Hpk. cbn [andb negb].
    unfold Py.bind at 1, Py.try_except, Py.bind at 1, Py.lift_lib.
    destruct Hwhy as [->|(acct & -> & [Hex|(ex & Hex & Hinf)])].
    + cbn. eexists. split; reflexivity.
    + unfold Py.ret at 1, Py.bind at 1. rewrite Hex.
      cbn. eexists. split; reflexivity.
    + unfold Py.ret at 1, Py.bind at 1. rewrite Hex.
      unfold Py.ret at 1, Py.bind at 1. rewrite Hinf.
      cbn. eexists. split; reflexivity.
Qed.

Lemma X13_sdk_executor_construction_witness :
  (exists self w',
      ExecutorOld.__init__ (env := DemoOld.env) "https://api.hyperliquid.xyz"
        (Some "0xSomeoneElse") (Some "1") false (DemoOld.world Py.VNone)
      = (inl self, w') /\
      ExecutorOld.sdk_ready self = true /\
      ExecutorOld.wallet_address self = Some "0xSomeoneElse" /\
      ExecutorOld.account self = Some "0xAbC1") /\
  (exists w',
      ExecutorOld.__init__ (env := DemoOld.env) "https://api.hyperliquid.xyz"
        None (Some "bad") false (DemoOld.world Py.VNone)
      = (inr (Py.LibraryError "invalid key"), w') /\
      ExecutorOld.log w'
      = [(Py.ERROR, "❌ Failed to initialize Hyperliquid SDK: invalid key")]).
Proof.
  split.
  - destruct (ExecutorOld.__init__ (env := DemoOld.env) "https://api.hyperliquid.xyz"
                (Some "0xSomeoneElse") (Some "1") false (DemoOld.world Py.VNone))
      as [[self|e] w'] eqn:E; [|vm_compute in E; discriminate].
    destruct (proj1 (proj2 (X13_sdk_executor_construction DemoOld.env
                              "https://api.hyperliquid.xyz" (Some "0xSomeoneElse")
                              (Some "1") (DemoOld.world Py.VNone))) self w' E)
      as (_ & Hready & Hwa & acct & Hkey & Hacct).
    exists self, w'. split; [reflexivity|]. split; [exact Hready|].
    split; [exact Hwa|]. rewrite Hacct. cbv in Hkey. injection Hkey as <-. reflexivity.
  - exact (proj2 (proj2 (X13_sdk_executor_construction DemoOld.env
                           "https://api.hyperliquid.xyz" None (Some "bad")
                           (DemoOld.world Py.VNone))) eq_refl "invalid key"
             (or_introl eq_refl)).
Defined.

(* ===================================================================== *)
(** * Further properties of the websocket client                          *)
(* ===================================================================== *)
Section ConnectionFacts.
Import Py WebSocket.
Local Open Scope exec_scope.
Context {env : Env} {H : Type}.

Lemma update_conn_length (c : nat) (f : Connection -> Connection)
      (l : list Connection) :
  List.length (update_conn c f l) = List.length l.
Proof.
  revert c. induction l as [|k l IH]; intros c; [now destruct c|].
  destruct c; cbn; [reflexivity|now rewrite IH].
Qed.

Lemma update_conn_nth (c : nat) (f : Connection -> Connection)
      (l : list Connection) :
  nth_error (update_conn c f l) c = option_map f (nth_error l c).
Proof.
  revert c. induction l as [|k l IH]; intros c; [now destruct c|].
  destruct c; cbn; [reflexivity|apply IH].
Qed.

(** [stop]: the client is marked not running and its connection, when it
    has one, is closed; nothing else changes. *)
Lemma stop_effect (s : State H) :
  exists s',
    stop s = (inl tt, s') /\
    is_running (self s') = false /\
    ws (self s') = ws (self s) /\
    subscriptions (self s') = subscriptions (self s) /\
    callbacks (self s') = callbacks (self s) /\
    wire s' = wire s /\ dials s' = dials s /\ dial s' = dial s /\
    List.length (conns s') = List.length (conns s) /\
    (forall c, ws (self s) = Some c -> conn_closed c s' = true) /\
    (ws (self s) = None -> conns s' = conns s /\ log s' = log s).
Proof.
  unfold stop, disconnect, bind, modify, get_state.
  cbn [self ws with_self set_is_running].
  destruct (ws (self s)) as [c|] eqn:Hws.
  - unfold ws_close, logger, bind, modify. eexists. split; [reflexivity|].
    cbn [self conns with_self with_conns with_log set_is_running is_running ws
         subscriptions callbacks wire dials dial].
    repeat split; trivial.
    + apply update_conn_length.
    + intros c' [= <-]. unfold conn_closed.
      cbn [conns with_log with_conns with_self].
      rewrite update_conn_nth. now destruct (nth_error (conns s) c).
    + discriminate.
    + discriminate.
  - unfold ret. eexists. split; [reflexivity|].
    cbn [self conns with_self set_is_running is_running ws subscriptions callbacks
         wire dials dial].
    repeat split; trivial; discriminate.
Qed.

(** Once the client is marked not running the loop ends at its test. *)
Lemma listen_when_stopped (fuel : nat) (s : State H) :
  is_running (self s) = false -> listen (S fuel) s = (inl Stopped, s).
Proof. intros Hs. cbn [listen]. unfold bind, get_state. now rewrite Hs. Qed.

End ConnectionFacts.

(** X14: [stop()] ends the listening.  It always returns; afterwards the
    client is marked not running, its connection, when it had one, is
    closed, and the registered subscriptions and callbacks are still there;
    it sends nothing and dials nothing.  A listening loop started on the
    stopped client ends at once at its test, without dialing, sending or
    logging. *)
Theorem X14_stop_ends_the_listening
        (env : WebSocket.Env) (H : Type) (s : WebSocket.State H) :
  exists s',
    WebSocket.stop s = (inl tt, s') /\
    WebSocket.is_running (WebSocket.self s') = false /\
    WebSocket.subscriptions (WebSocket.self s')
    = WebSocket.subscriptions (WebSocket.self s) /\
    WebSocket.callbacks (WebSocket.self s') = WebSocket.callbacks (WebSocket.self s) /\
    WebSocket.wire s' = WebSocket.wire s /\
    WebSocket.dials s' = WebSocket.dials s /\
    (forall c, WebSocket.ws (WebSocket.self s) = Some c ->
               WebSocket.conn_closed c s' = true) /\
    (WebSocket.ws (WebSocket.self s) = None ->
     WebSocket.conns s' = WebSocket.conns s /\ WebSocket.log s' = WebSocket.log s) /\
    (forall fuel, WebSocket.listen (S fuel) s' = (inl WebSocket.Stopped, s')).
Proof.
  destruct (stop_effect s)
    as (s' & E & Hrun & _ & Hsub & Hcb & Hw & Hd & _ & _ & Hcl & Hnone).
  exists s'. repeat split; trivial.
  - apply Hnone; assumption.
  - apply Hnone; assumption.
  - intros fuel. now apply listen_when_stopped.
Qed.

Lemma X14_stop_ends_the_listening_witness :
  exists s',
    WebSocket.stop DemoWS.connected = (inl tt, s') /\
    WebSocket.conn_closed O s' = true /\
    map fst (WebSocket.subscriptions (WebSocket.self s'))
    = ["trades:ETH"; "user:0xabc"; "allMids"] /\
    WebSocket.listen (env := DemoWS.env) 5 s' = (inl WebSocket.Stopped, s').
Proof.
  destruct (X14_stop_ends_the_listening DemoWS.env (list string) DemoWS.connected)
    as (s' & E & _ & Hsub & _ & _ & _ & Hcl & _ & Hl).
  exists s'. split; [exact E|]. split; [apply Hcl; reflexivity|].
  split; [rewrite Hsub; reflexivity|apply Hl].
Defined.

Section DialFacts.
Import Py WebSocket.
Local Open Scope exec_scope.
Context {env : Env} {H : Type}.

(** A dial that fails: the error is logged and raised again, and the
    client is as it was. *)
Lemma connect_fails (s : State H) (why : string) :
  dial s (dials s) = Some why ->
  exists s',
    connect s = (inr (LibraryError why), s') /\
    self s' = self s /\ wire s' = wire s /\ conns s' = conns s /\
    dial s' = dial s /\ dials s' = S (dials s) /\ slept s' = slept s /\
    log s' = (log s ++ [(INFO, ("Connecting to Hyperliquid WebSocket: "
                                  ++ ws_url (self s))%string);
                        (ERROR, ("Failed to connect to WebSocket: " ++ why)%string)])%list.
Proof.
  intros Hd. unfold connect, try_except.
  unfold bind at 1, get_state at 1.
  unfold bind at 1, logger at 1, modify at 1.
  unfold bind at 1, websockets_connect at 1.
  cbn [dial dials with_log]. rewrite Hd.
  unfold bind, logger, modify, raise. eexists. split; [reflexivity|].
  cbn -[append]. rewrite <- app_assoc. repeat split.
Qed.

(** A turn of the loop that has to dial, the dial failing. *)
Lemma listen_turn_dial_fails (s : State H) (why : string) :
  ws (self s) = None -> dial s (dials s) = Some why ->
  exists s',
    listen_turn s = (inl tt, s') /\
    self s' = self s /\ wire s' = wire s /\ conns s' = conns s /\
    dial s' = dial s /\ dials s' = S (dials s) /\
    slept s' = (slept s ++ [reconnect_delay (self s)])%list.
Proof.
  intros Hws Hd. destruct (connect_fails s why Hd)
    as (s1 & E & Hself & Hw & Hc & Hdl & Hds & Hsl & _).
  unfold listen_turn.
  rewrite (try_bind_inl get_state _ _ s s s eq_refl). rewrite Hws.
  rewrite (try_bind_inr _ _ _ _ _ _ E).
  unfold bind, get_state, logger, asyncio_sleep, modify. cbn -[append].
  eexists. split; [reflexivity|].
  cbn -[append]. rewrite Hself, Hw, Hc, Hdl, Hds, Hsl. repeat split.
Qed.

(** The loop while every dial fails. *)
Lemma listen_retries (fuel : nat) (s : State H) :
  running s -> ws (self s) = None ->
  (forall n, dial s n <> None) ->
  exists s',
    listen fuel s = (inl OutOfFuel, s') /\
    self s' = self s /\ wire s' = wire s /\ conns s' = conns s /\
    dials s' = (dials s + fuel)%nat /\
    slept s' = (slept s ++ repeat (reconnect_delay (self s)) fuel)%list.
Proof.
  revert s. induction fuel as [|n IH]; intros s Hrun Hws Hdial.
  - exists s. rewrite Nat.add_0_r, app_nil_r. repeat split.
  - cbn [listen]. unfold bind at 1, get_state at 1.
    unfold running in Hrun. rewrite Hrun.
    destruct (dial s (dials s)) as [why|] eqn:Hd; [|now destruct (Hdial (dials s))].
    destruct (listen_turn_dial_fails s why Hws Hd)
      as (s1 & E & Hself & Hw & Hc & Hdl & Hds & Hsl).
    rewrite (bind_inl _ _ _ _ _ E).
    destruct (IH s1) as (s2 & E2 & Hself2 & Hw2 & Hc2 & Hds2 & Hsl2).
    + unfold running. now rewrite Hself.
    + now rewrite Hself.
    + intros k. rewrite Hdl. apply Hdial.
    + exists s2. split; [exact E2|].
      rewrite Hself2, Hw2, Hc2, Hds2, Hsl2, Hself, Hw, Hc, Hds, Hsl.
      repeat split; [lia|]. rewrite <- app_assoc. reflexivity.
Qed.

End DialFacts.

(** X15: a dial that fails.  [connect()] logs the error and raises it
    again, leaving the client, its connections and the wire as they were.
    The listening loop takes that as a lost connection: while the client is
    marked running and every dial fails, each turn dials once and sleeps
    [reconnect_delay] seconds; the loop goes on for any number of turns and
    sends nothing. *)
Theorem X15_failed_dials_are_retried
        (env : WebSocket.Env) (H : Type) (s : WebSocket.State H) :
  (forall why,
      WebSocket.dial s (WebSocket.dials s) = Some why ->
      exists s',
        WebSocket.connect s = (inr (Py.LibraryError why), s') /\
        WebSocket.self s' = WebSocket.self s /\
        WebSocket.wire s' = WebSocket.wire s /\
        WebSocket.conns s' = WebSocket.conns s /\
        WebSocket.log s'
        = (WebSocket.log s
             ++ [(Py.INFO, ("Connecting to Hyperliquid WebSocket: "
                              ++ WebSocket.ws_url (WebSocket.self s))%string);
                 (Py.ERROR, ("Failed to connect to WebSocket: " ++ why)%string)])%list) /\
  (WebSocket.running s ->
   WebSocket.ws (WebSocket.self s) = None ->
   (forall n, WebSocket.dial s n <> None) ->
   forall fuel,
   exists s',
     WebSocket.listen fuel s = (inl WebSocket.OutOfFuel, s') /\
     WebSocket.self s' = WebSocket.self s /\
     WebSocket.wire s' = WebSocket.wire s /\
     WebSocket.conns s' = WebSocket.conns s /\
     WebSocket.dials s' = (WebSocket.dials s + fuel)%nat /\
     WebSocket.slept s'
     = (WebSocket.slept s
          ++ repeat (WebSocket.reconnect_delay (WebSocket.self s)) fuel)%list).
Proof.
  split.
  - intros why Hd.
    destruct (connect_fails s why Hd) as (s' & E & Hs & Hw & Hc & _ & _ & _ & Hl).
    exists s'. repeat split; assumption.
  - intros Hrun Hws Hdial fuel. now apply listen_retries.
Qed.

Lemma X15_failed_dials_are_retried_witness :
  (exists s',
      WebSocket.connect (env := DemoWS.env) DemoWSMore.offline
      = (inr (Py.LibraryError "Connection refused"), s') /\
      WebSocket.self s' = WebSocket.self DemoWSMore.offline /\
      WebSocket.wire s' = []) /\
  (exists s',
      WebSocket.listen (env := DemoWS.env) 3 DemoWSMore.offline
      = (inl WebSocket.OutOfFuel, s') /\
      WebSocket.wire s' = [] /\
      WebSocket.dials s' = 3%nat /\
      WebSocket.slept s' = [5; 5; 5]).
Proof.
  split.
  - destruct (proj1 (X15_failed_dials_are_retried DemoWS.env (list string)
                       DemoWSMore.offline) "Connection refused" eq_refl)
      as (s' & E & Hs & Hw & _).
    exists s'. repeat split; assumption.
  - destruct (proj2 (X15_failed_dials_are_retried DemoWS.env (list string)
                       DemoWSMore.offline) eq_refl eq_refl
                (fun n => ltac:(discriminate)) 3%nat)
      as (s' & E & _ & Hw & _ & Hd & Hsl).
    exists s'. repeat split; assumption.
Defined.

Section RegistryFacts.
Import Py WebSocket.
Local Open Scope exec_scope.
Context {env : Env} {H : Type}.

Lemma assoc_dict_set_same {A} (k : string) (v : A) (d : list (string * A)) :
  assoc k (dict_set k v d) = Some v.
Proof.
  induction d as [|[k' v'] d IH]; cbn.
  - now rewrite String.eqb_refl.
  - destruct (k =? k')%string eqn:E; cbn; rewrite E; [reflexivity|exact IH].
Qed.

Lemma assoc_dict_set_other {A} (k k0 : string) (v : A) (d : list (string * A)) :
  k0 <> k -> assoc k0 (dict_set k v d) = assoc k0 d.
Proof.
  intros Hne. induction d as [|[k' v'] d IH]; cbn.
  - apply String.eqb_neq in Hne. now rewrite Hne.
  - destruct (k =? k')%string eqn:E; cbn.
    + apply String.eqb_eq in E. subst k'.
      apply String.eqb_neq in Hne. now rewrite Hne.
    + destruct (k0 =? k')%string; [reflexivity|exact IH].
Qed.

(** The body the three [subscribe_*] methods share. *)
Lemma subscribe_registers (chan line : string) (sub : value)
      (cb : option (Callback H)) (s : State H) :
  exists s',
    (modify (with_self (set_subscription chan sub)) ;;;
     match cb with
     | Some c => modify (with_self (set_callback chan c))
     | None => ret tt
     end ;;;
     s0 <- get_state ;;
     match ws (self s0) with
     | Some _ => _send_subscription sub
     | None => ret tt
     end ;;;
     logger INFO line) s = (inl tt, s') /\
    subscriptions (self s') = dict_set chan sub (subscriptions (self s)) /\
    callbacks (self s')
    = match cb with
      | Some c => dict_set chan c (callbacks (self s))
      | None => callbacks (self s)
      end.
Proof.
  destruct (ws (self s)) as [c|] eqn:Hws.
  - destruct (conn_closed c s) eqn:Hopen; destruct cb as [cb|];
      unfold bind, modify, get_state, ret, _send_subscription, try_except, ws_send,
        logger, bind, modify, get_state, conn_closed in *;
      cbn [self ws conns wire with_self with_log with_wire set_subscription
           set_callback subscriptions callbacks];
      repeat (rewrite ?Hws, ?Hopen;
              cbn [self ws conns wire with_self with_log with_wire set_subscription
                   set_callback subscriptions callbacks]);
      (eexists; split; [reflexivity|]); split; reflexivity.
  - destruct cb as [cb|];
      unfold bind, modify, get_state, ret, logger, modify;
      cbn [self ws with_self set_subscription set_callback];
      rewrite ?Hws;
      (eexists; split; [reflexivity|]); split; reflexivity.
Qed.

(** What a registration under [chan] leaves in the two dictionaries. *)
Lemma registered_lookup (chan : string) (sub : value) (cb : option (Callback H))
      (o o' : HyperliquidWebSocket H) :
  subscriptions o' = dict_set chan sub (subscriptions o) ->
  callbacks o' = match cb with
                 | Some c => dict_set chan c (callbacks o)
                 | None => callbacks o
                 end ->
  assoc chan (subscriptions o') = Some sub /\
  assoc chan (callbacks o')
  = match cb with
    | Some c => Some c
    | None => assoc chan (callbacks o)
    end /\
  (forall k, k <> chan ->
             assoc k (subscriptions o') = assoc k (subscriptions o) /\
             assoc k (callbacks o') = assoc k (callbacks o)).
Proof.
  intros -> ->. split; [apply assoc_dict_set_same|]. split.
  - destruct cb; [apply assoc_dict_set_same|reflexivity].
  - intros k Hk. split; [now apply assoc_dict_set_other|].
    destruct cb; [now apply assoc_dict_set_other|reflexivity].
Qed.

End RegistryFacts.

(** X16: the registry behind the [subscribe_*] methods.  Each call
    returns, whether or not there is a connection and whether or not a send
    on it fails.  Afterwards the subscription message is stored under the
    method's channel key; the callback stored under that key is the one
    passed, or, when none is passed, the one that was there before; and
    what is stored under every other key is untouched. *)
Theorem X16_subscriptions_are_kept_by_channel
        (env : WebSocket.Env) (H : Type) (s : WebSocket.State H) (target : string)
        (cb : option (WebSocket.Callback H)) :
  let registered (chan : string) (message : Py.value) (s' : WebSocket.State H) :=
    Py.assoc chan (WebSocket.subscriptions (WebSocket.self s')) = Some message /\
    Py.assoc chan (WebSocket.callbacks (WebSocket.self s'))
    = match cb with
      | Some c => Some c
      | None => Py.assoc chan (WebSocket.callbacks (WebSocket.self s))
      end /\
    (forall k, k <> chan ->
               Py.assoc k (WebSocket.subscriptions (WebSocket.self s'))
               = Py.assoc k (WebSocket.subscriptions (WebSocket.self s)) /\
               Py.assoc k (WebSocket.callbacks (WebSocket.self s'))
               = Py.assoc k (WebSocket.callbacks (WebSocket.self s))) in
  (exists s',
      WebSocket.subscribe_user target cb s = (inl tt, s') /\
      registered ("user:" ++ target)
        (Py.VDict [("method", Py.VStr "subscribe");
                   ("subscription", Py.VDict [("type", Py.VStr "userEvents");
                                              ("user", Py.VStr target)])]) s') /\
  (exists s',
      WebSocket.subscribe_trades target cb s = (inl tt, s') /\
      registered ("trades:" ++ target)
        (Py.VDict [("method", Py.VStr "subscribe");
                   ("subscription", Py.VDict [("type", Py.VStr "trades");
                                              ("coin", Py.VStr target)])]) s') /\
  (exists s',
      WebSocket.subscribe_all_mids cb s = (inl tt, s') /\
      registered "allMids"
        (Py.VDict [("method", Py.VStr "subscribe");
                   ("subscription", Py.VDict [("type", Py.VStr "allMids")])]) s').
Proof.
  intros registered. subst registered. cbv beta.
  split; [|split].
  - unfold WebSocket.subscribe_user.
    match goal with
    | |- context [ WebSocket.logger Py.INFO ?line ] =>
        destruct (subscribe_registers ("user:" ++ target) line
                    (Py.VDict [("method", Py.VStr "subscribe");
                               ("subscription",
                                Py.VDict [("type", Py.VStr "userEvents");
                                          ("user", Py.VStr target)])]) cb s)
          as (s' & E & Hsub & Hcb)
    end.
    exists s'. split; [exact E|]. now apply (registered_lookup _ _ cb).
  - unfold WebSocket.subscribe_trades.
    match goal with
    | |- context [ WebSocket.logger Py.INFO ?line ] =>
        destruct (subscribe_registers ("trades:" ++ target) line
                    (Py.VDict [("method", Py.VStr "subscribe");
                               ("subscription",
                                Py.VDict [("type", Py.VStr "trades");
                                          ("coin", Py.VStr target)])]) cb s)
          as (s' & E & Hsub & Hcb)
    end.
    exists s'. split; [exact E|]. now apply (registered_lookup _ _ cb).
  - unfold WebSocket.subscribe_all_mids.
    match goal with
    | |- context [ WebSocket.logger Py.INFO ?line ] =>
        destruct (subscribe_registers "allMids" line
                    (Py.VDict [("method", Py.VStr "subscribe");
                               ("subscription",
                                Py.VDict [("type", Py.VStr "allMids")])]) cb s)
          as (s' & E & Hsub & Hcb)
    end.
    exists s'. split; [exact E|]. now apply (registered_lookup _ _ cb).
Qed.

Lemma X16_subscriptions_are_kept_by_channel_witness :
  exists s',
    WebSocket.subscribe_trades (env := DemoWS.env) "ETH" None DemoWS.subscribed
    = (inl tt, s') /\
    Py.assoc "trades:ETH" (WebSocket.callbacks (WebSocket.self s'))
    = Some (DemoWS.note "eth trade") /\
    Py.assoc "allMids" (WebSocket.callbacks (WebSocket.self s'))
    = Some DemoWS.faulty.
Proof.
  destruct (proj1 (proj2 (X16_subscriptions_are_kept_by_channel DemoWS.env
                            (list string) DemoWS.subscribed "ETH" None)))
    as (s' & E & _ & Hcb & Hother).
  exists s'. split; [exact E|]. split.
  - exact Hcb.
  - rewrite (proj2 (Hother "allMids" ltac:(discriminate))). reflexivity.
Defined.

Section EmptyChannelFacts.
Import Py WebSocket.
Local Open Scope exec_scope.
Context {env : Env} {H : Type}.

Lemma str_in_empty (k : string) : str_in EmptyString k = true.
Proof. destruct k; reflexivity. Qed.

Lemma text_match_empty (k : string) :
  text_match EmptyString k = true /\ text_match k EmptyString = true.
Proof.
  rewrite !text_match_containment, str_in_empty. split; [apply orb_true_r|reflexivity].
Qed.

Lemma filter_all {A} (f : A -> bool) (l : list A) :
  (forall a, f a = true) -> filter f l = l.
Proof.
  intros Hf. induction l as [|a l IH]; [reflexivity|].
  cbn. now rewrite Hf, IH.
Qed.

End EmptyChannelFacts.

(** X17: the empty text and the match logic.  The empty text occurs in
    every text, so a frame whose channel is the empty text passes the match
    logic for every registered key, and handling it calls every registered
    callback, once each and in the order of registration; likewise a
    callback registered under the empty key would be called for every frame
    with a text channel. *)
Theorem X17_empty_channel_reaches_every_callback
        (env : WebSocket.Env) (H : Type) (message : string)
        (d : list (string * Py.value)) (st : WebSocket.State H) :
  WebSocket.json_loads message = inl (Py.VDict d) ->
  Py.assoc "channel" d = Some (Py.VStr EmptyString) ->
  let update := {| WebSocket.channel := Py.VStr EmptyString;
                   WebSocket.data := Py.VDict d;
                   WebSocket.timestamp := WebSocket.clock st (WebSocket.ticks st) |} in
  (exists st',
      WebSocket._handle_message message st = (inl tt, st') /\
      WebSocket.called st'
      = (WebSocket.called st
           ++ map (fun item => (fst item, update))
                (WebSocket.callbacks (WebSocket.self st)))%list) /\
  (forall k, WebSocket.text_match EmptyString k = true) /\
  (forall chan, WebSocket.text_match chan EmptyString = true).
Proof.
  intros Hjson Hchan update. split; [|split].
  - destruct (handle_message_text message d EmptyString st Hjson) as (st' & E & C & _).
    { cbn. now rewrite Hchan. }
    exists st'. split; [exact E|].
    rewrite filter_all in C; [exact C|].
    intros item. apply text_match_empty.
  - intros k. apply text_match_empty.
  - intros chan. apply text_match_empty.
Qed.

Lemma X17_empty_channel_reaches_every_callback_witness :
  exists st',
    WebSocket._handle_message (env := DemoWSMore.env) "empty channel" DemoWS.subscribed
    = (inl tt, st') /\
    map fst (WebSocket.called st') = ["trades:ETH"; "user:0xabc"; "allMids"].
Proof.
  destruct (proj1 (X17_empty_channel_reaches_every_callback DemoWSMore.env
                     (list string) "empty channel"
                     [("channel", Py.VStr EmptyString); ("data", Py.VList [])]
                     DemoWS.subscribed eq_refl eq_refl))
    as (st' & E & C).
  exists st'. split; [exact E|]. rewrite C. reflexivity.
Defined.

Section RestartFacts.
Import Py WebSocket.
Local Open Scope exec_scope.
Context {env : Env} {H : Type}.


End RestartFacts.



(* ===================================================================== *)
(** * Further properties of the Telegram bot                              *)
(* ===================================================================== *)
Section OwnerFacts.
Import Py Telegram.
Local Open Scope exec_scope.
Context {env : Env} {A : Type}.

(** The check on the allowed chat: the answer is yes and nothing happens. *)
Lemma check_allows (self : TelegramBot A) (update : Update) (w : World A) :
  str_of_int (effective_chat_id update) = allowed_chat_id self ->
  _check_authorized self update w = (inl true, w).
Proof.
  intros He. unfold _check_authorized. rewrite He, String.eqb_refl. reflexivity.
Qed.

(** A Bot API call: recorded, nothing else touched. *)
Lemma api_effect (c : ApiCall) (w : World A) :
  api_calls (snd (api c w)) = (api_calls w ++ [c])%list /\
  invoked (snd (api c w)) = invoked w /\
  app_state (snd (api c w)) = app_state w /\
  api_raises (snd (api c w)) = api_raises w /\
  log (snd (api c w)) = log w /\
  fst (api c w) = match api_raises w (List.length (api_calls w)) with
                  | Some msg => inr (LibraryError msg)
                  | None => inl tt
                  end.
Proof. unfold api. destruct (api_raises w _); repeat split. Qed.

End OwnerFacts.

(** X19: [/stop] only asks.  From the allowed chat, the command makes one
    Bot API call, a reply that carries the confirmation keyboard; the
    callback data of its buttons are [stop_close], [stop_keep] and
    [stop_cancel], each of which the button handler knows; no control
    callback is called and the application is not touched.  The stop itself
    can only come from a button. *)
Theorem X19_stop_command_only_asks
        (A : Type) (self : Telegram.TelegramBot A)
        (update : Telegram.Update) (w : Telegram.World A) :
  Py.str_of_int (Telegram.effective_chat_id update) = Telegram.allowed_chat_id self ->
  exists r w' text keyboard,
    Telegram._stop_command self update w = (r, w') /\
    Telegram.api_calls w'
    = (Telegram.api_calls w
         ++ [Telegram.reply_text text (Some "HTML") (Some keyboard)])%list /\
    Telegram.invoked w' = Telegram.invoked w /\
    Telegram.app_state w' = Telegram.app_state w /\
    map (map snd) keyboard = [["stop_close"; "stop_keep"]; ["stop_cancel"]] /\
    Forall (Forall (fun button =>
                      (Telegram.data_is (Some (snd button)) "stop_close"
                       || Telegram.data_is (Some (snd button)) "stop_keep"
                       || Telegram.data_is (Some (snd button)) "stop_cancel")%bool
                      = true))
           keyboard.
Proof.
  intros He. unfold Telegram._stop_command.
  rewrite (bind_inl _ _ _ _ _ (check_allows self update w He)). cbn [negb].
  match goal with
  | |- context [ Telegram.api ?c w ] =>
      destruct (api_effect c w) as (Hc & Hi & Ha & _);
      destruct (Telegram.api c w) as [r w'] eqn:E
  end.
  cbn [snd] in *. do 4 eexists. split; [reflexivity|].
  split; [exact Hc|]. split; [exact Hi|]. split; [exact Ha|].
  split; [reflexivity|]. repeat constructor.
Qed.

Lemma X19_stop_command_only_asks_witness :
  exists r w' text keyboard,
    Telegram._stop_command DemoBot.bot DemoBot.owner DemoBot.world = (r, w') /\
    Telegram.api_calls w' = [Telegram.reply_text text (Some "HTML") (Some keyboard)] /\
    Telegram.invoked w' = [] /\
    Telegram.app_state w' = O.
Proof.
  destruct (X19_stop_command_only_asks nat DemoBot.bot DemoBot.owner
              DemoBot.world eq_refl)
    as (r & w' & text & keyboard & E & Hc & Hi & Ha & _).
  exists r, w', text, keyboard. repeat split; assumption.
Defined.

Section ButtonFacts.
Import Py Telegram.
Local Open Scope exec_scope.
Context {A : Type}.

Variables (self : TelegramBot A) (update : Update) (w : World A).
Hypothesis owner : str_of_int (effective_chat_id update) = allowed_chat_id self.
Hypothesis api_works : forall n, api_raises w n = None.

(** A stop button pressed in the allowed chat, the stop callback installed. *)
Lemma stop_button_calls_back (close : bool)
      (stop : bool -> A -> A * option exn) :
  (query_data update = Some "stop_close" /\ close = true \/
   query_data update = Some "stop_keep" /\ close = false) ->
  on_stop_requested self = Some stop ->
  exists w' waiting done,
    _button_callback self update w = (inl tt, w') /\
    invoked w' = (invoked w ++ [Invoked_on_stop_requested close])%list /\
    app_state w' = fst (stop close (app_state w)) /\
    api_calls w'
    = (api_calls w
         ++ [query_answer;
             edit_message_text waiting (Some "HTML");
             match snd (stop close (app_state w)) with
             | None => edit_message_text done (Some "HTML")
             | Some e => edit_message_text ("❌ Error: " ++ str_of_exn e) None
             end])%list.
Proof.
  intros Hdata Hstop. unfold _button_callback.
  unfold bind at 1, api at 1. rewrite api_works.
  rewrite (bind_inl _ _ _ _ _ (check_allows self update _ owner)). cbn [negb].
  rewrite Hstop.
  destruct Hdata as [[Hd ->]|[Hd ->]]; rewrite Hd; cbn [data_is String.eqb Ascii.eqb
    Bool.eqb andb];
    unfold bind at 1, api at 1; cbn [api_raises api_calls]; rewrite api_works;
    unfold try_except, bind at 1, call_control, as_result;
    cbn [app_state invoked api_calls api_raises];
    (destruct (stop _ (app_state w)) as [a' [e|]]; cbn [fst snd];
     unfold api; cbn [api_raises api_calls]; rewrite api_works;
     [do 2 eexists; exists EmptyString|do 3 eexists]);
    (split; [reflexivity|]);
    cbn [invoked app_state api_calls]; rewrite <- !app_assoc; cbn [app];
    repeat split.
Qed.

(** Any other press, or no stop callback: nothing is called. *)
Lemma other_button_calls_nothing :
  (query_data update <> Some "stop_close" /\ query_data update <> Some "stop_keep") \/
  on_stop_requested self = None ->
  exists w',
    _button_callback self update w = (inl tt, w') /\
    invoked w' = invoked w /\ app_state w' = app_state w.
Proof.
  intros Hcase. unfold _button_callback.
  unfold bind at 1, api at 1. rewrite api_works.
  rewrite (bind_inl _ _ _ _ _ (check_allows self update _ owner)). cbn [negb].
  assert (Hd : forall s, data_is (query_data update) s = true ->
                         query_data update = Some s).
  { intros s. unfold data_is. destruct (query_data update) as [x|]; [|discriminate].
    intros E. apply String.eqb_eq in E. now subst. }
  destruct (data_is (query_data update) "stop_close") eqn:D1.
  - destruct Hcase as [[N _]|Hnone]; [now destruct (N (Hd _ D1))|]. rewrite Hnone.
    unfold bind, api, ret. cbn [api_raises api_calls]. rewrite api_works.
    eexists. split; [reflexivity|]. split; reflexivity.
  - destruct (data_is (query_data update) "stop_keep") eqn:D2.
    + destruct Hcase as [[_ N]|Hnone]; [now destruct (N (Hd _ D2))|]. rewrite Hnone.
      unfold bind, api, ret. cbn [api_raises api_calls]. rewrite api_works.
      eexists. split; [reflexivity|]. split; reflexivity.
    + destruct (data_is (query_data update) "stop_cancel").
      * unfold api. cbn [api_raises api_calls]. rewrite api_works.
        eexists. split; [reflexivity|]. split; reflexivity.
      * unfold ret. eexists. split; [reflexivity|]. split; reflexivity.
Qed.

End ButtonFacts.

(** X20: the stop buttons.  In the allowed chat and with the Bot API
    working, pressing "Close Positions" calls
    [on_stop_requested(close_positions=True)] and pressing "Keep Positions"
    calls [on_stop_requested(close_positions=False)], once, after the
    "Stopping bot" notice; the message then shows the stopped notice when
    the callback returned and the error text when it raised.  Any other
    button data, the cancel button included, and any press while no stop
    callback is installed, calls nothing and leaves the application as it
    was. *)
Theorem X20_stop_buttons_reach_the_stop_callback
        (A : Type) (self : Telegram.TelegramBot A) (update : Telegram.Update)
        (w : Telegram.World A) :
  Py.str_of_int (Telegram.effective_chat_id update) = Telegram.allowed_chat_id self ->
  (forall n, Telegram.api_raises w n = None) ->
  (forall close stop,
      (Telegram.query_data update = Some "stop_close" /\ close = true \/
       Telegram.query_data update = Some "stop_keep" /\ close = false) ->
      Telegram.on_stop_requested self = Some stop ->
      exists w' waiting done,
        Telegram._button_callback self update w = (inl tt, w') /\
        Telegram.invoked w'
        = (Telegram.invoked w ++ [Telegram.Invoked_on_stop_requested close])%list /\
        Telegram.app_state w' = fst (stop close (Telegram.app_state w)) /\
        Telegram.api_calls w'
        = (Telegram.api_calls w
             ++ [Telegram.query_answer;
                 Telegram.edit_message_text waiting (Some "HTML");
                 match snd (stop close (Telegram.app_state w)) with
                 | None => Telegram.edit_message_text done (Some "HTML")
                 | Some e =>
                     Telegram.edit_message_text
                       ("❌ Error: " ++ Py.str_of_exn e) None
                 end])%list) /\
  ((Telegram.query_data update <> Some "stop_close" /\
    Telegram.query_data update <> Some "stop_keep") \/
   Telegram.on_stop_requested self = None ->
   exists w',
     Telegram._button_callback self update w = (inl tt, w') /\
     Telegram.invoked w' = Telegram.invoked w /\
     Telegram.app_state w' = Telegram.app_state w).
Proof.
  intros Howner Hapi. split.
  - intros close stop. apply stop_button_calls_back; assumption.
  - apply other_button_calls_nothing; assumption.
Qed.

Lemma X20_stop_buttons_reach_the_stop_callback_witness :
  (exists w',
      Telegram._button_callback DemoBot.bot DemoBotMore.keep_button DemoBot.world
      = (inl tt, w') /\
      Telegram.invoked w' = [Telegram.Invoked_on_stop_requested false] /\
      Telegram.app_state w' = 1%nat) /\
  (exists w' waiting,
      Telegram._button_callback DemoBotMore.failing DemoBotMore.keep_button
        DemoBot.world = (inl tt, w') /\
      Telegram.api_calls w'
      = [Telegram.query_answer;
         Telegram.edit_message_text waiting (Some "HTML");
         Telegram.edit_message_text "❌ Error: exchange down" None]) /\
  (exists w',
      Telegram._button_callback DemoBot.bot DemoBotMore.cancel_button DemoBot.world
      = (inl tt, w') /\
      Telegram.invoked w' = [] /\
      Telegram.app_state w' = O).
Proof.
  split; [|split].
  - destruct (proj1 (X20_stop_buttons_reach_the_stop_callback nat DemoBot.bot
                       DemoBotMore.keep_button DemoBot.world eq_refl
                       (fun _ => eq_refl))
                false (fun _ n => (S n, None)) (or_intror (conj eq_refl eq_refl))
                eq_refl)
      as (w' & waiting & done & E & Hi & Ha & _).
    exists w'. repeat split; assumption.
  - destruct (proj1 (X20_stop_buttons_reach_the_stop_callback nat DemoBotMore.failing
                       DemoBotMore.keep_button DemoBot.world eq_refl
                       (fun _ => eq_refl))
                false (fun _ n => (n, Some (Py.ValueError "exchange down")))
                (or_intror (conj eq_refl eq_refl)) eq_refl)
      as (w' & waiting & done & E & _ & _ & Hc).
    exists w', waiting. split; [exact E|exact Hc].
  - apply (proj2 (X20_stop_buttons_reach_the_stop_callback nat DemoBot.bot
                    DemoBotMore.cancel_button DemoBot.world eq_refl
                    (fun _ => eq_refl))).
    left. split; discriminate.
Defined.

Section CommandFacts.
Import Py Telegram.
Local Open Scope exec_scope.
Context {A : Type}.

Variables (self : TelegramBot A) (update : Update) (w : World A).
Hypothesis owner : str_of_int (effective_chat_id update) = allowed_chat_id self.
Hypothesis api_works : forall n, api_raises w n = None.

(** The shape [/pause] and [/resume] share: the callback is called once;
    its return is confirmed, its exception logged and reported; a missing
    callback is reported. *)
Lemma control_command (callback : option (A -> A * option exn)) (name : Invocation)
      (confirmation prefix missing : string) :
  exists w',
    (ok <- _check_authorized self update ;;
     if negb ok then api (reply_text "⛔ Unauthorized" None None)
     else
       match callback with
       | Some f =>
           try_except
             (call_control name (as_result f) ;;;
              api (reply_text confirmation (Some "HTML") None))
             (fun e =>
                logger ERROR (prefix ++ str_of_exn e) ;;;
                api (reply_text ("❌ Error: " ++ str_of_exn e) None None))
       | None => api (reply_text missing None None)
       end) w = (inl tt, w') /\
    match callback with
    | Some f =>
        invoked w' = (invoked w ++ [name])%list /\
        app_state w' = fst (f (app_state w)) /\
        match snd (f (app_state w)) with
        | None =>
            api_calls w'
            = (api_calls w ++ [reply_text confirmation (Some "HTML") None])%list /\
            log w' = log w
        | Some e =>
            api_calls w'
            = (api_calls w
                 ++ [reply_text ("❌ Error: " ++ str_of_exn e) None None])%list /\
            log w' = (log w ++ [(ERROR, (prefix ++ str_of_exn e)%string)])%list
        end
    | None =>
        invoked w' = invoked w /\ app_state w' = app_state w /\
        api_calls w' = (api_calls w ++ [reply_text missing None None])%list
    end.
Proof.
  rewrite (bind_inl _ _ _ _ _ (check_allows self update _ owner)). cbn [negb].
  destruct callback as [f|].
  - unfold try_except, bind at 1, call_control, as_result.
    destruct (f (app_state w)) as [a' [e|]]; cbn [fst snd].
    + unfold bind, logger, modify, api. cbn [api_raises api_calls].
      rewrite api_works. eexists. split; [reflexivity|]. repeat split.
    + unfold api. cbn [api_raises api_calls]. rewrite api_works.
      eexists. split; [reflexivity|]. repeat split.
  - unfold api. rewrite api_works. eexists. split; [reflexivity|]. repeat split.
Qed.

(** The shape [/status] and [/positions] share. *)
Lemma query_command (callback : option (A -> A * (string + exn))) (name : Invocation)
      (prefix missing : string) :
  exists w',
    (ok <- _check_authorized self update ;;
     if negb ok then api (reply_text "⛔ Unauthorized" None None)
     else
       match callback with
       | Some f =>
           try_except
             (answer <- call_control name f ;;
              api (reply_text answer (Some "HTML") None))
             (fun e =>
                logger ERROR (prefix ++ str_of_exn e) ;;;
                api (reply_text ("❌ Error: " ++ str_of_exn e) None None))
       | None => api (reply_text missing None None)
       end) w = (inl tt, w') /\
    match callback with
    | Some f =>
        invoked w' = (invoked w ++ [name])%list /\
        app_state w' = fst (f (app_state w)) /\
        match snd (f (app_state w)) with
        | inl answer =>
            api_calls w'
            = (api_calls w ++ [reply_text answer (Some "HTML") None])%list /\
            log w' = log w
        | inr e =>
            api_calls w'
            = (api_calls w
                 ++ [reply_text ("❌ Error: " ++ str_of_exn e) None None])%list /\
            log w' = (log w ++ [(ERROR, (prefix ++ str_of_exn e)%string)])%list
        end
    | None =>
        invoked w' = invoked w /\ app_state w' = app_state w /\
        api_calls w' = (api_calls w ++ [reply_text missing None None])%list
    end.
Proof.
  rewrite (bind_inl _ _ _ _ _ (check_allows self update _ owner)). cbn [negb].
  destruct callback as [f|].
  - unfold try_except, bind at 1, call_control.
    destruct (f (app_state w)) as [a' [answer|e]]; cbn [fst snd].
    + unfold api. cbn [api_raises api_calls]. rewrite api_works.
      eexists. split; [reflexivity|]. repeat split.
    + unfold bind, logger, modify, api. cbn [api_raises api_calls].
      rewrite api_works. eexists. split; [reflexivity|]. repeat split.
  - unfold api. rewrite api_works. eexists. split; [reflexivity|]. repeat split.
Qed.

End CommandFacts.

(** X21: [/pause] and [/resume] from the allowed chat, the Bot API working.
    The installed callback is called once.  When it returns, the reply is
    the paused (resumed) notice; when it raises, the notice is not sent:
    the error is logged and the reply is the error text.  With no callback
    installed the reply says so and nothing is called. *)
Theorem X21_pause_and_resume_report_the_callback
        (A : Type) (self : Telegram.TelegramBot A) (update : Telegram.Update)
        (w : Telegram.World A) :
  Py.str_of_int (Telegram.effective_chat_id update) = Telegram.allowed_chat_id self ->
  (forall n, Telegram.api_raises w n = None) ->
  let reported (callback : option (A -> A * option Py.exn))
               (name : Telegram.Invocation) (notice prefix missing : string)
               (w' : Telegram.World A) :=
    match callback with
    | Some f =>
        Telegram.invoked w' = (Telegram.invoked w ++ [name])%list /\
        Telegram.app_state w' = fst (f (Telegram.app_state w)) /\
        match snd (f (Telegram.app_state w)) with
        | None =>
            Telegram.api_calls w'
            = (Telegram.api_calls w
                 ++ [Telegram.reply_text notice (Some "HTML") None])%list /\
            Telegram.log w' = Telegram.log w
        | Some e =>
            Telegram.api_calls w'
            = (Telegram.api_calls w
                 ++ [Telegram.reply_text ("❌ Error: " ++ Py.str_of_exn e)
                       None None])%list /\
            Telegram.log w'
            = (Telegram.log w
                 ++ [(Py.ERROR, (prefix ++ Py.str_of_exn e)%string)])%list
        end
    | None =>
        Telegram.invoked w' = Telegram.invoked w /\
        Telegram.app_state w' = Telegram.app_state w /\
        Telegram.api_calls w'
        = (Telegram.api_calls w ++ [Telegram.reply_text missing None None])%list
    end in
  (exists w',
      Telegram._pause_command self update w = (inl tt, w') /\
      reported (Telegram.on_pause_requested self) Telegram.Invoked_on_pause_requested
        ("⏸️ <b>Bot Paused</b>" ++ Telegram.nl ++ Telegram.nl
           ++ "No new trades will be copied." ++ Telegram.nl
           ++ "Existing positions remain open.")
        "Error pausing: " "Pause callback not configured" w') /\
  (exists w',
      Telegram._resume_command self update w = (inl tt, w') /\
      reported (Telegram.on_resume_requested self) Telegram.Invoked_on_resume_requested
        ("▶️ <b>Bot Resumed</b>" ++ Telegram.nl ++ Telegram.nl
           ++ "Copying trades is now active!")
        "Error resuming: " "Resume callback not configured" w').
Proof.
  intros Howner Hapi reported. subst reported. cbv beta. split.
  - unfold Telegram._pause_command.
    apply (control_command self update w Howner Hapi
             (Telegram.on_pause_requested self)).
  - unfold Telegram._resume_command.
    apply (control_command self update w Howner Hapi
             (Telegram.on_resume_requested self)).
Qed.

Lemma X21_pause_and_resume_report_the_callback_witness :
  (exists w',
      Telegram._pause_command DemoBotMore.failing DemoBot.owner DemoBot.world
      = (inl tt, w') /\
      Telegram.invoked w' = [Telegram.Invoked_on_pause_requested] /\
      Telegram.api_calls w'
      = [Telegram.reply_text "❌ Error: exchange down" None None] /\
      Telegram.log w' = [(Py.ERROR, "Error pausing: exchange down")]) /\
  (exists w',
      Telegram._resume_command DemoBotMore.bare DemoBot.owner DemoBot.world
      = (inl tt, w') /\
      Telegram.invoked w' = [] /\
      Telegram.api_calls w'
      = [Telegram.reply_text "Resume callback not configured" None None]).
Proof.
  split.
  - destruct (proj1 (X21_pause_and_resume_report_the_callback nat DemoBotMore.failing
                       DemoBot.owner DemoBot.world eq_refl (fun _ => eq_refl)))
      as (w' & E & Hi & _ & Hc & Hl).
    exists w'. repeat split; assumption.
  - destruct (proj2 (X21_pause_and_resume_report_the_callback nat DemoBotMore.bare
                       DemoBot.owner DemoBot.world eq_refl (fun _ => eq_refl)))
      as (w' & E & Hi & _ & Hc).
    exists w'. repeat split; assumption.
Defined.

(** X22: [/status], [/positions] and [/orders] from the allowed chat, the
    Bot API working.  The installed callback is called once.  The text a
    status or positions callback returns is the reply, as HTML; when a
    callback raises, the error is logged and the reply is the error text;
    with no callback installed the reply says so.  An orders callback that
    returns nothing to list (an empty list, [None]) gets the reply that
    there are no open orders. *)
Theorem X22_query_commands_report_the_callback
        (env : Telegram.Env) (A : Type) (self : Telegram.TelegramBot A)
        (update : Telegram.Update) (w : Telegram.World A) :
  Py.str_of_int (Telegram.effective_chat_id update) = Telegram.allowed_chat_id self ->
  (forall n, Telegram.api_raises w n = None) ->
  let reported (callback : option (A -> A * (string + Py.exn)))
               (name : Telegram.Invocation) (prefix missing : string)
               (w' : Telegram.World A) :=
    match callback with
    | Some f =>
        Telegram.invoked w' = (Telegram.invoked w ++ [name])%list /\
        Telegram.app_state w' = fst (f (Telegram.app_state w)) /\
        match snd (f (Telegram.app_state w)) with
        | inl answer =>
            Telegram.api_calls w'
            = (Telegram.api_calls w
                 ++ [Telegram.reply_text answer (Some "HTML") None])%list /\
            Telegram.log w' = Telegram.log w
        | inr e =>
            Telegram.api_calls w'
            = (Telegram.api_calls w
                 ++ [Telegram.reply_text ("❌ Error: " ++ Py.str_of_exn e)
                       None None])%list /\
            Telegram.log w'
            = (Telegram.log w
                 ++ [(Py.ERROR, (prefix ++ Py.str_of_exn e)%string)])%list
        end
    | None =>
        Telegram.invoked w' = Telegram.invoked w /\
        Telegram.app_state w' = Telegram.app_state w /\
        Telegram.api_calls w'
        = (Telegram.api_calls w ++ [Telegram.reply_text missing None None])%list
    end in
  (exists w',
      Telegram._status_command self update w = (inl tt, w') /\
      reported (Telegram.get_status_callback self)
        Telegram.Invoked_get_status_callback
        "Error getting status: " "Status callback not configured" w') /\
  (exists w',
      Telegram._positions_command self update w = (inl tt, w') /\
      reported (Telegram.get_positions_callback self)
        Telegram.Invoked_get_positions_callback
        "Error getting positions: " "📍 No positions callback configured" w') /\
  (forall f a' orders,
      Telegram.get_orders_callback self = Some f ->
      f (Telegram.app_state w) = (a', inl orders) ->
      Py.truthy orders = false ->
      exists w',
        Telegram._orders_command self update w = (inl tt, w') /\
        Telegram.invoked w'
        = (Telegram.invoked w ++ [Telegram.Invoked_get_orders_callback])%list /\
        Telegram.api_calls w'
        = (Telegram.api_calls w
             ++ [Telegram.reply_text "📋 No open orders" None None])%list) /\
  (forall f a' e,
      Telegram.get_orders_callback self = Some f ->
      f (Telegram.app_state w) = (a', inr e) ->
      exists w',
        Telegram._orders_command self update w = (inl tt, w') /\
        Telegram.api_calls w'
        = (Telegram.api_calls w
             ++ [Telegram.reply_text ("❌ Error: " ++ Py.str_of_exn e)
                   None None])%list).
Proof.
  intros Howner Hapi reported. subst reported. cbv beta.
  split; [|split; [|split]].
  - unfold Telegram._status_command.
    apply (query_command self update w Howner Hapi
             (Telegram.get_status_callback self)).
  - unfold Telegram._positions_command.
    apply (query_command self update w Howner Hapi
             (Telegram.get_positions_callback self)).
  - intros f a' orders Hcb Hf Hempty. unfold Telegram._orders_command.
    rewrite (bind_inl _ _ _ _ _ (check_allows self update _ Howner)). cbn [negb].
    rewrite Hcb. unfold Py.try_except, Py.bind at 1, Telegram.call_control.
    rewrite Hf, Hempty. cbn [negb].
    unfold Telegram.api. cbn [Telegram.api_raises Telegram.api_calls].
    rewrite Hapi. eexists. split; [reflexivity|]. split; reflexivity.
  - intros f a' e Hcb Hf. unfold Telegram._orders_command.
    rewrite (bind_inl _ _ _ _ _ (check_allows self update _ Howner)). cbn [negb].
    rewrite Hcb. unfold Py.try_except, Py.bind at 1, Telegram.call_control.
    rewrite Hf.
    unfold Py.bind, Telegram.logger, Py.modify, Telegram.api.
    cbn [Telegram.api_raises Telegram.api_calls].
    rewrite Hapi. eexists. split; reflexivity.
Qed.

Lemma X22_query_commands_report_the_callback_witness :
  (exists w',
      Telegram._status_command DemoBot.bot DemoBot.owner DemoBot.world
      = (inl tt, w') /\
      Telegram.invoked w' = [Telegram.Invoked_get_status_callback] /\
      Telegram.api_calls w' = [Telegram.reply_text "running" (Some "HTML") None]) /\
  (exists w',
      Telegram._orders_command (env := DemoBot.env) DemoBot.bot DemoBot.owner
        DemoBot.world = (inl tt, w') /\
      Telegram.api_calls w' = [Telegram.reply_text "📋 No open orders" None None]).
Proof.
  split.
  - destruct (proj1 (X22_query_commands_report_the_callback DemoBot.env nat
                       DemoBot.bot DemoBot.owner DemoBot.world eq_refl
                       (fun _ => eq_refl)))
      as (w' & E & Hi & _ & Hc & _).
    exists w'. repeat split; assumption.
  - destruct (proj1 (proj2 (proj2 (X22_query_commands_report_the_callback DemoBot.env
                       nat DemoBot.bot DemoBot.owner DemoBot.world eq_refl
                       (fun _ => eq_refl))))
                (fun n => (S n, inl (Py.VList []))) 1%nat (Py.VList [])
                eq_refl eq_refl eq_refl)
      as (w' & E & _ & Hc).
    exists w'. split; assumption.
Defined.

(* ===================================================================== *)
(** * Properties of the notification service                              *)
(* ===================================================================== *)
Section NotificationFacts.
Import Py Notifications.
Local Open Scope exec_scope.
Context {env : Env}.

(** [send_message]: nothing goes out when the service is disabled; one
    message goes to the configured chat when it is enabled; the result
    tells whether the Bot API took it. *)
Lemma send_message_effect (self : NotificationService) (message mode : string)
      (w : World) :
  exists w',
    send_message self message mode w
    = (inl (if enabled self
            then match api_raises w (List.length (api_calls w)) with
                 | None => true
                 | Some _ => false
                 end
            else false), w') /\
    api_raises w' = api_raises w /\
    api_calls w'
    = (api_calls w
         ++ if enabled self
            then [ {| to_chat := chat_id self; text := message; parse_mode := mode |} ]
            else [])%list /\
    log w'
    = (log w
         ++ if enabled self
            then match api_raises w (List.length (api_calls w)) with
                 | None => []
                 | Some why => [(ERROR, ("Failed to send Telegram message: "
                                           ++ why)%string)]
                 end
            else [(DEBUG, "Notifications disabled, skipping message")])%list.
Proof.
  unfold send_message. destruct (enabled self); cbn [negb].
  - unfold try_except, bind, bot_send_message, logger, modify, ret.
    destruct (api_raises w (List.length (api_calls w))) as [why|];
      eexists; (split; [reflexivity|]); cbn -[append]; rewrite ?app_nil_r;
      repeat split.
  - unfold bind, logger, modify, ret. eexists. split; [reflexivity|].
    cbn. rewrite app_nil_r. repeat split.
Qed.

(** A notification is its text sent as HTML, the result dropped. *)
Lemma notify_effect (self : NotificationService) (message : string) (w : World) :
  exists w',
    (_ <- send_message self message "HTML" ;; ret tt) w = (inl tt, w') /\
    api_raises w' = api_raises w /\
    api_calls w'
    = (api_calls w
         ++ if enabled self
            then [ {| to_chat := chat_id self; text := message;
                      parse_mode := "HTML" |} ]
            else [])%list.
Proof.
  destruct (send_message_effect self message "HTML" w) as (w' & E & Hr & Hc & _).
  rewrite (bind_inl _ _ _ _ _ E). exists w'. repeat split; assumption.
Qed.

(** The same after the clock has been read for the time stamp. *)
Lemma timed_notify_effect (self : NotificationService) (fmt : string)
      (message : string -> string) (w : World) :
  exists w',
    (now <- now_strftime fmt ;;
     _ <- send_message self (message now) "HTML" ;; ret tt) w = (inl tt, w') /\
    api_raises w' = api_raises w /\
    api_calls w'
    = (api_calls w
         ++ if enabled self
            then [ {| to_chat := chat_id self;
                      text := message (strftime fmt (ticks w));
                      parse_mode := "HTML" |} ]
            else [])%list.
Proof.
  unfold bind at 1, now_strftime.
  match goal with
  | |- context [ bind (send_message self ?m "HTML") _ ?w1 ] =>
      destruct (notify_effect self m w1) as (w' & E & Hr & Hc)
  end.
  exists w'. split; [exact E|]. split; [exact Hr|exact Hc].
Qed.

(** One call of any method: it returns; a sending method on an enabled
    service adds one message for the configured chat, anything else adds
    none; only [enable] and [disable] change the switch. *)
Lemma invoke_effect (self : NotificationService) (c : Call) (w : World) :
  exists self' w' sent,
    invoke self c w = (inl self', w') /\
    api_raises w' = api_raises w /\
    api_calls w' = (api_calls w ++ sent)%list /\
    List.length sent = (if (sends c && enabled self)%bool then 1 else 0)%nat /\
    Forall (fun m => to_chat m = chat_id self) sent /\
    chat_id self' = chat_id self /\
    enabled self' = match c with
                    | Call_enable => true
                    | Call_disable => false
                    | _ => enabled self
                    end.
Proof.
  assert (Fin : forall (w' : World) (message mode : string),
             api_raises w' = api_raises w ->
             api_calls w'
             = (api_calls w
                  ++ if enabled self
                     then [ {| to_chat := chat_id self; text := message;
                               parse_mode := mode |} ]
                     else [])%list ->
             exists sent,
               api_raises w' = api_raises w /\
               api_calls w' = (api_calls w ++ sent)%list /\
               List.length sent = (if enabled self then 1 else 0)%nat /\
               Forall (fun m => to_chat m = chat_id self) sent).
  { intros w' message mode Hr Hc.
    exists (if enabled self
            then [ {| to_chat := chat_id self; text := message; parse_mode := mode |} ]
            else []).
    split; [exact Hr|]. split; [exact Hc|].
    destruct (enabled self); split; trivial; repeat constructor. }
  destruct c; cbn [invoke sends andb].
  - destruct (send_message_effect self message mode w) as (w' & E & Hr & Hc & _).
    rewrite (bind_inl _ _ _ _ _ E).
    destruct (Fin w' _ _ Hr Hc) as (sent & H1 & H2 & H3 & H4).
    exists self, w', sent. repeat split; assumption.
  - unfold send_trade_notification. cbv zeta.
    match goal with
    | |- context [ bind (now_strftime ?fmt) (fun now => bind (send_message self (strip (@?msg now)) _) _) ] =>
        destruct (timed_notify_effect self fmt (fun now => strip (msg now)) w)
          as (w' & E & Hr & Hc)
    end.
    cbv beta in E. rewrite (bind_inl _ _ _ _ _ E).
    destruct (Fin w' _ _ Hr Hc) as (sent & H1 & H2 & H3 & H4).
    exists self, w', sent. repeat split; assumption.
  - unfold send_position_close_notification. cbv zeta.
    match goal with
    | |- context [ bind (now_strftime ?fmt) (fun now => bind (send_message self (strip (@?msg now)) _) _) ] =>
        destruct (timed_notify_effect self fmt (fun now => strip (msg now)) w)
          as (w' & E & Hr & Hc)
    end.
    cbv beta in E. rewrite (bind_inl _ _ _ _ _ E).
    destruct (Fin w' _ _ Hr Hc) as (sent & H1 & H2 & H3 & H4).
    exists self, w', sent. repeat split; assumption.
  - unfold send_hourly_report. cbv zeta.
    match goal with
    | |- context [ bind (now_strftime ?fmt) (fun now => bind (send_message self (strip (@?msg now)) _) _) ] =>
        destruct (timed_notify_effect self fmt (fun now => strip (msg now)) w)
          as (w' & E & Hr & Hc)
    end.
    cbv beta in E. rewrite (bind_inl _ _ _ _ _ E).
    destruct (Fin w' _ _ Hr Hc) as (sent & H1 & H2 & H3 & H4).
    exists self, w', sent. repeat split; assumption.
  - unfold send_error_notification. cbv zeta.
    match goal with
    | |- context [ bind (now_strftime ?fmt) (fun now => bind (send_message self (strip (@?msg now)) _) _) ] =>
        destruct (timed_notify_effect self fmt (fun now => strip (msg now)) w)
          as (w' & E & Hr & Hc)
    end.
    cbv beta in E. rewrite (bind_inl _ _ _ _ _ E).
    destruct (Fin w' _ _ Hr Hc) as (sent & H1 & H2 & H3 & H4).
    exists self, w', sent. repeat split; assumption.
  - unfold send_startup_notification. cbv zeta.
    match goal with
    | |- context [ bind (send_message self ?m _) _ ] =>
        destruct (notify_effect self m w) as (w' & E & Hr & Hc)
    end.
    rewrite (bind_inl _ _ _ _ _ E).
    destruct (Fin w' _ _ Hr Hc) as (sent & H1 & H2 & H3 & H4).
    exists self, w', sent. repeat split; assumption.
  - unfold send_shutdown_notification. cbv zeta.
    match goal with
    | |- context [ bind (send_message self ?m _) _ ] =>
        destruct (notify_effect self m w) as (w' & E & Hr & Hc)
    end.
    rewrite (bind_inl _ _ _ _ _ E).
    destruct (Fin w' _ _ Hr Hc) as (sent & H1 & H2 & H3 & H4).
    exists self, w', sent. repeat split; assumption.
  - unfold enable, bind, logger, modify, ret. do 2 eexists. exists [].
    split; [reflexivity|]. cbn. rewrite app_nil_r. repeat split. constructor.
  - unfold disable, bind, logger, modify, ret. do 2 eexists. exists [].
    split; [reflexivity|]. cbn. rewrite app_nil_r. repeat split. constructor.
Qed.

End NotificationFacts.

Section NotificationRuns.
Import Py Notifications.
Local Open Scope exec_scope.
Context {env : Env}.

Lemma sent_while_enabled_cons (on : bool) (c : Call) (rest : list Call) :
  sent_while_enabled on (c :: rest)
  = ((if (sends c && on)%bool then 1 else 0)
     + sent_while_enabled match c with
                          | Call_enable => true
                          | Call_disable => false
                          | _ => on
                          end rest)%nat.
Proof. destruct c, on; reflexivity. Qed.

(** Any sequence of calls returns, and sends one message to the configured
    chat for each sending call made while the service is enabled. *)
Lemma run_effect (calls : list Call) (self : NotificationService) (w : World) :
  exists self' w' sent,
    run self calls w = (inl self', w') /\
    api_raises w' = api_raises w /\
    api_calls w' = (api_calls w ++ sent)%list /\
    List.length sent = sent_while_enabled (enabled self) calls /\
    Forall (fun m => to_chat m = chat_id self) sent /\
    chat_id self' = chat_id self.
Proof.
  revert self w. induction calls as [|c rest IH]; intros self w.
  - exists self, w, []. cbn. rewrite app_nil_r. repeat split. constructor.
  - cbn [run].
    destruct (invoke_effect self c w)
      as (self1 & w1 & sent1 & E1 & Hr1 & Hc1 & Hl1 & Hf1 & Hid1 & Hen1).
    rewrite (bind_inl _ _ _ _ _ E1).
    destruct (IH self1 w1) as (self2 & w2 & sent2 & E2 & Hr2 & Hc2 & Hl2 & Hf2 & Hid2).
    exists self2, w2, (sent1 ++ sent2)%list. split; [exact E2|].
    split; [congruence|]. split; [rewrite Hc2, Hc1; now rewrite app_assoc|].
    split; [|split; [|congruence]].
    + rewrite length_app, Hl1, Hl2, Hen1, sent_while_enabled_cons. reflexivity.
    + apply Forall_app. split; [exact Hf1|].
      rewrite Hid1 in Hf2. exact Hf2.
Qed.

(** While nothing switches the service on, nothing counts. *)
Lemma sent_while_disabled (calls : list Call) :
  ~ In Call_enable calls -> sent_while_enabled false calls = O.
Proof.
  induction calls as [|c rest IH]; intros Hn; [reflexivity|].
  assert (Hr : ~ In Call_enable rest) by (intros Hin; apply Hn; now right).
  destruct c; cbn; try (apply IH, Hr).
  destruct Hn. now left.
Qed.

End NotificationRuns.

(** X23: [send_message] reports the delivery and never raises.  On a
    disabled service it returns [False] and makes no Bot API call.  On an
    enabled one it makes one call, with the configured chat id, the text
    and the parse mode given, and returns [True] when the call went
    through; when the call raised it returns [False] and the error is
    logged. *)
Theorem X23_send_message_reports_the_delivery
        (env : Notifications.Env) (self : Notifications.NotificationService)
        (message mode : string) (w : Notifications.World) :
  exists w',
    Notifications.send_message self message mode w
    = (inl (if Notifications.enabled self
            then match Notifications.api_raises w
                         (List.length (Notifications.api_calls w)) with
                 | None => true
                 | Some _ => false
                 end
            else false), w') /\
    Notifications.api_calls w'
    = (Notifications.api_calls w
         ++ if Notifications.enabled self
            then [ {| Notifications.to_chat := Notifications.chat_id self;
                      Notifications.text := message;
                      Notifications.parse_mode := mode |} ]
            else [])%list /\
    Notifications.log w'
    = (Notifications.log w
         ++ if Notifications.enabled self
            then match Notifications.api_raises w
                         (List.length (Notifications.api_calls w)) with
                 | None => []
                 | Some why =>
                     [(Py.ERROR, ("Failed to send Telegram message: " ++ why)%string)]
                 end
            else [(Py.DEBUG, "Notifications disabled, skipping message")])%list.
Proof.
  destruct (send_message_effect self message mode w) as (w' & E & _ & Hc & Hl).
  exists w'. repeat split; assumption.
Qed.

(** X24: the switch of the notification service.  Any sequence of calls of
    its methods returns, whatever the Bot API does.  The messages it adds
    all go to the configured chat, and there is exactly one for each
    sending call made while the service is enabled: the service starts as
    it is, [disable()] switches it off and [enable()] on.  So after
    [disable()] nothing is sent until [enable()] is called. *)
Theorem X24_notifications_follow_the_switch
        (env : Notifications.Env) (self : Notifications.NotificationService)
        (calls : list Notifications.Call) (w : Notifications.World) :
  (exists self' w' sent,
      Notifications.run self calls w = (inl self', w') /\
      Notifications.api_calls w' = (Notifications.api_calls w ++ sent)%list /\
      List.length sent
      = Notifications.sent_while_enabled (Notifications.enabled self) calls /\
      Forall (fun m => Notifications.to_chat m = Notifications.chat_id self) sent) /\
  (~ In Notifications.Call_enable calls ->
   Notifications.api_calls
     (snd (Notifications.run self (Notifications.Call_disable :: calls) w))
   = Notifications.api_calls w) /\
  (forall bot_token chat built w',
      Notifications.__init__ bot_token chat w = (inl built, w') ->
      Notifications.enabled built = true /\
      Notifications.chat_id built = chat /\
      Notifications.api_calls w' = Notifications.api_calls w).
Proof.
  split; [|split].
  - destruct (run_effect calls self w) as (self' & w' & sent & E & _ & Hc & Hl & Hf & _).
    exists self', w', sent. repeat split; assumption.
  - intros Hn.
    destruct (run_effect (Notifications.Call_disable :: calls) self w)
      as (self' & w' & sent & E & _ & Hc & Hl & _).
    rewrite E. cbn [snd]. rewrite Hc.
    cbn [Notifications.sent_while_enabled] in Hl.
    rewrite (sent_while_disabled calls Hn) in Hl.
    destruct sent; [now rewrite app_nil_r|discriminate].
  - intros bot_token chat built w'. unfold Notifications.__init__.
    unfold Py.bind at 1, Py.lift_lib.
    destruct (Notifications.new_bot bot_token) as [b|why]; [|discriminate].
    unfold Py.ret, Py.bind, Notifications.logger, Py.modify.
    intros [= <- <-]. repeat split.
Qed.

Lemma X24_notifications_follow_the_switch_witness :
  Notifications.api_calls
    (snd (Notifications.run (env := DemoNotify.env) DemoNotify.service
            [Notifications.Call_disable;
             Notifications.Call_send_shutdown_notification;
             Notifications.Call_send_error_notification "boom"]
            DemoNotify.world))
  = [] /\
  (exists self' w' sent,
      Notifications.run (env := DemoNotify.env) DemoNotify.service
        [Notifications.Call_send_error_notification "boom";
         Notifications.Call_disable;
         Notifications.Call_send_shutdown_notification;
         Notifications.Call_enable;
         Notifications.Call_send_shutdown_notification]
        DemoNotify.down = (inl self', w') /\
      Notifications.api_calls w' = sent /\
      List.length sent = 2%nat).
Proof.
  split.
  - apply (proj1 (proj2 (X24_notifications_follow_the_switch DemoNotify.env
                           DemoNotify.service
                           [Notifications.Call_send_shutdown_notification;
                            Notifications.Call_send_error_notification "boom"]
                           DemoNotify.world))).
    intros [H|[H|[]]]; discriminate.
  - destruct (proj1 (X24_notifications_follow_the_switch DemoNotify.env
                       DemoNotify.service
                       [Notifications.Call_send_error_notification "boom";
                        Notifications.Call_disable;
                        Notifications.Call_send_shutdown_notification;
                        Notifications.Call_enable;
                        Notifications.Call_send_shutdown_notification]
                       DemoNotify.down))
      as (self' & w' & sent & E & Hc & Hl & _).
    exists self', w', sent. split; [exact E|]. split; [exact Hc|exact Hl].
Defined.

(* ===================================================================== *)
(** * Properties of the dataclasses                                       *)
(* ===================================================================== *)
Section ModelFacts.
Import Py Models.

(** A division whose divisor has been compared with zero and found
    different goes through. *)
Lemma truediv_guarded (a b : float) :
  PrimFloat.eqb b 0 = false -> truediv a b = inl (a / b)%float.
Proof. intros Hb. unfold truediv. now rewrite Hb. Qed.

End ModelFacts.

(** X25: the percentages never divide by zero.  [pnl_percentage] tests
    the entry price and [margin_ratio] the balance before dividing by it,
    so for every position and every account state, whatever the numbers
    (zeros of either sign, infinities and NaN included), both return a
    number and no [ZeroDivisionError] is raised; a zero entry price or
    balance gives exactly 0.0. *)
Theorem X25_percentages_never_divide_by_zero
        (p : Models.Position.t) (u : Models.UserState.t) :
  (exists x, Models.Position.pnl_percentage p = inl x) /\
  (exists x, Models.UserState.margin_ratio u = inl x) /\
  (PrimFloat.eqb (Models.Position.entry_price p) 0 = true ->
   Models.Position.pnl_percentage p = inl 0%float) /\
  (PrimFloat.eqb (Models.UserState.balance u) 0 = true ->
   Models.UserState.margin_ratio u = inl 0%float) /\
  (PrimFloat.eqb (Models.Position.entry_price p) 0 = false ->
   Models.Position.pnl_percentage p
   = inl match Models.Position.side p with
         | Executor.LONG =>
             ((Models.Position.current_price p - Models.Position.entry_price p)
                / Models.Position.entry_price p * 100)%float
         | Executor.SHORT =>
             ((Models.Position.entry_price p - Models.Position.current_price p)
                / Models.Position.entry_price p * 100)%float
         end).
Proof.
  unfold Models.Position.pnl_percentage, Models.UserState.margin_ratio.
  destruct (PrimFloat.eqb (Models.Position.entry_price p) 0) eqn:Hp;
    destruct (PrimFloat.eqb (Models.UserState.balance u) 0) eqn:Hu;
    rewrite ?(truediv_guarded _ _ Hp), ?(truediv_guarded _ _ Hu);
    destruct (Models.Position.side p);
    rewrite ?(truediv_guarded _ _ Hp);
    repeat split; try discriminate; eexists; reflexivity.
Qed.

Lemma X25_percentages_never_divide_by_zero_witness :
  Models.Position.pnl_percentage DemoModels.unpriced_position = inl 0%float /\
  Models.UserState.margin_ratio DemoModels.empty_account = inl 0%float /\
  Models.Position.pnl_percentage DemoModels.long_position = inl 10%float.
Proof.
  destruct (X25_percentages_never_divide_by_zero DemoModels.unpriced_position
              DemoModels.empty_account) as (_ & _ & Hp & Hu & _).
  destruct (X25_percentages_never_divide_by_zero DemoModels.long_position
              DemoModels.empty_account) as (_ & _ & _ & _ & Hl).
  split; [apply Hp; reflexivity|]. split; [apply Hu; reflexivity|].
  rewrite Hl; reflexivity.
Defined.

Section ScalarChannelFacts.
Import Py WebSocket.
Local Open Scope exec_scope.
Context {env : Env} {H : Type}.

(** The match logic on a channel that is [None], a truth value or a
    number: the containment test raises. *)
Lemma should_call_scalar (chan : value) (k : string) :
  match chan with VNone | VBool _ | VInt _ | VFloat _ => True | _ => False end ->
  exists why, should_call chan k = inr (TypeError why).
Proof. destruct chan; intros []; eexists; reflexivity. Qed.

End ScalarChannelFacts.

(** X26: a frame whose channel is not a text.  When the parsed object has
    under [channel] a [null], a truth value or a number, no callback is
    called: with callbacks registered the match logic raises at the first
    of them and the frame ends in the error log; with none registered the
    frame gets the "no callback" warning.  Either way handling returns and
    the client is untouched. *)
Theorem X26_scalar_channel_calls_no_callback
        (env : WebSocket.Env) (H : Type) (message : string)
        (d : list (string * Py.value)) (chan : Py.value) (st : WebSocket.State H) :
  WebSocket.json_loads message = inl (Py.VDict d) ->
  Py.assoc "channel" d = Some chan ->
  match chan with
  | Py.VNone | Py.VBool _ | Py.VInt _ | Py.VFloat _ => True
  | _ => False
  end ->
  exists st',
    WebSocket._handle_message message st = (inl tt, st') /\
    WebSocket.called st' = WebSocket.called st /\
    WebSocket.handler_state st' = WebSocket.handler_state st /\
    WebSocket.untouched st st' /\
    (WebSocket.callbacks (WebSocket.self st) = [] ->
     exists l,
       WebSocket.log st'
       = (l ++ [(Py.WARNING,
                 ("⚠️ No callback found for channel: "
                    ++ WebSocket.str_value chan)%string)])%list) /\
    (WebSocket.callbacks (WebSocket.self st) <> [] ->
     exists l why,
       WebSocket.log st'
       = (l ++ [(Py.ERROR, ("Error handling WebSocket message: " ++ why)%string);
                (Py.ERROR, WebSocket.format_exc (Py.TypeError why))])%list).
Proof.
  intros Hjson Hchan Hs.
  unfold WebSocket._handle_message, Py.try_except.
  unfold Py.bind at 1. unfold WebSocket.logger at 1, Py.modify at 1.
  unfold Py.bind at 1. rewrite Hjson. unfold Py.ret at 1.
  unfold Py.bind at 1. cbn [Py.get_default]. rewrite Hchan.
  unfold Py.lift at 1, Py.ret at 1.
  unfold Py.bind at 1. unfold WebSocket.logger at 1, Py.modify at 1.
  unfold Py.bind at 1. unfold WebSocket.utcnow at 1.
  unfold Py.bind at 1. unfold Py.get_state at 1.
  unfold Py.bind at 1.
  cbn [WebSocket.self WebSocket.callbacks WebSocket.with_ticks WebSocket.with_log].
  destruct (WebSocket.callbacks (WebSocket.self st)) as [|[k cb] rest] eqn:Hcb.
  - cbn [WebSocket.dispatch]. unfold Py.ret at 1.
    unfold WebSocket.logger, Py.modify. eexists.
    split; [reflexivity|]. split; [reflexivity|]. split; [reflexivity|].
    split; [repeat split|]. split; [|intros N; now destruct N].
    intros _. eexists. reflexivity.
  - cbn [WebSocket.dispatch fst]. unfold WebSocket.dispatch_one. cbn [fst snd].
    destruct (should_call_scalar chan k Hs) as [why He].
    cbn [WebSocket.channel]. rewrite He.
    unfold Py.bind, WebSocket.logger, Py.modify, Py.lift, Py.raise.
    eexists. split; [reflexivity|]. split; [reflexivity|].
    split; [reflexivity|]. split; [repeat split|]. split; [discriminate|].
    intros _. do 2 eexists.
    cbn -[append Py.take_code_points]. rewrite <- app_assoc. reflexivity.
Qed.

Lemma X26_scalar_channel_calls_no_callback_witness :
  exists st' l why,
    WebSocket._handle_message (env := DemoWS.env) "number" DemoWS.subscribed
    = (inl tt, st') /\
    WebSocket.called st' = [] /\
    WebSocket.log st'
    = (l ++ [(Py.ERROR, ("Error handling WebSocket message: " ++ why)%string);
             (Py.ERROR, WebSocket.format_exc (Env := DemoWS.env) (Py.TypeError why))])%list.
Proof.
  destruct (X26_scalar_channel_calls_no_callback DemoWS.env (list string) "number"
              [("channel", Py.VInt 5)] (Py.VInt 5) DemoWS.subscribed
              eq_refl eq_refl I)
    as (st' & E & Hc & _ & _ & _ & Hl).
  destruct Hl as (l & why & Hl); [discriminate|].
  exists st', l, why. split; [exact E|]. split; [exact Hc|exact Hl].
Defined.
Section OrderListing.
Import Py Telegram.
Local Open Scope exec_scope.
Context {env : Env} {A : Type}.

(** Whether an order's lines can be written does not depend on its number. *)
Lemma order_lines_fails_any_index (i j : Z) (o : value) (e : exn) :
  order_lines i o = inr e -> order_lines j o = inr e.
Proof.
  unfold order_lines, and_then.
  repeat match goal with
         | |- context [match ?x with inl _ => _ | inr _ => _ end] => destruct x
         end; congruence.
Qed.

Lemma order_lines_ok_any_index (i j : Z) (o : value) (s : string) :
  order_lines i o = inl s -> exists s', order_lines j o = inl s'.
Proof.
  intros Hi. destruct (order_lines j o) as [s'|e] eqn:Hj; [now exists s'|].
  rewrite (order_lines_fails_any_index j i o e Hj) in Hi. discriminate.
Qed.

(** The loop over orders that can all be written: the entries, numbered
    from [i], are appended in order. *)
Lemma orders_message_all (items : list value) :
  Forall (fun o => exists s, order_lines 1 o = inl s) items ->
  forall (i : Z) (message : string),
  exists lines,
    List.length lines = List.length items /\
    (forall n o, nth_error items n = Some o ->
                 exists s, order_lines (i + Z.of_nat n) o = inl s /\
                           nth_error lines n = Some s) /\
    orders_message i items message = inl (message ++ String.concat EmptyString lines).
Proof.
  induction 1 as [|o rest [s Ho] _ IH]; intros i message.
  - exists []. split; [reflexivity|]. split; [intros [|n] o; discriminate|].
    cbn. now rewrite append_nil_r.
  - destruct (order_lines_ok_any_index 1 i o s Ho) as [s' Hs'].
    destruct (IH (i + 1) (message ++ s')%string) as (lines & Hlen & Hnth & Hm).
    exists (s' :: lines). split; [cbn; now rewrite Hlen|]. split.
    + intros [|n] o' Hn; cbn in Hn.
      * injection Hn as <-. exists s'. rewrite Z.add_0_r. now split.
      * destruct (Hnth n o' Hn) as (s0 & H0 & H1). exists s0. split; [|exact H1].
        rewrite <- H0. f_equal. lia.
    + cbn [orders_message]. rewrite Hs'. cbn [and_then]. rewrite Hm.
      f_equal. destruct lines as [|s1 lines]; cbn [String.concat].
      * now rewrite !append_nil_r.
      * cbn [append]. apply append_assoc.
Qed.

(** The loop over orders one of which cannot be written: it raises. *)
Lemma orders_message_some (items : list value) :
  Exists (fun o => exists e, order_lines 1 o = inr e) items ->
  forall (i : Z) (message : string),
  exists e, orders_message i items message = inr e.
Proof.
  induction items as [|o rest IH]; intros Hex i message; [inversion Hex|].
  cbn [orders_message].
  destruct (order_lines i o) as [s|e] eqn:Ho; cbn [and_then]; [|now exists e].
  inversion Hex as [? ? [e He]|? ? Hrest]; subst.
  - rewrite (order_lines_fails_any_index 1 i o e He) in Ho. discriminate.
  - apply IH, Hrest.
Qed.

End OrderListing.

(** X27: the listing of [/orders] is all or nothing.  From the allowed
    chat, the Bot API working, with an orders callback that returns a list,
    the command calls the
    callback once and makes exactly one reply.  For an empty list it is
    "No open orders".  When every order can be written, it is one HTML
    message: the heading, then the entries in the order of the list,
    numbered from 1.  When some order cannot be written (a missing
    [symbol], [size] or [price], a side that is not a text, ...), none of
    the orders is shown: the reply is a plain error message, and the error
    is logged. *)
Theorem X27_orders_listing_is_all_or_nothing
        (env : Telegram.Env) (A : Type) (self : Telegram.TelegramBot A)
        (update : Telegram.Update) (w : Telegram.World A)
        (f : A -> A * (Py.value + Py.exn)) (items : list Py.value) :
  Py.str_of_int (Telegram.effective_chat_id update) = Telegram.allowed_chat_id self ->
  (forall n, Telegram.api_raises w n = None) ->
  Telegram.get_orders_callback self = Some f ->
  snd (f (Telegram.app_state w)) = inl (Py.VList items) ->
  exists w' reply,
    Telegram._orders_command self update w = (inl tt, w') /\
    Telegram.invoked w'
    = (Telegram.invoked w ++ [Telegram.Invoked_get_orders_callback])%list /\
    Telegram.api_calls w' = (Telegram.api_calls w ++ [reply])%list /\
    (items = [] ->
     reply = Telegram.reply_text "📋 No open orders" None None) /\
    (items <> [] ->
     Forall (fun o => exists s, Telegram.order_lines 1 o = inl s) items ->
     exists lines,
       List.length lines = List.length items /\
       (forall n o, nth_error items n = Some o ->
                    exists s,
                      Telegram.order_lines (1 + Z.of_nat n) o = inl s /\
                      nth_error lines n = Some s) /\
       reply = Telegram.reply_text
                 (Telegram.strip
                    (("<b>Open Orders</b>" ++ Telegram.nl ++ Telegram.nl)
                       ++ String.concat EmptyString lines))
                 (Some "HTML") None /\
       Telegram.log w' = Telegram.log w) /\
    (Exists (fun o => exists e, Telegram.order_lines 1 o = inr e) items ->
     exists e,
       reply = Telegram.reply_text ("❌ Error: " ++ Py.str_of_exn e) None None /\
       Telegram.log w'
       = (Telegram.log w
            ++ [(Py.ERROR, ("Error getting orders: " ++ Py.str_of_exn e)%string)])%list).
Proof.
  intros Howner Hapi Hcb Hres. unfold Telegram._orders_command.
  rewrite (bind_inl _ _ _ _ _ (check_allows self update w Howner)). cbn [negb].
  rewrite Hcb. unfold Py.try_except, Py.bind at 1, Telegram.call_control.
  destruct (f (Telegram.app_state w)) as [a' r]. cbn [snd] in Hres. subst r.
  destruct items as [|o rest].
  - cbn [Py.truthy negb]. unfold Telegram.api. cbn [Telegram.api_raises Telegram.api_calls].
    rewrite Hapi. do 2 eexists. split; [reflexivity|]. split; [reflexivity|].
    split; [reflexivity|]. split; [reflexivity|].
    split; [intros N; now destruct N|]. intros Hex. inversion Hex.
  - cbn [Py.truthy negb Py.iterate Py.lift]. unfold Py.bind at 1, Py.ret at 1.
    unfold Py.bind at 1.
    destruct (Telegram.orders_message 1 (o :: rest) _) as [message|e] eqn:Hm;
      cbn [Py.lift].
    + unfold Py.ret at 1, Telegram.api. cbn [Telegram.api_raises Telegram.api_calls].
      rewrite Hapi. do 2 eexists. split; [reflexivity|]. split; [reflexivity|].
      split; [reflexivity|]. split; [discriminate|]. split.
      * intros _ Hall.
        destruct (orders_message_all _ Hall 1
                    ("<b>Open Orders</b>" ++ Telegram.nl ++ Telegram.nl)%string)
          as (lines & Hlen & Hnth & Hm').
        rewrite Hm in Hm'. injection Hm' as ->.
        exists lines. split; [exact Hlen|]. split; [exact Hnth|]. now split.
      * intros Hex.
        destruct (orders_message_some _ Hex 1
                    ("<b>Open Orders</b>" ++ Telegram.nl ++ Telegram.nl)%string)
          as (e & He).
        rewrite Hm in He. discriminate.
    + unfold Py.raise at 1, Py.bind, Telegram.logger, Py.modify, Telegram.api.
      cbn [Telegram.api_raises Telegram.api_calls]. rewrite Hapi.
      do 2 eexists. split; [reflexivity|]. split; [reflexivity|].
      split; [reflexivity|]. split; [discriminate|]. split.
      * intros _ Hall.
        destruct (orders_message_all _ Hall 1
                    ("<b>Open Orders</b>" ++ Telegram.nl ++ Telegram.nl)%string)
          as (lines & _ & _ & Hm').
        rewrite Hm in Hm'. discriminate.
      * intros _. exists e. now split.
Qed.

Lemma X27_orders_listing_is_all_or_nothing_witness :
  exists w' e,
    Telegram._orders_command (env := DemoBot.env) DemoBotMore.listing
      DemoBot.owner DemoBot.world = (inl tt, w') /\
    Telegram.api_calls w'
    = [Telegram.reply_text ("❌ Error: " ++ Py.str_of_exn e) None None].
Proof.
  destruct (X27_orders_listing_is_all_or_nothing DemoBot.env nat
              DemoBotMore.listing DemoBot.owner DemoBot.world _
              [DemoBotMore.complete_order; DemoBotMore.nameless_order]
              eq_refl (fun _ => eq_refl) eq_refl eq_refl)
    as (w' & reply & E & _ & Hc & _ & _ & Herr).
  destruct Herr as (e & -> & _).
  - apply Exists_cons_tl, Exists_cons_hd. eexists. reflexivity.
  - exists w', e. split; [exact E|exact Hc].
Defined.
Section ReplyFails.
Import Py Telegram.
Local Open Scope exec_scope.
Context {A : Type}.

Variables (self : TelegramBot A) (update : Update) (w : World A) (msg : string).
Hypothesis owner : str_of_int (effective_chat_id update) = allowed_chat_id self.
Hypothesis reply_fails : api_raises w (List.length (api_calls w)) = Some msg.

(** The shape [/pause] and [/resume] share, when the callback returns and
    the confirming reply raises: the handler of the [try] takes the
    exception of the reply. *)
Lemma control_command_reply_fails (f : A -> A * option exn) (name : Invocation)
      (confirmation prefix : string) :
  snd (f (app_state w)) = None ->
  exists r w',
    (ok <- _check_authorized self update ;;
     if negb ok then api (reply_text "⛔ Unauthorized" None None)
     else
       try_except
         (call_control name (as_result f) ;;;
          api (reply_text confirmation (Some "HTML") None))
         (fun e =>
            logger ERROR (prefix ++ str_of_exn e) ;;;
            api (reply_text ("❌ Error: " ++ str_of_exn e) None None))) w
    = (r, w') /\
    invoked w' = (invoked w ++ [name])%list /\
    app_state w' = fst (f (app_state w)) /\
    api_calls w'
    = (api_calls w ++ [reply_text confirmation (Some "HTML") None;
                       reply_text ("❌ Error: " ++ msg) None None])%list /\
    log w' = (log w ++ [(ERROR, (prefix ++ msg)%string)])%list /\
    r = match api_raises w (S (List.length (api_calls w))) with
        | Some m => inr (LibraryError m)
        | None => inl tt
        end.
Proof.
  intros Hf.
  rewrite (bind_inl _ _ _ _ _ (check_allows self update _ owner)). cbn [negb].
  unfold try_except, bind at 1, call_control, as_result.
  destruct (f (app_state w)) as [a' r0]. cbn [snd] in Hf. subst r0. cbn [fst].
  unfold api at 1. cbn [api_raises api_calls]. rewrite reply_fails.
  unfold bind, logger, modify, api. cbn [api_raises api_calls str_of_exn].
  rewrite length_app, Nat.add_1_r.
  destruct (api_raises w (S (List.length (api_calls w)))) as [m|];
    do 2 eexists; (split; [reflexivity|]); repeat split;
    now rewrite <- app_assoc.
Qed.

End ReplyFails.

(** X28: a confirmation that cannot be sent.  When [/pause] or [/resume]
    comes from the allowed chat, the callback returns, and the Bot API call
    that confirms it raises, the application has been paused or resumed all
    the same; the exception of the reply is taken for an error of the
    command: it is logged and a second reply, "Error: ..." with the text of
    that exception, is attempted.  The handler raises only if this second
    reply raises too. *)
Theorem X28_failed_confirmation_is_reported_as_an_error
        (A : Type) (self : Telegram.TelegramBot A)
        (update : Telegram.Update) (w : Telegram.World A) (msg : string) :
  Py.str_of_int (Telegram.effective_chat_id update) = Telegram.allowed_chat_id self ->
  Telegram.api_raises w (List.length (Telegram.api_calls w)) = Some msg ->
  let attempted (f : A -> A * option Py.exn) (name : Telegram.Invocation)
                (prefix : string) (r : unit + Py.exn) (w' : Telegram.World A) :=
    Telegram.invoked w' = (Telegram.invoked w ++ [name])%list /\
    Telegram.app_state w' = fst (f (Telegram.app_state w)) /\
    (exists confirmation,
        Telegram.api_calls w'
        = (Telegram.api_calls w
             ++ [Telegram.reply_text confirmation (Some "HTML") None;
                 Telegram.reply_text ("❌ Error: " ++ msg) None None])%list) /\
    Telegram.log w' = (Telegram.log w ++ [(Py.ERROR, (prefix ++ msg)%string)])%list /\
    r = match Telegram.api_raises w (S (List.length (Telegram.api_calls w))) with
        | Some m => inr (Py.LibraryError m)
        | None => inl tt
        end in
  (forall f,
      Telegram.on_pause_requested self = Some f ->
      snd (f (Telegram.app_state w)) = None ->
      exists r w',
        Telegram._pause_command self update w = (r, w') /\
        attempted f Telegram.Invoked_on_pause_requested "Error pausing: " r w') /\
  (forall f,
      Telegram.on_resume_requested self = Some f ->
      snd (f (Telegram.app_state w)) = None ->
      exists r w',
        Telegram._resume_command self update w = (r, w') /\
        attempted f Telegram.Invoked_on_resume_requested "Error resuming: " r w').
Proof.
  intros Howner Hfail attempted. subst attempted. cbv beta.
  split; intros f Hcb Hf.
  - unfold Telegram._pause_command. rewrite Hcb.
    destruct (control_command_reply_fails self update w msg Howner Hfail f
                Telegram.Invoked_on_pause_requested
                ("⏸️ <b>Bot Paused</b>" ++ Telegram.nl ++ Telegram.nl
                   ++ "No new trades will be copied."
                   ++ Telegram.nl ++ "Existing positions remain open.")
                "Error pausing: " Hf)
      as (r & w' & E & Hi & Ha & Hc & Hl & Hr).
    exists r, w'. split; [exact E|]. split; [exact Hi|]. split; [exact Ha|].
    split; [eexists; exact Hc|]. split; [exact Hl|exact Hr].
  - unfold Telegram._resume_command. rewrite Hcb.
    destruct (control_command_reply_fails self update w msg Howner Hfail f
                Telegram.Invoked_on_resume_requested
                ("▶️ <b>Bot Resumed</b>" ++ Telegram.nl ++ Telegram.nl
                   ++ "Copying trades is now active!")
                "Error resuming: " Hf)
      as (r & w' & E & Hi & Ha & Hc & Hl & Hr).
    exists r, w'. split; [exact E|]. split; [exact Hi|]. split; [exact Ha|].
    split; [eexists; exact Hc|]. split; [exact Hl|exact Hr].
Qed.

Lemma X28_failed_confirmation_is_reported_as_an_error_witness :
  exists w',
    Telegram._pause_command DemoBot.bot DemoBot.owner DemoBotMore.offline
    = (inl tt, w') /\
    Telegram.app_state w' = 1%nat /\
    Telegram.log w' = [(Py.ERROR, "Error pausing: timed out")].
Proof.
  destruct (X28_failed_confirmation_is_reported_as_an_error nat DemoBot.bot
              DemoBot.owner DemoBotMore.offline "timed out" eq_refl eq_refl)
    as [Hpause _].
  destruct (Hpause _ eq_refl eq_refl) as (r & w' & E & _ & Ha & _ & Hl & Hr).
  exists w'. cbn in Hr. subst r. split; [exact E|]. split; [exact Ha|exact Hl].
Defined.
